(** * Portfolio backend: the store gateway, the seeder and the request handlers

    A shallow embedding of [backend/database.py], [backend/seed_data.py],
    [backend/models.py] and [backend/portfolio_routes.py], and the
    properties of the specification that are stated about them.

    The document store (MongoDB through motor) is outside the repository; it
    is modelled here as five lists of documents, with commands that can fault.
    The clock ([datetime.utcnow]) and the faults are oracles of the
    environment. *)

From Stdlib Require Import ZArith NArith QArith String Ascii List Bool Lia.
From Stdlib Require Import Sorting.Sorted Sorting.Permutation.
From stdpp Require Import base option list sorting strings pretty gmap fin_maps.

Local Open Scope string_scope.
Local Open Scope list_scope.
Local Open Scope Z_scope.

(** ** Values and documents *)

#[local] Set Warnings "-register-all".

(** The values a document field can hold: Python's [None], [bool], [int],
    [float] (carried as the rational it denotes), [str], [datetime] (a clock
    reading; the store keeps milliseconds, the model keeps the reading),
    bson's [ObjectId] (the number of its 12 bytes), lists, and embedded documents,
    whose fields BSON keeps in order. *)
Inductive value : Type :=
| VNone
| VBool (b : bool)
| VInt (z : Z)
| VFloat (q : Q)
| VStr (s : string)
| VDate (t : Z)
| VOid (o : N)
| VList (l : list value)
| VDoc (d : list (string * value)).

(** A top-level document, a Python [dict] with string keys. *)
Abbreviation doc := (gmap string value).

Definition Q_eq_dec (x y : Q) : {x = y} + {x <> y}.
Proof. decide equality; [ apply Pos.eq_dec | apply Z.eq_dec ]. Defined.

(** Equality of values is decidable; floats are compared as written. *)
Fixpoint value_eq_dec (a b : value) {struct a} : {a = b} + {a <> b}.
Proof.
  decide equality.
  - apply Bool.bool_dec.
  - apply Z.eq_dec.
  - apply Q_eq_dec.
  - apply String.string_dec.
  - apply Z.eq_dec.
  - apply N.eq_dec.
  - apply List.list_eq_dec. exact value_eq_dec.
  - apply List.list_eq_dec. decide equality. apply String.string_dec.
Defined.

#[global] Instance value_eqdec : EqDecision value := value_eq_dec.

(** ** Python's view of a value *)

(** Truth value of an object in a condition ([if x:], [x or y]). *)
Definition truthy (v : value) : bool :=
  match v with
  | VNone => false
  | VBool b => b
  | VInt z => negb (z =? 0)
  | VFloat q => negb (Qnum q =? 0)
  | VStr s => negb (String.eqb s "")
  | VDate _ => true
  | VOid _ => true
  | VList l => match l with [] => false | _ => true end
  | VDoc d => match d with [] => false | _ => true end
  end.

(** [a or b] *)
Definition py_or (a b : value) : value := if truthy a then a else b.

(** A dict is true when it is not empty; [None] is false. *)
Definition truthy_doc (d : doc) : bool := negb (bool_decide (d = ∅)).

Definition truthy_opt_doc (o : option doc) : bool :=
  match o with Some d => truthy_doc d | None => false end.

Definition truthy_str (s : string) : bool := negb (String.eqb s "").

Definition truthy_opt_str (o : option string) : bool :=
  match o with Some s => truthy_str s | None => false end.

(** ** ObjectId *)

Definition hex_digit (n : N) : ascii :=
  nth (N.to_nat n) (list_ascii_of_string "0123456789abcdef") "0"%char.

Fixpoint hex_digits (k : nat) (n : N) (acc : string) : string :=
  match k with
  | O => acc
  | S k' => hex_digits k' (n / 16)%N (String (hex_digit (n mod 16)%N) acc)
  end.

(** [str(oid)] for an ObjectId of 12 bytes, as the driver generates them and
    as the documents of the store carry them: its 24 hexadecimal digits. *)
Definition oid_str (o : N) : string := hex_digits 24 o "".

Definition hex_value (c : ascii) : option N :=
  let n := N_of_ascii c in
  if ((48 <=? n) && (n <=? 57))%N then Some (n - 48)%N
  else if ((97 <=? n) && (n <=? 102))%N then Some (n - 87)%N
  else if ((65 <=? n) && (n <=? 70))%N then Some (n - 55)%N
  else None.

(** ASCII whitespace, as [bytes.fromhex] sees it: tab, line feed, vertical
    tab, form feed, carriage return and space. *)
Definition is_space (c : ascii) : bool :=
  let n := N_of_ascii c in
  (((9 <=? n) && (n <=? 13)) || (n =? 32))%N.

(** [bytes.fromhex(s)]: two hexadecimal digits for every byte; whitespace
    before a byte and at the end is skipped, whitespace between the two
    digits of a byte is not.  [None] stands for its [ValueError]. *)
Fixpoint fromhex (s : string) : option (list N) :=
  match s with
  | EmptyString => Some []
  | String c r =>
      if is_space c then fromhex r
      else
        match hex_value c, r with
        | Some hi, String c' r' =>
            match hex_value c', fromhex r' with
            | Some lo, Some bytes => Some ((hi * 16 + lo)%N :: bytes)
            | _, _ => None
            end
        | _, _ => None
        end
  end.

(** The number that a sequence of bytes denotes, the first byte the most
    significant. *)
Definition big_endian (bytes : list N) : N :=
  fold_left (fun a x => (a * 256 + x)%N) bytes 0%N.

(** The number under which the model keeps the ObjectId of given bytes.  The
    driver generates ObjectIds of 12 bytes, which are the numbers below
    [2 ^ 96].  [ObjectId(s)] can hold fewer bytes (see below); such an
    ObjectId is kept as a number from [2 ^ 96] on, different for different
    bytes, so that it is equal to no ObjectId of 12 bytes. *)
Definition oid_of_bytes (bytes : list N) : N :=
  if (length bytes =? 12)%nat then big_endian bytes
  else (2 ^ 96 * (1 + N.of_nat (length bytes)) + big_endian bytes)%N.

(** [ObjectId(s)] for a [str], as bson does it: a string of 24 characters
    that [bytes.fromhex] accepts, or [InvalidId] ([None] here).  With 24
    hexadecimal digits these are the 12 bytes of an identifier.  Since
    [bytes.fromhex] skips whitespace, a string of 24 characters with
    whitespace in it is accepted too, and gives an ObjectId of fewer than 12
    bytes: no [InvalidId] is raised for it, and the command that follows is
    issued, with an identifier that no stored document has. *)
Definition ObjectId (s : string) : option N :=
  if (String.length s =? 24)%nat
  then match fromhex s with Some bytes => Some (oid_of_bytes bytes) | None => None end
  else None.

(** [str(v)] where the code applies it, to the [_id] of a document.
    [insert_one] gives a document an ObjectId unless the dict carries an
    [_id] already, and no schema of [models.py] has such a field; the
    renderings of float, datetime, list and dict are therefore left at the
    name of the type. *)
Definition py_str (v : value) : string :=
  match v with
  | VStr s => s
  | VOid o => oid_str o
  | VNone => "None"
  | VBool true => "True"
  | VBool false => "False"
  | VInt z => pretty z
  | VFloat _ => "float"
  | VDate _ => "datetime"
  | VList _ => "list"
  | VDoc _ => "dict"
  end.

(** ** The order of the store on values *)

(** MongoDB compares values of different types by type (null, numbers,
    strings, documents, arrays, ObjectId, booleans, dates, in this order) and
    values of one type by value.  Arrays and embedded documents are ordered
    among themselves by the store in ways this model leaves out: here they
    tie.  A field that is missing sorts as null. *)
Definition type_rank (v : value) : nat :=
  match v with
  | VNone => 2
  | VInt _ | VFloat _ => 3
  | VStr _ => 4
  | VDoc _ => 5
  | VList _ => 6
  | VOid _ => 8
  | VBool _ => 9
  | VDate _ => 10
  end.

Definition num_of (v : value) : Q :=
  match v with
  | VInt z => inject_Z z
  | VFloat q => q
  | _ => 0%Q
  end.

Definition bson_leb (a b : value) : bool :=
  if (type_rank a <? type_rank b)%nat then true
  else if (type_rank b <? type_rank a)%nat then false
  else match a, b with
       | VStr x, VStr y => String.leb x y
       | VBool x, VBool y => implb x y
       | VDate x, VDate y => x <=? y
       | VOid x, VOid y => (x <=? y)%N
       | (VInt _ | VFloat _), (VInt _ | VFloat _) =>
           Qle_bool (num_of a) (num_of b)
       | _, _ => true
       end.

Definition bson_le (a b : value) : Prop := bson_leb a b = true.

#[global] Instance bson_le_dec (a b : value) : Decision (bson_le a b).
Proof. unfold bson_le. apply _. Defined.

(** ** The world: store, clock, faults, log *)

(** The five collections of [self.db]. *)
Inductive collection : Type :=
| c_profile
| c_projects
| c_contact_messages
| c_analytics
| c_visualizations.

#[global] Instance collection_eq_dec : EqDecision collection.
Proof. solve_decision. Defined.

(** The exceptions that occur: a fault of a store command (pymongo's
    [PyMongoError] and its subclasses), [KeyError] of [d[k]], bson's
    [InvalidId], and fastapi's [HTTPException].  All of them are subclasses
    of Python's [Exception]. *)
Inductive exn : Type :=
| PyMongoError (reason : string)
| KeyError (key : string)
| InvalidId (s : string)
| HTTPException (status_code : Z) (detail : string).

(** A line of the log: level, text of the message, and the exception that
    the message formats, if any. *)
Record log_record : Type := LogRecord {
  log_level : string;
  log_text : string;
  log_cause : option exn
}.

Record world : Type := World {
  db_profile : list doc;
  db_projects : list doc;
  db_contact_messages : list doc;
  db_analytics : list doc;
  db_visualizations : list doc;
  next_oid : N;        (* the next ObjectId that the driver generates *)
  ticks : nat;         (* readings of the clock so far *)
  commands : nat;      (* store commands issued so far *)
  inserts : nat;       (* documents inserted so far (a ghost counter) *)
  log : list log_record
}.

(** What the program does not decide: the reading of the clock at its n-th
    reading, and whether the n-th store command faults. *)
Record env : Type := Env {
  utcnow_at : nat -> Z;
  faults_at : nat -> bool
}.

Definition coll (c : collection) (w : world) : list doc :=
  match c with
  | c_profile => db_profile w
  | c_projects => db_projects w
  | c_contact_messages => db_contact_messages w
  | c_analytics => db_analytics w
  | c_visualizations => db_visualizations w
  end.

Definition set_coll (c : collection) (l : list doc) (w : world) : world :=
  match c with
  | c_profile =>
      World l (db_projects w) (db_contact_messages w) (db_analytics w)
        (db_visualizations w) (next_oid w) (ticks w) (commands w) (inserts w) (log w)
  | c_projects =>
      World (db_profile w) l (db_contact_messages w) (db_analytics w)
        (db_visualizations w) (next_oid w) (ticks w) (commands w) (inserts w) (log w)
  | c_contact_messages =>
      World (db_profile w) (db_projects w) l (db_analytics w)
        (db_visualizations w) (next_oid w) (ticks w) (commands w) (inserts w) (log w)
  | c_analytics =>
      World (db_profile w) (db_projects w) (db_contact_messages w) l
        (db_visualizations w) (next_oid w) (ticks w) (commands w) (inserts w) (log w)
  | c_visualizations =>
      World (db_profile w) (db_projects w) (db_contact_messages w) (db_analytics w)
        l (next_oid w) (ticks w) (commands w) (inserts w) (log w)
  end.

Definition set_next_oid (n : N) (w : world) : world :=
  World (db_profile w) (db_projects w) (db_contact_messages w) (db_analytics w)
    (db_visualizations w) n (ticks w) (commands w) (inserts w) (log w).

Definition set_ticks (n : nat) (w : world) : world :=
  World (db_profile w) (db_projects w) (db_contact_messages w) (db_analytics w)
    (db_visualizations w) (next_oid w) n (commands w) (inserts w) (log w).

Definition set_commands (n : nat) (w : world) : world :=
  World (db_profile w) (db_projects w) (db_contact_messages w) (db_analytics w)
    (db_visualizations w) (next_oid w) (ticks w) n (inserts w) (log w).

Definition set_inserts (n : nat) (w : world) : world :=
  World (db_profile w) (db_projects w) (db_contact_messages w) (db_analytics w)
    (db_visualizations w) (next_oid w) (ticks w) (commands w) n (log w).

Definition add_log (r : log_record) (w : world) : world :=
  World (db_profile w) (db_projects w) (db_contact_messages w) (db_analytics w)
    (db_visualizations w) (next_oid w) (ticks w) (commands w) (inserts w)
    (log w ++ [r]).

(** ** Computations: state, exceptions *)

Inductive result (A : Type) : Type :=
| Ok (a : A)
| Raise (e : exn).
Arguments Ok {A} a.
Arguments Raise {A} e.

Definition M (A : Type) : Type := env -> world -> result A * world.

#[global] Instance M_ret : MRet M := fun A a _ w => (Ok a, w).

#[global] Instance M_bind : MBind M := fun A B f m e w =>
  match m e w with
  | (Ok a, w') => f a e w'
  | (Raise x, w') => (Raise x, w')
  end.

Definition raise {A : Type} (x : exn) : M A := fun _ w => (Raise x, w).

(** [try: body / except Exception as e: handler e].  Every exception of the
    model is an [Exception]; what the body did to the world before it raised
    stays done. *)
Definition try_except {A : Type} (body : M A) (handler : exn -> M A) : M A :=
  fun e w =>
    match body e w with
    | (Ok a, w') => (Ok a, w')
    | (Raise x, w') => handler x e w'
    end.

(** [datetime.utcnow()] *)
Definition utcnow : M Z :=
  fun e w => (Ok (utcnow_at e (ticks w)), set_ticks (S (ticks w)) w).

(** [d[k]] *)
Definition getitem (d : doc) (k : string) : M value :=
  match d !! k with
  | Some v => mret v
  | None => raise (KeyError k)
  end.

(** [d.get(k, default)] *)
Definition dict_get (d : doc) (k : string) (default : value) : value :=
  match d !! k with
  | Some v => v
  | None => default
  end.

Definition logger_error (text : string) (cause : option exn) : M unit :=
  fun _ w => (Ok tt, add_log (LogRecord "ERROR" text cause) w).

Definition logger_info (text : string) : M unit :=
  fun _ w => (Ok tt, add_log (LogRecord "INFO" text None) w).

(** ** The commands of the store *)

(** Equality match of one query value against the field of a document: a
    field that holds an array matches on membership too, and [null] matches
    a missing field. *)
Definition field_matches (v : value) (fv : option value) : Prop :=
  match fv with
  | Some (VList l) => VList l = v \/ v ∈ l
  | Some x => x = v
  | None => v = VNone
  end.

#[global] Instance field_matches_dec (v : value) (fv : option value) :
  Decision (field_matches v fv).
Proof. destruct fv as [ [ ] | ]; simpl; apply _. Defined.

(** A document matches a query when it matches every field of the query. *)
Definition Matches (q d : doc) : Prop :=
  map_Forall (fun k v => field_matches v (d !! k)) q.

#[global] Instance Matches_dec (q d : doc) : Decision (Matches q d).
Proof. unfold Matches. apply _. Defined.

(** pymongo's [ASCENDING] (1) and [DESCENDING] (-1). *)
Inductive direction : Type := ASCENDING | DESCENDING.

(** The key of a document in a sort on field [k]: a missing field sorts as
    null. *)
Definition sort_key (k : string) (d : doc) : value := default VNone (d !! k).

(** [d1] may come before [d2] in a sort on [k] in direction [dir]. *)
Definition doc_le (k : string) (dir : direction) (d1 d2 : doc) : Prop :=
  match dir with
  | ASCENDING => bson_le (sort_key k d1) (sort_key k d2)
  | DESCENDING => bson_le (sort_key k d2) (sort_key k d1)
  end.

#[global] Instance doc_le_dec k dir d1 d2 : Decision (doc_le k dir d1 d2).
Proof. destruct dir; simpl; apply _. Defined.

(** Every command takes the next index of the fault oracle; a command that
    faults raises and leaves the documents as they were. *)
Definition command {A : Type} (run : world -> result A * world) : M A :=
  fun e w =>
    let w1 := set_commands (S (commands w)) w in
    if faults_at e (commands w)
    then (Raise (PyMongoError "store fault"), w1)
    else run w1.

(** [collection.find_one(q)]: the first matching document, or [None]. *)
Definition find_one (c : collection) (q : doc) : M (option doc) :=
  command (fun w => (Ok (head (filter (Matches q) (coll c w))), w)).

(** [.sort(k, dir)]: the store promises no order among documents with equal
    keys; the model sorts by merging. *)
Definition apply_sort (s : option (string * direction)) (l : list doc) : list doc :=
  match s with
  | Some (k, dir) => merge_sort (doc_le k dir) l
  | None => l
  end.

(** [.limit(n)] *)
Definition apply_limit (n : option nat) (l : list doc) : list doc :=
  match n with
  | Some k => take k l
  | None => l
  end.

(** [collection.find(q).sort(k, dir).limit(n)], read to its end by
    [async for]: one command. *)
Definition find (c : collection) (q : doc) (s : option (string * direction))
    (n : option nat) : M (list doc) :=
  command (fun w =>
    (Ok (apply_limit n (apply_sort s (filter (Matches q) (coll c w)))), w)).

(** [collection.insert_one(d)]: a dict without [_id] gets a new ObjectId;
    the result is [inserted_id]. *)
Definition insert_one (c : collection) (d : doc) : M value :=
  command (fun w =>
    match d !! "_id" with
    | None =>
        let o := next_oid w in
        (Ok (VOid o),
         set_inserts (S (inserts w))
           (set_next_oid (o + 1)%N
              (set_coll c (coll c w ++ [<["_id" := VOid o]> d]) w)))
    | Some i =>
        if bool_decide (Exists (fun x : doc => x !! "_id" = Some i) (coll c w))
        then (Raise (PyMongoError "duplicate key"), w)
        else (Ok i, set_inserts (S (inserts w)) (set_coll c (coll c w ++ [d]) w))
    end).

(** [$set] of a different [_id] is refused by the store. *)
Definition changes_id (upd d : doc) : Prop :=
  match upd !! "_id" with
  | Some i => d !! "_id" <> Some i
  | None => False
  end.

#[global] Instance changes_id_dec upd d : Decision (changes_id upd d).
Proof. unfold changes_id. destruct (upd !! "_id"); apply _. Defined.

(** [collection.update_one(q, {"$set": upd})]: the fields of [upd] are
    written over those of the first matching document; the result is
    [modified_count], which is 0 when nothing matches and when the document
    holds these values already.  (The keys that the code writes are plain
    field names; dotted paths are not modelled.) *)
Definition update_one_set (c : collection) (q upd : doc) : M nat :=
  command (fun w =>
    match list_find (Matches q) (coll c w) with
    | None => (Ok 0%nat, w)
    | Some (i, d) =>
        if bool_decide (changes_id upd d)
        then (Raise (PyMongoError "_id is immutable"), w)
        else
          let d' := upd ∪ d in
          if bool_decide (d' = d) then (Ok 0%nat, w)
          else (Ok 1%nat, set_coll c (<[i := d']> (coll c w)) w)
    end).

(** [collection.delete_one(q)]: the result is [deleted_count]. *)
Definition delete_one (c : collection) (q : doc) : M nat :=
  command (fun w =>
    match list_find (Matches q) (coll c w) with
    | None => (Ok 0%nat, w)
    | Some (i, _) => (Ok 1%nat, set_coll c (delete i (coll c w)) w)
    end).

(** [collection.count_documents(q)] *)
Definition count_documents (c : collection) (q : doc) : M nat :=
  command (fun w => (Ok (length (filter (Matches q) (coll c w))), w)).

(** The stages of an aggregation pipeline that the code uses:
    [{"$match": q}], [{"$group": {"_id": "$field", "count": {"$sum": 1}}}],
    [{"$sort": {k: dir}}] and [{"$limit": n}]. *)
Inductive stage : Type :=
| S_match (q : doc)
| S_group_count (field : string)
| S_sort (k : string) (dir : direction)
| S_limit (n : nat).

(** The groups of [$group]: one per distinct value of the field (a missing
    field groups as null), with the number of documents in it. *)
Definition group_count (keys : list value) : list (value * nat) :=
  (fun k => (k, length (filter (eq k) keys))) <$> remove_dups keys.

Definition group_doc (g : value * nat) : doc :=
  <["_id" := fst g]> (<["count" := VInt (Z.of_nat (snd g))]> ∅).

Definition run_stage (s : stage) (l : list doc) : list doc :=
  match s with
  | S_match q => filter (Matches q) l
  | S_group_count field =>
      group_doc <$> group_count (sort_key field <$> l)
  | S_sort k dir => merge_sort (doc_le k dir) l
  | S_limit n => take n l
  end.

(** [collection.aggregate(pipeline)], read to its end: one command. *)
Definition aggregate (c : collection) (pipeline : list stage) : M (list doc) :=
  command (fun w =>
    (Ok (fold_left (fun l s => run_stage s l) pipeline (coll c w)), w)).

(** ** [database.py]: class [DatabaseManager] *)

(** [async for x in cursor: ... append(f x)] *)
Fixpoint for_each {A B : Type} (f : A -> M B) (l : list A) : M (list B) :=
  match l with
  | [] => mret []
  | x :: r => y ← f x; ys ← for_each f r; mret (y :: ys)
  end.

(** [d['_id'] = str(d['_id'])] *)
Definition stringify_id (d : doc) : M doc :=
  i ← getitem d "_id"; mret (<["_id" := VStr (py_str i)]> d).

(** [ObjectId(s)], which raises [InvalidId]. *)
Definition object_id (s : string) : M value :=
  match ObjectId s with
  | Some o => mret (VOid o)
  | None => raise (InvalidId s)
  end.

Module DatabaseManager.

(** *** Profile operations *)

Definition get_profile : M (option doc) :=
  try_except
    (profile ← find_one c_profile ∅;
     match profile with
     | Some p =>
         if truthy_doc p
         then p' ← stringify_id p; mret (Some p')
         else mret (Some p)
     | None => mret None
     end)
    (fun e => _ ← logger_error "Error getting profile: " (Some e); mret None).

Definition create_or_update_profile (profile_data : doc) : M bool :=
  try_except
    (now ← utcnow;
     let profile_data := <["updated_at" := VDate now]> profile_data in
     existing ← find_one c_profile ∅;
     (if truthy_opt_doc existing
      then
        (* Update existing profile *)
        i ← getitem (default ∅ existing) "_id";
        _ ← update_one_set c_profile {[ "_id" := i ]} profile_data;
        mret tt
      else
        (* Create new profile *)
        now' ← utcnow;
        let profile_data := <["created_at" := VDate now']> profile_data in
        _ ← insert_one c_profile profile_data;
        mret tt);;
     mret true)
    (fun e =>
       _ ← logger_error "Error creating/updating profile: " (Some e);
       mret false).

(** *** Project operations *)

Definition get_projects (project_type : option string) : M (list doc) :=
  try_except
    (let query : doc :=
       if truthy_opt_str project_type
       then {[ "type" := VStr (default "" project_type) ]}
       else ∅ in
     cursor ← find c_projects query (Some ("display_order", ASCENDING)) None;
     for_each stringify_id cursor)
    (fun e => _ ← logger_error "Error getting projects: " (Some e); mret []).

Definition create_project (project_data : doc) : M (option string) :=
  try_except
    (now ← utcnow;
     let project_data := <["created_at" := VDate now]> project_data in
     now' ← utcnow;
     let project_data := <["updated_at" := VDate now']> project_data in
     inserted_id ← insert_one c_projects project_data;
     mret (Some (py_str inserted_id)))
    (fun e => _ ← logger_error "Error creating project: " (Some e); mret None).

Definition update_project (project_id : string) (project_data : doc) : M bool :=
  try_except
    (now ← utcnow;
     let project_data := <["updated_at" := VDate now]> project_data in
     i ← object_id project_id;
     modified_count ← update_one_set c_projects {[ "_id" := i ]} project_data;
     mret (0 <? modified_count)%nat)
    (fun e => _ ← logger_error "Error updating project: " (Some e); mret false).

Definition delete_project (project_id : string) : M bool :=
  try_except
    (i ← object_id project_id;
     deleted_count ← delete_one c_projects {[ "_id" := i ]};
     mret (0 <? deleted_count)%nat)
    (fun e => _ ← logger_error "Error deleting project: " (Some e); mret false).

(** *** Contact operations *)

Definition create_contact_message (message_data : doc) : M (option string) :=
  try_except
    (now ← utcnow;
     let message_data := <["created_at" := VDate now]> message_data in
     let message_data := <["is_read" := VBool false]> message_data in
     inserted_id ← insert_one c_contact_messages message_data;
     mret (Some (py_str inserted_id)))
    (fun e =>
       _ ← logger_error "Error creating contact message: " (Some e);
       mret None).

Definition get_contact_messages : M (list doc) :=
  try_except
    (cursor ← find c_contact_messages ∅ (Some ("created_at", DESCENDING)) None;
     for_each stringify_id cursor)
    (fun e =>
       _ ← logger_error "Error getting contact messages: " (Some e);
       mret []).

Definition mark_message_read (message_id : string) : M bool :=
  try_except
    (i ← object_id message_id;
     modified_count ←
       update_one_set c_contact_messages {[ "_id" := i ]}
         {[ "is_read" := VBool true ]};
     mret (0 <? modified_count)%nat)
    (fun e =>
       _ ← logger_error "Error marking message as read: " (Some e);
       mret false).

(** *** Analytics operations *)

Definition create_analytics_event (event_data : doc) : M bool :=
  try_except
    (now ← utcnow;
     let event_data := <["timestamp" := VDate now]> event_data in
     _ ← insert_one c_analytics event_data;
     mret true)
    (fun e =>
       _ ← logger_error "Error creating analytics event: " (Some e);
       mret false).

(** The dict that [get_analytics_stats] returns, with its five keys. *)
Record stats : Type := Stats {
  total_visits : nat;
  total_downloads : nat;
  total_contacts : nat;
  recent_visits : list doc;
  top_pages : list doc
}.

Definition recent_visit (visit : doc) : M doc :=
  timestamp ← getitem visit "timestamp";
  mret (<["page" := dict_get visit "page" (VStr "/")]>
         (<["timestamp" := timestamp]>
           (<["ip_address" := dict_get visit "ip_address" (VStr "unknown")]> ∅))).

Definition top_page (page : doc) : M doc :=
  i ← getitem page "_id";
  count ← getitem page "count";
  mret (<["page" := py_or i (VStr "/")]> (<["visits" := count]> ∅)).

Definition top_pages_pipeline : list stage :=
  [ S_match {[ "event_type" := VStr "visit" ]};
    S_group_count "page";
    S_sort "count" DESCENDING;
    S_limit 5 ].

Definition get_analytics_stats : M stats :=
  try_except
    ((* Total counts *)
     total_visits ← count_documents c_analytics {[ "event_type" := VStr "visit" ]};
     total_downloads ←
       count_documents c_analytics {[ "event_type" := VStr "download" ]};
     total_contacts ← count_documents c_contact_messages ∅;
     (* Recent visits *)
     recent_cursor ←
       find c_analytics {[ "event_type" := VStr "visit" ]}
         (Some ("timestamp", DESCENDING)) (Some 10%nat);
     recent_visits ← for_each recent_visit recent_cursor;
     (* Top pages *)
     pages ← aggregate c_analytics top_pages_pipeline;
     top_pages ← for_each top_page pages;
     mret (Stats total_visits total_downloads total_contacts
             recent_visits top_pages))
    (fun e =>
       _ ← logger_error "Error getting analytics stats: " (Some e);
       mret (Stats 0 0 0 [] [])).

(** *** Visualizations operations *)

Definition get_visualizations : M (list doc) :=
  try_except
    (cursor ←
       find c_visualizations {[ "is_active" := VBool true ]}
         (Some ("display_order", ASCENDING)) None;
     for_each stringify_id cursor)
    (fun e =>
       _ ← logger_error "Error getting visualizations: " (Some e);
       mret []).

Definition create_visualization (viz_data : doc) : M (option string) :=
  try_except
    (now ← utcnow;
     let viz_data := <["created_at" := VDate now]> viz_data in
     now' ← utcnow;
     let viz_data := <["updated_at" := VDate now']> viz_data in
     inserted_id ← insert_one c_visualizations viz_data;
     mret (Some (py_str inserted_id)))
    (fun e =>
       _ ← logger_error "Error creating visualization: " (Some e);
       mret None).

End DatabaseManager.

(** ** [models.py]: the schemas that the handlers receive *)

(** A dict literal [{k1: v1, ...}]: the keys are assigned in order. *)
Definition dict (l : list (string * value)) : doc :=
  fold_left (fun d kv => <[fst kv := snd kv]> d) l ∅.

Definition str_list (l : list string) : value := VList (map VStr l).

Definition opt_str (o : option string) : value :=
  match o with Some s => VStr s | None => VNone end.

Module Models.

Record PersonalInfo : Type := {
  name : string;
  title : string;
  location : string;
  email : string;
  phone : string;
  linkedin : string;
  summary : string;
  current_role : string
}.

Record Skills : Type := {
  programming : list string;
  data_visualization : list string;
  cloud_technologies : list string;
  machine_learning : list string;
  business_intelligence : list string
}.

Record Experience : Type := {
  exp_company : string;
  exp_position : string;
  exp_duration : string;
  exp_location : string;
  exp_achievements : list string;
  exp_technologies : list string
}.

Record Education : Type := {
  edu_degree : string;
  edu_institution : string;
  edu_location : string;
  edu_duration : string;
  edu_relevant_courses : list string
}.

Record Certification : Type := {
  cert_name : string;
  cert_issuer : string;
  cert_year : string;
  cert_credential_id : string
}.

(** A validated [Profile].  [id], [created_at] and [updated_at] are fields of
    the model: when the request body leaves them out, pydantic fills them
    from [uuid.uuid4()] and [datetime.utcnow()] before the handler runs. *)
Record Profile : Type := {
  id : string;
  personal : PersonalInfo;
  skills : Skills;
  experience : list Experience;
  education : list Education;
  certifications : list Certification;
  created_at : Z;
  updated_at : Z
}.

Definition PersonalInfo_dict (p : PersonalInfo) : value :=
  VDoc [ ("name", VStr (name p)); ("title", VStr (title p));
         ("location", VStr (location p)); ("email", VStr (email p));
         ("phone", VStr (phone p)); ("linkedin", VStr (linkedin p));
         ("summary", VStr (summary p));
         ("current_role", VStr (current_role p)) ].

Definition Skills_dict (s : Skills) : value :=
  VDoc [ ("programming", str_list (programming s));
         ("data_visualization", str_list (data_visualization s));
         ("cloud_technologies", str_list (cloud_technologies s));
         ("machine_learning", str_list (machine_learning s));
         ("business_intelligence", str_list (business_intelligence s)) ].

Definition Experience_dict (x : Experience) : value :=
  VDoc [ ("company", VStr (exp_company x)); ("position", VStr (exp_position x));
         ("duration", VStr (exp_duration x)); ("location", VStr (exp_location x));
         ("achievements", str_list (exp_achievements x));
         ("technologies", str_list (exp_technologies x)) ].

Definition Education_dict (x : Education) : value :=
  VDoc [ ("degree", VStr (edu_degree x));
         ("institution", VStr (edu_institution x));
         ("location", VStr (edu_location x));
         ("duration", VStr (edu_duration x));
         ("relevant_courses", str_list (edu_relevant_courses x)) ].

Definition Certification_dict (x : Certification) : value :=
  VDoc [ ("name", VStr (cert_name x)); ("issuer", VStr (cert_issuer x));
         ("year", VStr (cert_year x));
         ("credential_id", VStr (cert_credential_id x)) ].

(** [profile.dict()] *)
Definition Profile_dict (p : Profile) : doc :=
  dict [ ("id", VStr (id p));
         ("personal", PersonalInfo_dict (personal p));
         ("skills", Skills_dict (skills p));
         ("experience", VList (map Experience_dict (experience p)));
         ("education", VList (map Education_dict (education p)));
         ("certifications", VList (map Certification_dict (certifications p)));
         ("created_at", VDate (created_at p));
         ("updated_at", VDate (updated_at p)) ].

Record ProjectCreate : Type := {
  pc_title : string;
  pc_company : string;
  pc_type : string;
  pc_description : string;
  pc_impact : list string;
  pc_technologies : list string;
  pc_details : string;
  pc_featured : bool;
  pc_display_order : Z
}.

(** [project.dict()] *)
Definition ProjectCreate_dict (p : ProjectCreate) : doc :=
  dict [ ("title", VStr (pc_title p)); ("company", VStr (pc_company p));
         ("type", VStr (pc_type p)); ("description", VStr (pc_description p));
         ("impact", str_list (pc_impact p));
         ("technologies", str_list (pc_technologies p));
         ("details", VStr (pc_details p)); ("featured", VBool (pc_featured p));
         ("display_order", VInt (pc_display_order p)) ].

(** [ProjectUpdate]: every field is optional.  A field of the record is
    [None] when the request body does not set it, [Some None] when the body
    sets it to [null], and [Some (Some x)] when the body gives a value. *)
Record ProjectUpdate : Type := {
  pu_title : option (option string);
  pu_company : option (option string);
  pu_type : option (option string);
  pu_description : option (option string);
  pu_impact : option (option (list string));
  pu_technologies : option (option (list string));
  pu_details : option (option string);
  pu_featured : option (option bool);
  pu_display_order : option (option Z)
}.

Definition set_field {A : Type} (k : string) (f : A -> value)
    (o : option (option A)) : list (string * value) :=
  match o with
  | None => []
  | Some None => [ (k, VNone) ]
  | Some (Some x) => [ (k, f x) ]
  end.

(** [project.dict(exclude_unset=True)] *)
Definition ProjectUpdate_dict_exclude_unset (p : ProjectUpdate) : doc :=
  dict (set_field "title" VStr (pu_title p)
        ++ set_field "company" VStr (pu_company p)
        ++ set_field "type" VStr (pu_type p)
        ++ set_field "description" VStr (pu_description p)
        ++ set_field "impact" str_list (pu_impact p)
        ++ set_field "technologies" str_list (pu_technologies p)
        ++ set_field "details" VStr (pu_details p)
        ++ set_field "featured" VBool (pu_featured p)
        ++ set_field "display_order" VInt (pu_display_order p)).

Record ContactCreate : Type := {
  cc_name : string;
  cc_email : string;
  cc_subject : string;
  cc_message : string
}.

(** [contact.dict()] *)
Definition ContactCreate_dict (c : ContactCreate) : doc :=
  dict [ ("name", VStr (cc_name c)); ("email", VStr (cc_email c));
         ("subject", VStr (cc_subject c)); ("message", VStr (cc_message c)) ].

Record AnalyticsCreate : Type := {
  ac_event_type : string;
  ac_page : option string
}.

(** [analytics.dict()] *)
Definition AnalyticsCreate_dict (a : AnalyticsCreate) : doc :=
  dict [ ("event_type", VStr (ac_event_type a)); ("page", opt_str (ac_page a)) ].

Record APIResponse : Type := mkAPIResponse {
  success : bool;
  message : string;
  data : option doc
}.

End Models.

(** ** [seed_data.py] *)

Module SeedData.

Definition profile_data : doc :=
  dict [
    ("personal", VDoc [
      ("name", VStr "Venkata Keerthana Madisetty");
      ("title", VStr "Business Data Analyst");
      ("location", VStr "Arlington, VA");
      ("email", VStr "keerthanamadisetty2@gmail.com");
      ("phone", VStr "(202) 681-9470");
      ("linkedin", VStr "https://www.linkedin.com/in/keerthana-madisetty-60a10b214");
      ("summary", VStr "Experienced Business Data Analyst with 3+ years of expertise in analyzing complex datasets, developing predictive models, and delivering actionable insights. Specialized in fraud detection, claims automation, and regulatory reporting with proven track record of improving operational efficiency by 33% and fraud detection accuracy by 22%.");
      ("current_role", VStr "Business Data Analyst at Liberty Mutual Insurance") ]);
    ("skills", VDoc [
      ("programming", VList [
        VStr "Python (Pandas, NumPy, Scikit-learn, Matplotlib)";
        VStr "R (Statistical Analysis)";
        VStr "SQL (Complex Joins, CTEs, Window Functions)";
        VStr "DAX (Power BI)" ]);
      ("data_visualization", VList [
        VStr "Power BI (Advanced Dashboards, RLS, Power Query)";
        VStr "Tableau (Desktop & Server)";
        VStr "SAP BusinessObjects";
        VStr "Excel (Pivot Tables, Power Query, VBA)" ]);
      ("cloud_technologies", VList [
        VStr "AWS (S3, Glue, Redshift, SageMaker)";
        VStr "Azure (Data Lake, Data Factory, Synapse Analytics, ML Studio)";
        VStr "ETL Processes & Data Pipelines";
        VStr "Data Warehousing" ]);
      ("machine_learning", VList [
        VStr "Predictive Modeling";
        VStr "Fraud Detection Algorithms";
        VStr "Risk Scoring Models";
        VStr "Statistical Analysis & Hypothesis Testing" ]);
      ("business_intelligence", VList [
        VStr "KPI Development & Framework Design";
        VStr "Regulatory Compliance Reporting (IRDA, RBI)";
        VStr "Cross-functional Stakeholder Management";
        VStr "Agile Methodologies (JIRA, Confluence)" ]) ]);
    ("experience", VList [
      VDoc [
        ("company", VStr "Liberty Mutual Insurance");
        ("position", VStr "Business Data Analyst");
        ("duration", VStr "Apr 2025 - Present");
        ("location", VStr "USA");
        ("achievements", VList [
          VStr "Delivered Liberty Claims360 analytics platform, partnering with stakeholders to define reporting requirements";
          VStr "Improved fraud detection efficiency by 22% using predictive analytics with Python and AWS SageMaker";
          VStr "Accelerated claims settlement by 33% through optimized data pipeline using AWS Glue, Power BI, and SQL";
          VStr "Enhanced insights visibility by 40% with Power BI dashboards integrated with AWS Redshift";
          VStr "Extracted and consolidated data using SQL and Excel, leveraging AWS S3 and Glue for data processing" ]);
        ("technologies", VList [
          VStr "AWS (S3, Glue, Redshift, SageMaker)";
          VStr "Power BI";
          VStr "Python";
          VStr "SQL";
          VStr "Excel" ]) ];
      VDoc [
        ("company", VStr "Hexaware Technologies");
        ("position", VStr "Jr. Business Data Analyst");
        ("duration", VStr "Feb 2021 - Jul 2023");
        ("location", VStr "India");
        ("achievements", VList [
          VStr "Improved loan risk assessment accuracy by 23% through predictive risk scoring models using Python and Azure ML";
          VStr "Automated regulatory reporting using SAP BusinessObjects, ensuring IRDA and RBI compliance";
          VStr "Built interactive dashboards in Power BI and Tableau integrated with Azure Synapse Analytics";
          VStr "Collaborated with stakeholders using JIRA and Confluence to translate requirements into actionable user stories";
          VStr "Optimized claims settlement processes and refined loan eligibility rules through customer behavior analysis" ]);
        ("technologies", VList [
          VStr "Azure (Data Lake, Data Factory, Synapse)";
          VStr "Python";
          VStr "Power BI";
          VStr "Tableau";
          VStr "SAP BusinessObjects" ]) ] ]);
    ("education", VList [
      VDoc [
        ("degree", VStr "Master of Science in Data Science");
        ("institution", VStr "George Washington University");
        ("location", VStr "Washington DC, USA");
        ("duration", VStr "Graduated May 2025");
        ("relevant_courses", VList [
          VStr "Machine Learning";
          VStr "Statistical Methods";
          VStr "Data Mining";
          VStr "Big Data Analytics";
          VStr "Business Intelligence" ]) ];
      VDoc [
        ("degree", VStr "Bachelor of Technology in Computer Science");
        ("institution", VStr "MVJ College of Engineering");
        ("location", VStr "Bangalore, India");
        ("duration", VStr "Graduated May 2022");
        ("relevant_courses", VList [
          VStr "Database Management Systems";
          VStr "Data Structures";
          VStr "Algorithms";
          VStr "Software Engineering" ]) ] ]);
    ("certifications", VList [
      VDoc [
        ("name", VStr "Salesforce Certified: Tableau Desktop Foundations");
        ("issuer", VStr "Salesforce");
        ("year", VStr "2024");
        ("credential_id", VStr "TDF-2024-001") ];
      VDoc [
        ("name", VStr "AWS Certified Cloud Practitioner");
        ("issuer", VStr "Amazon Web Services");
        ("year", VStr "2023");
        ("credential_id", VStr "AWS-CCP-2023-001") ] ]) ].

Definition projects_data : list doc :=
  [ dict [
      ("title", VStr "Claims360 Analytics Platform");
      ("company", VStr "Liberty Mutual Insurance");
      ("type", VStr "Professional Project");
      ("description", VStr "End-to-end analytics platform for claims intelligence, fraud detection, and process automation");
      ("impact", VList [
        VStr "22% improvement in fraud detection efficiency";
        VStr "33% reduction in claims settlement cycle time";
        VStr "40% increase in insights visibility for stakeholders" ]);
      ("technologies", VList [
        VStr "AWS (S3, Glue, Redshift, SageMaker)";
        VStr "Python";
        VStr "Power BI";
        VStr "SQL" ]);
      ("details", VStr "Designed and implemented comprehensive analytics solution including automated ETL pipelines, predictive fraud detection models, and real-time interactive dashboards for claims performance monitoring.");
      ("featured", VBool true);
      ("display_order", VInt 1) ];
    dict [
      ("title", VStr "Unified Claims & Credit Risk Analytics");
      ("company", VStr "Hexaware Technologies");
      ("type", VStr "Professional Project");
      ("description", VStr "Centralized Azure-based analytics platform for financial services client");
      ("impact", VList [
        VStr "23% improvement in loan risk assessment accuracy";
        VStr "Automated IRDA and RBI regulatory compliance reporting";
        VStr "Streamlined credit risk evaluation processes" ]);
      ("technologies", VList [
        VStr "Azure (Data Factory, Synapse Analytics, ML Studio)";
        VStr "Python";
        VStr "Power BI";
        VStr "Tableau" ]);
      ("details", VStr "Built integrated analytics solution with automated data pipelines, predictive risk scoring models, and comprehensive regulatory reporting capabilities.");
      ("featured", VBool true);
      ("display_order", VInt 2) ];
    dict [
      ("title", VStr "Customer Churn Prediction Model");
      ("company", VStr "George Washington University");
      ("type", VStr "Academic Project");
      ("description", VStr "Machine learning model to predict customer churn for subscription-based business");
      ("impact", VList [
        VStr "Achieved 85% accuracy in churn prediction";
        VStr "Identified top 5 factors contributing to customer churn";
        VStr "Developed actionable retention strategies" ]);
      ("technologies", VList [
        VStr "Python";
        VStr "Scikit-learn";
        VStr "Pandas";
        VStr "Matplotlib";
        VStr "Jupyter" ]);
      ("details", VStr "Developed end-to-end ML pipeline including data preprocessing, feature engineering, model selection, and performance evaluation using various algorithms including Random Forest and Logistic Regression.");
      ("featured", VBool true);
      ("display_order", VInt 3) ];
    dict [
      ("title", VStr "Healthcare Analytics Dashboard");
      ("company", VStr "George Washington University");
      ("type", VStr "Academic Project");
      ("description", VStr "Interactive dashboard analyzing healthcare utilization patterns and patient outcomes");
      ("impact", VList [
        VStr "Visualized trends across 50,000+ patient records";
        VStr "Identified cost optimization opportunities";
        VStr "Created predictive models for patient readmission risk" ]);
      ("technologies", VList [
        VStr "Tableau";
        VStr "Python";
        VStr "SQL";
        VStr "Statistical Analysis" ]);
      ("details", VStr "Comprehensive analysis of healthcare data including patient demographics, treatment patterns, and outcome metrics with interactive visualizations for healthcare administrators.");
      ("featured", VBool true);
      ("display_order", VInt 4) ] ].

Definition visualizations_data : list doc :=
  [ dict [
      ("title", VStr "Claims Performance Dashboard");
      ("description", VStr "Interactive Power BI dashboard showing claims processing metrics and KPIs");
      ("metrics", VList [
        VStr "Average Settlement Time: 12 days";
        VStr "Fraud Detection Rate: 94%";
        VStr "Customer Satisfaction: 4.2/5" ]);
      ("chart_type", VStr "Multi-metric Dashboard");
      ("chart_data", VDoc [
        ("claims_processed", VInt 892);
        ("fraud_detected", VInt 94);
        ("avg_settlement", VInt 12);
        ("customer_satisfaction", VFloat (42 # 10)) ]);
      ("is_active", VBool true);
      ("display_order", VInt 1) ];
    dict [
      ("title", VStr "Risk Score Distribution Analysis");
      ("description", VStr "Statistical analysis of risk scoring model performance across different customer segments");
      ("metrics", VList [
        VStr "Model Accuracy: 89%";
        VStr "Precision: 87%";
        VStr "Recall: 91%" ]);
      ("chart_type", VStr "Performance Metrics");
      ("chart_data", VDoc [
        ("accuracy", VInt 89);
        ("precision", VInt 87);
        ("recall", VInt 91);
        ("risk_distribution", VDoc [
          ("low", VInt 65);
          ("medium", VInt 28);
          ("high", VInt 7) ]) ]);
      ("is_active", VBool true);
      ("display_order", VInt 2) ];
    dict [
      ("title", VStr "Customer Churn Prediction Analysis");
      ("description", VStr "Machine learning model results showing feature importance and prediction accuracy");
      ("metrics", VList [
        VStr "Churn Prediction Accuracy: 85%";
        VStr "Top Risk Factor: Usage Decline";
        VStr "Monthly Savings: $50K" ]);
      ("chart_type", VStr "ML Model Results");
      ("chart_data", VDoc [
        ("churn_rate", VFloat (152 # 10));
        ("monthly_savings", VInt 48000);
        ("top_factors", VList [
          VStr "Usage Decline";
          VStr "Support Tickets";
          VStr "Payment Delays";
          VStr "Feature Adoption";
          VStr "Login Frequency" ]) ]);
      ("is_active", VBool true);
      ("display_order", VInt 3) ] ].

Definition seed_project (project_data : doc) : M unit :=
  project_id ← DatabaseManager.create_project project_data;
  if negb (truthy_opt_str project_id)
  then
    t ← getitem project_data "title";
    logger_error ("Failed to create project: " ++ py_str t) None
  else mret tt.

Definition seed_visualization (viz_data : doc) : M unit :=
  viz_id ← DatabaseManager.create_visualization viz_data;
  if negb (truthy_opt_str viz_id)
  then
    t ← getitem viz_data "title";
    logger_error ("Failed to create visualization: " ++ py_str t) None
  else mret tt.

Definition seed_initial_data : M unit :=
  try_except
    ((* Check if profile already exists *)
     existing_profile ← DatabaseManager.get_profile;
     if truthy_opt_doc existing_profile
     then logger_info "Profile already exists, skipping seed data"
     else
       (* Create profile *)
       success ← DatabaseManager.create_or_update_profile profile_data;
       if negb success
       then logger_error "Failed to create profile during seeding" None
       else
         (* Create projects *)
         _ ← for_each seed_project projects_data;
         (* Create visualizations *)
         _ ← for_each seed_visualization visualizations_data;
         logger_info "Successfully seeded initial portfolio data")
    (fun e => _ ← logger_error "Error seeding initial data: " (Some e); raise e).

End SeedData.

(** ** [portfolio_routes.py] *)

(** What the handlers read of a starlette [Request]: the headers and the
    host of the peer, when there is one. *)
Record Request : Type := {
  headers : list (string * string);
  client : option string
}.

Definition lower_ascii (c : ascii) : ascii :=
  let n := N_of_ascii c in
  if ((65 <=? n) && (n <=? 90))%N then ascii_of_N (n + 32) else c.

Fixpoint lower (s : string) : string :=
  match s with
  | EmptyString => EmptyString
  | String c r => String (lower_ascii c) (lower r)
  end.

(** [request.headers.get(k)]: the names of headers are compared without
    regard to case. *)
Fixpoint headers_get (h : list (string * string)) (k : string) : option string :=
  match h with
  | [] => None
  | (n, v) :: r => if String.eqb (lower n) (lower k) then Some v else headers_get r k
  end.

(** [s.split(",")[0]] *)
Fixpoint before_comma (s : string) : string :=
  match s with
  | EmptyString => EmptyString
  | String c r => if Ascii.eqb c ","%char then EmptyString else String c (before_comma r)
  end.

Module Routes.

(** [get_db_manager()] builds the [DatabaseManager] on first use and returns
    the same one afterwards; the world of the model is its database. *)

(** Extract client IP from request *)
Definition get_client_ip (request : Request) : string :=
  let forwarded := headers_get (headers request) "X-Forwarded-For" in
  if truthy_opt_str forwarded then before_comma (default "" forwarded)
  else match client request with
       | Some host => host
       | None => "unknown"
       end.

Definition internal_server_error {A : Type} (text : string) (e : exn) : M A :=
  _ ← logger_error text (Some e);
  raise (HTTPException 500 "Internal server error").

(** *** Profile endpoints *)

(** [GET /profile] *)
Definition get_profile : M doc :=
  try_except
    (profile_data ← DatabaseManager.get_profile;
     profile_data ←
       (if negb (truthy_opt_doc profile_data)
        then
          (* If no profile exists, seed initial data *)
          _ ← SeedData.seed_initial_data;
          DatabaseManager.get_profile
        else mret profile_data);
     if negb (truthy_opt_doc profile_data)
     then raise (HTTPException 404 "Profile not found")
     else mret (default ∅ profile_data))
    (internal_server_error "Error getting profile: ").

(** [PUT /profile] *)
Definition update_profile (profile : Models.Profile) : M Models.APIResponse :=
  try_except
    (success ← DatabaseManager.create_or_update_profile (Models.Profile_dict profile);
     if (success : bool)
     then mret (Models.mkAPIResponse true "Profile updated successfully" None)
     else raise (HTTPException 500 "Failed to update profile"))
    (internal_server_error "Error updating profile: ").

(** *** Project endpoints *)

(** [GET /projects] *)
Definition get_projects (project_type : option string) : M (list doc) :=
  try_except
    (DatabaseManager.get_projects project_type)
    (internal_server_error "Error getting projects: ").

(** [POST /projects] *)
Definition create_project (project : Models.ProjectCreate) : M Models.APIResponse :=
  try_except
    (project_id ← DatabaseManager.create_project (Models.ProjectCreate_dict project);
     if truthy_opt_str project_id
     then mret (Models.mkAPIResponse true "Project created successfully" (Some {[ "project_id" := opt_str project_id ]}))
     else raise (HTTPException 500 "Failed to create project"))
    (internal_server_error "Error creating project: ").

(** [PUT /projects/{project_id}] *)
Definition update_project (project_id : string) (project : Models.ProjectUpdate)
    : M Models.APIResponse :=
  try_except
    (success ←
       DatabaseManager.update_project project_id
         (Models.ProjectUpdate_dict_exclude_unset project);
     if (success : bool)
     then mret (Models.mkAPIResponse true "Project updated successfully" None)
     else raise (HTTPException 404 "Project not found"))
    (internal_server_error "Error updating project: ").

(** [DELETE /projects/{project_id}] *)
Definition delete_project (project_id : string) : M Models.APIResponse :=
  try_except
    (success ← DatabaseManager.delete_project project_id;
     if (success : bool)
     then mret (Models.mkAPIResponse true "Project deleted successfully" None)
     else raise (HTTPException 404 "Project not found"))
    (internal_server_error "Error deleting project: ").

(** *** Contact endpoints *)

(** [POST /contact] *)
Definition submit_contact_form (contact : Models.ContactCreate) (request : Request)
    : M Models.APIResponse :=
  try_except
    ((* Add request metadata *)
     let contact_data := Models.ContactCreate_dict contact in
     let contact_data :=
       <["ip_address" := VStr (get_client_ip request)]> contact_data in
     let contact_data :=
       <["user_agent" := VStr (default "" (headers_get (headers request) "User-Agent"))]>
         contact_data in
     message_id ← DatabaseManager.create_contact_message contact_data;
     if truthy_opt_str message_id
     then
       (* Log contact analytics event *)
       ip ← getitem contact_data "ip_address";
       ua ← getitem contact_data "user_agent";
       _ ← DatabaseManager.create_analytics_event
             (dict [ ("event_type", VStr "contact"); ("page", VStr "contact");
                     ("ip_address", ip); ("user_agent", ua) ]);
       mret (Models.mkAPIResponse true "Message sent successfully! I'll get back to you within 24 hours." (Some {[ "message_id" := opt_str message_id ]}))
     else raise (HTTPException 500 "Failed to send message"))
    (internal_server_error "Error submitting contact form: ").

(** [GET /contact] *)
Definition get_contact_messages : M (list doc) :=
  try_except
    (DatabaseManager.get_contact_messages)
    (internal_server_error "Error getting contact messages: ").

(** [PUT /contact/{message_id}/read] *)
Definition mark_message_read (message_id : string) : M Models.APIResponse :=
  try_except
    (success ← DatabaseManager.mark_message_read message_id;
     if (success : bool)
     then mret (Models.mkAPIResponse true "Message marked as read" None)
     else raise (HTTPException 404 "Message not found"))
    (internal_server_error "Error marking message as read: ").

(** *** Analytics endpoints *)

(** [POST /analytics/visit] *)
Definition log_visit (analytics : Models.AnalyticsCreate) (request : Request)
    : M Models.APIResponse :=
  try_except
    (let event_data := Models.AnalyticsCreate_dict analytics in
     let event_data :=
       <["ip_address" := VStr (get_client_ip request)]> event_data in
     let event_data :=
       <["user_agent" := VStr (default "" (headers_get (headers request) "User-Agent"))]>
         event_data in
     let event_data :=
       <["referrer" := VStr (default "" (headers_get (headers request) "Referer"))]>
         event_data in
     success ← DatabaseManager.create_analytics_event event_data;
     if (success : bool)
     then mret (Models.mkAPIResponse true "Visit logged" None)
     else raise (HTTPException 500 "Failed to log visit"))
    (internal_server_error "Error logging visit: ").

(** [POST /analytics/download] *)
Definition log_download (request : Request) : M Models.APIResponse :=
  try_except
    (let event_data :=
       dict [ ("event_type", VStr "download"); ("page", VStr "resume");
              ("ip_address", VStr (get_client_ip request));
              ("user_agent",
               VStr (default "" (headers_get (headers request) "User-Agent")));
              ("referrer",
               VStr (default "" (headers_get (headers request) "Referer"))) ] in
     success ← DatabaseManager.create_analytics_event event_data;
     if (success : bool)
     then mret (Models.mkAPIResponse true "Download logged" None)
     else raise (HTTPException 500 "Failed to log download"))
    (internal_server_error "Error logging download: ").

(** [GET /analytics/stats] *)
Definition get_analytics_stats : M DatabaseManager.stats :=
  try_except
    (DatabaseManager.get_analytics_stats)
    (internal_server_error "Error getting analytics stats: ").

(** *** Resume endpoints *)

(** [GET /resume/download] *)
Definition download_resume (request : Request) : M Models.APIResponse :=
  try_except
    ((* Log download event *)
     _ ← DatabaseManager.create_analytics_event
           (dict [ ("event_type", VStr "download"); ("page", VStr "resume");
                   ("ip_address", VStr (get_client_ip request));
                   ("user_agent",
                    VStr (default "" (headers_get (headers request) "User-Agent"))) ]);
     mret (Models.mkAPIResponse true "Resume download initiated"
             (Some {[ "filename" := VStr "Keerthana_Madisetty_Resume.pdf" ]})))
    (internal_server_error "Error downloading resume: ").

(** *** Visualization endpoints *)

(** [GET /visualizations] *)
Definition get_visualizations : M (list doc) :=
  try_except
    (DatabaseManager.get_visualizations)
    (internal_server_error "Error getting visualizations: ").

End Routes.

(** What the framework sends for the outcome of a handler that returns the
    envelope [APIResponse]: status 200 with the envelope as the handler
    returns it; the status and the detail of an [HTTPException] that leaves
    the handler; status 500 for any other exception.  These are the handlers
    of the routes declared with [response_model=APIResponse], and
    [download_resume], whose route declares none: an envelope passes the
    framework unchanged.

    The routes that read ([GET /profile], [GET /projects], [GET /contact],
    [GET /analytics/stats], [GET /visualizations]) declare another
    [response_model]: the framework rebuilds what their handlers return (it
    drops [_id], gives every document a fresh [id], and answers 500 when a
    stored document does not fit the schema).  That conversion is not
    modelled.  [respond] is not defined for these handlers, and what is
    proved of them is proved of the value that the handler returns, not of
    the body that the client receives. *)
Record http_response (A : Type) : Type := HttpResponse {
  status : Z;
  content : option A;
  detail : option string
}.
Arguments HttpResponse {A} status content detail.
Arguments status {A} h.
Arguments content {A} h.
Arguments detail {A} h.

Definition respond (r : result Models.APIResponse)
    : http_response Models.APIResponse :=
  match r with
  | Ok a => HttpResponse 200 (Some a) None
  | Raise (HTTPException code d) => HttpResponse code None (Some d)
  | Raise _ => HttpResponse 500 None (Some "Internal Server Error")
  end.

(** The response to a request served by handler [h] in world [w]. *)
Definition serve (h : M Models.APIResponse) (e : env) (w : world)
    : http_response Models.APIResponse :=
  respond (fst (h e w)).

(** ** Worlds and requests for the examples *)

Module Examples.

(** A clock that advances by one at every reading. *)
Definition ticking (n : nat) : Z := 1000 + Z.of_nat n.

(** A store that never faults. *)
Definition quiet : env := Env ticking (fun _ => false).

(** A store of which every command faults. *)
Definition down : env := Env ticking (fun _ => true).

(** A store of which the command of index [k] faults, and no other. *)
Definition faulting_at (k : nat) : env := Env ticking (fun n => Nat.eqb n k).

(** A new database at the start of the process. *)
Definition empty_world : world := World [] [] [] [] [] 1 0 0 0 [].

(** The database after the seeder has run once. *)
Definition seeded : world := snd (SeedData.seed_initial_data quiet empty_world).

(** Three visits and a download, recorded through the gateway. *)
Definition visited : world :=
  let log_event (event_type : string) (page : value) (w : world) : world :=
    snd (DatabaseManager.create_analytics_event
           (dict [ ("event_type", VStr event_type); ("page", page) ]) quiet w) in
  log_event "download" (VStr "resume")
    (log_event "visit" VNone
       (log_event "visit" (VStr "/projects")
          (log_event "visit" (VStr "/projects") seeded))).

Definition no_update : Models.ProjectUpdate :=
  {| Models.pu_title := None; Models.pu_company := None; Models.pu_type := None;
     Models.pu_description := None; Models.pu_impact := None;
     Models.pu_technologies := None; Models.pu_details := None;
     Models.pu_featured := None; Models.pu_display_order := None |}.

(** A profile as [PUT /profile] receives it, validated at time 5000. *)
Definition other_profile : Models.Profile :=
  {| Models.id := "7d0e1f6a-0c54-4b0e-9a55-2f0d8f3c9a11";
     Models.personal :=
       {| Models.name := "Ada Lovelace"; Models.title := "Analyst";
          Models.location := "London"; Models.email := "ada@example.com";
          Models.phone := "000"; Models.linkedin := "https://example.com/ada";
          Models.summary := "Notes"; Models.current_role := "Analyst" |};
     Models.skills :=
       {| Models.programming := []; Models.data_visualization := [];
          Models.cloud_technologies := []; Models.machine_learning := [];
          Models.business_intelligence := [] |};
     Models.experience := []; Models.education := []; Models.certifications := [];
     Models.created_at := 5000; Models.updated_at := 5000 |}.

Definition john_doe : Models.ContactCreate :=
  {| Models.cc_name := "John Doe"; Models.cc_email := "john.doe@example.com";
     Models.cc_subject := "Test"; Models.cc_message := "Hello" |}.

Definition plain_request : Request :=
  {| headers := [ ("user-agent", "aiohttp"); ("x-forwarded-for", "10.0.0.7, 10.0.0.1") ];
     client := Some "127.0.0.1" |}.

(** Three visits posted to [POST /analytics/visit] after the seeding: one
    without page, one of the empty page and one of "/". *)
Definition home_visits : world :=
  let visit (page : option string) (w : world) : world :=
    snd (Routes.log_visit
           {| Models.ac_event_type := "visit"; Models.ac_page := page |}
           plain_request quiet w) in
  visit (Some "/") (visit (Some "") (visit None seeded)).

(** The first project of the seeded store, whose id is 2. *)
Definition first_project : doc := default ∅ (head (db_projects seeded)).

(** The profile of the seeded store. *)
Definition seeded_profile : doc := default ∅ (head (db_profile seeded)).

(** The store after one run of the seeder, and after a second run whose
    first command, the read of [get_profile], faults. *)
Definition seeded_once : world :=
  snd (SeedData.seed_initial_data (faulting_at 10) empty_world).

Definition seeded_again : world :=
  snd (SeedData.seed_initial_data (faulting_at 10) seeded_once).

(** The store after a [PUT /profile], and after a run of the seeder whose
    read of [get_profile] faults. *)
Definition profile_put : world :=
  snd (Routes.update_profile other_profile quiet seeded).

Definition put_then_seeded : world :=
  snd (SeedData.seed_initial_data (faulting_at 12) profile_put).

(** A dict that asks for a message that is read already. *)
Definition read_message : doc :=
  dict [ ("name", VStr "Eve"); ("is_read", VBool true); ("created_at", VDate 1) ].

End Examples.

(** ** Vocabulary of the properties *)

(** The handler of every method of the gateway logs and returns a default:
    such a method returns, with the value of its body or with the default. *)
Definition degrade {A : Type} (text : string) (dflt : A) (x : exn) : M A :=
  _ ← logger_error text (Some x); mret dflt.

Definition not_found_response : http_response Models.APIResponse :=
  HttpResponse 404 None (Some "Project not found").

Definition server_error_response : http_response Models.APIResponse :=
  HttpResponse 500 None (Some "Internal server error").

(** A loop whose body leaves the world as it is. *)
Definition pure_step {A B : Type} (f : A -> M B) : Prop :=
  forall x e w, snd (f x e w) = w.

Definition zero_stats : DatabaseManager.stats := DatabaseManager.Stats 0 0 0 [] [].

(** [p] is the document [d] after [d['_id'] = str(d['_id'])]. *)
Definition stringified (d p : doc) : Prop :=
  exists i, d !! "_id" = Some i /\ p = <["_id" := VStr (py_str i)]> d.

(** The query that [get_projects] builds. *)
Definition projects_query (project_type : option string) : doc :=
  if truthy_opt_str project_type
  then {[ "type" := VStr (default "" project_type) ]}
  else ∅.

(** The visit events of the store: the documents of [analytics] that match
    [{"event_type": "visit"}]. *)
Definition visits (w : world) : list doc :=
  filter (Matches {[ "event_type" := VStr "visit" ]}) (db_analytics w).

(** A visit reduced to page, timestamp and address, with the defaults of
    [dict.get] for a key that is missing. *)
Definition reduce_visit (visit : doc) : doc :=
  <["page" := dict_get visit "page" (VStr "/")]>
    (<["timestamp" := default VNone (visit !! "timestamp")]>
      (<["ip_address" := dict_get visit "ip_address" (VStr "unknown")]> ∅)).

(** The page of a visit as [$group] sees it: null when the field is missing. *)
Definition page_of (visit : doc) : value := sort_key "page" visit.

(** The number of visits of a page. *)
Definition visit_count (vs : list doc) (k : value) : nat :=
  length (filter (fun v => page_of v = k) vs).

(** An entry of [top_pages] for a group: the page, with a false value (null,
    the empty string) replaced by "/", and the count. *)
Definition top_entry (g : value * nat) : doc :=
  <["page" := py_or (fst g) (VStr "/")]>
    (<["visits" := VInt (Z.of_nat (snd g))]> ∅).

(** [recent] are the [n] most recent of the visits [vs], most recent first. *)
Definition most_recent (n : nat) (vs recent : list doc) : Prop :=
  exists rest,
    recent ++ rest ≡ₚ vs
    /\ length recent = min n (length vs)
    /\ StronglySorted (doc_le "timestamp" DESCENDING) recent
    /\ (forall x y, x ∈ recent -> y ∈ rest -> doc_le "timestamp" DESCENDING x y).

(** [top] are the [n] pages with the most visits among [vs], each with its
    count, the most visited first. *)
Definition most_visited (n : nat) (vs : list doc) (top : list (value * nat)) : Prop :=
  exists rest,
    NoDup (fst <$> top ++ rest)
    /\ (forall k c, (k, c) ∈ top ++ rest <->
                    c = visit_count vs k /\ (0 < c)%nat)
    /\ length top = min n (length (top ++ rest))
    /\ StronglySorted (fun g g' => (snd g' <= snd g)%nat) top
    /\ (forall g g', g ∈ top -> g' ∈ rest -> (snd g' <= snd g)%nat).

(** What [get_analytics_stats] returns when it does not degrade. *)
Definition stats_spec (w : world) (s : DatabaseManager.stats) : Prop :=
  (exists recent,
     most_recent 10 (visits w) recent
     /\ Forall (fun v : doc => is_Some (v !! "timestamp")) recent
     /\ DatabaseManager.recent_visits s = reduce_visit <$> recent)
  /\ (exists top,
        most_visited 5 (visits w) top
        /\ DatabaseManager.top_pages s = top_entry <$> top).

(** What follows from [stats_spec], and holds for the aggregate of zeros too. *)
Definition stats_bounds (w : world) (s : DatabaseManager.stats) : Prop :=
  (length (DatabaseManager.recent_visits s) <= 10)%nat
  /\ StronglySorted (doc_le "timestamp" DESCENDING) (DatabaseManager.recent_visits s)
  /\ Forall (fun y => exists v, v ∈ visits w /\ is_Some (v !! "timestamp")
                                /\ y = reduce_visit v)
       (DatabaseManager.recent_visits s)
  /\ (length (DatabaseManager.top_pages s) <= 5)%nat
  /\ StronglySorted (doc_le "visits" DESCENDING) (DatabaseManager.top_pages s)
  /\ Forall (fun p => exists k c, p = top_entry (k, c)
                                  /\ c = visit_count (visits w) k /\ (0 < c)%nat)
       (DatabaseManager.top_pages s).

(** What a command can do to the documents: nothing to the other
    collections, and to its own what [step] allows. *)
Definition touches (c : collection) (step : list doc -> list doc -> Prop)
    (w w' : world) : Prop :=
  (forall c', c' <> c -> coll c' w' = coll c' w) /\ step (coll c w) (coll c w').

(** The project that an id denotes: the first stored project that matches
    the ObjectId of the string. *)
Definition the_project (project_id : string) (w : world) (i : nat) (d : doc) : Prop :=
  exists o, ObjectId project_id = Some o
            /\ list_find (Matches {[ "_id" := VOid o ]}) (db_projects w) = Some (i, d).

(** An id is known when some stored project matches it. *)
Definition known_id (project_id : string) (w : world) : Prop :=
  exists o d, ObjectId project_id = Some o /\ d ∈ db_projects w
              /\ Matches {[ "_id" := VOid o ]} d.

(** The fields of the form in a stored or listed message. *)
Definition contact_fields (contact : Models.ContactCreate) (m : doc) : Prop :=
  m !! "name" = Some (VStr (Models.cc_name contact))
  /\ m !! "email" = Some (VStr (Models.cc_email contact))
  /\ m !! "subject" = Some (VStr (Models.cc_subject contact))
  /\ m !! "message" = Some (VStr (Models.cc_message contact)).

(** The dict that [submit_contact_form] passes to the gateway. *)
Definition contact_data (contact : Models.ContactCreate) (request : Request) : doc :=
  <["user_agent" := VStr (default "" (headers_get (headers request) "User-Agent"))]>
    (<["ip_address" := VStr (Routes.get_client_ip request)]>
       (Models.ContactCreate_dict contact)).

(** No document of [w] is changed or removed in [w']: every collection of
    [w'] is the one of [w] with documents added at its end. *)
Definition extends (w w' : world) : Prop :=
  forall c, exists added, coll c w' = coll c w ++ added.

(** [w'] extends [w] and has the profile documents of [w]. *)
Definition extends_keeping_profile (w w' : world) : Prop :=
  db_profile w' = db_profile w /\ extends w w'.

(** The list that a computation returned, and whether it returned. *)
Definition returned {A : Type} (r : result (list A)) : list A :=
  match r with Ok l => l | Raise _ => [] end.

Definition is_ok {A : Type} (r : result A) : bool :=
  match r with Ok _ => true | Raise _ => false end.

(** The aggregate that a computation returned. *)
Definition returned_stats (r : result DatabaseManager.stats) : DatabaseManager.stats :=
  match r with Ok s => s | Raise _ => zero_stats end.

(** ** Vocabulary of the properties of the whole gateway and of every request *)

(** The calls that the gateway offers, with their arguments. *)
Inductive call : Type :=
| Get_profile
| Create_or_update_profile (profile_data : doc)
| Get_projects (project_type : option string)
| Create_project (project_data : doc)
| Update_project (project_id : string) (project_data : doc)
| Delete_project (project_id : string)
| Create_contact_message (message_data : doc)
| Get_contact_messages
| Mark_message_read (message_id : string)
| Create_analytics_event (event_data : doc)
| Get_analytics_stats
| Get_visualizations
| Create_visualization (viz_data : doc).

(** Whether a computation returned, and the world that it leaves. *)
Definition outcome {A : Type} (m : M A) (e : env) (w : world) : bool * world :=
  (is_ok (fst (m e w)), snd (m e w)).

Definition run_call (c : call) : env -> world -> bool * world :=
  match c with
  | Get_profile => outcome DatabaseManager.get_profile
  | Create_or_update_profile d => outcome (DatabaseManager.create_or_update_profile d)
  | Get_projects t => outcome (DatabaseManager.get_projects t)
  | Create_project d => outcome (DatabaseManager.create_project d)
  | Update_project i d => outcome (DatabaseManager.update_project i d)
  | Delete_project i => outcome (DatabaseManager.delete_project i)
  | Create_contact_message d => outcome (DatabaseManager.create_contact_message d)
  | Get_contact_messages => outcome DatabaseManager.get_contact_messages
  | Mark_message_read i => outcome (DatabaseManager.mark_message_read i)
  | Create_analytics_event d => outcome (DatabaseManager.create_analytics_event d)
  | Get_analytics_stats => outcome DatabaseManager.get_analytics_stats
  | Get_visualizations => outcome DatabaseManager.get_visualizations
  | Create_visualization d => outcome (DatabaseManager.create_visualization d)
  end.

(** The calls that read. *)
Definition read_only (c : call) : bool :=
  match c with
  | Get_profile | Get_projects _ | Get_contact_messages | Get_analytics_stats
  | Get_visualizations => true
  | _ => false
  end.

(** The dict of a creating call carries no [_id] (no schema of [models.py]
    has such a field, and the seed data has none). *)
Definition no_id (c : call) : Prop :=
  match c with
  | Create_or_update_profile d | Create_project d | Create_contact_message d
  | Create_analytics_event d | Create_visualization d => d !! "_id" = None
  | _ => True
  end.

(** The requests that the router serves, with what the handler receives. *)
Inductive api_call : Type :=
| GET_profile
| PUT_profile (profile : Models.Profile)
| GET_projects (project_type : option string)
| POST_projects (project : Models.ProjectCreate)
| PUT_projects (project_id : string) (project : Models.ProjectUpdate)
| DELETE_projects (project_id : string)
| POST_contact (contact : Models.ContactCreate) (request : Request)
| GET_contact
| PUT_contact_read (message_id : string)
| POST_analytics_visit (analytics : Models.AnalyticsCreate) (request : Request)
| POST_analytics_download (request : Request)
| GET_analytics_stats
| GET_resume_download (request : Request)
| GET_visualizations.

(** What leaves a handler: the exception that it raises, [None] when it
    returns a value; and the world that it leaves.  (What the framework
    makes of a returned value is [respond] for the handlers that return the
    envelope, and is not modelled for the others.) *)
Definition raised {A : Type} (h : M A) (e : env) (w : world) : option exn * world :=
  (match fst (h e w) with Ok _ => None | Raise x => Some x end, snd (h e w)).

Definition handle (r : api_call) : env -> world -> option exn * world :=
  match r with
  | GET_profile => raised Routes.get_profile
  | PUT_profile p => raised (Routes.update_profile p)
  | GET_projects t => raised (Routes.get_projects t)
  | POST_projects p => raised (Routes.create_project p)
  | PUT_projects i p => raised (Routes.update_project i p)
  | DELETE_projects i => raised (Routes.delete_project i)
  | POST_contact c rq => raised (Routes.submit_contact_form c rq)
  | GET_contact => raised Routes.get_contact_messages
  | PUT_contact_read i => raised (Routes.mark_message_read i)
  | POST_analytics_visit a rq => raised (Routes.log_visit a rq)
  | POST_analytics_download rq => raised (Routes.log_download rq)
  | GET_analytics_stats => raised Routes.get_analytics_stats
  | GET_resume_download rq => raised (Routes.download_resume rq)
  | GET_visualizations => raised Routes.get_visualizations
  end.

(** The handler of a request whose handler returns the envelope. *)
Definition enveloped (r : api_call) : option (M Models.APIResponse) :=
  match r with
  | PUT_profile p => Some (Routes.update_profile p)
  | POST_projects p => Some (Routes.create_project p)
  | PUT_projects i p => Some (Routes.update_project i p)
  | DELETE_projects i => Some (Routes.delete_project i)
  | POST_contact c rq => Some (Routes.submit_contact_form c rq)
  | PUT_contact_read i => Some (Routes.mark_message_read i)
  | POST_analytics_visit a rq => Some (Routes.log_visit a rq)
  | POST_analytics_download rq => Some (Routes.log_download rq)
  | GET_resume_download rq => Some (Routes.download_resume rq)
  | GET_profile | GET_projects _ | GET_contact | GET_analytics_stats
  | GET_visualizations => None
  end.

(** The world after a sequence of requests. *)
Definition serve_all (rs : list api_call) (e : env) (w : world) : world :=
  fold_left (fun w r => snd (handle r e w)) rs w.

(** What a computation leaves as it is when it only counts commands and
    writes to the log. *)
Definition unobserved (w w' : world) : Prop :=
  (forall c, coll c w' = coll c w) /\ next_oid w' = next_oid w
  /\ inserts w' = inserts w /\ ticks w' = ticks w.

(** A relation between the world before and the world after that composes
    and that does not look at the command counter and the log. *)
Class Frame (R : relation world) : Prop := {
  frame_trans : forall w1 w2 w3, R w1 w2 -> R w2 w3 -> R w1 w3;
  frame_unobserved : forall w w', unobserved w w' -> R w w'
}.

(** Such a relation that does not look at the readings of the clock. *)
Class FrameClock (R : relation world) : Prop :=
  frame_clock : forall n w, R w (set_ticks n w).

(** [m] takes every world to a world related to it, whether it returns or
    raises. *)
Definition preserves {A : Type} (R : relation world) (m : M A) : Prop :=
  forall e w, R w (snd (m e w)).

(** A property of the world that, once it holds, holds afterwards. *)
Definition keeps (I : world -> Prop) : relation world := fun w w' => I w -> I w'.

(** The [_id] of a document is an ObjectId that the driver has generated. *)
Definition has_oid_below (n : N) (d : doc) : Prop :=
  match d !! "_id" with
  | Some (VOid o) => (o < n)%N
  | _ => False
  end.

#[global] Instance has_oid_below_dec n d : Decision (has_oid_below n d).
Proof. unfold has_oid_below. destruct (d !! "_id") as [ [ ] | ]; apply _. Defined.

Definition ids (l : list doc) : list (option value) := (fun d : doc => d !! "_id") <$> l.

(** Every document has an ObjectId of the driver as its [_id], and no two
    documents of a collection have the same. *)
Definition well_formed (w : world) : Prop :=
  forall c, Forall (has_oid_below (next_oid w)) (coll c w) /\ NoDup (ids (coll c w)).

(** A well-formed world with at most one profile document. *)
Definition consistent (w : world) : Prop :=
  well_formed w /\ (length (db_profile w) <= 1)%nat.

(** [d'] is [d] but for its field [k]. *)
Definition same_but (k : string) (d d' : doc) : Prop :=
  forall k', k' <> k -> d' !! k' = d !! k'.

(** [l'] is [l] with documents added at its end, each document of [l]
    changed only as [step] allows. *)
Definition grown (step : doc -> doc -> Prop) (l l' : list doc) : Prop :=
  exists kept added, l' = kept ++ added /\ Forall2 step l kept.

(** How a stored document of a collection can change: an event and a
    visualization not at all, a message in [is_read] only, the profile in
    everything but its [_id]; a project in any way. *)
Definition allowed_change (c : collection) (d d' : doc) : Prop :=
  match c with
  | c_analytics | c_visualizations => d' = d
  | c_contact_messages => same_but "is_read" d d'
  | c_profile => d' !! "_id" = d !! "_id"
  | c_projects => True
  end.

(** What no request undoes: outside the projects no document is removed,
    and the stored ones change only as [allowed_change] says. *)
Definition history_kept (w w' : world) : Prop :=
  forall c, c <> c_projects -> grown (allowed_change c) (coll c w) (coll c w').

(** No profile document is added. *)
Definition no_more_profiles (w w' : world) : Prop :=
  (length (db_profile w') <= length (db_profile w))%nat.

(** The seeded store after John Doe has posted the contact form; the
    message has the id 9. *)
Definition posted : world :=
  snd (Routes.submit_contact_form Examples.john_doe Examples.plain_request
         Examples.quiet Examples.seeded).

Definition posted_message : doc := default ∅ (head (db_contact_messages posted)).

Definition message_not_found : http_response Models.APIResponse :=
  HttpResponse 404 None (Some "Message not found").

(** Only the documents of collection [c] can differ. *)
Definition only_changes (c : collection) : relation world :=
  fun w w' => forall c', c' <> c -> coll c' w' = coll c' w.

(** The nine fields of a project that a request can set. *)
Definition project_fields : list string :=
  [ "title"; "company"; "type"; "description"; "impact"; "technologies";
    "details"; "featured"; "display_order" ].

(** A project as [POST /projects] receives it. *)
Definition new_project : Models.ProjectCreate :=
  {| Models.pc_title := "Notes"; Models.pc_company := "Example";
     Models.pc_type := "Academic Project"; Models.pc_description := "A notebook";
     Models.pc_impact := [ "None yet" ]; Models.pc_technologies := [ "Rocq" ];
     Models.pc_details := "Details"; Models.pc_featured := false;
     Models.pc_display_order := 9 |}.

(** The stamps that [create_project] and [create_visualization] write. *)
Definition stamp_created (e : env) (w : world) (data : doc) : doc :=
  <["updated_at" := VDate (utcnow_at e (S (ticks w)))]>
    (<["created_at" := VDate (utcnow_at e (ticks w))]> data).

(** The download events of the store. *)
Definition downloads (w : world) : list doc :=
  filter (Matches {[ "event_type" := VStr "download" ]}) (db_analytics w).

(** The totals that [get_analytics_stats] returns when it does not degrade. *)
Definition totals_spec (w : world) (s : DatabaseManager.stats) : Prop :=
  DatabaseManager.total_visits s = length (visits w)
  /\ DatabaseManager.total_downloads s = length (downloads w)
  /\ DatabaseManager.total_contacts s = length (db_contact_messages w)
  /\ length (DatabaseManager.recent_visits s) = min 10 (DatabaseManager.total_visits s).

(** The event that a handler passes to [create_analytics_event], as stored. *)
Definition stored_event (e : env) (w : world) (event_data ev : doc) : Prop :=
  ev !! "_id" = Some (VOid (next_oid w))
  /\ ev !! "timestamp" = Some (VDate (utcnow_at e (ticks w)))
  /\ forall k, k <> "_id" -> k <> "timestamp" -> ev !! k = event_data !! k.

(** The event of [POST /analytics/visit]. *)
Definition visit_event (analytics : Models.AnalyticsCreate) (request : Request) : doc :=
  <["referrer" := VStr (default "" (headers_get (headers request) "Referer"))]>
    (<["user_agent" := VStr (default "" (headers_get (headers request) "User-Agent"))]>
       (<["ip_address" := VStr (Routes.get_client_ip request)]>
          (Models.AnalyticsCreate_dict analytics))).

(** The event of [GET /resume/download]. *)
Definition resume_event (request : Request) : doc :=
  dict [ ("event_type", VStr "download"); ("page", VStr "resume");
         ("ip_address", VStr (Routes.get_client_ip request));
         ("user_agent",
          VStr (default "" (headers_get (headers request) "User-Agent"))) ].

(** The event of [POST /analytics/download]. *)
Definition download_event (request : Request) : doc :=
  dict [ ("event_type", VStr "download"); ("page", VStr "resume");
         ("ip_address", VStr (Routes.get_client_ip request));
         ("user_agent",
          VStr (default "" (headers_get (headers request) "User-Agent")));
         ("referrer",
          VStr (default "" (headers_get (headers request) "Referer"))) ].

Definition ok_response (message : string) (data : option doc)
    : http_response Models.APIResponse :=
  HttpResponse 200 (Some (Models.mkAPIResponse true message data)) None.

(** A visit as the frontend posts it. *)
Definition home_visit : Models.AnalyticsCreate :=
  {| Models.ac_event_type := "visit"; Models.ac_page := Some "/" |}.

(** The event that [POST /contact] logs. *)
Definition contact_event (request : Request) : doc :=
  dict [ ("event_type", VStr "contact"); ("page", VStr "contact");
         ("ip_address", VStr (Routes.get_client_ip request));
         ("user_agent",
          VStr (default "" (headers_get (headers request) "User-Agent"))) ].

Definition message_sent : string :=
  "Message sent successfully! I'll get back to you within 24 hours.".

(** A request whose forwarding header starts with a comma. *)
Definition odd_request : Request :=
  {| headers := [ ("X-Forwarded-For", ",10.0.0.1") ]; client := Some "127.0.0.1" |}.

(** Outside the profile, documents are only added. *)
Definition adds_outside_profile : relation world :=
  fun w w' => forall c, c <> c_profile -> exists added, coll c w' = coll c w ++ added.

(** The number of commands that do not fault among the [n] commands from
    index [start] on. *)
Definition served (e : env) (start n : nat) : nat :=
  length (filter (fun j => faults_at e j = false) (seq start n)).

(** The creation of a document with its two stamps, as [create_project] and
    [create_visualization] do it. *)
Definition create_stamped (c : collection) (text : string) (data : doc)
    : M (option string) :=
  try_except
    (now ← utcnow;
     let data := <["created_at" := VDate now]> data in
     now' ← utcnow;
     let data := <["updated_at" := VDate now']> data in
     inserted_id ← insert_one c data;
     mret (Some (py_str inserted_id)))
    (fun x => _ ← logger_error text (Some x); mret None).

(** A step of the two loops of the seeder. *)
Definition seed_one (c : collection) (text failed : string) (data : doc) : M unit :=
  i ← create_stamped c text data;
  if negb (truthy_opt_str i)
  then
    t ← getitem data "title";
    logger_error (failed ++ py_str t) None
  else mret tt.

(** An id that is no ObjectId. *)
Definition malformed (project_id : string) : Prop := ObjectId project_id = None.


(** The run of the seeder that starts at command [c] gets its profile
    stored: the two commands of [create_or_update_profile] that follow the
    read of [get_profile], its lookup and its insert or update, do not
    fault. *)
Definition stores_profile (e : env) (c : nat) : Prop :=
  faults_at e (S c) = false /\ faults_at e (S (S c)) = false.

(** The run of the seeder that starts at command [c] on a store with a
    profile seeds again: its read of the profile faults, so that no profile
    is reported, the two commands of [create_or_update_profile] do not, and
    of the seven inserts of projects and visualizations after them one at
    least does not. *)
Definition seeds_again (e : env) (c : nat) : Prop :=
  faults_at e c = true /\ stores_profile e c /\ served e (c + 3) 7 <> 0%nat.

(** The run of the seeder from [w] overwrites the stored profile: its read
    of the profile faults, the two commands of [create_or_update_profile] do
    not, and the profile holds something else than the default data with
    the stamp of the run. *)
Definition overwrites (e : env) (w : world) : Prop :=
  exists ex,
    db_profile w = [ex]
    /\ faults_at e (commands w) = true
    /\ stores_profile e (commands w)
    /\ ~ <["updated_at" := VDate (utcnow_at e (ticks w))]> SeedData.profile_data ⊆ ex.

(** * Properties *)

(** *** The order is a total preorder *)

Lemma string_compare_refl (s : string) : String.compare s s = Eq.
Proof.
  induction s as [ | c s IH ]; simpl; [ reflexivity | ].
  unfold Ascii.compare. rewrite N.compare_refl. exact IH.
Qed.

Lemma string_compare_lt_trans (s1 s2 s3 : string) :
  String.compare s1 s2 = Lt -> String.compare s2 s3 = Lt ->
  String.compare s1 s3 = Lt.
Proof.
  revert s2 s3. induction s1 as [ | c1 s1 IH ]; intros [ | c2 s2 ] [ | c3 s3 ];
    simpl; try congruence.
  unfold Ascii.compare.
  destruct (N.compare_spec (N_of_ascii c1) (N_of_ascii c2)) as [E12 | L12 | G12];
    try discriminate;
    destruct (N.compare_spec (N_of_ascii c2) (N_of_ascii c3)) as [E23 | L23 | G23];
    try discriminate; intros H12 H23.
  - rewrite E12, E23, N.compare_refl. eapply IH; eassumption.
  - rewrite E12. apply N.compare_lt_iff in L23. rewrite L23. reflexivity.
  - rewrite <- E23. apply N.compare_lt_iff in L12. rewrite L12. reflexivity.
  - assert (L : (N_of_ascii c1 < N_of_ascii c3)%N) by lia.
    apply N.compare_lt_iff in L. rewrite L. reflexivity.
Qed.

Lemma string_leb_trans (s1 s2 s3 : string) :
  String.leb s1 s2 = true -> String.leb s2 s3 = true -> String.leb s1 s3 = true.
Proof.
  unfold String.leb.
  destruct (String.compare s1 s2) eqn:E12; try discriminate;
    destruct (String.compare s2 s3) eqn:E23; try discriminate; intros _ _.
  - apply String.compare_eq_iff in E12, E23. subst.
    rewrite string_compare_refl. reflexivity.
  - apply String.compare_eq_iff in E12. subst. rewrite E23. reflexivity.
  - apply String.compare_eq_iff in E23. subst. rewrite E12. reflexivity.
  - rewrite (string_compare_lt_trans _ _ _ E12 E23). reflexivity.
Qed.

Lemma Qle_bool_total (x y : Q) : Qle_bool x y = true \/ Qle_bool y x = true.
Proof.
  rewrite !Qle_bool_iff. destruct (Qlt_le_dec x y) as [H | H];
    [ left; apply Qlt_le_weak; exact H | right; exact H ].
Qed.

Lemma Qle_bool_trans (x y z : Q) :
  Qle_bool x y = true -> Qle_bool y z = true -> Qle_bool x z = true.
Proof. rewrite !Qle_bool_iff. apply Qle_trans. Qed.

Lemma bson_leb_total (a b : value) : bson_leb a b = true \/ bson_leb b a = true.
Proof.
  destruct a, b; unfold bson_leb; simpl; auto;
    try apply Qle_bool_total; try apply String.leb_total.
  - destruct b, b0; simpl; auto.
  - rewrite !Z.leb_le. lia.
  - rewrite !N.leb_le. lia.
Qed.

Lemma bson_leb_trans (a b c : value) :
  bson_leb a b = true -> bson_leb b c = true -> bson_leb a c = true.
Proof.
  destruct a, b, c; unfold bson_leb; simpl; try congruence;
    try apply Qle_bool_trans; try apply string_leb_trans.
  - destruct b, b0, b1; simpl; congruence.
  - rewrite !Z.leb_le. lia.
  - rewrite !N.leb_le. lia.
Qed.

#[global] Instance bson_le_total : Total bson_le.
Proof. intros a b. apply bson_leb_total. Qed.

#[global] Instance bson_le_trans : Transitive bson_le.
Proof. intros a b c. apply bson_leb_trans. Qed.

#[global] Instance bson_le_refl : Reflexive bson_le.
Proof. intros a. destruct (bson_leb_total a a); assumption. Qed.

(** ** Running computations *)

Lemma bind_ok {A B : Type} (m : M A) (f : A -> M B) e w a w' :
  m e w = (Ok a, w') -> (m ≫= f) e w = f a e w'.
Proof. intros H. unfold mbind, M_bind. rewrite H. reflexivity. Qed.

Lemma bind_raise {A B : Type} (m : M A) (f : A -> M B) e w x w' :
  m e w = (Raise x, w') -> (m ≫= f) e w = (Raise x, w').
Proof. intros H. unfold mbind, M_bind. rewrite H. reflexivity. Qed.

Lemma try_ok {A : Type} (body : M A) (h : exn -> M A) e w a w' :
  body e w = (Ok a, w') -> try_except body h e w = (Ok a, w').
Proof. intros H. unfold try_except. rewrite H. reflexivity. Qed.

Lemma try_raise {A : Type} (body : M A) (h : exn -> M A) e w x w' :
  body e w = (Raise x, w') -> try_except body h e w = h x e w'.
Proof. intros H. unfold try_except. rewrite H. reflexivity. Qed.

Lemma command_ok {A : Type} (run : world -> result A * world) e w :
  faults_at e (commands w) = false ->
  command run e w = run (set_commands (S (commands w)) w).
Proof. intros H. unfold command. rewrite H. reflexivity. Qed.

Lemma try_degrade {A : Type} (body : M A) (text : string) (dflt : A) e w :
  (exists a w', body e w = (Ok a, w')
                /\ try_except body (degrade text dflt) e w = (Ok a, w'))
  \/ (exists x w', body e w = (Raise x, w')
                   /\ try_except body (degrade text dflt) e w
                      = (Ok dflt, add_log (LogRecord "ERROR" text (Some x)) w')).
Proof.
  unfold try_except. destruct (body e w) as [[a | x] w'].
  - left. eauto.
  - right. exists x, w'. split; reflexivity.
Qed.

Lemma coll_add_log c r w : coll c (add_log r w) = coll c w.
Proof. destruct c; reflexivity. Qed.

Lemma coll_set_commands c n w : coll c (set_commands n w) = coll c w.
Proof. destruct c; reflexivity. Qed.

Lemma coll_set_inserts c n w : coll c (set_inserts n w) = coll c w.
Proof. destruct c; reflexivity. Qed.

Lemma coll_set_next_oid c n w : coll c (set_next_oid n w) = coll c w.
Proof. destruct c; reflexivity. Qed.

(** ** The methods of the gateway return *)

Lemma update_project_returns project_id project_data e w :
  exists b w', DatabaseManager.update_project project_id project_data e w = (Ok b, w').
Proof.
  unfold DatabaseManager.update_project.
  match goal with
  | |- context [ try_except ?body _ ] =>
      destruct (try_degrade body "Error updating project: " false e w)
        as [(a & w' & _ & H) | (x & w' & _ & H)]
  end; eauto.
Qed.

Lemma delete_project_returns project_id e w :
  exists b w', DatabaseManager.delete_project project_id e w = (Ok b, w').
Proof.
  unfold DatabaseManager.delete_project.
  match goal with
  | |- context [ try_except ?body _ ] =>
      destruct (try_degrade body "Error deleting project: " false e w)
        as [(a & w' & _ & H) | (x & w' & _ & H)]
  end; eauto.
Qed.

(** ** C1: the response when nothing is modified or deleted *)

Lemma update_project_route_cases project_id project e w :
  serve (Routes.update_project project_id project) e w
  = match fst (DatabaseManager.update_project project_id
                 (Models.ProjectUpdate_dict_exclude_unset project) e w) with
    | Ok true =>
        HttpResponse 200
          (Some (Models.mkAPIResponse true "Project updated successfully" None)) None
    | _ => server_error_response
    end.
Proof.
  unfold serve, Routes.update_project, try_except at 1.
  destruct (update_project_returns project_id
              (Models.ProjectUpdate_dict_exclude_unset project) e w)
    as (b & w' & H).
  unfold mbind at 1, M_bind at 1. rewrite H. simpl. destruct b; reflexivity.
Qed.

Lemma delete_project_route_cases project_id e w :
  serve (Routes.delete_project project_id) e w
  = match fst (DatabaseManager.delete_project project_id e w) with
    | Ok true =>
        HttpResponse 200
          (Some (Models.mkAPIResponse true "Project deleted successfully" None)) None
    | _ => server_error_response
    end.
Proof.
  unfold serve, Routes.delete_project, try_except at 1.
  destruct (delete_project_returns project_id e w) as (b & w' & H).
  unfold mbind at 1, M_bind at 1. rewrite H. simpl. destruct b; reflexivity.
Qed.

(** C1.  The claim: when the gateway call of [PUT /projects/{id}] or
    [DELETE /projects/{id}] modifies or deletes no document, the response is
    404 with a "not found" message.  The handlers raise that
    [HTTPException] inside their own [try], whose [except Exception] catches
    it: the response is 500 "Internal server error", in every world and for
    every request. *)
Theorem not_modified_is_server_error project_id project e w :
  (fst (DatabaseManager.update_project project_id
          (Models.ProjectUpdate_dict_exclude_unset project) e w) = Ok false ->
   serve (Routes.update_project project_id project) e w = server_error_response
   /\ serve (Routes.update_project project_id project) e w <> not_found_response)
  /\ (fst (DatabaseManager.delete_project project_id e w) = Ok false ->
      serve (Routes.delete_project project_id) e w = server_error_response
      /\ serve (Routes.delete_project project_id) e w <> not_found_response).
Proof.
  split; intros H.
  - rewrite update_project_route_cases, H. split; [ reflexivity | discriminate ].
  - rewrite delete_project_route_cases, H. split; [ reflexivity | discriminate ].
Qed.

(** ** Inversion of computations that return *)

Lemma bind_inv_ok {A B : Type} (m : M A) (f : A -> M B) e w b w'' :
  (m ≫= f) e w = (Ok b, w'') ->
  exists a w', m e w = (Ok a, w') /\ f a e w' = (Ok b, w'').
Proof.
  unfold mbind, M_bind. destruct (m e w) as [[a | x] w']; [ eauto | discriminate ].
Qed.

Lemma command_inv_ok {A : Type} (run : world -> result A * world) e w a w' :
  command run e w = (Ok a, w') ->
  faults_at e (commands w) = false
  /\ run (set_commands (S (commands w)) w) = (Ok a, w').
Proof.
  unfold command. destruct (faults_at e (commands w)); [ discriminate | auto ].
Qed.

Lemma find_one_inv c q e w r w' :
  find_one c q e w = (Ok r, w') ->
  faults_at e (commands w) = false
  /\ w' = set_commands (S (commands w)) w
  /\ r = head (filter (Matches q) (coll c w)).
Proof.
  intros H. apply command_inv_ok in H as [Hf H]. injection H as <- <-.
  rewrite coll_set_commands. auto.
Qed.

Lemma find_inv c q s n e w r w' :
  find c q s n e w = (Ok r, w') ->
  faults_at e (commands w) = false
  /\ w' = set_commands (S (commands w)) w
  /\ r = apply_limit n (apply_sort s (filter (Matches q) (coll c w))).
Proof.
  intros H. apply command_inv_ok in H as [Hf H]. injection H as <- <-.
  rewrite coll_set_commands. auto.
Qed.

Lemma count_documents_inv c q e w r w' :
  count_documents c q e w = (Ok r, w') ->
  faults_at e (commands w) = false
  /\ w' = set_commands (S (commands w)) w
  /\ r = length (filter (Matches q) (coll c w)).
Proof.
  intros H. apply command_inv_ok in H as [Hf H]. injection H as <- <-.
  rewrite coll_set_commands. auto.
Qed.

Lemma aggregate_inv c p e w r w' :
  aggregate c p e w = (Ok r, w') ->
  faults_at e (commands w) = false
  /\ w' = set_commands (S (commands w)) w
  /\ r = fold_left (fun l s => run_stage s l) p (coll c w).
Proof.
  intros H. apply command_inv_ok in H as [Hf H]. injection H as <- <-.
  rewrite coll_set_commands. auto.
Qed.

Lemma for_each_pure {A B : Type} (f : A -> M B) (l : list A) e w :
  pure_step f -> snd (for_each f l e w) = w.
Proof.
  intros Hf. revert w. induction l as [ | x l IH ]; intros w; simpl; [ reflexivity | ].
  unfold mbind, M_bind. specialize (Hf x e w).
  destruct (f x e w) as [[y | ex] w1]; simpl in Hf; subst w1; [ | reflexivity ].
  specialize (IH w). destruct (for_each f l e w) as [[ys | ex] w2];
    simpl in IH; subst w2; reflexivity.
Qed.

Lemma for_each_inv_ok {A B : Type} (f : A -> M B) (l : list A) e w r w' :
  pure_step f ->
  for_each f l e w = (Ok r, w') ->
  w' = w /\ Forall2 (fun x y => fst (f x e w) = Ok y) l r.
Proof.
  intros Hf. revert r w'. induction l as [ | x l IH ]; intros r w'; simpl.
  - intros [= <- <-]. split; [ reflexivity | constructor ].
  - intros H. apply bind_inv_ok in H as (y & w1 & Hx & H).
    pose proof (Hf x e w) as Hw. rewrite Hx in Hw. simpl in Hw. subst w1.
    apply bind_inv_ok in H as (ys & w2 & Hl & H).
    apply IH in Hl as [-> Hl]. injection H as <- <-.
    split; [ reflexivity | ]. constructor; [ rewrite Hx; reflexivity | exact Hl ].
Qed.

Lemma getitem_pure d k e w : snd (getitem d k e w) = w.
Proof. unfold getitem. destruct (d !! k); reflexivity. Qed.

Lemma stringify_id_pure : pure_step stringify_id.
Proof.
  intros d e w. unfold stringify_id, mbind, M_bind.
  pose proof (getitem_pure d "_id" e w) as H.
  destruct (getitem d "_id" e w) as [[v | x] w1]; simpl in H; subst; reflexivity.
Qed.

Lemma recent_visit_pure : pure_step DatabaseManager.recent_visit.
Proof.
  intros d e w. unfold DatabaseManager.recent_visit, mbind, M_bind.
  pose proof (getitem_pure d "timestamp" e w) as H.
  destruct (getitem d "timestamp" e w) as [[v | x] w1]; simpl in H; subst;
    reflexivity.
Qed.

Lemma top_page_pure : pure_step DatabaseManager.top_page.
Proof.
  intros d e w. unfold DatabaseManager.top_page, mbind, M_bind.
  pose proof (getitem_pure d "_id" e w) as H.
  destruct (getitem d "_id" e w) as [[v | x] w1]; simpl in H; subst;
    [ | reflexivity ].
  pose proof (getitem_pure d "count" e w) as H.
  destruct (getitem d "count" e w) as [[v' | x] w1]; simpl in H; subst;
    reflexivity.
Qed.

(** ** C6: the reads of the gateway degrade on a store fault *)

Ltac gateway_cases text dflt e w a x w' Hbody Hres :=
  match goal with
  | |- context [ try_except ?body _ ] =>
      destruct (try_degrade body text dflt e w)
        as [(a & w' & Hbody & Hres) | (x & w' & Hbody & Hres)]
  end.

Lemma get_profile_degrades e w :
  exists r w', DatabaseManager.get_profile e w = (Ok r, w')
    /\ (faults_at e (commands w) = true -> r = None).
Proof.
  unfold DatabaseManager.get_profile.
  gateway_cases "Error getting profile: " (@None doc) e w a x w' Hbody Hres.
  - exists a, w'. split; [ exact Hres | ]. intros Hf.
    apply bind_inv_ok in Hbody as (p & w1 & H1 & _).
    apply find_one_inv in H1 as [H1 _]. congruence.
  - eexists _, _. split; [ exact Hres | reflexivity ].
Qed.

Lemma cursor_degrades c q s n (f : doc -> M doc) text e w :
  exists r w',
    try_except (cursor ← find c q s n; for_each f cursor)
      (fun x => _ ← logger_error text (Some x); mret []) e w = (Ok r, w')
    /\ (faults_at e (commands w) = true -> r = []).
Proof.
  gateway_cases text (@nil doc) e w a x w' Hbody Hres.
  - exists a, w'. split; [ exact Hres | ]. intros Hf.
    apply bind_inv_ok in Hbody as (p & w1 & H1 & _).
    apply find_inv in H1 as [H1 _]. congruence.
  - eexists _, _. split; [ exact Hres | reflexivity ].
Qed.

Lemma get_analytics_stats_body_ok e w a w' :
  (total_visits ←
     count_documents c_analytics {[ "event_type" := VStr "visit" ]};
   total_downloads ←
     count_documents c_analytics {[ "event_type" := VStr "download" ]};
   total_contacts ← count_documents c_contact_messages ∅;
   recent_cursor ←
     find c_analytics {[ "event_type" := VStr "visit" ]}
       (Some ("timestamp", DESCENDING)) (Some 10%nat);
   recent_visits ← for_each DatabaseManager.recent_visit recent_cursor;
   pages ← aggregate c_analytics DatabaseManager.top_pages_pipeline;
   top_pages ← for_each DatabaseManager.top_page pages;
   mret (DatabaseManager.Stats total_visits total_downloads total_contacts
           recent_visits top_pages)) e w = (Ok a, w') ->
  (forall k, (k < 5)%nat -> faults_at e (commands w + k) = false)
  /\ exists recent pages,
       recent = take 10 (merge_sort (doc_le "timestamp" DESCENDING)
                  (filter (Matches {[ "event_type" := VStr "visit" ]}) (db_analytics w)))
       /\ pages = fold_left (fun l s => run_stage s l)
                    DatabaseManager.top_pages_pipeline (db_analytics w)
       /\ Forall2 (fun x y => fst (DatabaseManager.recent_visit x e w') = Ok y)
            recent (DatabaseManager.recent_visits a)
       /\ Forall2 (fun x y => fst (DatabaseManager.top_page x e w') = Ok y)
            pages (DatabaseManager.top_pages a)
       /\ DatabaseManager.total_visits a
          = length (filter (Matches {[ "event_type" := VStr "visit" ]}) (db_analytics w))
       /\ DatabaseManager.total_downloads a
          = length (filter (Matches {[ "event_type" := VStr "download" ]}) (db_analytics w))
       /\ DatabaseManager.total_contacts a
          = length (filter (Matches ∅) (db_contact_messages w)).
Proof.
  intros H.
  apply bind_inv_ok in H as (n1 & w1 & H1 & H).
  apply count_documents_inv in H1 as (F1 & -> & ->).
  apply bind_inv_ok in H as (n2 & w2 & H2 & H).
  apply count_documents_inv in H2 as (F2 & -> & ->).
  apply bind_inv_ok in H as (n3 & w3 & H3 & H).
  apply count_documents_inv in H3 as (F3 & -> & ->).
  apply bind_inv_ok in H as (rc & w4 & H4 & H).
  apply find_inv in H4 as (F4 & -> & ->).
  apply bind_inv_ok in H as (rv & w5 & H5 & H).
  apply for_each_inv_ok in H5 as [-> H5]; [ | apply recent_visit_pure ].
  apply bind_inv_ok in H as (pg & w6 & H6 & H).
  apply aggregate_inv in H6 as (F6 & -> & ->).
  apply bind_inv_ok in H as (tp & w7 & H7 & H).
  apply for_each_inv_ok in H7 as [-> H7]; [ | apply top_page_pure ].
  injection H as <- <-. simpl in *.
  split.
  - intros k Hk.
    destruct k as [ | [ | [ | [ | [ | k ] ] ] ] ]; try lia;
      rewrite ?Nat.add_0_r, ?Nat.add_1_r; try assumption.
    + replace (commands w + 2)%nat with (S (S (commands w))) by lia. assumption.
    + replace (commands w + 3)%nat with (S (S (S (commands w)))) by lia. assumption.
    + replace (commands w + 4)%nat with (S (S (S (S (commands w))))) by lia.
      assumption.
  - eexists _, _. split; [ reflexivity | ]. split; [ reflexivity | ].
    repeat split.
    + eapply Forall2_impl; [ exact H5 | ]. intros x y Hxy.
      pose proof (recent_visit_pure x e) as P.
      unfold DatabaseManager.recent_visit, getitem, mbind, M_bind, mret, M_ret, raise in *.
      destruct (x !! "timestamp"); exact Hxy.
    + eapply Forall2_impl; [ exact H7 | ]. intros x y Hxy.
      unfold DatabaseManager.top_page, getitem, mbind, M_bind, mret, M_ret, raise in *.
      destruct (x !! "_id"); [ | exact Hxy ]. destruct (x !! "count"); exact Hxy.
Qed.

Lemma get_analytics_stats_degrades e w :
  exists r w', DatabaseManager.get_analytics_stats e w = (Ok r, w')
    /\ (forall k, (k < 5)%nat -> faults_at e (commands w + k) = true ->
        r = zero_stats).
Proof.
  unfold DatabaseManager.get_analytics_stats.
  gateway_cases "Error getting analytics stats: " zero_stats e w a x w' Hbody Hres.
  - exists a, w'. split; [ exact Hres | ]. intros k Hk Hf.
    apply get_analytics_stats_body_ok in Hbody as [Hno _].
    rewrite (Hno k Hk) in Hf. discriminate.
  - eexists _, _. split; [ exact Hres | reflexivity ].
Qed.

(** C6.  No read of the gateway raises, whatever the store does, and a read
    whose store command faults returns its default: [get_profile] returns
    [None], the three list operations return the empty list, and
    [get_analytics_stats], which issues five commands, returns the aggregate
    of zeros and empty lists when any of the five faults. *)
Theorem reads_degrade_on_fault e w :
  (exists r w', DatabaseManager.get_profile e w = (Ok r, w')
     /\ (faults_at e (commands w) = true -> r = None))
  /\ (forall project_type, exists r w',
        DatabaseManager.get_projects project_type e w = (Ok r, w')
        /\ (faults_at e (commands w) = true -> r = []))
  /\ (exists r w', DatabaseManager.get_contact_messages e w = (Ok r, w')
        /\ (faults_at e (commands w) = true -> r = []))
  /\ (exists r w', DatabaseManager.get_visualizations e w = (Ok r, w')
        /\ (faults_at e (commands w) = true -> r = []))
  /\ (exists r w', DatabaseManager.get_analytics_stats e w = (Ok r, w')
        /\ (forall k, (k < 5)%nat -> faults_at e (commands w + k) = true ->
            r = zero_stats)).
Proof.
  split; [ apply get_profile_degrades | ].
  split; [ intros pt; apply cursor_degrades | ].
  split; [ apply cursor_degrades | ].
  split; [ apply cursor_degrades | apply get_analytics_stats_degrades ].
Qed.

(** ** Cursors read with their [_id] made a string *)

Lemma stringify_id_ok d p e w :
  fst (stringify_id d e w) = Ok p <-> stringified d p.
Proof.
  unfold stringify_id, stringified, getitem, mbind, M_bind, mret, M_ret, raise.
  destruct (d !! "_id") as [i | ]; simpl; split.
  - intros [= <-]. eauto.
  - intros (i' & [= <-] & ->). reflexivity.
  - discriminate.
  - intros (i' & Hi & _). discriminate.
Qed.

Lemma stringified_lookup d p k :
  stringified d p -> k <> "_id" -> p !! k = d !! k.
Proof. intros (i & _ & ->) Hk. rewrite lookup_insert_ne; [ reflexivity | congruence ]. Qed.

Lemma for_each_ok {A B : Type} (f : A -> M B) (l : list A) (r : list B) e w :
  Forall2 (fun x y => f x e w = (Ok y, w)) l r ->
  for_each f l e w = (Ok r, w).
Proof.
  induction 1 as [ | x y l r Hx _ IH ]; simpl; [ reflexivity | ].
  rewrite (bind_ok _ _ _ _ _ _ Hx). rewrite (bind_ok _ _ _ _ _ _ IH). reflexivity.
Qed.

Lemma stringify_id_run d p e w :
  stringified d p -> stringify_id d e w = (Ok p, w).
Proof.
  intros (i & Hi & ->). unfold stringify_id, getitem, mbind, M_bind. rewrite Hi.
  reflexivity.
Qed.

(** The result of a cursor method of the gateway: the default, or the
    documents of the cursor, each with its [_id] as a string. *)
Lemma cursor_method_spec c q s n text e w :
  exists r w',
    try_except (cursor ← find c q s n; for_each stringify_id cursor)
      (fun x => _ ← logger_error text (Some x); mret []) e w = (Ok r, w')
    /\ (forall cd, coll cd w' = coll cd w)
    /\ (r = []
        \/ faults_at e (commands w) = false
           /\ Forall2 stringified
                (apply_limit n (apply_sort s (filter (Matches q) (coll c w)))) r)
    /\ (faults_at e (commands w) = false ->
        Forall (fun d : doc => is_Some (d !! "_id")) (coll c w) ->
        Forall2 stringified
          (apply_limit n (apply_sort s (filter (Matches q) (coll c w)))) r).
Proof.
  gateway_cases text (@nil doc) e w a x w' Hbody Hres.
  - exists a, w'. split; [ exact Hres | ].
    apply bind_inv_ok in Hbody as (cur & w1 & H1 & H2).
    apply find_inv in H1 as (Hf & -> & ->).
    apply for_each_inv_ok in H2 as [-> H2]; [ | apply stringify_id_pure ].
    assert (HS : Forall2 stringified
              (apply_limit n (apply_sort s (filter (Matches q) (coll c w)))) a).
    { eapply Forall2_impl; [ exact H2 | ]. intros d p Hd.
      apply stringify_id_ok in Hd. exact Hd. }
    split; [ intros cd; apply coll_set_commands | ]. split; [ right | ]; auto.
  - eexists _, _. split; [ exact Hres | ].
    assert (Hw : forall cd, coll cd w' = coll cd w).
    { apply (f_equal snd) in Hbody. simpl in Hbody. subst w'.
      unfold mbind, M_bind, find, command.
      destruct (faults_at e (commands w)); simpl; intros cd;
        [ apply coll_set_commands | ].
      rewrite for_each_pure by apply stringify_id_pure. apply coll_set_commands. }
    split; [ intros cd; rewrite coll_add_log; apply Hw | ].
    split; [ left; reflexivity | ].
    intros Hf Hids. exfalso.
    set (cur := apply_limit n (apply_sort s (filter (Matches q) (coll c w)))) in *.
    assert (Hcur : Forall (fun d : doc => is_Some (d !! "_id")) cur).
    { apply Forall_forall. intros d Hd. rewrite Forall_forall in Hids.
      apply Hids. subst cur.
      assert (Hd1 : d ∈ apply_sort s (filter (Matches q) (coll c w))).
      { destruct n as [k | ]; simpl in Hd; [ | exact Hd ].
        eapply subseteq_take. exact Hd. }
      assert (Hd2 : d ∈ filter (Matches q) (coll c w)).
      { destruct s as [[k dir] | ]; simpl in Hd1; [ | exact Hd1 ].
        rewrite merge_sort_Permutation in Hd1. exact Hd1. }
      apply list_elem_of_filter in Hd2 as [_ Hd2]. exact Hd2. }
    assert (Hrun : exists r, for_each stringify_id cur e
                     (set_commands (S (commands w)) w)
                   = (Ok r, set_commands (S (commands w)) w)).
    { clear -Hcur. induction Hcur as [ | d l [i Hi] _ [r IH] ].
      - exists []. reflexivity.
      - eexists. apply for_each_ok. constructor.
        + apply stringify_id_run. exists i. eauto.
        + apply for_each_inv_ok in IH as [_ IH]; [ | apply stringify_id_pure ].
          eapply Forall2_impl; [ exact IH | ]. intros d' p' H'.
          apply stringify_id_ok in H'. apply stringify_id_run. exact H'. }
    destruct Hrun as [r Hrun].
    unfold mbind, M_bind, find in Hbody. rewrite command_ok in Hbody by exact Hf.
    rewrite coll_set_commands in Hbody. fold cur in Hbody.
    rewrite Hrun in Hbody. discriminate.
Qed.

(** ** Sorted cursors *)

#[global] Instance doc_le_total k dir : Total (doc_le k dir).
Proof. intros d1 d2. destruct dir; simpl; apply bson_le_total. Qed.

#[global] Instance doc_le_trans k dir : Transitive (doc_le k dir).
Proof.
  intros d1 d2 d3. destruct dir; simpl; intros H1 H2;
    [ exact (bson_le_trans _ _ _ H1 H2) | exact (bson_le_trans _ _ _ H2 H1) ].
Qed.

Lemma bson_le_int (a b : Z) : bson_le (VInt a) (VInt b) <-> a <= b.
Proof.
  unfold bson_le, bson_leb. simpl. rewrite Qle_bool_iff, <- Zle_Qle. reflexivity.
Qed.

Lemma stringified_sort_key d p k :
  stringified d p -> k <> "_id" -> sort_key k p = sort_key k d.
Proof. intros H Hk. unfold sort_key. rewrite (stringified_lookup d p k H Hk). reflexivity. Qed.

Lemma StronglySorted_Forall2 {A B : Type} (R : relation A) (R' : relation B)
    (Q : A -> B -> Prop) (l : list A) (r : list B) :
  (forall x y x' y', Q x x' -> Q y y' -> R x y -> R' x' y') ->
  Forall2 Q l r -> StronglySorted R l -> StronglySorted R' r.
Proof.
  intros HQ H. induction H as [ | x x' l r Hx Hl IH ]; intros HS.
  - constructor.
  - apply StronglySorted_inv in HS as [HS Hall]. constructor; [ apply IH, HS | ].
    clear IH HS. induction Hl as [ | y y' l r Hy _ IH ]; constructor.
    + apply Forall_inv in Hall. eapply HQ; eassumption.
    + apply IH. eapply Forall_inv_tail. exact Hall.
Qed.

Lemma StronglySorted_lookup {A : Type} (R : relation A) (l : list A) i j x y :
  StronglySorted R l -> (i < j)%nat -> l !! i = Some x -> l !! j = Some y -> R x y.
Proof.
  intros HS. revert i j. induction HS as [ | a l HS IH Hall ]; intros i j Hij Hi Hj.
  - rewrite lookup_nil in Hi. discriminate.
  - destruct j as [ | j ]; [ lia | ]. simpl in Hj. destruct i as [ | i ].
    + simpl in Hi. injection Hi as <-. rewrite Forall_forall in Hall.
      apply Hall. eapply list_elem_of_lookup_2. exact Hj.
    + simpl in Hi. eapply IH; [ | exact Hi | exact Hj ]. lia.
Qed.

Lemma stringified_sorted k dir cur r :
  k <> "_id" ->
  Forall2 stringified cur r ->
  StronglySorted (doc_le k dir) cur -> StronglySorted (doc_le k dir) r.
Proof.
  intros Hk. apply StronglySorted_Forall2. intros x y x' y' Hx Hy.
  unfold doc_le. rewrite (stringified_sort_key _ _ k Hx Hk),
    (stringified_sort_key _ _ k Hy Hk). tauto.
Qed.

Lemma Forall2_elem_of_r {A B : Type} (Q : A -> B -> Prop) (l : list A)
    (r : list B) (y : B) :
  Forall2 Q l r -> y ∈ r -> exists x, x ∈ l /\ Q x y.
Proof.
  induction 1 as [ | x y' l r Hxy _ IH ]; intros Hy.
  - apply not_elem_of_nil in Hy. contradiction.
  - apply elem_of_cons in Hy as [-> | Hy].
    + exists x. split; [ apply list_elem_of_here | exact Hxy ].
    + destruct (IH Hy) as (x' & Hx' & HQ). exists x'.
      split; [ apply list_elem_of_further, Hx' | exact HQ ].
Qed.

Lemma Forall2_elem_of_l {A B : Type} (Q : A -> B -> Prop) (l : list A)
    (r : list B) (x : A) :
  Forall2 Q l r -> x ∈ l -> exists y, y ∈ r /\ Q x y.
Proof.
  induction 1 as [ | x' y l r Hxy _ IH ]; intros Hx.
  - apply not_elem_of_nil in Hx. contradiction.
  - apply elem_of_cons in Hx as [-> | Hx].
    + exists y. split; [ apply list_elem_of_here | exact Hxy ].
    + destruct (IH Hx) as (y' & Hy' & HQ). exists y'.
      split; [ apply list_elem_of_further, Hy' | exact HQ ].
Qed.

Lemma Matches_empty d : Matches ∅ d.
Proof. apply map_Forall_empty. Qed.

Lemma filter_Matches_empty (l : list doc) : filter (Matches ∅) l = l.
Proof.
  induction l as [ | d l IH ]; [ reflexivity | ].
  rewrite filter_cons_True by apply Matches_empty. rewrite IH. reflexivity.
Qed.

Lemma Matches_singleton k v d :
  Matches {[ k := v ]} d <-> field_matches v (d !! k).
Proof.
  unfold Matches.
  apply (map_Forall_singleton (fun k' v' => field_matches v' (d !! k'))).
Qed.

(** ** C8 and C10: [get_projects] *)

Lemma get_projects_spec project_type e w :
  exists r w',
    DatabaseManager.get_projects project_type e w = (Ok r, w')
    /\ (forall cd, coll cd w' = coll cd w)
    /\ (r = []
        \/ faults_at e (commands w) = false
           /\ Forall2 stringified
                (merge_sort (doc_le "display_order" ASCENDING)
                   (filter (Matches (projects_query project_type)) (db_projects w)))
                r)
    /\ (faults_at e (commands w) = false ->
        Forall (fun d : doc => is_Some (d !! "_id")) (db_projects w) ->
        Forall2 stringified
          (merge_sort (doc_le "display_order" ASCENDING)
             (filter (Matches (projects_query project_type)) (db_projects w)))
          r).
Proof.
  exact (cursor_method_spec c_projects (projects_query project_type)
           (Some ("display_order", ASCENDING)) None
           "Error getting projects: " e w).
Qed.

Lemma truthy_str_true (s : string) : s <> "" -> truthy_str s = true.
Proof.
  intros H. unfold truthy_str. destruct (String.eqb_spec s ""); [ contradiction | reflexivity ].
Qed.

(** C10.  With the empty string as type filter, [get_projects] builds the
    query that it builds without a filter: the two calls are the same
    computation.  When the store command does not fault (and the stored
    projects carry their [_id]) the call returns every stored project, not
    only those whose type is the empty string. *)
Theorem empty_filter_is_no_filter e w :
  DatabaseManager.get_projects (Some "") e w
  = DatabaseManager.get_projects None e w
  /\ (faults_at e (commands w) = false ->
      Forall (fun d : doc => is_Some (d !! "_id")) (db_projects w) ->
      exists r w' cur,
        DatabaseManager.get_projects (Some "") e w = (Ok r, w')
        /\ cur ≡ₚ db_projects w
        /\ Forall2 stringified cur r).
Proof.
  split; [ reflexivity | ]. intros Hf Hids.
  destruct (get_projects_spec (Some "") e w) as (r & w' & Hrun & _ & _ & Hall).
  exists r, w', (merge_sort (doc_le "display_order" ASCENDING) (db_projects w)).
  split; [ exact Hrun | ]. split; [ apply merge_sort_Permutation | ].
  specialize (Hall Hf Hids). change (projects_query (Some "")) with (∅ : doc) in Hall.
  rewrite filter_Matches_empty in Hall. exact Hall.
Qed.

(** C8, as amended.  [get_projects] returns (it never raises) a list that
    is sorted by [display_order] in the order of the store, which on integers
    is the order of the integers.  For a filter that is not the empty
    string, over stored projects whose type is not an array, every project
    returned has exactly that type; the list is empty when no stored project
    has it; and when the command does not fault and the stored projects carry
    their [_id], the projects returned are all the stored projects of that
    type. *)
Theorem get_projects_filtered_sorted project_type e w :
  exists r w',
    DatabaseManager.get_projects project_type e w = (Ok r, w')
    /\ StronglySorted (doc_le "display_order" ASCENDING) r
    /\ (forall i j p q a b, (i < j)%nat -> r !! i = Some p -> r !! j = Some q ->
        p !! "display_order" = Some (VInt a) ->
        q !! "display_order" = Some (VInt b) -> a <= b)
    /\ (forall f, project_type = Some f -> f <> "" ->
        Forall (fun d : doc => forall l, d !! "type" <> Some (VList l)) (db_projects w) ->
        Forall (fun p : doc => p !! "type" = Some (VStr f)) r
        /\ (Forall (fun d : doc => d !! "type" <> Some (VStr f)) (db_projects w) ->
            r = [])
        /\ (faults_at e (commands w) = false ->
            Forall (fun d : doc => is_Some (d !! "_id")) (db_projects w) ->
            exists cur,
              cur ≡ₚ filter (fun d : doc => d !! "type" = Some (VStr f)) (db_projects w)
              /\ Forall2 stringified cur r)).
Proof.
  destruct (get_projects_spec project_type e w) as (r & w' & Hrun & _ & Hr & Hall).
  exists r, w'. split; [ exact Hrun | ].
  assert (HS : StronglySorted (doc_le "display_order" ASCENDING) r).
  { destruct Hr as [-> | [_ Hr]]; [ constructor | ].
    eapply stringified_sorted; [ discriminate | exact Hr | ].
    apply StronglySorted_merge_sort; apply _. }
  split; [ exact HS | ]. split.
  { intros i j p q a b Hij Hp Hq Ha Hb.
    pose proof (StronglySorted_lookup _ _ _ _ _ _ HS Hij Hp Hq) as H.
    unfold doc_le, sort_key in H. rewrite Ha, Hb in H. simpl in H.
    apply bson_le_int. exact H. }
  intros f -> Hne Hscalar.
  assert (Hq : projects_query (Some f) = {[ "type" := VStr f ]}).
  { unfold projects_query. simpl. rewrite truthy_str_true by exact Hne. reflexivity. }
  rewrite Hq in Hr, Hall.
  assert (Hiff : forall d : doc, d ∈ db_projects w ->
            (Matches {[ "type" := VStr f ]} d <-> d !! "type" = Some (VStr f))).
  { intros d Hd. rewrite Matches_singleton. rewrite Forall_forall in Hscalar.
    specialize (Hscalar d Hd). unfold field_matches.
    destruct (d !! "type") as [ [ | | | | | | | l | ] | ];
      split; congruence. }
  assert (Hfilter : filter (Matches {[ "type" := VStr f ]}) (db_projects w)
                    = filter (fun d : doc => d !! "type" = Some (VStr f)) (db_projects w)).
  { clear -Hiff. induction (db_projects w) as [ | d l IH ]; [ reflexivity | ].
    rewrite !filter_cons.
    rewrite IH by (intros d' Hd'; apply Hiff, list_elem_of_further, Hd').
    specialize (Hiff d (list_elem_of_here _ _)).
    destruct (decide (Matches {[ "type" := VStr f ]} d)) as [H | H];
      destruct (decide (d !! "type" = Some (VStr f))) as [H' | H'];
      try reflexivity; tauto. }
  rewrite Hfilter in Hr, Hall. split; [ | split ].
  - destruct Hr as [-> | [_ Hr]]; [ constructor | ].
    apply Forall_forall. intros p Hp.
    apply (Forall2_elem_of_r _ _ _ _ Hr) in Hp as (d & Hd & Hdp).
    rewrite merge_sort_Permutation in Hd.
    apply list_elem_of_filter in Hd as [Hd _].
    rewrite (stringified_lookup d p "type" Hdp); [ exact Hd | discriminate ].
  - intros Hnone. destruct Hr as [-> | [_ Hr]]; [ reflexivity | ].
    assert (E : filter (fun d : doc => d !! "type" = Some (VStr f)) (db_projects w) = []).
    { clear -Hnone. induction Hnone as [ | d l Hd _ IH ]; [ reflexivity | ].
      rewrite filter_cons_False by exact Hd. exact IH. }
    rewrite E in Hr. inversion Hr. reflexivity.
  - intros Hf Hids. eexists. split; [ | apply Hall; assumption ].
    apply merge_sort_Permutation.
Qed.

(** ** Commands that do not fault *)

Lemma find_one_run c q e w :
  faults_at e (commands w) = false ->
  find_one c q e w
  = (Ok (head (filter (Matches q) (coll c w))), set_commands (S (commands w)) w).
Proof.
  intros H. unfold find_one. rewrite command_ok by exact H.
  rewrite coll_set_commands. reflexivity.
Qed.

Lemma find_run c q s n e w :
  faults_at e (commands w) = false ->
  find c q s n e w
  = (Ok (apply_limit n (apply_sort s (filter (Matches q) (coll c w)))),
     set_commands (S (commands w)) w).
Proof.
  intros H. unfold find. rewrite command_ok by exact H.
  rewrite coll_set_commands. reflexivity.
Qed.

Lemma count_documents_run c q e w :
  faults_at e (commands w) = false ->
  count_documents c q e w
  = (Ok (length (filter (Matches q) (coll c w))), set_commands (S (commands w)) w).
Proof.
  intros H. unfold count_documents. rewrite command_ok by exact H.
  rewrite coll_set_commands. reflexivity.
Qed.

Lemma aggregate_run c p e w :
  faults_at e (commands w) = false ->
  aggregate c p e w
  = (Ok (fold_left (fun l s => run_stage s l) p (coll c w)),
     set_commands (S (commands w)) w).
Proof.
  intros H. unfold aggregate. rewrite command_ok by exact H.
  rewrite coll_set_commands. reflexivity.
Qed.

(** ** C7: recent visits and top pages *)

Lemma sorted_prefix {A : Type} (R : relation A) `{forall x y, Decision (R x y)}
    `{!Transitive R, !Total R} (n : nat) (vs : list A) :
  take n (merge_sort R vs) ++ drop n (merge_sort R vs) ≡ₚ vs
  /\ length (take n (merge_sort R vs)) = min n (length vs)
  /\ StronglySorted R (take n (merge_sort R vs))
  /\ (forall x y, x ∈ take n (merge_sort R vs) -> y ∈ drop n (merge_sort R vs) ->
      R x y).
Proof.
  pose proof (StronglySorted_merge_sort R vs) as HS.
  pose proof (merge_sort_Permutation R vs) as HP.
  rewrite <- (take_drop n (merge_sort R vs)) in HS.
  apply StronglySorted_app in HS as (Hcross & Hl & _).
  split; [ rewrite take_drop; exact HP | ].
  split; [ rewrite length_take, (Permutation_length HP); reflexivity | ].
  split; [ exact Hl | exact Hcross ].
Qed.

Lemma most_recent_take (vs : list doc) :
  most_recent 10 vs (take 10 (merge_sort (doc_le "timestamp" DESCENDING) vs)).
Proof.
  exists (drop 10 (merge_sort (doc_le "timestamp" DESCENDING) vs)).
  apply sorted_prefix; apply _.
Qed.

(** *** The groups of [$group] *)

Lemma group_count_elem_of (keys : list value) k c :
  (k, c) ∈ group_count keys <-> k ∈ keys /\ c = length (filter (eq k) keys).
Proof.
  unfold group_count. rewrite list_elem_of_fmap. split.
  - intros (k' & Heq & Hk). injection Heq as -> ->.
    rewrite elem_of_remove_dups in Hk. split; [ exact Hk | reflexivity ].
  - intros [Hk ->]. exists k. split; [ reflexivity | ].
    rewrite elem_of_remove_dups. exact Hk.
Qed.

Lemma group_count_NoDup (keys : list value) : NoDup (fst <$> group_count keys).
Proof.
  unfold group_count.
  assert (E : forall l : list value,
            fst <$> ((fun k => (k, length (filter (eq k) keys))) <$> l) = l).
  { induction l as [ | x l IH ]; [ reflexivity | ]. csimpl. rewrite IH. reflexivity. }
  rewrite E. apply NoDup_remove_dups.
Qed.

Lemma filter_eq_fmap {A : Type} (f : A -> value) (k : value) (l : list A) :
  length (filter (eq k) (f <$> l)) = length (filter (fun v => f v = k) l).
Proof.
  induction l as [ | x l IH ]; [ reflexivity | ]. csimpl.
  rewrite !filter_cons.
  destruct (decide (k = f x)) as [E | E]; destruct (decide (f x = k)) as [E' | E'];
    simpl; try congruence.
Qed.

Lemma filter_length_pos {A : Type} (P : A -> Prop) `{forall x, Decision (P x)}
    (l : list A) :
  (0 < length (filter P l))%nat <-> exists x, x ∈ l /\ P x.
Proof.
  split.
  - destruct (filter P l) as [ | x r ] eqn:E; simpl; [ lia | ]. intros _.
    assert (Hx : x ∈ filter P l) by (rewrite E; apply list_elem_of_here).
    apply list_elem_of_filter in Hx as [HP Hx]. eauto.
  - intros (x & Hx & HP).
    assert (Hin : x ∈ filter P l) by (apply list_elem_of_filter; auto).
    destruct (filter P l); [ apply not_elem_of_nil in Hin; contradiction | simpl; lia ].
Qed.

Lemma group_count_spec (vs : list doc) k c :
  (k, c) ∈ group_count (page_of <$> vs) <-> c = visit_count vs k /\ (0 < c)%nat.
Proof.
  rewrite group_count_elem_of, filter_eq_fmap. unfold visit_count. split.
  - intros [Hk ->]. split; [ reflexivity | ].
    apply filter_length_pos. apply list_elem_of_fmap in Hk as (v & -> & Hv). eauto.
  - intros [-> Hpos]. split; [ | reflexivity ].
    apply filter_length_pos in Hpos as (v & Hv & <-).
    apply list_elem_of_fmap. eauto.
Qed.

Lemma StronglySorted_fmap_inv {A B : Type} (f : A -> B) (R : relation B) (l : list A) :
  StronglySorted R (f <$> l) -> StronglySorted (fun x y => R (f x) (f y)) l.
Proof.
  induction l as [ | x l IH ]; csimpl; intros H; [ constructor | ].
  apply StronglySorted_inv in H as [H Hall]. constructor; [ apply IH, H | ].
  rewrite Forall_fmap in Hall. exact Hall.
Qed.

Lemma sort_key_count_group_doc g :
  sort_key "count" (group_doc g) = VInt (Z.of_nat (snd g)).
Proof.
  unfold sort_key, group_doc.
  rewrite lookup_insert_ne by discriminate. rewrite lookup_insert_eq. reflexivity.
Qed.

Lemma doc_le_count_group_doc g g' :
  doc_le "count" DESCENDING (group_doc g) (group_doc g') <-> (snd g' <= snd g)%nat.
Proof.
  unfold doc_le. rewrite !sort_key_count_group_doc, bson_le_int. lia.
Qed.

Lemma top_pages_pipeline_spec (l : list doc) :
  exists top,
    most_visited 5 (filter (Matches {[ "event_type" := VStr "visit" ]}) l) top
    /\ fold_left (fun l s => run_stage s l) DatabaseManager.top_pages_pipeline l
       = group_doc <$> top.
Proof.
  set (vs := filter (Matches {[ "event_type" := VStr "visit" ]}) l).
  set (gc := group_count (page_of <$> vs)).
  set (R := doc_le "count" DESCENDING).
  assert (E : fold_left (fun l s => run_stage s l) DatabaseManager.top_pages_pipeline l
              = take 5 (merge_sort R (group_doc <$> gc))) by reflexivity.
  destruct (Permutation_map_inv group_doc (l1 := merge_sort R (group_doc <$> gc)) gc)
    as (gs & Hgs & Hperm).
  { apply merge_sort_Permutation. }
  change (map group_doc gs) with (group_doc <$> gs) in Hgs.
  assert (HS : StronglySorted (fun g g' => (snd g' <= snd g)%nat) gs).
  { pose proof (StronglySorted_merge_sort R (group_doc <$> gc)) as HS.
    rewrite Hgs in HS. apply StronglySorted_fmap_inv in HS.
    eapply StronglySorted_Forall2; [ | apply Forall2_same_length_lookup_2 with (l := gs);
      [ reflexivity | intros i x y Hx Hy; rewrite Hx in Hy; injection Hy as <-;
        exact (eq_refl x) ] | exact HS ].
    intros x y x' y' <- <- Hxy. apply doc_le_count_group_doc. exact Hxy. }
  exists (take 5 gs). split.
  - exists (drop 5 gs). rewrite take_drop.
    split; [ rewrite <- Hperm; apply group_count_NoDup | ].
    split; [ intros k c; rewrite <- Hperm; apply group_count_spec | ].
    split; [ apply length_take | ].
    rewrite <- (take_drop 5 gs) in HS.
    apply StronglySorted_app in HS as (Hcross & Hl & _).
    split; [ exact Hl | exact Hcross ].
  - rewrite E, Hgs, fmap_take. reflexivity.
Qed.

Lemma top_page_group_doc g e w :
  DatabaseManager.top_page (group_doc g) e w = (Ok (top_entry g), w).
Proof. destruct g as [k c]. reflexivity. Qed.

Lemma recent_visit_ok v y e w :
  fst (DatabaseManager.recent_visit v e w) = Ok y <->
  is_Some (v !! "timestamp") /\ y = reduce_visit v.
Proof.
  unfold DatabaseManager.recent_visit, reduce_visit, getitem, mbind, M_bind,
    mret, M_ret, raise.
  destruct (v !! "timestamp") as [ts | ]; simpl; split.
  - intros [= <-]. split; [ eauto | reflexivity ].
  - intros [_ ->]. reflexivity.
  - discriminate.
  - intros [[ts Hts] _]. discriminate.
Qed.

Lemma recent_visit_run v e w :
  is_Some (v !! "timestamp") ->
  DatabaseManager.recent_visit v e w = (Ok (reduce_visit v), w).
Proof.
  intros [ts Hts].
  unfold DatabaseManager.recent_visit, reduce_visit, getitem, mbind, M_bind.
  rewrite Hts. reflexivity.
Qed.

Lemma for_each_fmap {A B : Type} (f : A -> M B) (g : A -> B) (l : list A) e w :
  Forall (fun x => f x e w = (Ok (g x), w)) l ->
  for_each f l e w = (Ok (g <$> l), w).
Proof.
  intros H. apply for_each_ok. induction H; csimpl; constructor; assumption.
Qed.

Lemma get_analytics_stats_run e w :
  (forall k, (k < 5)%nat -> faults_at e (commands w + k) = false) ->
  Forall (fun v : doc => is_Some (v !! "timestamp"))
    (take 10 (merge_sort (doc_le "timestamp" DESCENDING) (visits w))) ->
  exists s w',
    DatabaseManager.get_analytics_stats e w = (Ok s, w')
    /\ DatabaseManager.recent_visits s
       = reduce_visit <$> take 10 (merge_sort (doc_le "timestamp" DESCENDING) (visits w))
    /\ exists top,
         most_visited 5 (visits w) top
         /\ DatabaseManager.top_pages s = top_entry <$> top.
Proof.
  intros Hf Hts.
  assert (F0 : faults_at e (commands w) = false)
    by (rewrite <- (Nat.add_0_r (commands w)); apply Hf; lia).
  assert (F1 : faults_at e (S (commands w)) = false)
    by (rewrite <- Nat.add_1_r; apply Hf; lia).
  assert (F2 : faults_at e (S (S (commands w))) = false)
    by (replace (S (S (commands w))) with (commands w + 2)%nat by lia; apply Hf; lia).
  assert (F3 : faults_at e (S (S (S (commands w)))) = false)
    by (replace (S (S (S (commands w)))) with (commands w + 3)%nat by lia;
        apply Hf; lia).
  assert (F4 : faults_at e (S (S (S (S (commands w))))) = false)
    by (replace (S (S (S (S (commands w))))) with (commands w + 4)%nat by lia;
        apply Hf; lia).
  destruct (top_pages_pipeline_spec (db_analytics w)) as (top & Htop & Hpipe).
  eexists _, _. split; [ | split; [ | exists top; split; [ exact Htop | ] ] ].
  - unfold DatabaseManager.get_analytics_stats. apply try_ok.
    erewrite bind_ok; [ | apply count_documents_run; exact F0 ].
    erewrite bind_ok; [ | apply count_documents_run; exact F1 ].
    erewrite bind_ok; [ | apply count_documents_run; exact F2 ].
    erewrite bind_ok; [ | apply find_run; exact F3 ].
    erewrite bind_ok; [ | apply (for_each_fmap _ reduce_visit);
      simpl; rewrite ?coll_set_commands;
      eapply Forall_impl; [ exact Hts | ];
      intros v Hv; apply recent_visit_run; exact Hv ].
    erewrite bind_ok; [ | apply aggregate_run; exact F4 ].
    rewrite ?coll_set_commands. simpl coll. rewrite Hpipe.
    erewrite bind_ok; [ | apply (for_each_ok _ _ (top_entry <$> top));
      apply Forall2_fmap, Forall_Forall2_diag, Forall_forall;
      intros g _; apply top_page_group_doc ].
    reflexivity.
  - reflexivity.
  - reflexivity.
Qed.

Lemma Forall2_fmap_eq {A B : Type} (Q : A -> B -> Prop) (g : A -> B)
    (l : list A) (r : list B) :
  (forall x y, Q x y -> y = g x) -> Forall2 Q l r -> r = g <$> l.
Proof.
  intros HQ. induction 1 as [ | x y l r Hxy _ IH ]; csimpl; [ reflexivity | ].
  rewrite (HQ x y Hxy), IH. reflexivity.
Qed.

Lemma sort_key_timestamp_reduce_visit v :
  sort_key "timestamp" (reduce_visit v) = sort_key "timestamp" v.
Proof.
  unfold sort_key at 1, reduce_visit.
  rewrite lookup_insert_ne by discriminate. rewrite lookup_insert_eq. reflexivity.
Qed.

Lemma sort_key_visits_top_entry g :
  sort_key "visits" (top_entry g) = VInt (Z.of_nat (snd g)).
Proof.
  unfold sort_key, top_entry.
  rewrite lookup_insert_ne by discriminate. rewrite lookup_insert_eq. reflexivity.
Qed.

Lemma stats_spec_bounds w s : stats_spec w s -> stats_bounds w s.
Proof.
  intros [(recent & (rest & Hperm & Hlen & HS & _) & Hts & Hrv)
          (top & (rest' & _ & Hmem & Hlen' & HS' & _) & Htp)].
  unfold stats_bounds. rewrite Hrv, Htp, !length_fmap.
  split; [ lia | ]. split.
  { eapply StronglySorted_fmap; [ | exact HS ].
    intros x y. unfold doc_le. rewrite !sort_key_timestamp_reduce_visit. tauto. }
  split.
  { apply Forall_fmap, Forall_forall. intros v Hv. exists v.
    split; [ | split; [ | reflexivity ] ].
    - rewrite <- Hperm. apply elem_of_app. left. exact Hv.
    - rewrite Forall_forall in Hts. apply Hts, Hv. }
  split; [ lia | ]. split.
  { eapply StronglySorted_fmap; [ | exact HS' ].
    intros x y Hxy. simpl in Hxy. unfold doc_le.
    rewrite !sort_key_visits_top_entry. apply bson_le_int. lia. }
  apply Forall_fmap, Forall_forall. intros [k c] Hg. exists k, c.
  split; [ reflexivity | ]. apply Hmem, elem_of_app. left. exact Hg.
Qed.

Lemma stats_bounds_zero w : stats_bounds w zero_stats.
Proof.
  unfold stats_bounds, zero_stats. simpl.
  repeat split; try lia; constructor.
Qed.

Lemma reduce_visit_fields (v : doc) :
  (v !! "page" = None -> reduce_visit v !! "page" = Some (VStr "/"))
  /\ (forall p, v !! "page" = Some p -> reduce_visit v !! "page" = Some p)
  /\ (v !! "ip_address" = None ->
      reduce_visit v !! "ip_address" = Some (VStr "unknown"))
  /\ (forall a, v !! "ip_address" = Some a ->
      reduce_visit v !! "ip_address" = Some a)
  /\ reduce_visit v !! "timestamp" = Some (default VNone (v !! "timestamp"))
  /\ dom (reduce_visit v) = ({[ "page"; "timestamp"; "ip_address" ]} : gset string).
Proof.
  unfold reduce_visit, dict_get.
  split; [ | split; [ | split; [ | split; [ | split ] ] ] ].
  - intros ->. apply lookup_insert_eq.
  - intros p ->. apply lookup_insert_eq.
  - intros ->. rewrite !lookup_insert_ne by discriminate. apply lookup_insert_eq.
  - intros a ->. rewrite !lookup_insert_ne by discriminate. apply lookup_insert_eq.
  - rewrite lookup_insert_ne by discriminate. apply lookup_insert_eq.
  - rewrite !dom_insert_L, dom_empty_L. set_solver.
Qed.

Lemma top_entry_fields (k : value) (c : nat) :
  top_entry (k, c) !! "visits" = Some (VInt (Z.of_nat c))
  /\ (k = VNone \/ k = VStr "" -> top_entry (k, c) !! "page" = Some (VStr "/"))
  /\ (forall s, s <> "" -> k = VStr s -> top_entry (k, c) !! "page" = Some (VStr s)).
Proof.
  unfold top_entry. simpl. split; [ | split ].
  - rewrite lookup_insert_ne by discriminate. apply lookup_insert_eq.
  - intros [-> | ->]; rewrite lookup_insert_eq; reflexivity.
  - intros s Hs ->. rewrite lookup_insert_eq. unfold py_or. simpl.
    destruct (String.eqb_spec s ""); [ contradiction | reflexivity ].
Qed.

(** C7, as amended.  [get_analytics_stats] returns (it never raises).  Its
    [recent_visits] are at most 10, in descending order of timestamp, each a
    stored visit event reduced to the keys page, timestamp and ip_address,
    where a page whose key is missing reads "/" (a page stored as null stays
    null) and an address whose key is missing reads "unknown".  Its
    [top_pages] are at most 5, in descending order of count, each the page
    of a group of visits with the number of visits of that page, where a
    page that is null or empty reads "/".  The groups are by the page as it
    is stored, a missing page counting as null: they are distinct before
    "/" replaces null and the empty string, not after, so that up to three
    entries can read "/", each with the count of its own group.  Unless the
    call degrades to the aggregate of zeros, the recent visits are the 10
    (or all, when there are fewer) most recent visit events, and the top
    pages are the 5 (or all) most visited groups; the call does not degrade
    when none of its five commands faults and the stored visits carry a
    timestamp. *)
Theorem analytics_stats_recent_and_top e w :
  exists s w',
    DatabaseManager.get_analytics_stats e w = (Ok s, w')
    /\ stats_bounds w s
    /\ (s = zero_stats \/ stats_spec w s)
    /\ ((forall k, (k < 5)%nat -> faults_at e (commands w + k) = false) ->
        Forall (fun v : doc => is_Some (v !! "timestamp")) (visits w) ->
        stats_spec w s)
    /\ (forall v : doc,
          (v !! "page" = None -> reduce_visit v !! "page" = Some (VStr "/"))
          /\ (forall p, v !! "page" = Some p -> reduce_visit v !! "page" = Some p)
          /\ (v !! "ip_address" = None ->
              reduce_visit v !! "ip_address" = Some (VStr "unknown"))
          /\ (forall a, v !! "ip_address" = Some a ->
              reduce_visit v !! "ip_address" = Some a)
          /\ reduce_visit v !! "timestamp" = Some (default VNone (v !! "timestamp"))
          /\ dom (reduce_visit v)
             = ({[ "page"; "timestamp"; "ip_address" ]} : gset string))
    /\ (forall k c,
          top_entry (k, c) !! "visits" = Some (VInt (Z.of_nat c))
          /\ (k = VNone \/ k = VStr "" ->
              top_entry (k, c) !! "page" = Some (VStr "/"))
          /\ (forall s', s' <> "" -> k = VStr s' ->
              top_entry (k, c) !! "page" = Some (VStr s'))).
Proof.
  assert (Hcases : exists s w',
            DatabaseManager.get_analytics_stats e w = (Ok s, w')
            /\ (s = zero_stats \/ stats_spec w s)).
  { unfold DatabaseManager.get_analytics_stats.
    gateway_cases "Error getting analytics stats: " zero_stats e w a x w' Hbody Hres.
    - exists a, w'. split; [ exact Hres | right ].
      apply get_analytics_stats_body_ok in Hbody
        as (_ & recent & pages & -> & -> & H5 & H7 & _).
      split.
      + exists (take 10 (merge_sort (doc_le "timestamp" DESCENDING) (visits w))).
        split; [ apply most_recent_take | ]. split.
        * apply Forall_forall. intros v Hv.
          apply (Forall2_elem_of_l _ _ _ _ H5) in Hv as (y & _ & Hy).
          apply recent_visit_ok in Hy as [Hts _]. exact Hts.
        * eapply Forall2_fmap_eq; [ | exact H5 ]. intros v y Hy.
          apply recent_visit_ok in Hy as [_ ->]. reflexivity.
      + destruct (top_pages_pipeline_spec (db_analytics w)) as (top & Htop & Hpipe).
        exists top. split; [ exact Htop | ]. rewrite Hpipe in H7.
        apply Forall2_fmap_l in H7.
        eapply Forall2_fmap_eq; [ | exact H7 ]. intros g y Hy.
        change (fst (DatabaseManager.top_page (group_doc g) e w') = Ok y) in Hy.
        rewrite top_page_group_doc in Hy. simpl in Hy. congruence.
    - eexists _, _. split; [ exact Hres | left; reflexivity ]. }
  destruct Hcases as (s & w' & Hrun & Hs). exists s, w'.
  split; [ exact Hrun | ]. split.
  { destruct Hs as [-> | Hs]; [ apply stats_bounds_zero | apply stats_spec_bounds, Hs ]. }
  split; [ exact Hs | ]. split.
  { intros Hf Hts.
    destruct (get_analytics_stats_run e w Hf) as (s1 & w1 & Hrun1 & Hrv & top & Htop & Htp).
    { apply Forall_forall. intros v Hv. rewrite Forall_forall in Hts. apply Hts.
      apply subseteq_take in Hv. rewrite merge_sort_Permutation in Hv. exact Hv. }
    rewrite Hrun in Hrun1. injection Hrun1 as <- <-. split.
    - exists (take 10 (merge_sort (doc_le "timestamp" DESCENDING) (visits w))).
      split; [ apply most_recent_take | ]. split; [ | exact Hrv ].
      apply Forall_forall. intros v Hv. rewrite Forall_forall in Hts. apply Hts.
      apply subseteq_take in Hv. rewrite merge_sort_Permutation in Hv. exact Hv.
    - exists top. split; assumption. }
  split; [ apply reduce_visit_fields | apply top_entry_fields ].
Qed.

(** ** Writes of the store *)

Lemma insert_one_run c (d : doc) e w :
  faults_at e (commands w) = false ->
  d !! "_id" = None ->
  insert_one c d e w
  = (Ok (VOid (next_oid w)),
     set_inserts (S (inserts w))
       (set_next_oid (next_oid w + 1)%N
          (set_coll c (coll c w ++ [<["_id" := VOid (next_oid w)]> d])
             (set_commands (S (commands w)) w)))).
Proof.
  intros Hf Hd. unfold insert_one. rewrite command_ok by exact Hf. rewrite Hd.
  rewrite coll_set_commands. reflexivity.
Qed.

Lemma coll_set_coll_eq c l w : coll c (set_coll c l w) = l.
Proof. destruct c; reflexivity. Qed.

Lemma coll_set_coll_ne c c' l w : c' <> c -> coll c' (set_coll c l w) = coll c' w.
Proof. destruct c, c'; intros H; try reflexivity; contradiction. Qed.

(** [insert_one] returns an id and appends one document that holds the
    fields of the dict, or raises and leaves the documents as they were. *)
Lemma insert_one_cases c (d : doc) e w :
  (exists i w',
     insert_one c d e w = (Ok i, w')
     /\ faults_at e (commands w) = false
     /\ inserts w' = S (inserts w)
     /\ ticks w' = ticks w
     /\ commands w' = S (commands w)
     /\ touches c (fun l l' =>
          exists d', l' = l ++ [d'] /\ d' !! "_id" = Some i
                     /\ forall k, k <> "_id" -> d' !! k = d !! k) w w')
  \/ (exists x w',
        insert_one c d e w = (Raise x, w')
        /\ (faults_at e (commands w) = true \/ is_Some (d !! "_id"))
        /\ inserts w' = inserts w
        /\ ticks w' = ticks w
        /\ commands w' = S (commands w)
        /\ forall c', coll c' w' = coll c' w).
Proof.
  unfold insert_one, command.
  destruct (faults_at e (commands w)) eqn:Hf.
  { right. eexists _, _. split; [ reflexivity | ]. split; [ auto | ].
    split; [ reflexivity | ]. split; [ reflexivity | ]. split; [ reflexivity | ].
    intros c'. apply coll_set_commands. }
  rewrite coll_set_commands.
  destruct (d !! "_id") as [i | ] eqn:Hid.
  - destruct (bool_decide _) eqn:Hdup.
    + right. eexists _, _. split; [ reflexivity | ]. split; [ eauto | ].
      split; [ reflexivity | ]. split; [ reflexivity | ]. split; [ reflexivity | ].
      intros c'. apply coll_set_commands.
    + left. eexists _, _. split; [ reflexivity | ].
      split; [ reflexivity | ]. split; [ destruct c; reflexivity | ].
      split; [ destruct c; reflexivity | ]. split; [ destruct c; reflexivity | ].
      split.
      * intros c' Hc'. rewrite coll_set_inserts, coll_set_coll_ne by exact Hc'.
        apply coll_set_commands.
      * rewrite coll_set_inserts, coll_set_coll_eq. exists d.
        split; [ reflexivity | ]. split; [ exact Hid | reflexivity ].
  - left. eexists _, _. split; [ reflexivity | ].
    split; [ reflexivity | ]. split; [ destruct c; reflexivity | ].
    split; [ destruct c; reflexivity | ]. split; [ destruct c; reflexivity | ].
    split.
    + intros c' Hc'.
      rewrite coll_set_inserts, coll_set_next_oid, coll_set_coll_ne by exact Hc'.
      apply coll_set_commands.
    + rewrite coll_set_inserts, coll_set_next_oid, coll_set_coll_eq.
      eexists. split; [ reflexivity | ]. split; [ apply lookup_insert_eq | ].
      intros k Hk. apply lookup_insert_ne. congruence.
Qed.

(** ** C2: what [update_project] returns *)

Lemma update_project_cases project_id project_data e w :
  let stamped : doc :=
    <["updated_at" := VDate (utcnow_at e (ticks w))]> project_data in
  exists b w',
    DatabaseManager.update_project project_id project_data e w = (Ok b, w')
    /\ ((b = false
         /\ db_projects w' = db_projects w
         /\ (ObjectId project_id = None
             \/ faults_at e (commands w) = true
             \/ exists o, ObjectId project_id = Some o
                  /\ (list_find (Matches {[ "_id" := VOid o ]}) (db_projects w) = None
                      \/ exists i d,
                           list_find (Matches {[ "_id" := VOid o ]}) (db_projects w)
                           = Some (i, d)
                           /\ (changes_id stamped d \/ stamped ∪ d = d))))
        \/ (b = true
            /\ faults_at e (commands w) = false
            /\ exists i d,
                 the_project project_id w i d
                 /\ ~ changes_id stamped d
                 /\ stamped ∪ d <> d
                 /\ db_projects w' = <[i := stamped ∪ d]> (db_projects w))).
Proof.
  intros stamped.
  unfold DatabaseManager.update_project, try_except, mbind, M_bind, utcnow,
    object_id, update_one_set, command, mret, M_ret, raise, logger_error.
  destruct (ObjectId project_id) as [o | ] eqn:Ho; simpl.
  2: { eexists _, _. split; [ reflexivity | ]. left. auto. }
  destruct (faults_at e (commands w)) eqn:Hf; simpl.
  { eexists _, _. split; [ reflexivity | ]. left. auto. }
  fold stamped.
  destruct (list_find (Matches {[ "_id" := VOid o ]}) (db_projects w))
    as [[i d] | ] eqn:Hfind; simpl.
  2: { eexists _, _. split; [ reflexivity | ]. left.
       split; [ reflexivity | ]. split; [ reflexivity | ]. right. right.
       exists o. auto. }
  destruct (bool_decide (changes_id stamped d)) eqn:Hid; simpl.
  { apply bool_decide_eq_true in Hid.
    eexists _, _. split; [ reflexivity | ]. left.
    split; [ reflexivity | ]. split; [ reflexivity | ]. right. right.
    exists o. split; [ reflexivity | ]. right. exists i, d. auto. }
  apply bool_decide_eq_false in Hid.
  destruct (bool_decide (stamped ∪ d = d)) eqn:Heq; simpl.
  - apply bool_decide_eq_true in Heq.
    eexists _, _. split; [ reflexivity | ]. left.
    split; [ reflexivity | ]. split; [ reflexivity | ]. right. right.
    exists o. split; [ reflexivity | ]. right. exists i, d. auto.
  - apply bool_decide_eq_false in Heq.
    eexists _, _. split; [ reflexivity | ]. right.
    split; [ reflexivity | ]. split; [ reflexivity | ].
    exists i, d. split; [ exists o; auto | ]. auto.
Qed.

Lemma list_find_elem_of {A : Type} (P : A -> Prop) `{forall x, Decision (P x)}
    (l : list A) i x :
  list_find P l = Some (i, x) -> l !! i = Some x /\ P x.
Proof. intros H0. apply list_find_Some in H0 as (Hi & HP & _). auto. Qed.

Lemma list_insert_changes {A : Type} (l : list A) i x y :
  l !! i = Some x -> y <> x -> <[i := y]> l <> l.
Proof.
  intros Hi Hne Heq. apply Hne.
  assert (H : <[i := y]> l !! i = Some y).
  { apply list_lookup_insert_eq. eapply lookup_lt_Some. exact Hi. }
  rewrite Heq, Hi in H. congruence.
Qed.

(** C2, as amended.  [update_project] returns (it never raises), and it
    returns [True] only when a stored project was modified.  For an id that
    is unknown (or is no ObjectId), and when its command faults, it returns
    [False].  The call writes the time of the call into [updated_at]
    together with the data supplied.  For an existing project and a command
    that does not fault, it returns [False] exactly when the data and this
    stamp are what the project holds already (or when the data carries
    another [_id] than the project, which the store refuses), and [True]
    otherwise: so it returns [True] when the stamp differs from the
    [updated_at] of the project, whatever the data, and also when the stamp
    is the stored one and the data differs. *)
Theorem update_project_true_iff_modified project_id project_data e w :
  let stamped : doc :=
    <["updated_at" := VDate (utcnow_at e (ticks w))]> project_data in
  exists b w',
    DatabaseManager.update_project project_id project_data e w = (Ok b, w')
    /\ (b = true ->
        db_projects w' <> db_projects w
        /\ exists i d, the_project project_id w i d
             /\ db_projects w' = <[i := stamped ∪ d]> (db_projects w))
    /\ (~ known_id project_id w -> b = false)
    /\ (forall i d, the_project project_id w i d -> stamped ⊆ d -> b = false)
    /\ (forall i d, the_project project_id w i d ->
        faults_at e (commands w) = false ->
        project_data !! "_id" = None ->
        d !! "updated_at" <> Some (VDate (utcnow_at e (ticks w))) ->
        b = true)
    /\ (faults_at e (commands w) = true -> b = false)
    /\ (forall i d, the_project project_id w i d ->
        faults_at e (commands w) = false ->
        (b = false <-> changes_id stamped d \/ stamped ⊆ d)).
Proof.
  intros stamped.
  destruct (update_project_cases project_id project_data e w)
    as (b & w' & Hrun & Hcases).
  fold stamped in Hcases. exists b, w'. split; [ exact Hrun | ].
  destruct Hcases as [(-> & Hsame & Hwhy) | (-> & Hf & i & d & Hthe & Hid & Hne & Hw')].
  - assert (Hheld : forall i d, the_project project_id w i d ->
                      faults_at e (commands w) = false ->
                      changes_id stamped d \/ stamped ⊆ d).
    { intros i d (o & Ho & Hfind) Hf.
      destruct Hwhy as [Hnone | [Hfault | (o' & Ho' & Hwhy)]]; [ congruence .. | ].
      assert (o' = o) as -> by congruence.
      destruct Hwhy as [Hnone | (i' & d' & Hfind' & Hwhy)]; [ congruence | ].
      assert (i' = i /\ d' = d) as [-> ->] by (split; congruence).
      destruct Hwhy as [Hch | Heq]; [ left; exact Hch | right ].
      pose proof (map_union_subseteq_l stamped d) as Hsub.
      rewrite Heq in Hsub. exact Hsub. }
    split; [ discriminate | ]. split; [ reflexivity | ]. split; [ reflexivity | ].
    split; [ | split; [ reflexivity | ] ].
    + intros i d Hthe Hf Hno_id Hupd. exfalso.
      destruct (Hheld i d Hthe Hf) as [Hch | Hsub].
      * unfold changes_id, stamped in Hch.
        rewrite lookup_insert_ne, Hno_id in Hch by discriminate. exact Hch.
      * apply Hupd. apply (lookup_weaken stamped); [ | exact Hsub ].
        unfold stamped. apply lookup_insert_eq.
    + intros i d Hthe Hf. split; [ intros _; exact (Hheld i d Hthe Hf) | reflexivity ].
  - destruct Hthe as (o & Ho & Hfind).
    pose proof (list_find_elem_of _ _ _ _ Hfind) as [Hi HM].
    split.
    { intros _. split.
      - rewrite Hw'. eapply list_insert_changes; eassumption.
      - exists i, d. split; [ exists o; auto | exact Hw' ]. }
    split.
    { intros Hunknown. exfalso. apply Hunknown. exists o, d.
      split; [ exact Ho | ]. split; [ | exact HM ].
      eapply list_elem_of_lookup_2. exact Hi. }
    assert (Hthis : forall i' d', the_project project_id w i' d' -> d' = d).
    { intros i' d' (o' & Ho' & Hfind'). rewrite Ho in Ho'. injection Ho' as <-.
      rewrite Hfind in Hfind'. injection Hfind' as _ <-. reflexivity. }
    split.
    { intros i' d' Hthe' Hsub. exfalso. rewrite (Hthis i' d' Hthe') in Hsub.
      apply Hne. apply map_subseteq_union. exact Hsub. }
    split; [ reflexivity | ].
    split; [ intros Hfault; congruence | ].
    intros i' d' Hthe' _. split; [ discriminate | intros H; exfalso ].
    rewrite (Hthis i' d' Hthe') in H. destruct H as [Hch | Hsub].
    + exact (Hid Hch).
    + apply Hne. apply map_subseteq_union. exact Hsub.
Qed.

(** ** C3, C4: [create_or_update_profile] *)

Lemma create_or_update_profile_insert profile_data e w :
  db_profile w = [] ->
  faults_at e (commands w) = false ->
  faults_at e (S (commands w)) = false ->
  exists w' d,
    DatabaseManager.create_or_update_profile profile_data e w = (Ok true, w')
    /\ db_profile w' = [d]
    /\ d !! "updated_at" = Some (VDate (utcnow_at e (ticks w)))
    /\ d !! "created_at" = Some (VDate (utcnow_at e (S (ticks w))))
    /\ is_Some (d !! "_id")
    /\ (forall k, k <> "_id" -> k <> "created_at" -> k <> "updated_at" ->
        d !! k = profile_data !! k)
    /\ inserts w' = S (inserts w)
    /\ (forall c, c <> c_profile -> coll c w' = coll c w).
Proof.
  intros Hempty Hf0 Hf1.
  unfold DatabaseManager.create_or_update_profile, try_except, mbind, M_bind,
    utcnow, find_one, insert_one, command, mret, M_ret.
  simpl. rewrite Hf0. simpl. rewrite Hempty. simpl. rewrite Hf1. simpl.
  rewrite Hempty.
  set (stamped := <["created_at" := VDate (utcnow_at e (S (ticks w)))]>
                    (<["updated_at" := VDate (utcnow_at e (ticks w))]> profile_data)).
  assert (Hup : stamped !! "updated_at" = Some (VDate (utcnow_at e (ticks w)))).
  { unfold stamped. rewrite lookup_insert_ne by discriminate. apply lookup_insert_eq. }
  assert (Hcr : stamped !! "created_at" = Some (VDate (utcnow_at e (S (ticks w))))).
  { unfold stamped. apply lookup_insert_eq. }
  assert (Hother : forall k, k <> "created_at" -> k <> "updated_at" ->
            stamped !! k = profile_data !! k).
  { intros k H1 H2. unfold stamped. rewrite !lookup_insert_ne by congruence.
    reflexivity. }
  destruct (stamped !! "_id") as [i | ] eqn:Hid; simpl.
  - eexists _, stamped. split; [ reflexivity | ]. simpl.
    split; [ reflexivity | ]. split; [ exact Hup | ]. split; [ exact Hcr | ].
    split; [ eauto | ]. split; [ intros k _; apply Hother | ].
    split; [ reflexivity | ]. intros [ ]; intros H; try reflexivity; contradiction.
  - eexists _, (<["_id" := VOid (next_oid w)]> stamped).
    split; [ reflexivity | ]. simpl.
    split; [ reflexivity | ].
    split; [ rewrite lookup_insert_ne by discriminate; exact Hup | ].
    split; [ rewrite lookup_insert_ne by discriminate; exact Hcr | ].
    split; [ rewrite lookup_insert_eq; eauto | ].
    split.
    { intros k H0 H1 H2. rewrite lookup_insert_ne by congruence. apply Hother; assumption. }
    split; [ reflexivity | ]. intros [ ]; intros H; try reflexivity; contradiction.
Qed.

Lemma field_matches_self (v : value) : field_matches v (Some v).
Proof. destruct v; simpl; auto. Qed.

Lemma update_one_set_run c q upd e w i d :
  faults_at e (commands w) = false ->
  list_find (Matches q) (coll c w) = Some (i, d) ->
  ~ changes_id upd d ->
  exists n w',
    update_one_set c q upd e w = (Ok n, w')
    /\ coll c w' = <[i := upd ∪ d]> (coll c w)
    /\ (forall c', c' <> c -> coll c' w' = coll c' w)
    /\ inserts w' = inserts w
    /\ ticks w' = ticks w
    /\ commands w' = S (commands w).
Proof.
  intros Hf Hfind Hid. unfold update_one_set. rewrite command_ok by exact Hf.
  rewrite coll_set_commands, Hfind.
  rewrite (bool_decide_eq_false_2 _ Hid).
  destruct (bool_decide (upd ∪ d = d)) eqn:Heq.
  - apply bool_decide_eq_true in Heq. eexists _, _. split; [ reflexivity | ].
    split.
    { rewrite coll_set_commands, Heq. symmetry. apply list_insert_id.
      apply list_find_elem_of in Hfind as [Hi _]. exact Hi. }
    split; [ intros c' _; apply coll_set_commands | ]. auto.
  - eexists _, _. split; [ reflexivity | ].
    split; [ apply coll_set_coll_eq | ].
    split; [ intros c' Hc'; rewrite coll_set_coll_ne by exact Hc';
             apply coll_set_commands | ].
    split; [ destruct c; reflexivity | ].
    split; destruct c; reflexivity.
Qed.

Lemma truthy_doc_lookup (d : doc) k v : d !! k = Some v -> truthy_doc d = true.
Proof.
  intros H. unfold truthy_doc. rewrite bool_decide_eq_false_2; [ reflexivity | ].
  intros ->. rewrite lookup_empty in H. discriminate.
Qed.

Lemma create_or_update_profile_update profile_data e w ex rest i :
  db_profile w = ex :: rest ->
  ex !! "_id" = Some i ->
  profile_data !! "_id" = None ->
  faults_at e (commands w) = false ->
  faults_at e (S (commands w)) = false ->
  exists w',
    DatabaseManager.create_or_update_profile profile_data e w = (Ok true, w')
    /\ db_profile w'
       = (<["updated_at" := VDate (utcnow_at e (ticks w))]> profile_data ∪ ex) :: rest
    /\ inserts w' = inserts w
    /\ (forall c, c <> c_profile -> coll c w' = coll c w).
Proof.
  intros Hprofile Hid Hno Hf0 Hf1.
  set (stamped := <["updated_at" := VDate (utcnow_at e (ticks w))]> profile_data).
  set (w1 := set_ticks (S (ticks w)) w).
  set (w2 := set_commands (S (commands w1)) w1).
  assert (Hfind : list_find (Matches {[ "_id" := i ]}) (coll c_profile w2)
                  = Some (0%nat, ex)).
  { simpl. rewrite Hprofile. simpl.
    rewrite decide_True; [ reflexivity | ].
    apply Matches_singleton. rewrite Hid. apply field_matches_self. }
  assert (Hch : ~ changes_id stamped ex).
  { unfold changes_id, stamped. rewrite lookup_insert_ne by discriminate.
    rewrite Hno. tauto. }
  destruct (update_one_set_run c_profile {[ "_id" := i ]} stamped e w2 0 ex)
    as (n & w3 & Hrun & Hcoll & Hothers & Hins & _ & _);
    [ exact Hf1 | exact Hfind | exact Hch | ].
  exists w3. split.
  - unfold DatabaseManager.create_or_update_profile. apply try_ok.
    erewrite bind_ok; [ | reflexivity ]. fold stamped w1.
    erewrite bind_ok; [ | apply find_one_run; exact Hf0 ]. fold w2.
    replace (head (filter (Matches ∅) (coll c_profile w1))) with (Some ex)
      by (simpl; rewrite Hprofile, filter_Matches_empty; reflexivity).
    simpl truthy_opt_doc. rewrite (truthy_doc_lookup ex "_id" i Hid).
    erewrite bind_ok; [ reflexivity | ].
    erewrite bind_ok; [ | unfold getitem; simpl; rewrite Hid; reflexivity ].
    erewrite bind_ok; [ | exact Hrun ]. reflexivity.
  - split.
    { change (db_profile w3) with (coll c_profile w3). rewrite Hcoll.
      simpl. rewrite Hprofile. reflexivity. }
    split; [ exact Hins | ]. intros c Hc. rewrite Hothers by exact Hc. reflexivity.
Qed.

(** C4, as amended.  When no profile document exists and the two store
    commands of the call do not fault, [create_or_update_profile] inserts one
    document, whose [updated_at] is the reading of the clock at the start of
    the call and whose [created_at] is a second reading of the clock, taken
    after the lookup of the existing profile: the two fields are equal
    exactly when the two readings are. *)
Theorem upsert_insert_stamps profile_data e w :
  db_profile w = [] ->
  faults_at e (commands w) = false ->
  faults_at e (S (commands w)) = false ->
  exists w' d,
    DatabaseManager.create_or_update_profile profile_data e w = (Ok true, w')
    /\ db_profile w' = [d]
    /\ d !! "updated_at" = Some (VDate (utcnow_at e (ticks w)))
    /\ d !! "created_at" = Some (VDate (utcnow_at e (S (ticks w))))
    /\ (d !! "created_at" = d !! "updated_at" <->
        utcnow_at e (S (ticks w)) = utcnow_at e (ticks w)).
Proof.
  intros Hempty Hf0 Hf1.
  destruct (create_or_update_profile_insert profile_data e w Hempty Hf0 Hf1)
    as (w' & d & Hrun & Hd & Hup & Hcr & _).
  exists w', d. split; [ exact Hrun | ]. split; [ exact Hd | ].
  split; [ exact Hup | ]. split; [ exact Hcr | ].
  rewrite Hup, Hcr. split; congruence.
Qed.

Lemma Profile_dict_no_id (p : Models.Profile) : Models.Profile_dict p !! "_id" = None.
Proof.
  unfold Models.Profile_dict, dict. simpl.
  rewrite !lookup_insert_ne by discriminate. apply lookup_empty.
Qed.

Lemma Profile_dict_created_at (p : Models.Profile) :
  Models.Profile_dict p !! "created_at" = Some (VDate (Models.created_at p)).
Proof.
  unfold Models.Profile_dict, dict. simpl.
  rewrite lookup_insert_ne by discriminate. apply lookup_insert_eq.
Qed.

(** C3.  The claim: an update of an existing profile leaves [created_at] as
    it is.  [PUT /profile] passes [profile.dict()] to the gateway, and
    [created_at] is a field of the model [Profile] (filled with the time of
    the request when the body leaves it out); the gateway writes every field
    of the dict with [$set].  So after the update the stored [created_at] is
    the one of the request, whatever the profile held. *)
Theorem update_profile_overwrites_created_at (p : Models.Profile) e w ex rest i :
  db_profile w = ex :: rest ->
  ex !! "_id" = Some i ->
  faults_at e (commands w) = false ->
  faults_at e (S (commands w)) = false ->
  exists w' ex',
    Routes.update_profile p e w
    = (Ok (Models.mkAPIResponse true "Profile updated successfully" None), w')
    /\ db_profile w' = ex' :: rest
    /\ ex' !! "_id" = Some i
    /\ ex' !! "created_at" = Some (VDate (Models.created_at p))
    /\ ex' !! "updated_at" = Some (VDate (utcnow_at e (ticks w))).
Proof.
  intros Hprofile Hid Hf0 Hf1.
  destruct (create_or_update_profile_update (Models.Profile_dict p) e w ex rest i
              Hprofile Hid (Profile_dict_no_id p) Hf0 Hf1)
    as (w' & Hrun & Hw' & _).
  eexists w', _. split; [ | split; [ exact Hw' | ] ].
  - unfold Routes.update_profile. apply try_ok.
    erewrite bind_ok; [ | exact Hrun ]. reflexivity.
  - split; [ | split ].
    + rewrite lookup_union_r; [ exact Hid | ].
      rewrite lookup_insert_ne by discriminate. apply Profile_dict_no_id.
    + apply lookup_union_Some_l. rewrite lookup_insert_ne by discriminate.
      apply Profile_dict_created_at.
    + apply lookup_union_Some_l. apply lookup_insert_eq.
Qed.

(** ** C9: contact messages *)

Lemma create_contact_message_cases message_data e w :
  let stamped : doc :=
    <["is_read" := VBool false]>
      (<["created_at" := VDate (utcnow_at e (ticks w))]> message_data) in
  (exists i w',
     DatabaseManager.create_contact_message message_data e w
     = (Ok (Some (py_str i)), w')
     /\ faults_at e (commands w) = false
     /\ (message_data !! "_id" = None -> i = VOid (next_oid w))
     /\ touches c_contact_messages (fun l l' =>
          exists d', l' = l ++ [d'] /\ d' !! "_id" = Some i
                     /\ forall k, k <> "_id" -> d' !! k = stamped !! k) w w')
  \/ (exists w',
        DatabaseManager.create_contact_message message_data e w = (Ok None, w')
        /\ (faults_at e (commands w) = true \/ is_Some (message_data !! "_id"))
        /\ forall c, coll c w' = coll c w).
Proof.
  intros stamped.
  set (w1 := set_ticks (S (ticks w)) w).
  unfold DatabaseManager.create_contact_message.
  destruct (insert_one_cases c_contact_messages stamped e w1)
    as [(i & w' & Hrun & Hf & _ & _ & _ & Hother & Hown)
       | (x & w' & Hrun & Hwhy & _ & _ & _ & Hsame)].
  - left. exists i, w'. split; [ | split; [ exact Hf | split ] ].
    + apply try_ok. erewrite bind_ok; [ | reflexivity ]. fold stamped w1.
      erewrite bind_ok; [ | exact Hrun ]. reflexivity.
    + intros Hno.
      assert (Hid : stamped !! "_id" = None).
      { unfold stamped. rewrite !lookup_insert_ne by discriminate. exact Hno. }
      rewrite (insert_one_run _ _ _ _ Hf Hid) in Hrun.
      injection Hrun as <- _. reflexivity.
    + split; [ exact Hother | exact Hown ].
  - right. eexists. split.
    + erewrite try_raise;
        [ | erewrite bind_ok; [ | reflexivity ]; fold stamped w1;
            erewrite bind_raise; [ reflexivity | exact Hrun ] ].
      reflexivity.
    + split; [ | intros c; rewrite coll_add_log; apply Hsame ].
      destruct Hwhy as [Hf | Hid]; [ left; exact Hf | right ].
      unfold stamped in Hid. rewrite !lookup_insert_ne in Hid by discriminate.
      exact Hid.
Qed.

Lemma create_analytics_event_frame event_data e w :
  exists b w',
    DatabaseManager.create_analytics_event event_data e w = (Ok b, w')
    /\ forall c, c <> c_analytics -> coll c w' = coll c w.
Proof.
  set (stamped := <["timestamp" := VDate (utcnow_at e (ticks w))]> event_data).
  set (w1 := set_ticks (S (ticks w)) w).
  unfold DatabaseManager.create_analytics_event.
  destruct (insert_one_cases c_analytics stamped e w1)
    as [(i & w' & Hrun & _ & _ & _ & _ & Hother & _)
       | (x & w' & Hrun & _ & _ & _ & _ & Hsame)].
  - exists true, w'. split.
    + apply try_ok. erewrite bind_ok; [ | reflexivity ]. fold stamped w1.
      erewrite bind_ok; [ | exact Hrun ]. reflexivity.
    + intros c Hc. apply Hother. exact Hc.
  - eexists false, _. split.
    + erewrite try_raise;
        [ | erewrite bind_ok; [ | reflexivity ]; fold stamped w1;
            erewrite bind_raise; [ reflexivity | exact Hrun ] ].
      reflexivity.
    + intros c _. rewrite coll_add_log. apply Hsame.
Qed.

Lemma try_inv_ok {A : Type} (body : M A) (h : exn -> M A) e w a w' :
  try_except body h e w = (Ok a, w') ->
  (forall x e1 w1, exists y w2, h x e1 w1 = (Raise y, w2)) ->
  body e w = (Ok a, w').
Proof.
  unfold try_except. destruct (body e w) as [[b | x] w1]; [ auto | ].
  intros H Hh. destruct (Hh x e w1) as (y & w2 & E). rewrite E in H. discriminate.
Qed.

Lemma internal_server_error_raises {A : Type} text x e w :
  exists y w', @Routes.internal_server_error A text x e w = (Raise y, w').
Proof. eexists _, _. reflexivity. Qed.

Lemma contact_data_fields contact request :
  contact_fields contact (contact_data contact request)
  /\ contact_data contact request !! "_id" = None.
Proof.
  unfold contact_fields, contact_data, Models.ContactCreate_dict, dict. simpl.
  repeat split; rewrite ?lookup_insert_ne by discriminate;
    try apply lookup_insert_eq; apply lookup_empty.
Qed.

Lemma submit_contact_form_inv contact request e w r w1 :
  Routes.submit_contact_form contact request e w = (Ok r, w1) ->
  exists i wa,
    DatabaseManager.create_contact_message (contact_data contact request) e w
    = (Ok (Some (py_str i)), wa)
    /\ Models.data r = Some {[ "message_id" := VStr (py_str i) ]}
    /\ Models.success r = true
    /\ db_contact_messages w1 = db_contact_messages wa
    /\ exists d', db_contact_messages wa = db_contact_messages w ++ [d']
         /\ d' !! "_id" = Some i
         /\ forall k, k <> "_id" ->
              d' !! k = (<["is_read" := VBool false]>
                           (<["created_at" := VDate (utcnow_at e (ticks w))]>
                              (contact_data contact request))) !! k.
Proof.
  intros H. unfold Routes.submit_contact_form in H.
  apply try_inv_ok in H; [ | apply internal_server_error_raises ].
  fold (contact_data contact request) in H.
  apply bind_inv_ok in H as (mid & wa & Hcreate & H).
  destruct (create_contact_message_cases (contact_data contact request) e w)
    as [(i & w' & Hrun & _ & _ & _ & d' & Hd') | (w' & Hrun & _)];
    rewrite Hrun in Hcreate; injection Hcreate as <- <-; simpl in H.
  2: { discriminate. }
  destruct (truthy_str (py_str i)); [ | discriminate ].
  apply bind_inv_ok in H as (ip & w2 & Hip & H).
  apply bind_inv_ok in H as (ua & w3 & Hua & H).
  pose proof (getitem_pure (contact_data contact request) "ip_address" e w') as P1.
  rewrite Hip in P1. simpl in P1. subst w2.
  pose proof (getitem_pure (contact_data contact request) "user_agent" e w') as P2.
  rewrite Hua in P2. simpl in P2. subst w3.
  apply bind_inv_ok in H as (b & w4 & Hev & H).
  injection H as <- <-.
  match type of Hev with
  | DatabaseManager.create_analytics_event ?ev _ _ = _ =>
      destruct (create_analytics_event_frame ev e w') as (b' & w5 & Hev' & Hframe)
  end.
  rewrite Hev' in Hev. injection Hev as <- <-.
  exists i, w'. split; [ exact Hrun | ]. split; [ reflexivity | ].
  split; [ reflexivity | ]. split.
  - apply (Hframe c_contact_messages). discriminate.
  - exists d'. exact Hd'.
Qed.

(** C9.  [create_contact_message] returns (it never raises); a document
    that it adds to the store has [is_read] false and [created_at] at the
    time of the call, whatever the dict holds under these keys, and the other
    fields of the dict; it adds the document whenever the insert does not
    fault (for a dict without [_id], as the handler builds it).  After a
    [POST /contact] that succeeds, a [GET /contact] whose query does not fault
    lists the message, with the id that the POST returned, the fields of the
    form and [is_read] false (the stored messages carry their [_id]). *)
Theorem contact_message_stored_unread :
  (forall message_data e w,
     exists r w',
       DatabaseManager.create_contact_message message_data e w = (Ok r, w')
       /\ (forall d, d ∈ db_contact_messages w' ->
           d ∈ db_contact_messages w
           \/ (d !! "is_read" = Some (VBool false)
               /\ d !! "created_at" = Some (VDate (utcnow_at e (ticks w)))
               /\ forall k, k <> "_id" -> k <> "is_read" -> k <> "created_at" ->
                    d !! k = message_data !! k))
       /\ (faults_at e (commands w) = false ->
           message_data !! "_id" = None ->
           exists d,
             r = Some (oid_str (next_oid w))
             /\ db_contact_messages w' = db_contact_messages w ++ [d]
             /\ d !! "_id" = Some (VOid (next_oid w))
             /\ d !! "is_read" = Some (VBool false)
             /\ d !! "created_at" = Some (VDate (utcnow_at e (ticks w)))))
  /\ (forall contact request e w r w1,
        Routes.submit_contact_form contact request e w = (Ok r, w1) ->
        Forall (fun d : doc => is_Some (d !! "_id")) (db_contact_messages w) ->
        faults_at e (commands w1) = false ->
        exists message_id msgs w2 m,
          Models.data r = Some {[ "message_id" := VStr message_id ]}
          /\ Routes.get_contact_messages e w1 = (Ok msgs, w2)
          /\ m ∈ msgs
          /\ m !! "_id" = Some (VStr message_id)
          /\ m !! "is_read" = Some (VBool false)
          /\ contact_fields contact m).
Proof.
  split.
  - intros message_data e w.
    destruct (create_contact_message_cases message_data e w)
      as [(i & w' & Hrun & Hf & Hi & Hother & d' & Hl & Hid & Hd')
         | (w' & Hrun & Hwhy & Hsame)].
    + exists (Some (py_str i)), w'. split; [ exact Hrun | ].
      assert (Hread : d' !! "is_read" = Some (VBool false)).
      { rewrite Hd' by discriminate. apply lookup_insert_eq. }
      assert (Hcreated : d' !! "created_at" = Some (VDate (utcnow_at e (ticks w)))).
      { rewrite Hd' by discriminate. rewrite lookup_insert_ne by discriminate.
        apply lookup_insert_eq. }
      split.
      * intros d Hd. change (db_contact_messages w') with (coll c_contact_messages w') in Hd.
        rewrite Hl in Hd. apply elem_of_app in Hd as [Hd | Hd]; [ left; exact Hd | right ].
        apply list_elem_of_singleton in Hd as ->.
        split; [ exact Hread | ]. split; [ exact Hcreated | ].
        intros k H1 H2 H3. rewrite Hd' by exact H1.
        rewrite !lookup_insert_ne by congruence. reflexivity.
      * intros _ Hno. exists d'. rewrite (Hi Hno) in *.
        split; [ reflexivity | ]. split; [ exact Hl | ]. auto.
    + exists None, w'. split; [ exact Hrun | ]. split.
      * intros d Hd. left.
        change (db_contact_messages w') with (coll c_contact_messages w') in Hd.
        rewrite Hsame in Hd. exact Hd.
      * intros Hf Hno. exfalso. destruct Hwhy as [Hf' | [v Hv]]; congruence.
  - intros contact request e w r w1 Hpost Hids Hf.
    apply submit_contact_form_inv in Hpost
      as (i & wa & _ & Hdata & _ & Hw1 & d' & Hwa & Hid & Hd').
    destruct (cursor_method_spec c_contact_messages ∅
                (Some ("created_at", DESCENDING)) None
                "Error getting contact messages: " e w1)
      as (msgs & w2 & Hrun & _ & _ & Hall).
    assert (Hin : d' ∈ coll c_contact_messages w1).
    { simpl. rewrite Hw1, Hwa. apply elem_of_app. right. apply list_elem_of_here. }
    assert (Hids1 : Forall (fun d : doc => is_Some (d !! "_id"))
                      (coll c_contact_messages w1)).
    { simpl. rewrite Hw1, Hwa. apply Forall_app. split; [ exact Hids | ].
      constructor; [ eauto | constructor ]. }
    specialize (Hall Hf Hids1). simpl apply_limit in Hall. simpl apply_sort in Hall.
    rewrite filter_Matches_empty in Hall.
    assert (Hin' : d' ∈ merge_sort (doc_le "created_at" DESCENDING)
                          (coll c_contact_messages w1)).
    { rewrite merge_sort_Permutation. exact Hin. }
    destruct (Forall2_elem_of_l _ _ _ _ Hall Hin') as (m & Hm & Hdm).
    exists (py_str i), msgs, w2, m. split; [ exact Hdata | ].
    split.
    { unfold Routes.get_contact_messages. apply try_ok. exact Hrun. }
    split; [ exact Hm | ].
    destruct (contact_data_fields contact request) as [(F1 & F2 & F3 & F4) _].
    split.
    { destruct Hdm as (i' & Hi' & ->). rewrite lookup_insert_eq. congruence. }
    split.
    { rewrite (stringified_lookup d' m "is_read" Hdm) by discriminate.
      rewrite Hd' by discriminate. apply lookup_insert_eq. }
    unfold contact_fields.
    rewrite !(stringified_lookup d' m _ Hdm) by discriminate.
    rewrite !Hd' by discriminate. rewrite !lookup_insert_ne by discriminate.
    auto.
Qed.

(** ** C5: the seeder *)

Lemma extends_refl w : extends w w.
Proof. intros c. exists []. rewrite app_nil_r. reflexivity. Qed.

Lemma extends_trans w1 w2 w3 : extends w1 w2 -> extends w2 w3 -> extends w1 w3.
Proof.
  intros H12 H23 c. destruct (H12 c) as [a Ha]. destruct (H23 c) as [b Hb].
  exists (a ++ b). rewrite Hb, Ha, app_assoc. reflexivity.
Qed.

Lemma same_docs_extends w w' : (forall c, coll c w' = coll c w) -> extends w w'.
Proof. intros H c. exists []. rewrite app_nil_r. apply H. Qed.

Lemma extends_keeping_profile_refl w : extends_keeping_profile w w.
Proof. split; [ reflexivity | apply extends_refl ]. Qed.

Lemma extends_keeping_profile_trans w1 w2 w3 :
  extends_keeping_profile w1 w2 -> extends_keeping_profile w2 w3 ->
  extends_keeping_profile w1 w3.
Proof.
  intros [P12 E12] [P23 E23]. split; [ congruence | eapply extends_trans; eassumption ].
Qed.

(** A method that stamps two times and inserts into [c]. *)
Lemma create_frame c text (data : doc) e w :
  c <> c_profile ->
  exists r w',
    try_except
      (now ← utcnow;
       let data := <["created_at" := VDate now]> data in
       now' ← utcnow;
       let data := <["updated_at" := VDate now']> data in
       inserted_id ← insert_one c data;
       mret (Some (py_str inserted_id)))
      (fun x => _ ← logger_error text (Some x); mret None) e w = (Ok r, w')
    /\ extends_keeping_profile w w'
    /\ (inserts w' <= S (inserts w))%nat.
Proof.
  intros Hc.
  set (w2 := set_ticks (S (ticks (set_ticks (S (ticks w)) w))) (set_ticks (S (ticks w)) w)).
  set (stamped := <["updated_at" := VDate (utcnow_at e (S (ticks w)))]>
                    (<["created_at" := VDate (utcnow_at e (ticks w))]> data)).
  destruct (insert_one_cases c stamped e w2)
    as [(i & w' & Hrun & _ & Hins & _ & _ & Htouch)
       | (x & w' & Hrun & _ & Hins & _ & _ & Hsame)].
  - exists (Some (py_str i)), w'. split.
    + apply try_ok. erewrite bind_ok; [ | reflexivity ].
      erewrite bind_ok; [ | reflexivity ]. fold stamped w2.
      erewrite bind_ok; [ | exact Hrun ]. reflexivity.
    + split; [ | rewrite Hins; simpl; lia ].
      destruct Htouch as [Hother (d' & Hown & Hd')]. split.
      * apply (Hother c_profile). congruence.
      * intros c'. destruct (decide (c' = c)) as [-> | Hne].
        -- exists [d']. exact Hown.
        -- exists []. rewrite app_nil_r. apply Hother. exact Hne.
  - eexists None, _. split.
    + erewrite try_raise;
        [ | erewrite bind_ok; [ | reflexivity ];
            erewrite bind_ok; [ | reflexivity ]; fold stamped w2;
            erewrite bind_raise; [ reflexivity | exact Hrun ] ].
      reflexivity.
    + split; [ | simpl; rewrite Hins; simpl; lia ].
      split; [ apply (Hsame c_profile) | ].
      apply same_docs_extends. intros c'. rewrite coll_add_log. apply Hsame.
Qed.

Lemma seed_project_frame project_data e w :
  is_Some (project_data !! "title") ->
  exists w',
    SeedData.seed_project project_data e w = (Ok tt, w')
    /\ extends_keeping_profile w w'.
Proof.
  intros [t Ht]. unfold SeedData.seed_project.
  destruct (create_frame c_projects "Error creating project: " project_data e w)
    as (r & w' & Hrun & Hext & _); [ discriminate | ].
  change (DatabaseManager.create_project project_data e w = (Ok r, w')) in Hrun.
  rewrite (bind_ok _ _ _ _ _ _ Hrun).
  destruct (negb (truthy_opt_str r)).
  - eexists. split.
    + erewrite bind_ok; [ | unfold getitem; rewrite Ht; reflexivity ]. reflexivity.
    + destruct Hext as [HP HE]. split; [ exact HP | ].
      intros c. rewrite coll_add_log. apply HE.
  - exists w'. split; [ reflexivity | exact Hext ].
Qed.

Lemma seed_visualization_frame viz_data e w :
  is_Some (viz_data !! "title") ->
  exists w',
    SeedData.seed_visualization viz_data e w = (Ok tt, w')
    /\ extends_keeping_profile w w'.
Proof.
  intros [t Ht]. unfold SeedData.seed_visualization.
  destruct (create_frame c_visualizations "Error creating visualization: " viz_data e w)
    as (r & w' & Hrun & Hext & _); [ discriminate | ].
  change (DatabaseManager.create_visualization viz_data e w = (Ok r, w')) in Hrun.
  rewrite (bind_ok _ _ _ _ _ _ Hrun).
  destruct (negb (truthy_opt_str r)).
  - eexists. split.
    + erewrite bind_ok; [ | unfold getitem; rewrite Ht; reflexivity ]. reflexivity.
    + destruct Hext as [HP HE]. split; [ exact HP | ].
      intros c. rewrite coll_add_log. apply HE.
  - exists w'. split; [ reflexivity | exact Hext ].
Qed.

Lemma for_each_frame {A B : Type} (f : A -> M B) (I : world -> world -> Prop)
    (l : list A) e w :
  (forall w0, I w0 w0) ->
  (forall w1 w2 w3, I w1 w2 -> I w2 w3 -> I w1 w3) ->
  Forall (fun x => forall w0, exists y w', f x e w0 = (Ok y, w') /\ I w0 w') l ->
  exists ys w', for_each f l e w = (Ok ys, w') /\ I w w'.
Proof.
  intros Hrefl Htrans H. revert w. induction H as [ | x l Hx _ IH ]; intros w.
  - exists [], w. split; [ reflexivity | apply Hrefl ].
  - destruct (Hx w) as (y & w1 & Hrun & HI).
    destruct (IH w1) as (ys & w2 & Hrun' & HI').
    exists (y :: ys), w2. split; [ | eapply Htrans; eassumption ].
    simpl. rewrite (bind_ok _ _ _ _ _ _ Hrun), (bind_ok _ _ _ _ _ _ Hrun').
    reflexivity.
Qed.

Lemma get_profile_none e w :
  db_profile w = [] ->
  faults_at e (commands w) = false ->
  DatabaseManager.get_profile e w = (Ok None, set_commands (S (commands w)) w).
Proof.
  intros Hempty Hf. unfold DatabaseManager.get_profile. apply try_ok.
  erewrite bind_ok; [ | apply find_one_run; exact Hf ].
  change (coll c_profile w) with (db_profile w). rewrite Hempty. reflexivity.
Qed.

Lemma get_profile_some e w ex rest i :
  db_profile w = ex :: rest ->
  ex !! "_id" = Some i ->
  faults_at e (commands w) = false ->
  DatabaseManager.get_profile e w
  = (Ok (Some (<["_id" := VStr (py_str i)]> ex)), set_commands (S (commands w)) w).
Proof.
  intros Hprofile Hid Hf. unfold DatabaseManager.get_profile. apply try_ok.
  erewrite bind_ok; [ | apply find_one_run; exact Hf ].
  change (coll c_profile w) with (db_profile w).
  rewrite Hprofile, filter_Matches_empty.
  change (head (ex :: rest)) with (Some ex). cbv beta iota.
  rewrite (truthy_doc_lookup ex "_id" i Hid).
  erewrite bind_ok; [ reflexivity | ].
  apply stringify_id_run. exists i. auto.
Qed.

(** A run of the seeder that finds a profile: nothing but the log line. *)
Lemma seed_skips e w ex rest i :
  db_profile w = ex :: rest ->
  ex !! "_id" = Some i ->
  faults_at e (commands w) = false ->
  exists w',
    SeedData.seed_initial_data e w = (Ok tt, w')
    /\ (forall c, coll c w' = coll c w)
    /\ inserts w' = inserts w
    /\ last (log w')
       = Some (LogRecord "INFO" "Profile already exists, skipping seed data" None).
Proof.
  intros Hprofile Hid Hf. eexists. split.
  - unfold SeedData.seed_initial_data. apply try_ok.
    erewrite bind_ok; [ | eapply get_profile_some; eassumption ].
    unfold truthy_opt_doc.
    rewrite (truthy_doc_lookup (<["_id" := VStr (py_str i)]> ex) "_id"
               (VStr (py_str i)) (lookup_insert_eq _ _ _)).
    reflexivity.
  - split; [ intros c; reflexivity | ]. split; [ reflexivity | ].
    simpl. apply last_snoc.
Qed.

Lemma seed_data_titles :
  Forall (fun d : doc => is_Some (d !! "title")) SeedData.projects_data
  /\ Forall (fun d : doc => is_Some (d !! "title")) SeedData.visualizations_data
  /\ SeedData.profile_data !! "_id" = None.
Proof.
  split; [ | split ].
  - apply (bool_decide_unpack _). vm_compute. exact I.
  - apply (bool_decide_unpack _). vm_compute. exact I.
  - vm_compute. reflexivity.
Qed.

(** A run of the seeder on a store without profile, when no command faults:
    one profile document is inserted, and no stored document is touched. *)
Lemma seed_fresh e w :
  db_profile w = [] ->
  (forall n, faults_at e n = false) ->
  exists w' p,
    SeedData.seed_initial_data e w = (Ok tt, w')
    /\ db_profile w' = [p]
    /\ is_Some (p !! "_id")
    /\ p !! "personal" = SeedData.profile_data !! "personal"
    /\ extends w w'.
Proof.
  intros Hempty Hf.
  set (w1 := set_commands (S (commands w)) w).
  destruct (create_or_update_profile_insert SeedData.profile_data e w1)
    as (w2 & p & Hrun & Hp & _ & _ & Hid & Hfields & _ & Hothers);
    [ exact Hempty | apply Hf | apply Hf | ].
  destruct seed_data_titles as (Hpt & Hvt & _).
  destruct (for_each_frame SeedData.seed_project extends_keeping_profile
              SeedData.projects_data e w2)
    as (ys & w3 & Hrun3 & HP3 & HE3);
    [ apply extends_keeping_profile_refl | apply extends_keeping_profile_trans | | ].
  { eapply Forall_impl; [ exact Hpt | ]. intros d Hd w0.
    destruct (seed_project_frame d e w0 Hd) as (w' & Hr & HI). eauto. }
  destruct (for_each_frame SeedData.seed_visualization extends_keeping_profile
              SeedData.visualizations_data e w3)
    as (zs & w4 & Hrun4 & HP4 & HE4);
    [ apply extends_keeping_profile_refl | apply extends_keeping_profile_trans | | ].
  { eapply Forall_impl; [ exact Hvt | ]. intros d Hd w0.
    destruct (seed_visualization_frame d e w0 Hd) as (w' & Hr & HI). eauto. }
  eexists _, p. split.
  - unfold SeedData.seed_initial_data. apply try_ok.
    erewrite bind_ok; [ | apply get_profile_none; [ exact Hempty | apply Hf ] ].
    unfold truthy_opt_doc. cbv beta iota. fold w1.
    erewrite bind_ok; [ | exact Hrun ]. change (negb true) with false. cbv beta iota.
    erewrite bind_ok; [ | exact Hrun3 ].
    erewrite bind_ok; [ | exact Hrun4 ].
    reflexivity.
  - simpl. split; [ congruence | ]. split; [ exact Hid | ].
    split; [ apply Hfields; discriminate | ].
    intros c. rewrite coll_add_log.
    eapply extends_trans; [ | exact HE4 ].
    eapply extends_trans; [ | exact HE3 ].
    intros c'. destruct (decide (c' = c_profile)) as [-> | Hne].
    + exists [p]. simpl. rewrite Hp, Hempty. reflexivity.
    + exists []. rewrite app_nil_r. rewrite Hothers by exact Hne. reflexivity.
Qed.

(** * The theorems at concrete inputs *)

Import Examples.

(** C1 at an id that no project has: both handlers answer 500. *)
Lemma not_modified_is_server_error_witness :
  (serve (Routes.update_project "0000000000000000000000ff" no_update) quiet seeded
   = server_error_response
   /\ serve (Routes.update_project "0000000000000000000000ff" no_update) quiet seeded
      <> not_found_response)
  /\ (serve (Routes.delete_project "0000000000000000000000ff") quiet seeded
      = server_error_response
      /\ serve (Routes.delete_project "0000000000000000000000ff") quiet seeded
         <> not_found_response).
Proof.
  split.
  - apply (proj1 (not_modified_is_server_error "0000000000000000000000ff"
                    no_update quiet seeded)).
    vm_compute. reflexivity.
  - apply (proj2 (not_modified_is_server_error "0000000000000000000000ff"
                    no_update quiet seeded)).
    vm_compute. reflexivity.
Defined.

Lemma head_default (l : list doc) :
  l <> [] -> head l = Some (default ∅ (head l)).
Proof. destruct l; [ contradiction | reflexivity ]. Qed.

Lemma list_find_head {A : Type} (P : A -> Prop) `{forall x, Decision (P x)}
    (l : list A) (x : A) :
  head l = Some x -> P x -> list_find P l = Some (0%nat, x).
Proof.
  destruct l as [ | y l ]; simpl; [ discriminate | ]. intros [= ->] HP.
  rewrite decide_True by exact HP. reflexivity.
Qed.

Lemma first_project_stored :
  head (db_projects seeded) = Some first_project
  /\ first_project !! "_id" = Some (VOid 2).
Proof.
  split; [ | vm_compute; reflexivity ].
  apply head_default. intros H. apply (f_equal length) in H. vm_compute in H.
  discriminate.
Qed.

(** C2 at the first seeded project, with data that it holds already. *)
Lemma update_project_true_iff_modified_witness :
  delete "_id" first_project ⊆ first_project
  /\ exists w',
       DatabaseManager.update_project "000000000000000000000002"
         (delete "_id" first_project) quiet seeded = (Ok true, w').
Proof.
  split; [ apply delete_subseteq | ].
  destruct (update_project_true_iff_modified "000000000000000000000002"
              (delete "_id" first_project) quiet seeded)
    as (b & w' & Hrun & _ & _ & _ & Htrue & _).
  exists w'. rewrite Hrun. f_equal. f_equal.
  destruct first_project_stored as [Hhead Hid].
  apply (Htrue 0%nat first_project).
  - exists 2%N. split; [ vm_compute; reflexivity | ].
    apply list_find_head; [ exact Hhead | ].
    apply Matches_singleton. rewrite Hid. apply field_matches_self.
  - reflexivity.
  - apply lookup_delete_eq.
  - vm_compute. discriminate.
Defined.

(** C2 as stated fails: the first seeded project is updated with exactly the
    fields that it holds, and the call returns [True]. *)
Lemma update_project_identical_data_counterexample :
  head (db_projects seeded) = Some first_project
  /\ first_project !! "_id" = Some (VOid 2)
  /\ delete "_id" first_project ⊆ first_project
  /\ fst (DatabaseManager.update_project "000000000000000000000002"
            (delete "_id" first_project) quiet seeded) = Ok true.
Proof.
  destruct first_project_stored as [Hhead Hid].
  split; [ exact Hhead | ]. split; [ exact Hid | ].
  split; [ apply delete_subseteq | vm_compute; reflexivity ].
Qed.

Lemma seeded_profile_stored :
  db_profile seeded = [ seeded_profile ]
  /\ seeded_profile !! "_id" = Some (VOid 1).
Proof.
  split; [ | vm_compute; reflexivity ].
  assert (H : length (db_profile seeded) = 1%nat) by (vm_compute; reflexivity).
  unfold seeded_profile. destruct (db_profile seeded) as [ | d [ | d' l ] ];
    try discriminate. reflexivity.
Qed.

(** C3 at the seeded store: the profile was created at 1001, and after
    [PUT /profile] its [created_at] is the 5000 of the request. *)
Lemma update_profile_overwrites_created_at_witness :
  seeded_profile !! "created_at" = Some (VDate 1001)
  /\ exists w' ex',
       Routes.update_profile other_profile quiet seeded
       = (Ok (Models.mkAPIResponse true "Profile updated successfully" None), w')
       /\ db_profile w' = [ex']
       /\ ex' !! "_id" = Some (VOid 1)
       /\ ex' !! "created_at" = Some (VDate 5000)
       /\ ex' !! "updated_at" = Some (VDate 1016).
Proof.
  split; [ vm_compute; reflexivity | ].
  destruct seeded_profile_stored as [Hprofile Hid].
  apply (update_profile_overwrites_created_at other_profile quiet seeded
           seeded_profile [] (VOid 1) Hprofile Hid); reflexivity.
Defined.

(** C4 on the empty store. *)
Lemma upsert_insert_stamps_witness :
  exists w' d,
    DatabaseManager.create_or_update_profile SeedData.profile_data quiet empty_world
    = (Ok true, w')
    /\ db_profile w' = [d]
    /\ d !! "updated_at" = Some (VDate 1000)
    /\ d !! "created_at" = Some (VDate 1001)
    /\ (d !! "created_at" = d !! "updated_at" <-> 1001 = 1000).
Proof.
  apply (upsert_insert_stamps SeedData.profile_data quiet empty_world); reflexivity.
Defined.

(** C4 as stated fails: on the empty store, with a clock that advances, the
    inserted profile has [created_at] after [updated_at]. *)
Lemma upsert_insert_counterexample :
  db_profile empty_world = []
  /\ fst (DatabaseManager.create_or_update_profile
            SeedData.profile_data quiet empty_world) = Ok true
  /\ (fun d : doc => (d !! "created_at", d !! "updated_at"))
      <$> db_profile (snd (DatabaseManager.create_or_update_profile
                             SeedData.profile_data quiet empty_world))
      = [ (Some (VDate 1001), Some (VDate 1000)) ]
  /\ ~ Forall (fun d : doc => d !! "created_at" = d !! "updated_at")
        (db_profile (snd (DatabaseManager.create_or_update_profile
                            SeedData.profile_data quiet empty_world))).
Proof.
  split; [ reflexivity | ].
  split; [ vm_compute; reflexivity | ].
  split; [ vm_compute; reflexivity | ].
  apply (bool_decide_eq_false_1 _). vm_compute. reflexivity.
Qed.

(** C5 as stated fails.  The seeder runs twice on a new store; the one
    command that faults is the read of [get_profile] in the second run, which
    therefore reports no profile: the second run inserts the four projects
    and the three visualizations again and writes the profile anew.  In the
    same way a profile that [PUT /profile] has changed is overwritten with
    the default one. *)
Lemma seeder_second_run_counterexample :
  (fst (SeedData.seed_initial_data (faulting_at 10) empty_world) = Ok tt
   /\ commands seeded_once = 10%nat
   /\ inserts seeded_once = 8%nat
   /\ length (db_profile seeded_once) = 1%nat
   /\ length (db_projects seeded_once) = 4%nat
   /\ fst (SeedData.seed_initial_data (faulting_at 10) seeded_once) = Ok tt
   /\ inserts seeded_again = 15%nat
   /\ length (db_projects seeded_again) = 8%nat
   /\ length (db_visualizations seeded_again) = 6%nat
   /\ (fun d : doc => d !! "updated_at") <$> db_profile seeded_once
      = [ Some (VDate 1000) ]
   /\ (fun d : doc => d !! "updated_at") <$> db_profile seeded_again
      = [ Some (VDate 1016) ])
  /\ (commands profile_put = 12%nat
      /\ (fun d : doc => d !! "personal") <$> db_profile profile_put
         = [ Some (Models.PersonalInfo_dict (Models.personal other_profile)) ]
      /\ fst (SeedData.seed_initial_data (faulting_at 12) profile_put) = Ok tt
      /\ (fun d : doc => d !! "personal") <$> db_profile put_then_seeded
         = [ SeedData.profile_data !! "personal" ]
      /\ SeedData.profile_data !! "personal"
         <> Some (Models.PersonalInfo_dict (Models.personal other_profile))
      /\ inserts put_then_seeded = (inserts profile_put + 7)%nat).
Proof.
  split.
  - repeat split; vm_compute; reflexivity.
  - repeat split; try (vm_compute; reflexivity). vm_compute. discriminate.
Qed.

(** C6 with a store of which every command faults. *)
Lemma reads_degrade_on_fault_witness :
  fst (DatabaseManager.get_profile down seeded) = Ok None
  /\ fst (DatabaseManager.get_projects None down seeded) = Ok []
  /\ fst (DatabaseManager.get_contact_messages down seeded) = Ok []
  /\ fst (DatabaseManager.get_visualizations down seeded) = Ok []
  /\ fst (DatabaseManager.get_analytics_stats down seeded) = Ok zero_stats.
Proof.
  destruct (reads_degrade_on_fault down seeded)
    as ((r1 & w1 & E1 & H1) & H2 & (r3 & w3 & E3 & H3) & (r4 & w4 & E4 & H4)
        & (r5 & w5 & E5 & H5)).
  destruct (H2 None) as (r2 & w2 & E2 & H2').
  rewrite E1, E2, E3, E4, E5. simpl.
  rewrite (H1 eq_refl), (H2' eq_refl), (H3 eq_refl), (H4 eq_refl).
  rewrite (H5 0%nat); [ repeat split | lia | reflexivity ].
Defined.

(** C7 after three visits and a download. *)
Lemma analytics_stats_recent_and_top_witness :
  exists s w',
    DatabaseManager.get_analytics_stats quiet visited = (Ok s, w')
    /\ stats_spec visited s
    /\ stats_bounds visited s.
Proof.
  destruct (analytics_stats_recent_and_top quiet visited)
    as (s & w' & Hrun & Hbounds & _ & Hspec & _).
  exists s, w'. split; [ exact Hrun | ]. split; [ | exact Hbounds ].
  apply Hspec.
  - intros k _. reflexivity.
  - apply (bool_decide_unpack _). vm_compute. exact I.
Defined.

(** C7 as stated fails: of three visits, one posted without page, one of the
    empty page and one of "/", the pipeline makes three groups (null, the
    empty string and "/"), and each is listed in [top_pages] as "/" with one
    visit: the pages listed are not distinct, and no entry counts the three
    visits of "/".  In [recent_visits] the visit posted without page is
    listed with a null page, not with "/". *)
Lemma analytics_top_pages_counterexample :
  is_ok (fst (DatabaseManager.get_analytics_stats quiet home_visits)) = true
  /\ (fun v : doc => v !! "page") <$> visits home_visits
     = [ Some VNone; Some (VStr ""); Some (VStr "/") ]
  /\ (fun p : doc => (p !! "page", p !! "visits"))
       <$> DatabaseManager.top_pages
             (returned_stats (fst (DatabaseManager.get_analytics_stats quiet home_visits)))
     = [ (Some (VStr "/"), Some (VInt 1)); (Some (VStr "/"), Some (VInt 1));
         (Some (VStr "/"), Some (VInt 1)) ]
  /\ ~ NoDup ((fun p : doc => p !! "page")
                <$> DatabaseManager.top_pages
                      (returned_stats
                         (fst (DatabaseManager.get_analytics_stats quiet home_visits))))
  /\ (fun v : doc => v !! "page")
       <$> DatabaseManager.recent_visits
             (returned_stats (fst (DatabaseManager.get_analytics_stats quiet home_visits)))
     = [ Some (VStr "/"); Some (VStr ""); Some VNone ].
Proof.
  split; [ vm_compute; reflexivity | ].
  split; [ vm_compute; reflexivity | ].
  split; [ vm_compute; reflexivity | ].
  split; [ | vm_compute; reflexivity ].
  apply (bool_decide_eq_false_1 _). vm_compute. reflexivity.
Qed.

Lemma no_array_types_check (l : list doc) :
  forallb (fun d : doc =>
             match d !! "type" with Some (VList _) => false | _ => true end) l
  = true ->
  Forall (fun d : doc => forall a, d !! "type" <> Some (VList a)) l.
Proof.
  induction l as [ | d l IH ]; simpl; intros H; constructor.
  - intros a Ha. rewrite Ha in H. discriminate.
  - apply IH. destruct (d !! "type") as [ [ ] | ]; try exact H. discriminate.
Qed.

(** C8 on the seeded store, with the filter "Academic Project". *)
Lemma get_projects_filtered_sorted_witness :
  exists r w',
    DatabaseManager.get_projects (Some "Academic Project") quiet seeded = (Ok r, w')
    /\ StronglySorted (doc_le "display_order" ASCENDING) r
    /\ Forall (fun p : doc => p !! "type" = Some (VStr "Academic Project")) r
    /\ length r = 2%nat.
Proof.
  destruct (get_projects_filtered_sorted (Some "Academic Project") quiet seeded)
    as (r & w' & Hrun & HS & _ & Hfilter).
  exists r, w'. split; [ exact Hrun | ]. split; [ exact HS | ].
  destruct (Hfilter "Academic Project" eq_refl) as (Hall & _ & Hcomplete).
  - discriminate.
  - apply no_array_types_check. vm_compute. reflexivity.
  - split; [ exact Hall | ].
    destruct Hcomplete as (cur & Hperm & Hcur).
    + reflexivity.
    + apply (bool_decide_unpack _). vm_compute. exact I.
    + rewrite <- (Forall2_length _ _ _ Hcur), (Permutation_length Hperm).
      vm_compute. reflexivity.
Defined.

(** C8 as stated fails for the empty string as filter: the call returns the
    four seeded projects, none of which has the empty string as type. *)
Lemma get_projects_empty_filter_counterexample :
  is_ok (fst (DatabaseManager.get_projects (Some "") quiet seeded)) = true
  /\ (fun p : doc => p !! "type")
      <$> returned (fst (DatabaseManager.get_projects (Some "") quiet seeded))
      = [ Some (VStr "Professional Project"); Some (VStr "Professional Project");
          Some (VStr "Academic Project"); Some (VStr "Academic Project") ]
  /\ ~ Forall (fun p : doc => p !! "type" = Some (VStr ""))
        (returned (fst (DatabaseManager.get_projects (Some "") quiet seeded))).
Proof.
  split; [ vm_compute; reflexivity | ].
  split; [ vm_compute; reflexivity | ].
  apply (bool_decide_eq_false_1 _). vm_compute. reflexivity.
Qed.

(** C9: a dict with [is_read] true is stored with [is_read] false, and the
    message of a POST is listed by the GET that follows. *)
Lemma contact_message_stored_unread_witness :
  (exists d w',
     DatabaseManager.create_contact_message read_message quiet seeded
     = (Ok (Some "000000000000000000000009"), w')
     /\ db_contact_messages w' = db_contact_messages seeded ++ [d]
     /\ d !! "is_read" = Some (VBool false)
     /\ d !! "created_at" = Some (VDate 1016))
  /\ (exists message_id msgs w2 m,
        Routes.get_contact_messages quiet
          (snd (Routes.submit_contact_form john_doe plain_request quiet seeded))
        = (Ok msgs, w2)
        /\ m ∈ msgs
        /\ m !! "_id" = Some (VStr message_id)
        /\ m !! "is_read" = Some (VBool false)
        /\ contact_fields john_doe m).
Proof.
  destruct contact_message_stored_unread as [HA HB]. split.
  - destruct (HA read_message quiet seeded) as (r & w' & Hrun & _ & Hok).
    destruct Hok as (d & -> & Hl & _ & Hread & Hcreated);
      [ reflexivity | vm_compute; reflexivity | ].
    exists d, w'. auto.
  - destruct (Routes.submit_contact_form john_doe plain_request quiet seeded)
      as [r w1] eqn:Hpost.
    assert (Hr : exists a, r = Ok a).
    { apply (f_equal fst) in Hpost. vm_compute in Hpost. rewrite <- Hpost. eauto. }
    destruct Hr as [a ->].
    destruct (HB john_doe plain_request quiet seeded a w1 Hpost)
      as (message_id & msgs & w2 & m & _ & Hget & Hm);
      [ constructor | reflexivity | ].
    exists message_id, msgs, w2, m. split; [ exact Hget | exact Hm ].
Defined.

(** C10 on the seeded store. *)
Lemma empty_filter_is_no_filter_witness :
  DatabaseManager.get_projects (Some "") quiet seeded
  = DatabaseManager.get_projects None quiet seeded
  /\ exists r w' cur,
       DatabaseManager.get_projects (Some "") quiet seeded = (Ok r, w')
       /\ cur ≡ₚ db_projects seeded
       /\ Forall2 stringified cur r.
Proof.
  destruct (empty_filter_is_no_filter quiet seeded) as [Heq Hall].
  split; [ exact Heq | ]. apply Hall.
  - reflexivity.
  - apply (bool_decide_unpack _). vm_compute. exact I.
Defined.

(** * Further properties of the gateway, the seeder and the handlers *)

(** ** No method of the gateway raises *)

Lemma degrade_returns {A : Type} (body : M A) (text : string) (dflt : A) e w :
  is_ok (fst (try_except body (degrade text dflt) e w)) = true.
Proof.
  destruct (try_degrade body text dflt e w)
    as [(a & w' & _ & ->) | (x & w' & _ & ->)]; reflexivity.
Qed.

(** X1.  No method of the gateway raises to its caller, whatever its
    arguments, the documents of the store and the commands that fault: the
    writes as well as the reads return. *)
Theorem gateway_never_raises (c : call) e w : fst (run_call c e w) = true.
Proof. destruct c; apply degrade_returns. Qed.

(** ** Relations that every step of a computation keeps *)

Lemma unobserved_refl w : unobserved w w.
Proof. repeat split. Qed.

Lemma unobserved_trans w1 w2 w3 : unobserved w1 w2 -> unobserved w2 w3 -> unobserved w1 w3.
Proof.
  intros (H1 & H2 & H3 & H4) (K1 & K2 & K3 & K4).
  split; [ intros c; rewrite K1; apply H1 | ].
  split; [ congruence | ]. split; congruence.
Qed.

#[global] Instance unobserved_frame : Frame unobserved.
Proof. split; [ exact unobserved_trans | auto ]. Qed.

Section Frames.
Context (R : relation world) `{!Frame R}.

Lemma frame_refl w : R w w.
Proof. apply frame_unobserved, unobserved_refl. Qed.

Lemma frame_commands n w : R w (set_commands n w).
Proof. apply frame_unobserved. repeat split. Qed.

Lemma frame_log r w : R w (add_log r w).
Proof. apply frame_unobserved. repeat split. Qed.

Lemma preserves_ret {A : Type} (a : A) : preserves R (mret a).
Proof. intros e w. apply frame_refl. Qed.

Lemma preserves_raise {A : Type} (x : exn) : preserves R (@raise A x).
Proof. intros e w. apply frame_refl. Qed.

Lemma preserves_bind {A B : Type} (m : M A) (f : A -> M B) :
  preserves R m -> (forall a, preserves R (f a)) -> preserves R (m ≫= f).
Proof.
  intros Hm Hf e w. specialize (Hm e w).
  unfold mbind, M_bind. destruct (m e w) as [[a | x] w1]; simpl in *.
  - eapply frame_trans; [ exact Hm | apply Hf ].
  - exact Hm.
Qed.

Lemma preserves_try {A : Type} (body : M A) (h : exn -> M A) :
  preserves R body -> (forall x, preserves R (h x)) -> preserves R (try_except body h).
Proof.
  intros Hm Hh e w. specialize (Hm e w).
  unfold try_except. destruct (body e w) as [[a | x] w1]; simpl in *.
  - exact Hm.
  - eapply frame_trans; [ exact Hm | apply Hh ].
Qed.

Lemma preserves_command {A : Type} (run : world -> result A * world) :
  (forall w, R w (snd (run w))) -> preserves R (command run).
Proof.
  intros Hrun e w. unfold command.
  destruct (faults_at e (commands w)); simpl.
  - apply frame_commands.
  - eapply frame_trans; [ apply frame_commands | apply Hrun ].
Qed.

Lemma preserves_logger_error text cause : preserves R (logger_error text cause).
Proof. intros e w. apply frame_log. Qed.

Lemma preserves_logger_info text : preserves R (logger_info text).
Proof. intros e w. apply frame_log. Qed.

Lemma preserves_getitem d k : preserves R (getitem d k).
Proof. intros e w. rewrite getitem_pure. apply frame_refl. Qed.

Lemma preserves_object_id s : preserves R (object_id s).
Proof. unfold object_id. destruct (ObjectId s); [ apply preserves_ret | apply preserves_raise ]. Qed.

Lemma preserves_utcnow `{!FrameClock R} : preserves R utcnow.
Proof. intros e w. apply frame_clock. Qed.

Lemma preserves_for_each {A B : Type} (f : A -> M B) (l : list A) :
  (forall x, preserves R (f x)) -> preserves R (for_each f l).
Proof.
  intros Hf. induction l as [ | x l IH ]; simpl.
  - apply preserves_ret.
  - apply preserves_bind; [ apply Hf | intros y ].
    apply preserves_bind; [ exact IH | intros ys; apply preserves_ret ].
Qed.

Lemma preserves_find_one c q : preserves R (find_one c q).
Proof. apply preserves_command. intros w. apply frame_refl. Qed.

Lemma preserves_find c q s n : preserves R (find c q s n).
Proof. apply preserves_command. intros w. apply frame_refl. Qed.

Lemma preserves_count_documents c q : preserves R (count_documents c q).
Proof. apply preserves_command. intros w. apply frame_refl. Qed.

Lemma preserves_aggregate c p : preserves R (aggregate c p).
Proof. apply preserves_command. intros w. apply frame_refl. Qed.

Lemma preserves_stringify_id d : preserves R (stringify_id d).
Proof. intros e w. rewrite stringify_id_pure. apply frame_refl. Qed.

Lemma preserves_internal_server_error {A : Type} text x :
  preserves R (@Routes.internal_server_error A text x).
Proof.
  apply preserves_bind; [ apply preserves_logger_error | intros _; apply preserves_raise ].
Qed.

End Frames.

(** One step of a proof that a computation keeps a relation: the
    combinators, and the commands that read. *)
Ltac preserving_step :=
  first
    [ apply preserves_ret; exact _ | apply preserves_raise; exact _
    | apply preserves_logger_error; exact _ | apply preserves_logger_info; exact _
    | apply preserves_getitem; exact _ | apply preserves_object_id; exact _
    | apply preserves_utcnow; exact _ | apply preserves_stringify_id; exact _
    | apply preserves_find_one; exact _ | apply preserves_find; exact _
    | apply preserves_count_documents; exact _ | apply preserves_aggregate; exact _
    | apply preserves_internal_server_error; exact _
    | apply preserves_for_each; [ exact _ | intros ? ]
    | apply preserves_try; [ exact _ | | intros ? ]
    | apply preserves_bind; [ exact _ | | intros ? ]
    | match goal with
      | |- preserves _ (match ?o with _ => _ end) => destruct o
      end ].

Ltac preserving := repeat preserving_step.

(** ** The reads change nothing *)

Lemma get_profile_preserves R `{!Frame R} : preserves R DatabaseManager.get_profile.
Proof. unfold DatabaseManager.get_profile. preserving. Qed.

Lemma get_projects_preserves R `{!Frame R} t : preserves R (DatabaseManager.get_projects t).
Proof. unfold DatabaseManager.get_projects. preserving. Qed.

Lemma get_contact_messages_preserves R `{!Frame R} :
  preserves R DatabaseManager.get_contact_messages.
Proof. unfold DatabaseManager.get_contact_messages. preserving. Qed.

Lemma get_visualizations_preserves R `{!Frame R} :
  preserves R DatabaseManager.get_visualizations.
Proof. unfold DatabaseManager.get_visualizations. preserving. Qed.

Lemma get_analytics_stats_preserves R `{!Frame R} :
  preserves R DatabaseManager.get_analytics_stats.
Proof.
  unfold DatabaseManager.get_analytics_stats, DatabaseManager.recent_visit,
    DatabaseManager.top_page.
  preserving.
Qed.

(** X2.  A read of the gateway changes no document and inserts none, takes
    no ObjectId and does not read the clock, whether it returns what it
    found or degrades to its default: it only counts its commands and
    writes to the log. *)
Theorem reads_change_nothing (c : call) e w :
  read_only c = true -> unobserved w (snd (run_call c e w)).
Proof.
  destruct c; try discriminate; intros _; simpl.
  - apply get_profile_preserves; apply _.
  - apply get_projects_preserves; apply _.
  - apply get_contact_messages_preserves; apply _.
  - apply get_analytics_stats_preserves; apply _.
  - apply get_visualizations_preserves; apply _.
Qed.

(** X2 on the seeded store, for the list of all projects. *)
Lemma reads_change_nothing_witness :
  read_only (Get_projects None) = true
  /\ unobserved seeded (snd (run_call (Get_projects None) quiet seeded)).
Proof.
  split; [ reflexivity | ]. apply reads_change_nothing. reflexivity.
Defined.

(** ** Dicts without [_id] *)

Lemma dict_lookup_None (l : list (string * value)) (k : string) :
  Forall (fun kv => fst kv <> k) l -> dict l !! k = None.
Proof.
  unfold dict. generalize (lookup_empty (A := value) k).
  generalize (∅ : doc). induction l as [ | [k' v] l IH ]; intros m Hm Hl; simpl.
  - exact Hm.
  - apply Forall_cons in Hl as [Hk Hl]. apply IH; [ | exact Hl ].
    rewrite lookup_insert_ne by exact Hk. exact Hm.
Qed.

Lemma ProjectCreate_dict_no_id (p : Models.ProjectCreate) :
  Models.ProjectCreate_dict p !! "_id" = None.
Proof.
  apply dict_lookup_None. repeat (constructor; [ discriminate | ]). constructor.
Qed.

Lemma AnalyticsCreate_dict_no_id (a : Models.AnalyticsCreate) :
  Models.AnalyticsCreate_dict a !! "_id" = None.
Proof.
  apply dict_lookup_None. repeat (constructor; [ discriminate | ]). constructor.
Qed.

Lemma seed_data_no_id :
  Forall (fun d : doc => d !! "_id" = None) SeedData.projects_data
  /\ Forall (fun d : doc => d !! "_id" = None) SeedData.visualizations_data.
Proof.
  split; apply (bool_decide_unpack _); vm_compute; exact I.
Qed.

(** ** What every method, the seeder and every handler keep *)

Lemma preserves_for_each_Forall R `{!Frame R} {A B : Type} (f : A -> M B) (l : list A) :
  Forall (fun x => preserves R (f x)) l -> preserves R (for_each f l).
Proof.
  induction 1 as [ | x l Hx _ IH ]; simpl.
  - apply preserves_ret; exact _.
  - apply preserves_bind; [ exact _ | exact Hx | intros y ].
    apply preserves_bind; [ exact _ | exact IH | intros ys; apply preserves_ret; exact _ ].
Qed.

Section Writes.
Context (R : relation world) `{!Frame R, !FrameClock R}.
Hypothesis R_insert : forall c (d : doc),
  c <> c_profile -> d !! "_id" = None -> preserves R (insert_one c d).
Hypothesis R_profile : forall d : doc,
  d !! "_id" = None -> preserves R (DatabaseManager.create_or_update_profile d).
Hypothesis R_update_project : forall q upd, preserves R (update_one_set c_projects q upd).
Hypothesis R_delete_project : forall q, preserves R (delete_one c_projects q).
Hypothesis R_mark : forall q,
  preserves R (update_one_set c_contact_messages q {[ "is_read" := VBool true ]}).

Lemma create_project_preserves (d : doc) :
  d !! "_id" = None -> preserves R (DatabaseManager.create_project d).
Proof.
  intros Hd. unfold DatabaseManager.create_project. preserving.
  apply R_insert; [ discriminate | ].
  rewrite !lookup_insert_ne by discriminate. exact Hd.
Qed.

Lemma create_visualization_preserves (d : doc) :
  d !! "_id" = None -> preserves R (DatabaseManager.create_visualization d).
Proof.
  intros Hd. unfold DatabaseManager.create_visualization. preserving.
  apply R_insert; [ discriminate | ].
  rewrite !lookup_insert_ne by discriminate. exact Hd.
Qed.

Lemma create_contact_message_preserves (d : doc) :
  d !! "_id" = None -> preserves R (DatabaseManager.create_contact_message d).
Proof.
  intros Hd. unfold DatabaseManager.create_contact_message. preserving.
  apply R_insert; [ discriminate | ].
  rewrite !lookup_insert_ne by discriminate. exact Hd.
Qed.

Lemma create_analytics_event_preserves (d : doc) :
  d !! "_id" = None -> preserves R (DatabaseManager.create_analytics_event d).
Proof.
  intros Hd. unfold DatabaseManager.create_analytics_event. preserving.
  apply R_insert; [ discriminate | ].
  rewrite !lookup_insert_ne by discriminate. exact Hd.
Qed.

Lemma update_project_preserves i (d : doc) :
  preserves R (DatabaseManager.update_project i d).
Proof. unfold DatabaseManager.update_project. preserving. apply R_update_project. Qed.

Lemma delete_project_preserves i : preserves R (DatabaseManager.delete_project i).
Proof. unfold DatabaseManager.delete_project. preserving. apply R_delete_project. Qed.

Lemma mark_message_read_preserves i : preserves R (DatabaseManager.mark_message_read i).
Proof. unfold DatabaseManager.mark_message_read. preserving. apply R_mark. Qed.

Lemma run_call_preserves (c : call) e w : no_id c -> R w (snd (run_call c e w)).
Proof.
  destruct c; simpl; intros Hc.
  - apply get_profile_preserves; exact _.
  - apply R_profile, Hc.
  - apply get_projects_preserves; exact _.
  - apply create_project_preserves, Hc.
  - apply update_project_preserves.
  - apply delete_project_preserves.
  - apply create_contact_message_preserves, Hc.
  - apply get_contact_messages_preserves; exact _.
  - apply mark_message_read_preserves.
  - apply create_analytics_event_preserves, Hc.
  - apply get_analytics_stats_preserves; exact _.
  - apply get_visualizations_preserves; exact _.
  - apply create_visualization_preserves, Hc.
Qed.

Lemma seed_initial_data_preserves : preserves R SeedData.seed_initial_data.
Proof.
  unfold SeedData.seed_initial_data.
  apply preserves_try; [ exact _ | | intros x; preserving ].
  apply preserves_bind; [ exact _ | apply get_profile_preserves; exact _ | intros p ].
  destruct (truthy_opt_doc p); [ preserving | ].
  apply preserves_bind;
    [ exact _ | apply R_profile, seed_data_titles | intros success ].
  destruct (negb success); [ preserving | ].
  apply preserves_bind; [ exact _ | | intros _ ].
  { apply preserves_for_each_Forall; [ exact _ | ].
    eapply Forall_impl; [ apply seed_data_no_id | ].
    intros d Hd. unfold SeedData.seed_project.
    apply preserves_bind; [ exact _ | apply create_project_preserves, Hd | intros i ].
    preserving. }
  apply preserves_bind; [ exact _ | | intros _; preserving ].
  apply preserves_for_each_Forall; [ exact _ | ].
  eapply Forall_impl; [ apply seed_data_no_id | ].
  intros d Hd. unfold SeedData.seed_visualization.
  apply preserves_bind; [ exact _ | apply create_visualization_preserves, Hd | intros i ].
  preserving.
Qed.

Lemma handle_preserves (r : api_call) e w : R w (snd (handle r e w)).
Proof.
  destruct r; simpl.
  - unfold Routes.get_profile.
    apply preserves_try; [ exact _ | | intros x; preserving ].
    apply preserves_bind; [ exact _ | apply get_profile_preserves; exact _ | intros p ].
    apply preserves_bind; [ exact _ | | intros p'; preserving ].
    destruct (negb (truthy_opt_doc p)); [ | preserving ].
    apply preserves_bind;
      [ exact _ | apply seed_initial_data_preserves
      | intros _; apply get_profile_preserves; exact _ ].
  - unfold Routes.update_profile.
    apply preserves_try; [ exact _ | | intros x; preserving ].
    apply preserves_bind;
      [ exact _ | apply R_profile, Profile_dict_no_id | intros b; preserving ].
  - unfold Routes.get_projects.
    apply preserves_try;
      [ exact _ | apply get_projects_preserves; exact _ | intros x; preserving ].
  - unfold Routes.create_project.
    apply preserves_try; [ exact _ | | intros x; preserving ].
    apply preserves_bind;
      [ exact _ | apply create_project_preserves, ProjectCreate_dict_no_id
      | intros b; preserving ].
  - unfold Routes.update_project.
    apply preserves_try; [ exact _ | | intros x; preserving ].
    apply preserves_bind;
      [ exact _ | apply update_project_preserves | intros b; preserving ].
  - unfold Routes.delete_project.
    apply preserves_try; [ exact _ | | intros x; preserving ].
    apply preserves_bind;
      [ exact _ | apply delete_project_preserves | intros b; preserving ].
  - unfold Routes.submit_contact_form.
    apply preserves_try; [ exact _ | | intros x; preserving ].
    apply preserves_bind;
      [ exact _
      | apply create_contact_message_preserves, (contact_data_fields contact request)
      | intros i ].
    destruct (truthy_opt_str i); [ | preserving ].
    apply preserves_bind; [ exact _ | preserving | intros ip ].
    apply preserves_bind; [ exact _ | preserving | intros ua ].
    apply preserves_bind; [ exact _ | | intros b; preserving ].
    apply create_analytics_event_preserves, dict_lookup_None.
    repeat (constructor; [ discriminate | ]). constructor.
  - unfold Routes.get_contact_messages.
    apply preserves_try;
      [ exact _ | apply get_contact_messages_preserves; exact _ | intros x; preserving ].
  - unfold Routes.mark_message_read.
    apply preserves_try; [ exact _ | | intros x; preserving ].
    apply preserves_bind;
      [ exact _ | apply mark_message_read_preserves | intros b; preserving ].
  - unfold Routes.log_visit.
    apply preserves_try; [ exact _ | | intros x; preserving ].
    apply preserves_bind; [ exact _ | | intros b; preserving ].
    apply create_analytics_event_preserves.
    rewrite !lookup_insert_ne by discriminate. apply AnalyticsCreate_dict_no_id.
  - unfold Routes.log_download.
    apply preserves_try; [ exact _ | | intros x; preserving ].
    apply preserves_bind; [ exact _ | | intros b; preserving ].
    apply create_analytics_event_preserves, dict_lookup_None.
    repeat (constructor; [ discriminate | ]). constructor.
  - unfold Routes.get_analytics_stats.
    apply preserves_try;
      [ exact _ | apply get_analytics_stats_preserves; exact _ | intros x; preserving ].
  - unfold Routes.download_resume.
    apply preserves_try; [ exact _ | | intros x; preserving ].
    apply preserves_bind; [ exact _ | | intros b; preserving ].
    apply create_analytics_event_preserves, dict_lookup_None.
    repeat (constructor; [ discriminate | ]). constructor.
  - unfold Routes.get_visualizations.
    apply preserves_try;
      [ exact _ | apply get_visualizations_preserves; exact _ | intros x; preserving ].
Qed.

Lemma serve_all_preserves (rs : list api_call) e w : R w (serve_all rs e w).
Proof.
  unfold serve_all. revert w. induction rs as [ | r rs IH ]; intros w; simpl.
  - apply frame_refl; exact _.
  - eapply frame_trans; [ apply handle_preserves | apply IH ].
Qed.

End Writes.

(** ** Well-formed stores *)

Lemma has_oid_below_mono (n m : N) (d : doc) :
  (n <= m)%N -> has_oid_below n d -> has_oid_below m d.
Proof.
  unfold has_oid_below. destruct (d !! "_id") as [ [ ] | ]; try tauto. lia.
Qed.

Lemma has_oid_below_lookup (n : N) (d : doc) :
  has_oid_below n d <-> exists o, d !! "_id" = Some (VOid o) /\ (o < n)%N.
Proof.
  unfold has_oid_below. split.
  - destruct (d !! "_id") as [ [ ] | ]; try tauto. intros H. eexists. split; [ reflexivity | exact H ].
  - intros (o & -> & H). exact H.
Qed.

Lemma coll_set_coll c c' l w :
  coll c' (set_coll c l w) = if decide (c' = c) then l else coll c' w.
Proof. destruct c, c'; reflexivity. Qed.

Lemma well_formed_unobserved w w' :
  (forall c, coll c w' = coll c w) -> next_oid w' = next_oid w ->
  well_formed w -> well_formed w'.
Proof. intros Hc Hn Hwf c. rewrite Hc, Hn. exact (Hwf c). Qed.

#[global] Instance keeps_well_formed_frame : Frame (keeps well_formed).
Proof.
  split.
  - intros w1 w2 w3 H12 H23 H. apply H23, H12, H.
  - intros w w' (Hc & Hn & _ & _). exact (well_formed_unobserved w w' Hc Hn).
Qed.

#[global] Instance keeps_well_formed_clock : FrameClock (keeps well_formed).
Proof. intros n w H. exact H. Qed.

Lemma union_keeps_id (upd d : doc) :
  ~ changes_id upd d -> (upd ∪ d) !! "_id" = d !! "_id".
Proof.
  unfold changes_id. intros H. rewrite lookup_union.
  destruct (upd !! "_id") as [i | ] eqn:Hi.
  - destruct (decide (d !! "_id" = Some i)) as [-> | Hne]; [ reflexivity | contradiction ].
  - destruct (d !! "_id"); reflexivity.
Qed.

Lemma ids_insert (l : list doc) i (d d' : doc) :
  l !! i = Some d -> d' !! "_id" = d !! "_id" -> ids (<[i := d']> l) = ids l.
Proof.
  intros Hi Hd. unfold ids. rewrite list_fmap_insert, Hd.
  apply list_insert_id. rewrite list_lookup_fmap, Hi. reflexivity.
Qed.

Lemma ids_fresh (n : N) (l : list doc) :
  Forall (has_oid_below n) l -> Some (VOid n) ∉ ids l.
Proof.
  intros Hl Hin. unfold ids in Hin. apply list_elem_of_fmap in Hin as (d & Hd & Hdl).
  rewrite Forall_forall in Hl. specialize (Hl d Hdl).
  apply has_oid_below_lookup in Hl as (o & Ho & Hlt).
  rewrite Ho in Hd. injection Hd as ->. lia.
Qed.

Lemma insert_one_keeps_well_formed c (d : doc) :
  d !! "_id" = None -> preserves (keeps well_formed) (insert_one c d).
Proof.
  intros Hd. apply preserves_command; [ exact _ | ]. intros w Hwf.
  rewrite Hd. simpl. intros c'.
  rewrite coll_set_inserts, coll_set_next_oid, coll_set_coll.
  change (next_oid (set_inserts _ (set_next_oid ?n _))) with n.
  assert (Hnext : next_oid (set_coll c (coll c w ++ [<["_id" := VOid (next_oid w)]> d]) w)
                  = next_oid w) by (destruct c; reflexivity).
  destruct (Hwf c') as [HF HN]. destruct (decide (c' = c)) as [-> | Hne].
  - split.
    + apply Forall_app. split.
      * eapply Forall_impl; [ exact HF | ]. intros x. apply has_oid_below_mono. lia.
      * constructor; [ | constructor ]. apply has_oid_below_lookup.
        exists (next_oid w). rewrite lookup_insert_eq. split; [ reflexivity | lia ].
    + unfold ids. rewrite fmap_app. apply NoDup_app. split; [ exact HN | ]. split.
      * intros x Hx Hx'. simpl in Hx'. apply list_elem_of_singleton in Hx'.
        rewrite lookup_insert_eq in Hx'. subst x. exact (ids_fresh _ _ HF Hx).
      * apply NoDup_singleton.
  - split; [ | exact HN ].
    eapply Forall_impl; [ exact HF | ]. intros x. apply has_oid_below_mono. lia.
Qed.

Lemma update_one_set_keeps_well_formed c q upd :
  preserves (keeps well_formed) (update_one_set c q upd).
Proof.
  apply preserves_command; [ exact _ | ]. intros w Hwf.
  destruct (list_find (Matches q) (coll c w)) as [[i d] | ] eqn:Hfind; [ | exact Hwf ].
  destruct (list_find_elem_of _ _ _ _ Hfind) as [Hi _].
  case_bool_decide as Hch; [ exact Hwf | ]. cbv zeta.
  case_bool_decide as Heq; [ exact Hwf | ]. simpl. intros c'.
  rewrite coll_set_coll.
  assert (Hnext : next_oid (set_coll c (<[i := upd ∪ d]> (coll c w)) w) = next_oid w)
    by (destruct c; reflexivity).
  rewrite Hnext. destruct (decide (c' = c)) as [-> | Hne]; [ | apply Hwf ].
  destruct (Hwf c) as [HF HN]. split.
  - apply Forall_insert; [ exact HF | ].
    rewrite Forall_lookup in HF. specialize (HF i d Hi).
    unfold has_oid_below in *. rewrite union_keeps_id by exact Hch. exact HF.
  - rewrite (ids_insert _ _ d) by (try exact Hi; apply union_keeps_id, Hch). exact HN.
Qed.

Lemma delete_one_keeps_well_formed c q :
  preserves (keeps well_formed) (delete_one c q).
Proof.
  apply preserves_command; [ exact _ | ]. intros w Hwf.
  destruct (list_find (Matches q) (coll c w)) as [[i d] | ] eqn:Hfind; [ | exact Hwf ].
  simpl. intros c'. rewrite coll_set_coll.
  assert (Hnext : next_oid (set_coll c (delete i (coll c w)) w) = next_oid w)
    by (destruct c; reflexivity).
  rewrite Hnext. destruct (decide (c' = c)) as [-> | Hne]; [ | apply Hwf ].
  destruct (Hwf c) as [HF HN]. split.
  - apply Forall_delete, HF.
  - eapply sublist_NoDup; [ exact HN | ].
    unfold ids. apply fmap_sublist, sublist_delete.
Qed.

Lemma create_or_update_profile_from R `{!Frame R, !FrameClock R} (d : doc) :
  (forall d' : doc, d' !! "_id" = None -> preserves R (insert_one c_profile d')) ->
  (forall q upd, preserves R (update_one_set c_profile q upd)) ->
  d !! "_id" = None ->
  preserves R (DatabaseManager.create_or_update_profile d).
Proof.
  intros Hins Hupd Hd. unfold DatabaseManager.create_or_update_profile. preserving.
  - apply Hupd.
  - apply Hins. rewrite !lookup_insert_ne by discriminate. exact Hd.
Qed.

Lemma create_or_update_profile_keeps_well_formed (d : doc) :
  d !! "_id" = None ->
  preserves (keeps well_formed) (DatabaseManager.create_or_update_profile d).
Proof.
  apply create_or_update_profile_from; try exact _.
  - apply insert_one_keeps_well_formed.
  - apply update_one_set_keeps_well_formed.
Qed.

(** X3.  Every call of the gateway keeps the store well formed, whatever
    faults: when every stored document has an ObjectId of the driver as its
    [_id], distinct within its collection, and the dict of a creating call
    carries no [_id], the same holds after the call. *)
Theorem gateway_keeps_well_formed (c : call) e w :
  no_id c -> well_formed w -> well_formed (snd (run_call c e w)).
Proof.
  intros Hc. apply (run_call_preserves (keeps well_formed)); try exact Hc; try exact _.
  - intros c' d _. apply insert_one_keeps_well_formed.
  - apply create_or_update_profile_keeps_well_formed.
  - apply update_one_set_keeps_well_formed.
  - apply delete_one_keeps_well_formed.
  - intros q. apply update_one_set_keeps_well_formed.
Qed.

(** X3 on the seeded store, for a new project. *)
Lemma gateway_keeps_well_formed_witness :
  no_id (Create_project (dict [ ("title", VStr "Notes"); ("display_order", VInt 9) ]))
  /\ well_formed seeded
  /\ well_formed
       (snd (run_call
               (Create_project (dict [ ("title", VStr "Notes"); ("display_order", VInt 9) ]))
               quiet seeded)).
Proof.
  assert (Hwf : well_formed seeded).
  { intros [ ]; split; apply (bool_decide_unpack _); vm_compute; exact I. }
  split; [ vm_compute; reflexivity | ]. split; [ exact Hwf | ].
  apply gateway_keeps_well_formed; [ vm_compute; reflexivity | exact Hwf ].
Defined.

(** ** At most one profile *)

#[global] Instance no_more_profiles_frame : Frame no_more_profiles.
Proof.
  split.
  - unfold no_more_profiles. intros w1 w2 w3 H12 H23. lia.
  - unfold no_more_profiles. intros w w' (Hc & _).
    pose proof (Hc c_profile) as H. simpl in H. rewrite H. lia.
Qed.

#[global] Instance no_more_profiles_clock : FrameClock no_more_profiles.
Proof. intros n w. unfold no_more_profiles. simpl. lia. Qed.

Lemma update_one_set_no_more_profiles c q upd :
  preserves no_more_profiles (update_one_set c q upd).
Proof.
  apply preserves_command; [ exact _ | ]. intros w. unfold no_more_profiles.
  destruct (list_find (Matches q) (coll c w)) as [[i d] | ]; [ | simpl; lia ].
  case_bool_decide; [ simpl; lia | ]. cbv zeta.
  case_bool_decide; [ simpl; lia | ]. cbn [snd].
  change (db_profile ?x) with (coll c_profile x). rewrite coll_set_coll.
  destruct (decide (c_profile = c)) as [<- | ]; [ rewrite length_insert | ]; lia.
Qed.

Lemma try_degrade_coll {A : Type} (body : M A) text (dflt : A) c e w :
  coll c (snd (try_except body (degrade text dflt) e w)) = coll c (snd (body e w)).
Proof.
  destruct (try_degrade body text dflt e w)
    as [(a & w' & -> & ->) | (x & w' & -> & ->)]; [ reflexivity | apply coll_add_log ].
Qed.

Lemma command_faults {A : Type} (run : world -> result A * world) e w :
  faults_at e (commands w) = true ->
  command run e w = (Raise (PyMongoError "store fault"), set_commands (S (commands w)) w).
Proof. intros H. unfold command. rewrite H. reflexivity. Qed.

Lemma bind_mret_snd {A B : Type} (m : M A) (f : A -> B) e w :
  snd ((m ≫= fun a => mret (f a)) e w) = snd (m e w).
Proof. unfold mbind, M_bind. destruct (m e w) as [[a | x] w']; reflexivity. Qed.

Lemma well_formed_truthy w c d : well_formed w -> d ∈ coll c w -> truthy_doc d = true.
Proof.
  intros Hwf Hd. destruct (Hwf c) as [HF _]. rewrite Forall_forall in HF.
  destruct (proj1 (has_oid_below_lookup _ _) (HF d Hd)) as (o & Ho & _).
  exact (truthy_doc_lookup d "_id" _ Ho).
Qed.

Lemma create_or_update_profile_one (d : doc) e w :
  d !! "_id" = None -> well_formed w -> (length (db_profile w) <= 1)%nat ->
  (length (db_profile (snd (DatabaseManager.create_or_update_profile d e w))) <= 1)%nat.
Proof.
  intros Hd Hwf Hlen. unfold DatabaseManager.create_or_update_profile.
  change (db_profile ?x) with (coll c_profile x) at 1.
  rewrite (try_degrade_coll _ "Error creating/updating profile: " false).
  erewrite bind_ok; [ | reflexivity ].
  set (w1 := set_ticks (S (ticks w)) w).
  set (stamped := <["updated_at" := VDate (utcnow_at e (ticks w))]> d).
  destruct (faults_at e (commands w1)) eqn:Hf.
  { erewrite bind_raise; [ | apply command_faults; exact Hf ]. exact Hlen. }
  erewrite bind_ok; [ | apply find_one_run; exact Hf ].
  set (w2 := set_commands (S (commands w1)) w1).
  change (coll c_profile w1) with (db_profile w). rewrite filter_Matches_empty.
  destruct (db_profile w) as [ | ex rest ] eqn:Hprofile.
  - change (truthy_opt_doc (head [])) with false. cbv iota.
    rewrite (bind_mret_snd _ (fun _ => true)).
    erewrite bind_ok; [ | reflexivity ].
    rewrite (bind_mret_snd _ (fun _ => tt)).
    match goal with
    | |- context [ insert_one c_profile ?pd e ?w3 ] =>
        destruct (insert_one_cases c_profile pd e w3)
          as [(i & w' & -> & _ & _ & _ & _ & _ & (d' & Ht & _))
             | (x & w' & -> & _ & _ & _ & _ & Hsame)]
    end.
    + simpl snd. rewrite Ht. simpl. rewrite Hprofile. simpl. lia.
    + simpl snd. rewrite Hsame. simpl. rewrite Hprofile. simpl. lia.
  - change (head (ex :: rest)) with (Some ex). simpl truthy_opt_doc.
    rewrite (well_formed_truthy w c_profile ex Hwf)
      by (simpl; rewrite Hprofile; apply list_elem_of_here).
    assert (Hrest : preserves no_more_profiles
              ((i ← getitem (default ∅ (Some ex)) "_id";
                _ ← update_one_set c_profile {[ "_id" := i ]} stamped;
                mret tt) ≫= (fun _ : unit => mret true))).
    { preserving. apply update_one_set_no_more_profiles. }
    specialize (Hrest e w2). unfold no_more_profiles in Hrest.
    change (db_profile w2) with (db_profile w) in Hrest. rewrite Hprofile in Hrest.
    simpl in Hlen. simpl length in Hrest.
    exact (Nat.le_trans _ _ _ Hrest Hlen).
Qed.

#[global] Instance keeps_consistent_frame : Frame (keeps consistent).
Proof.
  split.
  - intros w1 w2 w3 H12 H23 H. apply H23, H12, H.
  - intros w w' (Hc & Hn & _ & _) [Hwf Hlen]. split.
    + exact (well_formed_unobserved w w' Hc Hn Hwf).
    + change (db_profile w') with (coll c_profile w'). rewrite Hc. exact Hlen.
Qed.

#[global] Instance keeps_consistent_clock : FrameClock (keeps consistent).
Proof. intros n w H. exact H. Qed.

Lemma keeps_consistent_from {A : Type} (m : M A) :
  preserves (keeps well_formed) m -> preserves no_more_profiles m ->
  preserves (keeps consistent) m.
Proof.
  intros Hwf Hlen e w [H1 H2]. split; [ apply Hwf, H1 | ].
  specialize (Hlen e w). unfold no_more_profiles in Hlen. lia.
Qed.

Lemma insert_one_no_more_profiles c (d : doc) :
  c <> c_profile -> preserves no_more_profiles (insert_one c d).
Proof.
  intros Hc. apply preserves_command; [ exact _ | ]. intros w. unfold no_more_profiles.
  destruct (d !! "_id") as [i | ].
  - case_bool_decide; [ simpl; lia | ]. cbn [snd].
    change (db_profile ?x) with (coll c_profile x).
    rewrite coll_set_inserts, coll_set_coll_ne by congruence. lia.
  - cbn [snd]. change (db_profile ?x) with (coll c_profile x).
    rewrite coll_set_inserts, coll_set_next_oid, coll_set_coll_ne by congruence.
    lia.
Qed.

Lemma delete_one_no_more_profiles c q : preserves no_more_profiles (delete_one c q).
Proof.
  apply preserves_command; [ exact _ | ]. intros w. unfold no_more_profiles.
  destruct (list_find (Matches q) (coll c w)) as [[i d] | ]; [ | simpl; lia ].
  cbn [snd]. change (db_profile ?x) with (coll c_profile x). rewrite coll_set_coll.
  destruct (decide (c_profile = c)) as [<- | ]; [ | lia ].
  pose proof (sublist_length _ _ (sublist_delete (coll c_profile w) i)). lia.
Qed.

Lemma handle_keeps_consistent (r : api_call) e w :
  consistent w -> consistent (snd (handle r e w)).
Proof.
  apply (handle_preserves (keeps consistent)); try exact _.
  - intros c d Hc Hd. apply keeps_consistent_from.
    + apply insert_one_keeps_well_formed, Hd.
    + apply insert_one_no_more_profiles, Hc.
  - intros d Hd e' w' [Hwf Hlen]. split.
    + apply create_or_update_profile_keeps_well_formed; assumption.
    + apply create_or_update_profile_one; assumption.
  - intros q upd. apply keeps_consistent_from.
    + apply update_one_set_keeps_well_formed.
    + apply update_one_set_no_more_profiles.
  - intros q. apply keeps_consistent_from.
    + apply delete_one_keeps_well_formed.
    + apply delete_one_no_more_profiles.
  - intros q. apply keeps_consistent_from.
    + apply update_one_set_keeps_well_formed.
    + apply update_one_set_no_more_profiles.
Qed.

(** X4.  No sequence of requests, whatever commands fault on the way, takes
    a well-formed store with at most one profile document to a store with
    two profile documents, or with a document without ObjectId, or with two
    documents of a collection under the same [_id]; the seeding by
    [GET /profile] included. *)
Theorem requests_keep_one_profile (rs : list api_call) e w :
  consistent w -> consistent (serve_all rs e w).
Proof.
  unfold serve_all. revert w. induction rs as [ | r rs IH ]; intros w Hw; simpl.
  - exact Hw.
  - apply IH, handle_keeps_consistent, Hw.
Qed.

(** X4 from the empty database: the first [GET /profile] seeds it while a
    command faults, then a message is posted and the profile is put. *)
Lemma requests_keep_one_profile_witness :
  consistent empty_world
  /\ consistent
       (serve_all
          [ GET_profile; POST_contact john_doe plain_request; PUT_profile other_profile ]
          (faulting_at 3) empty_world).
Proof.
  assert (Hc : consistent empty_world).
  { split; [ intros [ ]; split; constructor | simpl; lia ]. }
  split; [ exact Hc | ]. apply requests_keep_one_profile. exact Hc.
Defined.

(** ** What no request undoes *)

Lemma grown_refl (step : doc -> doc -> Prop) (l : list doc) :
  (forall d, step d d) -> grown step l l.
Proof.
  intros Hr. exists l, []. split; [ symmetry; apply app_nil_r | ].
  apply Forall2_same_length_lookup. split; [ reflexivity | ].
  intros i x y Hx Hy. rewrite Hx in Hy. injection Hy as <-. apply Hr.
Qed.

Lemma grown_trans (step : doc -> doc -> Prop) (l1 l2 l3 : list doc) :
  (forall a b c, step a b -> step b c -> step a c) ->
  grown step l1 l2 -> grown step l2 l3 -> grown step l1 l3.
Proof.
  intros Ht (k1 & a1 & -> & H1) (k2 & a2 & -> & H2).
  apply Forall2_app_inv_l in H2 as (k1' & a1' & Hk & _ & ->).
  exists k1', (a1' ++ a2). split; [ symmetry; apply app_assoc | ].
  clear -Ht H1 Hk. revert k1' Hk.
  induction H1 as [ | x y l k Hxy _ IH ]; intros k1' Hk.
  - apply Forall2_nil_inv_l in Hk as ->. constructor.
  - apply Forall2_cons_inv_l in Hk as (z & k' & Hyz & Hk & ->).
    constructor; [ exact (Ht _ _ _ Hxy Hyz) | apply IH, Hk ].
Qed.

Lemma grown_app (step : doc -> doc -> Prop) (l added : list doc) :
  (forall d, step d d) -> grown step l (l ++ added).
Proof.
  intros Hr. destruct (grown_refl step l Hr) as (k & a & Hk & HF).
  exists l, added. split; [ reflexivity | ].
  apply Forall2_same_length_lookup. split; [ reflexivity | ].
  intros i x y Hx Hy. rewrite Hx in Hy. injection Hy as <-. apply Hr.
Qed.

Lemma grown_insert (step : doc -> doc -> Prop) (l : list doc) i d d' :
  (forall d, step d d) -> l !! i = Some d -> step d d' -> grown step l (<[i := d']> l).
Proof.
  intros Hr Hi Hs. exists (<[i := d']> l), []. split; [ symmetry; apply app_nil_r | ].
  apply Forall2_same_length_lookup. split; [ symmetry; apply length_insert | ].
  intros j x y Hx Hy. destruct (decide (j = i)) as [-> | Hne].
  - rewrite list_lookup_insert_eq in Hy by (eapply lookup_lt_Some; exact Hi).
    rewrite Hi in Hx. injection Hx as <-. injection Hy as <-. exact Hs.
  - rewrite list_lookup_insert_ne in Hy by congruence.
    rewrite Hx in Hy. injection Hy as <-. apply Hr.
Qed.

Lemma allowed_change_refl c d : allowed_change c d d.
Proof. destruct c; simpl; try reflexivity; try exact I. intros k _; reflexivity. Qed.

Lemma allowed_change_trans c d1 d2 d3 :
  allowed_change c d1 d2 -> allowed_change c d2 d3 -> allowed_change c d1 d3.
Proof.
  destruct c; simpl; try congruence; try tauto.
  intros H12 H23 k Hk. rewrite H23, H12 by exact Hk. reflexivity.
Qed.

#[global] Instance history_kept_frame : Frame history_kept.
Proof.
  split.
  - intros w1 w2 w3 H12 H23 c Hc.
    eapply grown_trans; [ apply allowed_change_trans | apply H12, Hc | apply H23, Hc ].
  - intros w w' (Hc & _) c _. rewrite Hc. apply grown_refl, allowed_change_refl.
Qed.

#[global] Instance history_kept_clock : FrameClock history_kept.
Proof. intros n w c _. apply grown_refl, allowed_change_refl. Qed.

Lemma history_kept_set_coll c l w :
  (c <> c_projects -> grown (allowed_change c) (coll c w) l) ->
  history_kept w (set_coll c l w).
Proof.
  intros Hl c' Hc'. rewrite coll_set_coll.
  destruct (decide (c' = c)) as [-> | ]; [ apply Hl, Hc' | ].
  apply grown_refl, allowed_change_refl.
Qed.

Lemma insert_one_history_kept c (d : doc) : preserves history_kept (insert_one c d).
Proof.
  apply preserves_command; [ exact _ | ]. intros w.
  assert (Hgrow : forall d' : doc, history_kept w (set_coll c (coll c w ++ [d']) w)).
  { intros d'. apply history_kept_set_coll. intros _.
    apply grown_app, allowed_change_refl. }
  destruct (d !! "_id") as [i | ].
  - case_bool_decide; cbn [snd]; [ apply frame_refl; exact _ | ].
    intros c' Hc'. rewrite coll_set_inserts. apply Hgrow, Hc'.
  - cbn [snd]. intros c' Hc'. rewrite coll_set_inserts, coll_set_next_oid.
    apply Hgrow, Hc'.
Qed.

Lemma update_one_set_history_kept c q upd :
  (c = c_projects \/ c = c_profile
   \/ c = c_contact_messages /\ upd = {[ "is_read" := VBool true ]}) ->
  preserves history_kept (update_one_set c q upd).
Proof.
  intros Hc. apply preserves_command; [ exact _ | ]. intros w.
  destruct (list_find (Matches q) (coll c w)) as [[i d] | ] eqn:Hfind;
    [ | apply frame_refl; exact _ ].
  destruct (list_find_elem_of _ _ _ _ Hfind) as [Hi _].
  case_bool_decide as Hch; [ apply frame_refl; exact _ | ]. cbv zeta.
  case_bool_decide as Heq; [ apply frame_refl; exact _ | ]. cbn [snd].
  apply history_kept_set_coll. intros Hne.
  apply (grown_insert _ _ _ d); [ apply allowed_change_refl | exact Hi | ].
  destruct Hc as [-> | [-> | [-> ->]]]; [ contradiction | | ]; simpl.
  - apply union_keeps_id, Hch.
  - intros k Hk. rewrite lookup_union, lookup_singleton_ne by congruence.
    destruct (d !! k); reflexivity.
Qed.

Lemma delete_project_history_kept q : preserves history_kept (delete_one c_projects q).
Proof.
  apply preserves_command; [ exact _ | ]. intros w.
  destruct (list_find (Matches q) (coll c_projects w)) as [[i d] | ];
    [ | apply frame_refl; exact _ ].
  cbn [snd]. apply history_kept_set_coll. contradiction.
Qed.

(** X5.  No sequence of requests, whatever commands fault on the way,
    removes an analytics event, a visualization, a contact message or the
    profile document, or changes a stored event or visualization; a stored
    message changes in [is_read] only, and the profile keeps its [_id].
    (Projects can be changed and deleted.) *)
Theorem requests_keep_history (rs : list api_call) e w :
  history_kept w (serve_all rs e w).
Proof.
  apply (serve_all_preserves history_kept); try exact _.
  - intros c d _ _. apply insert_one_history_kept.
  - intros d Hd. apply create_or_update_profile_from; try exact _; try exact Hd.
    + intros d' _. apply insert_one_history_kept.
    + intros q upd. apply update_one_set_history_kept. tauto.
  - intros q upd. apply update_one_set_history_kept. tauto.
  - apply delete_project_history_kept.
  - intros q. apply update_one_set_history_kept. tauto.
Qed.

(** ** The status of every response *)

Lemma raised_cases {A : Type} (body : M A) text e w :
  fst (raised (try_except body (Routes.internal_server_error text)) e w) = None
  \/ fst (raised (try_except body (Routes.internal_server_error text)) e w)
     = Some (HTTPException 500 "Internal server error").
Proof.
  unfold raised, try_except. destruct (body e w) as [[a | x] w']; simpl; auto.
Qed.

Lemma serve_cases (body : M Models.APIResponse) text e w :
  (exists a, serve (try_except body (Routes.internal_server_error text)) e w
             = HttpResponse 200 (Some a) None)
  \/ serve (try_except body (Routes.internal_server_error text)) e w
     = server_error_response.
Proof.
  unfold serve, try_except. destruct (body e w) as [[a | x] w']; simpl; eauto.
Qed.

(** X6.  Every handler returns a value or raises the [HTTPException] of
    status 500 and detail "Internal server error", and nothing else: the 404
    that the handlers of [GET /profile], of [PUT /projects/{id}], of
    [DELETE /projects/{id}] and of [PUT /contact/{id}/read] raise, and the
    500 with the details "Failed to ...", are caught by the handler's own
    [except Exception] and never leave it.  For the handlers that return the
    envelope [APIResponse], the response is therefore 200 with an envelope,
    or 500 with the detail "Internal server error".  (What the framework
    makes of the value of a handler that reads is not covered.) *)
Theorem handlers_return_or_raise_500 (r : api_call) e w :
  (fst (handle r e w) = None
   \/ fst (handle r e w) = Some (HTTPException 500 "Internal server error"))
  /\ forall h, enveloped r = Some h ->
       handle r e w = raised h e w
       /\ ((exists a, serve h e w = HttpResponse 200 (Some a) None)
           \/ serve h e w = server_error_response).
Proof.
  split.
  - destruct r; apply raised_cases.
  - intros h Hh.
    destruct r; simpl in Hh; try discriminate; injection Hh as <-;
      (split; [ reflexivity | apply serve_cases ]).
Qed.

(** X6 for the deletion of a project that is not stored: the 404 of the
    handler leaves it as a 500. *)
Lemma handlers_return_or_raise_500_witness :
  fst (handle (DELETE_projects "0000000000000000000000ff") quiet seeded)
  = Some (HTTPException 500 "Internal server error")
  /\ serve (Routes.delete_project "0000000000000000000000ff") quiet seeded
     = server_error_response.
Proof.
  destruct (handlers_return_or_raise_500 (DELETE_projects "0000000000000000000000ff")
              quiet seeded) as [Hcases Henv].
  destruct (Henv _ eq_refl) as [_ [[a Ha] | Hb]].
  - vm_compute in Ha. discriminate Ha.
  - split; [ | exact Hb ].
    destruct Hcases as [H | H]; [ vm_compute in H; discriminate H | exact H ].
Defined.

(** ** Handlers that turn a flag of the gateway into a response *)

Lemma flag_handler {A : Type} (g : M bool) (r : A) (x : exn) text e w b w1 :
  g e w = (Ok b, w1) ->
  (b = true ->
   try_except (success ← g; if (success : bool) then mret r else raise x)
     (Routes.internal_server_error text) e w = (Ok r, w1))
  /\ (b = false ->
      try_except (success ← g; if (success : bool) then mret r else raise x)
        (Routes.internal_server_error text) e w
      = (Raise (HTTPException 500 "Internal server error"),
         add_log (LogRecord "ERROR" text (Some x)) w1)).
Proof.
  intros Hg. split; intros ->.
  - apply try_ok. rewrite (bind_ok g _ e w true w1 Hg). reflexivity.
  - erewrite try_raise; [ reflexivity | ]. rewrite (bind_ok g _ e w false w1 Hg).
    reflexivity.
Qed.

(** ** The ObjectId of a string with whitespace *)


Lemma big_endian_bound (bytes : list N) (a k : N) :
  Forall (fun x => (x < 256)%N) bytes -> (a < 256 ^ k)%N ->
  (fold_left (fun a x => (a * 256 + x)%N) bytes a < 256 ^ (k + N.of_nat (length bytes)))%N.
Proof.
  intros Hb. revert a k. induction Hb as [ | x l Hx _ IH ]; intros a k Ha.
  - simpl. rewrite N.add_0_r. exact Ha.
  - cbn [fold_left length]. 
    replace (k + N.of_nat (S (length l)))%N with ((k + 1) + N.of_nat (length l))%N by lia.
    apply IH. rewrite N.pow_add_r. change (256 ^ 1)%N with 256%N. lia.
Qed.

Lemma big_endian_inj (b1 b2 : list N) (a1 a2 : N) :
  length b1 = length b2 ->
  Forall (fun x => (x < 256)%N) b1 -> Forall (fun x => (x < 256)%N) b2 ->
  fold_left (fun a x => (a * 256 + x)%N) b1 a1
  = fold_left (fun a x => (a * 256 + x)%N) b2 a2 ->
  a1 = a2 /\ b1 = b2.
Proof.
  intros Hlen H1. revert b2 a1 a2 Hlen.
  induction H1 as [ | x l Hx _ IH ]; intros b2 a1 a2 Hlen H2 Heq.
  - destruct b2; [ | discriminate ]. simpl in Heq. auto.
  - destruct b2 as [ | y l2 ]; [ discriminate | ].
    apply Forall_cons in H2 as [Hy H2]. cbn [fold_left] in Heq.
    destruct (IH l2 _ _ ltac:(simpl in Hlen; lia) H2 Heq) as [Ha ->].
    assert (a1 = a2 /\ x = y) as [-> ->] by lia. auto.
Qed.

(** Different bytes, different ObjectIds. *)
Lemma oid_of_bytes_inj (b1 b2 : list N) :
  Forall (fun x => (x < 256)%N) b1 -> Forall (fun x => (x < 256)%N) b2 ->
  (length b1 <= 12)%nat -> (length b2 <= 12)%nat ->
  oid_of_bytes b1 = oid_of_bytes b2 -> b1 = b2.
Proof.
  intros H1 H2 L1 L2.
  pose proof (big_endian_bound b1 0 0 H1 ltac:(reflexivity)) as B1.
  pose proof (big_endian_bound b2 0 0 H2 ltac:(reflexivity)) as B2.
  rewrite N.add_0_l in B1, B2.
  assert (P : forall n : nat, (n <= 12)%nat -> (256 ^ N.of_nat n <= 2 ^ 96)%N).
  { intros n Hn. change (2 ^ 96)%N with (256 ^ 12)%N.
    apply N.pow_le_mono_r; lia. }
  pose proof (P _ L1) as P1. pose proof (P _ L2) as P2.
  unfold oid_of_bytes, big_endian.
  destruct (Nat.eqb_spec (length b1) 12) as [E1 | E1];
    destruct (Nat.eqb_spec (length b2) 12) as [E2 | E2]; intros Heq.
  - apply (big_endian_inj b1 b2 0 0); [ congruence | assumption | assumption | exact Heq ].
  - exfalso. nia.
  - exfalso. nia.
  - assert (length b1 = length b2) by nia.
    apply (big_endian_inj b1 b2 0 0); [ assumption | assumption | assumption | nia ].
Qed.


Lemma malformed_iff (s : string) :
  malformed s <-> String.length s <> 24%nat \/ fromhex s = None.
Proof.
  unfold malformed, ObjectId.
  destruct (Nat.eqb_spec (String.length s) 24) as [Hlen | Hlen].
  - destruct (fromhex s); split; try tauto; try discriminate.
    intros [H | H]; [ contradiction | discriminate ].
  - tauto.
Qed.

(** ** [delete_project] *)




Lemma known_id_find project_id w :
  known_id project_id w <->
  exists o i d, ObjectId project_id = Some o
    /\ list_find (Matches {[ "_id" := VOid o ]}) (db_projects w) = Some (i, d).
Proof.
  split.
  - intros (o & d & Ho & Hd & Hm). exists o.
    destruct (list_find (Matches {[ "_id" := VOid o ]}) (db_projects w))
      as [[i d'] | ] eqn:Hfind; [ eauto | ].
    rewrite list_find_None, Forall_forall in Hfind. destruct (Hfind d Hd Hm).
  - intros (o & i & d & Ho & Hfind). exists o, d. split; [ exact Ho | ].
    destruct (list_find_elem_of _ _ _ _ Hfind) as [Hi Hm].
    split; [ eapply list_elem_of_lookup_2; exact Hi | exact Hm ].
Qed.

Lemma Matches_id_oid (o : N) (d : doc) n :
  has_oid_below n d -> Matches {[ "_id" := VOid o ]} d <-> d !! "_id" = Some (VOid o).
Proof.
  intros Hd. apply has_oid_below_lookup in Hd as (o' & Ho' & _).
  rewrite Matches_singleton, Ho'. simpl. split; congruence.
Qed.

Lemma delete_project_cases project_id e w :
  exists b w',
    DatabaseManager.delete_project project_id e w = (Ok b, w')
    /\ (forall c, c <> c_projects -> coll c w' = coll c w)
    /\ (b = true <-> faults_at e (commands w) = false /\ known_id project_id w)
    /\ (b = false -> db_projects w' = db_projects w)
    /\ (b = true ->
        exists i d, the_project project_id w i d
          /\ db_projects w' = delete i (db_projects w)).
Proof.
  unfold DatabaseManager.delete_project.
  destruct (ObjectId project_id) as [o | ] eqn:Ho.
  2:{ eexists false, _. split.
      { erewrite try_raise; [ reflexivity | ]. unfold object_id. rewrite Ho. reflexivity. }
      split; [ intros c _; reflexivity | ].
      split.
      { split; [ discriminate | ]. intros [_ Hk]. apply known_id_find in Hk.
        destruct Hk as (o & i & d & Ho' & _). rewrite Ho in Ho'. discriminate. }
      split; [ reflexivity | discriminate ]. }
  destruct (faults_at e (commands w)) eqn:Hf.
  { eexists false, _. split.
    { erewrite try_raise; [ reflexivity | ].
      erewrite bind_ok; [ | unfold object_id; rewrite Ho; reflexivity ].
      erewrite bind_raise; [ reflexivity | apply command_faults, Hf ]. }
    split; [ intros c _; reflexivity | ].
    split; [ split; [ discriminate | intros [? _]; discriminate ] | ].
    split; [ reflexivity | discriminate ]. }
  destruct (list_find (Matches {[ "_id" := VOid o ]}) (db_projects w))
    as [[i d] | ] eqn:Hfind.
  - eexists true, _. split.
    { apply try_ok.
      erewrite bind_ok; [ | unfold object_id; rewrite Ho; reflexivity ].
      erewrite bind_ok;
        [ | unfold delete_one; rewrite command_ok by exact Hf;
            change (coll c_projects (set_commands ?n w)) with (db_projects w);
            rewrite Hfind; reflexivity ].
      reflexivity. }
    split.
    { intros c Hc. rewrite coll_set_coll_ne by exact Hc. reflexivity. }
    split.
    { split; [ intros _ | reflexivity ]. split; [ reflexivity | ].
      apply known_id_find. eauto. }
    split; [ discriminate | ].
    intros _. exists i, d. split; [ exists o; auto | reflexivity ].
  - eexists false, _. split.
    { apply try_ok.
      erewrite bind_ok; [ | unfold object_id; rewrite Ho; reflexivity ].
      erewrite bind_ok;
        [ | unfold delete_one; rewrite command_ok by exact Hf;
            change (coll c_projects (set_commands ?n w)) with (db_projects w);
            rewrite Hfind; reflexivity ].
      reflexivity. }
    split; [ intros c _; reflexivity | ].
    split.
    { split; [ discriminate | ]. intros [_ Hk]. apply known_id_find in Hk.
      destruct Hk as (o' & i & d & Ho' & Hfind'). rewrite Ho in Ho'.
      injection Ho' as <-. rewrite Hfind in Hfind'. discriminate. }
    split; [ reflexivity | discriminate ].
Qed.

Lemma delete_project_commands project_id o e w :
  ObjectId project_id = Some o ->
  commands (snd (DatabaseManager.delete_project project_id e w)) = S (commands w).
Proof.
  intros Ho.
  unfold DatabaseManager.delete_project, try_except, object_id, delete_one, command.
  rewrite Ho. unfold mbind, M_bind. cbn.
  destruct (faults_at e (commands w)); [ reflexivity | ].
  change (db_projects (set_commands ?n w)) with (db_projects w).
  destruct (list_find _ (db_projects w)) as [[i d] | ]; reflexivity.
Qed.



(** ** [mark_message_read] *)

Lemma list_find_insert_same {A : Type} (P : A -> Prop) `{forall x, Decision (P x)}
    (l : list A) i x y :
  list_find P l = Some (i, x) -> P y -> list_find P (<[i := y]> l) = Some (i, y).
Proof.
  intros Hfind Hy. apply list_find_Some in Hfind as (Hi & _ & Hlt).
  apply list_find_Some. split.
  - apply list_lookup_insert_eq. eapply lookup_lt_Some. exact Hi.
  - split; [ exact Hy | ]. intros j z Hj Hji.
    rewrite list_lookup_insert_ne in Hj by lia. exact (Hlt j z Hj Hji).
Qed.

Lemma mark_read_union (d : doc) :
  ({[ "is_read" := VBool true ]} : doc) ∪ d = <["is_read" := VBool true]> d.
Proof. symmetry. apply insert_union_singleton_l. Qed.

Lemma mark_read_same (d : doc) :
  <["is_read" := VBool true]> d = d <-> d !! "is_read" = Some (VBool true).
Proof.
  split.
  - intros H. rewrite <- H. apply lookup_insert_eq.
  - apply insert_id.
Qed.

Lemma mark_read_no_id_change (d : doc) : ~ changes_id {[ "is_read" := VBool true ]} d.
Proof. unfold changes_id. rewrite lookup_singleton_ne by discriminate. tauto. Qed.

Lemma update_one_set_none c q upd e w :
  faults_at e (commands w) = false ->
  list_find (Matches q) (coll c w) = None ->
  update_one_set c q upd e w = (Ok 0%nat, set_commands (S (commands w)) w).
Proof.
  intros Hf Hfind. unfold update_one_set. rewrite command_ok by exact Hf.
  rewrite coll_set_commands, Hfind. reflexivity.
Qed.

Lemma update_one_set_some c q upd e w i d :
  faults_at e (commands w) = false ->
  list_find (Matches q) (coll c w) = Some (i, d) ->
  ~ changes_id upd d ->
  update_one_set c q upd e w
  = if bool_decide (upd ∪ d = d)
    then (Ok 0%nat, set_commands (S (commands w)) w)
    else (Ok 1%nat,
          set_coll c (<[i := upd ∪ d]> (coll c w)) (set_commands (S (commands w)) w)).
Proof.
  intros Hf Hfind Hch. unfold update_one_set. rewrite command_ok by exact Hf.
  rewrite coll_set_commands, Hfind.
  rewrite (bool_decide_eq_false_2 _ Hch). cbv zeta.
  case_bool_decide; reflexivity.
Qed.

Lemma mark_message_read_cases message_id e w :
  exists b w',
    DatabaseManager.mark_message_read message_id e w = (Ok b, w')
    /\ (forall c, c <> c_contact_messages -> coll c w' = coll c w)
    /\ (b = false -> db_contact_messages w' = db_contact_messages w)
    /\ (b = true <->
        faults_at e (commands w) = false
        /\ exists o i d,
             ObjectId message_id = Some o
             /\ list_find (Matches {[ "_id" := VOid o ]}) (db_contact_messages w)
                = Some (i, d)
             /\ d !! "is_read" <> Some (VBool true))
    /\ (b = true ->
        exists o i d,
          ObjectId message_id = Some o
          /\ list_find (Matches {[ "_id" := VOid o ]}) (db_contact_messages w)
             = Some (i, d)
          /\ db_contact_messages w'
             = <[i := <["is_read" := VBool true]> d]> (db_contact_messages w)).
Proof.
  unfold DatabaseManager.mark_message_read.
  destruct (ObjectId message_id) as [o | ] eqn:Ho.
  2:{ eexists false, _. split.
      { erewrite try_raise; [ reflexivity | ]. unfold object_id. rewrite Ho. reflexivity. }
      split; [ intros c _; reflexivity | ]. split; [ reflexivity | ].
      split; [ | discriminate ].
      split; [ discriminate | intros (_ & o & i & d & Ho' & _); discriminate ]. }
  assert (Hid : object_id message_id = mret (VOid o))
    by (unfold object_id; rewrite Ho; reflexivity).
  rewrite Hid.
  destruct (faults_at e (commands w)) eqn:Hf.
  { eexists false, _. split.
    { erewrite try_raise; [ reflexivity | ].
      erewrite bind_ok; [ | reflexivity ].
      erewrite bind_raise; [ reflexivity | apply command_faults, Hf ]. }
    split; [ intros c _; reflexivity | ]. split; [ reflexivity | ].
    split; [ | discriminate ].
    split; [ discriminate | intros (? & _); discriminate ]. }
  destruct (list_find (Matches {[ "_id" := VOid o ]}) (db_contact_messages w))
    as [[i d] | ] eqn:Hfind.
  2:{ eexists false, _. split.
      { apply try_ok. erewrite bind_ok; [ | reflexivity ].
        erewrite bind_ok; [ | apply update_one_set_none; [ exact Hf | exact Hfind ] ].
        reflexivity. }
      split; [ intros c _; reflexivity | ]. split; [ reflexivity | ].
      split; [ | discriminate ].
      split; [ discriminate | ]. intros (_ & o' & i & d & Ho' & Hfind' & _).
      injection Ho' as <-. rewrite Hfind in Hfind'. discriminate. }
  pose proof (update_one_set_some c_contact_messages {[ "_id" := VOid o ]}
                {[ "is_read" := VBool true ]} e w i d Hf Hfind
                (mark_read_no_id_change d)) as Hrun.
  rewrite mark_read_union in Hrun.
  case_bool_decide as Hsame.
  - eexists false, _. split.
    { apply try_ok. erewrite bind_ok; [ | reflexivity ].
      erewrite bind_ok; [ | exact Hrun ]. reflexivity. }
    split; [ intros c _; reflexivity | ]. split; [ reflexivity | ].
    split; [ | discriminate ].
    split; [ discriminate | ]. intros (_ & o' & i' & d' & Ho' & Hfind' & Hnot).
    injection Ho' as <-. rewrite Hfind in Hfind'. injection Hfind' as <- <-.
    apply mark_read_same in Hsame. contradiction.
  - eexists true, _. split.
    { apply try_ok. erewrite bind_ok; [ | reflexivity ].
      erewrite bind_ok; [ | exact Hrun ]. reflexivity. }
    split.
    { intros c Hc. rewrite coll_set_coll_ne by exact Hc. reflexivity. }
    split; [ discriminate | ].
    split.
    { split; [ intros _ | reflexivity ]. split; [ reflexivity | ].
      exists o, i, d. split; [ reflexivity | ]. split; [ exact Hfind | ].
      intros Hread. apply Hsame, mark_read_same, Hread. }
    intros _. exists o, i, d. split; [ reflexivity | ]. split; [ exact Hfind | ].
    reflexivity.
Qed.

(** A message that is marked already: the call returns [False] and touches
    no document. *)
Lemma mark_message_read_again message_id o i (d : doc) e w :
  ObjectId message_id = Some o ->
  list_find (Matches {[ "_id" := VOid o ]}) (db_contact_messages w) = Some (i, d) ->
  d !! "is_read" = Some (VBool true) ->
  exists w',
    DatabaseManager.mark_message_read message_id e w = (Ok false, w')
    /\ forall c, coll c w' = coll c w.
Proof.
  intros Ho Hfind Hread.
  destruct (mark_message_read_cases message_id e w)
    as (b & w' & Hrun & Hothers & Hfalse & Hiff & _).
  destruct b.
  - destruct (proj1 Hiff eq_refl) as (_ & o' & i' & d' & Ho' & Hfind' & Hnot).
    rewrite Ho in Ho'. injection Ho' as <-. rewrite Hfind in Hfind'.
    injection Hfind' as <- <-. contradiction.
  - exists w'. split; [ exact Hrun | ]. intros c.
    destruct (decide (c = c_contact_messages)) as [-> | Hc];
      [ apply (Hfalse eq_refl) | apply Hothers, Hc ].
Qed.

(** After a call that marked a message, the message is found again and is
    marked. *)
Lemma marked_message_found o i (d : doc) (l : list doc) :
  list_find (Matches {[ "_id" := VOid o ]}) l = Some (i, d) ->
  list_find (Matches {[ "_id" := VOid o ]}) (<[i := <["is_read" := VBool true]> d]> l)
  = Some (i, <["is_read" := VBool true]> d).
Proof.
  intros Hfind. apply (list_find_insert_same _ _ _ d); [ exact Hfind | ].
  destruct (list_find_elem_of _ _ _ _ Hfind) as [_ Hm].
  apply Matches_singleton. apply Matches_singleton in Hm.
  rewrite lookup_insert_ne by discriminate. exact Hm.
Qed.

(** X8.  [mark_message_read] returns [True] exactly when its command does
    not fault and the id is that of a stored message that is not yet marked;
    it then sets [is_read] of that message to [True] and changes nothing
    else.  For an unknown id, for a string that is no ObjectId and for a
    message that is read already it returns [False] and touches no document;
    so a second call with the same id returns [False]. *)
Theorem mark_message_read_once message_id e w :
  exists b w',
    DatabaseManager.mark_message_read message_id e w = (Ok b, w')
    /\ (forall c, c <> c_contact_messages -> coll c w' = coll c w)
    /\ (b = false -> db_contact_messages w' = db_contact_messages w)
    /\ (b = true <->
        faults_at e (commands w) = false
        /\ exists o i d,
             ObjectId message_id = Some o
             /\ list_find (Matches {[ "_id" := VOid o ]}) (db_contact_messages w)
                = Some (i, d)
             /\ d !! "is_read" <> Some (VBool true))
    /\ (b = true ->
        exists o i d,
          ObjectId message_id = Some o
          /\ list_find (Matches {[ "_id" := VOid o ]}) (db_contact_messages w)
             = Some (i, d)
          /\ db_contact_messages w'
             = <[i := <["is_read" := VBool true]> d]> (db_contact_messages w)
          /\ forall e', exists w'',
               DatabaseManager.mark_message_read message_id e' w' = (Ok false, w'')
               /\ forall c, coll c w'' = coll c w').
Proof.
  destruct (mark_message_read_cases message_id e w)
    as (b & w' & Hrun & Hothers & Hfalse & Hiff & Htrue).
  exists b, w'. split; [ exact Hrun | ]. split; [ exact Hothers | ].
  split; [ exact Hfalse | ]. split; [ exact Hiff | ].
  intros Hb. destruct (Htrue Hb) as (o & i & d & Ho & Hfind & Hnew).
  exists o, i, d. split; [ exact Ho | ]. split; [ exact Hfind | ].
  split; [ exact Hnew | ]. intros e'.
  apply (mark_message_read_again message_id o i (<["is_read" := VBool true]> d)).
  - exact Ho.
  - rewrite Hnew. apply marked_message_found, Hfind.
  - apply lookup_insert_eq.
Qed.

Lemma posted_message_stored :
  head (db_contact_messages posted) = Some posted_message
  /\ posted_message !! "_id" = Some (VOid 9)
  /\ posted_message !! "is_read" = Some (VBool false).
Proof.
  split; [ | split; vm_compute; reflexivity ].
  apply head_default. intros H. apply (f_equal length) in H. vm_compute in H.
  discriminate.
Qed.

Lemma posted_message_unread :
  exists o i d,
    ObjectId "000000000000000000000009" = Some o
    /\ list_find (Matches {[ "_id" := VOid o ]}) (db_contact_messages posted)
       = Some (i, d)
    /\ d !! "is_read" <> Some (VBool true).
Proof.
  destruct posted_message_stored as (Hhead & Hid & Hread).
  exists 9%N, 0%nat, posted_message. split; [ vm_compute; reflexivity | ].
  split; [ | rewrite Hread; discriminate ].
  apply list_find_head; [ exact Hhead | ].
  apply Matches_singleton. rewrite Hid. apply field_matches_self.
Qed.

(** X8 on the message that John Doe posted: the first call marks it, the
    second returns [False]. *)
Lemma mark_message_read_once_witness :
  fst (DatabaseManager.mark_message_read "000000000000000000000009" quiet posted)
  = Ok true
  /\ fst (DatabaseManager.mark_message_read "000000000000000000000009" quiet
            (snd (DatabaseManager.mark_message_read "000000000000000000000009"
                    quiet posted)))
     = Ok false.
Proof.
  destruct (mark_message_read_once "000000000000000000000009" quiet posted)
    as (b & w' & Hrun & _ & _ & Hiff & Htrue).
  assert (Hb : b = true)
    by (apply Hiff; split; [ reflexivity | exact posted_message_unread ]).
  rewrite Hrun. cbn [fst snd]. split; [ rewrite Hb; reflexivity | ].
  destruct (Htrue Hb) as (o & i & d & _ & _ & _ & Hsecond).
  destruct (Hsecond quiet) as (w'' & -> & _). reflexivity.
Defined.

(** X9.  After a [PUT /contact/{id}/read] that succeeded, the same request
    again is answered 500 "Internal server error", whatever faults: the
    gateway reports that nothing was modified, the handler raises its 404
    "Message not found" and catches it itself.  No document is touched. *)
Theorem mark_read_again_is_server_error message_id e w r w1 :
  Routes.mark_message_read message_id e w = (Ok r, w1) ->
  forall e',
    serve (Routes.mark_message_read message_id) e' w1 = server_error_response
    /\ serve (Routes.mark_message_read message_id) e' w1 <> message_not_found
    /\ forall c, coll c (snd (Routes.mark_message_read message_id e' w1)) = coll c w1.
Proof.
  intros Hrun e'.
  destruct (mark_message_read_cases message_id e w)
    as (b & wa & Hg & _ & _ & _ & Htrue).
  destruct (flag_handler (DatabaseManager.mark_message_read message_id)
              (Models.mkAPIResponse true "Message marked as read" None)
              (HTTPException 404 "Message not found")
              "Error marking message as read: " e w b wa Hg) as [Hyes Hno].
  unfold Routes.mark_message_read in Hrun. destruct b.
  2:{ rewrite Hno in Hrun by reflexivity. discriminate. }
  rewrite Hyes in Hrun by reflexivity. injection Hrun as _ <-.
  destruct (Htrue eq_refl) as (o & i & d & Ho & Hfind & Hnew).
  destruct (mark_message_read_again message_id o i (<["is_read" := VBool true]> d)
              e' wa Ho) as (w2 & Hg2 & Hsame).
  { rewrite Hnew. apply marked_message_found, Hfind. }
  { apply lookup_insert_eq. }
  destruct (flag_handler (DatabaseManager.mark_message_read message_id)
              (Models.mkAPIResponse true "Message marked as read" None)
              (HTTPException 404 "Message not found")
              "Error marking message as read: " e' wa false w2 Hg2) as [_ Hno2].
  unfold serve, Routes.mark_message_read. rewrite Hno2 by reflexivity.
  split; [ reflexivity | ]. split; [ discriminate | ].
  intros c. cbn [snd]. rewrite coll_add_log. apply Hsame.
Qed.

(** X9 on the message that John Doe posted. *)
Lemma mark_read_again_is_server_error_witness :
  is_ok (fst (Routes.mark_message_read "000000000000000000000009" quiet posted))
  = true
  /\ serve (Routes.mark_message_read "000000000000000000000009") quiet
       (snd (Routes.mark_message_read "000000000000000000000009" quiet posted))
     = server_error_response.
Proof.
  split; [ vm_compute; reflexivity | ].
  destruct (Routes.mark_message_read "000000000000000000000009" quiet posted)
    as [[r | x] w1] eqn:Hrun.
  - exact (proj1 (mark_read_again_is_server_error _ _ _ _ _ Hrun quiet)).
  - apply (f_equal (fun p => is_ok (fst p))) in Hrun.
    vm_compute in Hrun. discriminate.
Defined.

(** ** Writes that touch one collection *)

#[global] Instance only_changes_frame c : Frame (only_changes c).
Proof.
  split.
  - intros w1 w2 w3 H12 H23 c' Hc'. rewrite H23, H12 by exact Hc'. reflexivity.
  - intros w w' (Hc & _) c' _. apply Hc.
Qed.

#[global] Instance only_changes_clock c : FrameClock (only_changes c).
Proof. intros n w c' _. reflexivity. Qed.

Lemma insert_one_only_changes c (d : doc) : preserves (only_changes c) (insert_one c d).
Proof.
  apply preserves_command; [ exact _ | ]. intros w c' Hc'.
  destruct (d !! "_id") as [i | ].
  - case_bool_decide; cbn [snd]; [ reflexivity | ].
    rewrite coll_set_inserts, coll_set_coll_ne by exact Hc'. reflexivity.
  - cbn [snd].
    rewrite coll_set_inserts, coll_set_next_oid, coll_set_coll_ne by exact Hc'.
    reflexivity.
Qed.

Lemma update_one_set_only_changes c q upd :
  preserves (only_changes c) (update_one_set c q upd).
Proof.
  apply preserves_command; [ exact _ | ]. intros w c' Hc'.
  destruct (list_find (Matches q) (coll c w)) as [[i d] | ]; [ | reflexivity ].
  case_bool_decide; [ reflexivity | ]. cbv zeta.
  case_bool_decide; [ reflexivity | ]. cbn [snd].
  apply coll_set_coll_ne, Hc'.
Qed.

Lemma update_project_only_changes project_id (project_data : doc) :
  preserves (only_changes c_projects)
    (DatabaseManager.update_project project_id project_data).
Proof.
  unfold DatabaseManager.update_project. preserving.
  apply update_one_set_only_changes.
Qed.

(** ** [PUT /projects/{project_id}] *)

Lemma set_field_keys {A : Type} (k k' : string) (f : A -> value) o :
  k' <> k -> Forall (fun kv : string * value => fst kv <> k') (Models.set_field k f o).
Proof.
  intros Hk. destruct o as [[x | ] | ]; simpl; repeat constructor; simpl; congruence.
Qed.

Lemma ProjectUpdate_dict_keys (p : Models.ProjectUpdate) (k : string) :
  k ∉ project_fields -> Models.ProjectUpdate_dict_exclude_unset p !! k = None.
Proof.
  intros Hk. apply dict_lookup_None.
  repeat (apply Forall_app; split);
    apply set_field_keys; intros ->; apply Hk;
    apply (bool_decide_unpack _); vm_compute; exact I.
Qed.

(** X10.  A [PUT /projects/{id}] that is answered 200 has changed one
    project, the first stored one with this id, and no other document: its
    [updated_at] is the time of the request, every field that the body sets
    has the value of the body ([null] included), and every other field is as
    it was; [_id] and [created_at], which are no fields of the body, among
    them. *)
Theorem put_project_sets_only_the_body project_id project e w r w1 :
  Routes.update_project project_id project e w = (Ok r, w1) ->
  exists i d d',
    the_project project_id w i d
    /\ db_projects w1 = <[i := d']> (db_projects w)
    /\ only_changes c_projects w w1
    /\ d' !! "updated_at" = Some (VDate (utcnow_at e (ticks w)))
    /\ (forall k v, Models.ProjectUpdate_dict_exclude_unset project !! k = Some v ->
        d' !! k = Some v)
    /\ (forall k, Models.ProjectUpdate_dict_exclude_unset project !! k = None ->
        k <> "updated_at" -> d' !! k = d !! k)
    /\ d' !! "_id" = d !! "_id"
    /\ d' !! "created_at" = d !! "created_at".
Proof.
  intros Hrun.
  set (data := Models.ProjectUpdate_dict_exclude_unset project).
  destruct (update_project_cases project_id data e w)
    as (b & wa & Hg & [(-> & _) | (-> & _ & i & d & Hthe & _ & _ & Hset)]).
  { destruct (flag_handler (DatabaseManager.update_project project_id data)
                (Models.mkAPIResponse true "Project updated successfully" None)
                (HTTPException 404 "Project not found")
                "Error updating project: " e w false wa Hg) as [_ Hno].
    unfold Routes.update_project in Hrun. fold data in Hrun.
    rewrite Hno in Hrun by reflexivity. discriminate. }
  destruct (flag_handler (DatabaseManager.update_project project_id data)
              (Models.mkAPIResponse true "Project updated successfully" None)
              (HTTPException 404 "Project not found")
              "Error updating project: " e w true wa Hg) as [Hyes _].
  unfold Routes.update_project in Hrun. fold data in Hrun.
  rewrite Hyes in Hrun by reflexivity. injection Hrun as _ <-.
  assert (Hnone : forall k, k ∉ project_fields -> data !! k = None)
    by (intros k; apply ProjectUpdate_dict_keys).
  assert (Hother : forall k, data !! k = None -> k <> "updated_at" ->
            (<["updated_at" := VDate (utcnow_at e (ticks w))]> data ∪ d) !! k = d !! k).
  { intros k Hk Hne. rewrite lookup_union, lookup_insert_ne, Hk by congruence.
    destruct (d !! k); reflexivity. }
  exists i, d, (<["updated_at" := VDate (utcnow_at e (ticks w))]> data ∪ d).
  split; [ exact Hthe | ]. split; [ exact Hset | ].
  split.
  { pose proof (update_project_only_changes project_id data e w) as H.
    rewrite Hg in H. exact H. }
  split.
  { rewrite lookup_union, lookup_insert_eq. destruct (d !! "updated_at"); reflexivity. }
  split.
  { intros k v Hk. rewrite lookup_union, lookup_insert_ne, Hk.
    - destruct (d !! k); reflexivity.
    - intros <-. rewrite Hnone in Hk; [ discriminate | ].
      apply (bool_decide_unpack _). vm_compute. exact I. }
  split; [ exact Hother | ].
  split; apply Hother; try discriminate; apply Hnone;
    apply (bool_decide_unpack _); vm_compute; exact I.
Qed.

(** X10 on the seeded store: an empty body for the project of id 2. *)
Lemma put_project_sets_only_the_body_witness :
  is_ok (fst (Routes.update_project "000000000000000000000002" no_update quiet seeded))
  = true
  /\ exists i d d',
       the_project "000000000000000000000002" seeded i d
       /\ db_projects
            (snd (Routes.update_project "000000000000000000000002" no_update
                    quiet seeded))
          = <[i := d']> (db_projects seeded)
       /\ d' !! "created_at" = d !! "created_at".
Proof.
  split; [ vm_compute; reflexivity | ].
  destruct (Routes.update_project "000000000000000000000002" no_update quiet seeded)
    as [[r | x] w1] eqn:Hrun.
  - destruct (put_project_sets_only_the_body _ _ _ _ _ _ Hrun)
      as (i & d & d' & Hthe & Hset & _ & _ & _ & _ & _ & Hcreated).
    exists i, d, d'. split; [ exact Hthe | ]. split; [ exact Hset | exact Hcreated ].
  - apply (f_equal (fun p => is_ok (fst p))) in Hrun.
    vm_compute in Hrun. discriminate.
Defined.

(** ** [str] of an ObjectId and [ObjectId] of the string *)

Lemma hex_value_hex_digit (m : N) : (m < 16)%N -> hex_value (hex_digit m) = Some m.
Proof.
  intros H. destruct m as [ | p ]; [ reflexivity | ].
  do 5 (try (destruct p as [ p | p | ]; try reflexivity; try lia)).
Qed.

Lemma length_hex_digits (k : nat) (n : N) (acc : string) :
  String.length (hex_digits k n acc) = (k + String.length acc)%nat.
Proof.
  revert n acc. induction k as [ | k IH ]; intros n acc; simpl; [ reflexivity | ].
  rewrite IH. simpl. lia.
Qed.

Lemma is_space_hex_digit (m : N) : (m < 16)%N -> is_space (hex_digit m) = false.
Proof.
  intros H. destruct m as [ | p ]; [ reflexivity | ].
  do 5 (try (destruct p as [ p | p | ]; try reflexivity; try lia)).
Qed.

(** The digits that [hex_digits] writes are read back by [bytes.fromhex] as
    the bytes of the number, the most significant first. *)
Lemma fromhex_hex_digits (k : nat) (n : N) (acc : string) :
  exists bytes,
    length bytes = k
    /\ (forall a, fold_left (fun a x => (a * 256 + x)%N) bytes a
                  = (a * 256 ^ N.of_nat k + n mod 256 ^ N.of_nat k)%N)
    /\ fromhex (hex_digits (2 * k) n acc)
       = match fromhex acc with Some r => Some (bytes ++ r) | None => None end.
Proof.
  revert n acc. induction k as [ | k IH ]; intros n acc.
  - exists []. split; [ reflexivity | ]. split.
    + intros a. simpl. rewrite N.mod_1_r. lia.
    + simpl. destruct (fromhex acc); reflexivity.
  - replace (2 * S k)%nat with (S (S (2 * k))) by lia.
    change (hex_digits (S (S (2 * k))) n acc)
      with (hex_digits (2 * k) (n / 16 / 16)%N
              (String (hex_digit ((n / 16) mod 16)%N)
                 (String (hex_digit (n mod 16)%N) acc))).
    destruct (IH (n / 16 / 16)%N
                (String (hex_digit ((n / 16) mod 16)%N)
                   (String (hex_digit (n mod 16)%N) acc)))
      as (b & Hlen & Hfold & Hread).
    exists (b ++ [((n / 16) mod 16 * 16 + n mod 16)%N]).
    split; [ rewrite length_app; simpl; lia | ]. split.
    + intros a. rewrite fold_left_app. simpl. rewrite Hfold.
      rewrite Nat2N.inj_succ, N.pow_succ_r'.
      pose proof (N.Div0.mod_mul_r n 256 (256 ^ N.of_nat k)) as H1.
      pose proof (N.Div0.div_div n 16 16) as H2.
      pose proof (N.Div0.mod_mul_r n 16 16) as H3.
      change (16 * 16)%N with 256%N in H2, H3.
      rewrite H1, H2, H3. lia.
    + rewrite Hread. cbn [fromhex].
      rewrite is_space_hex_digit by (apply N.mod_lt; discriminate).
      rewrite !hex_value_hex_digit by (apply N.mod_lt; discriminate).
      destruct (fromhex acc) as [ r | ]; [ | reflexivity ].
      rewrite <- app_assoc. reflexivity.
Qed.

Lemma ObjectId_oid_str (o : N) : (o < 2 ^ 96)%N -> ObjectId (oid_str o) = Some o.
Proof.
  intros Ho. unfold ObjectId, oid_str. rewrite length_hex_digits. simpl Nat.eqb.
  cbv iota.
  destruct (fromhex_hex_digits 12 o "") as (b & Hlen & Hfold & Hread).
  change (2 * 12)%nat with 24%nat in Hread. rewrite Hread. cbn [fromhex].
  rewrite app_nil_r. unfold oid_of_bytes, big_endian. rewrite Hlen, Hfold.
  simpl Nat.eqb. cbv iota. f_equal.
  change (256 ^ N.of_nat 12)%N with (2 ^ 96)%N.
  rewrite N.mod_small by exact Ho. lia.
Qed.

Lemma oid_str_truthy (o : N) : truthy_str (oid_str o) = true.
Proof.
  pose proof (length_hex_digits 24 o "") as H. unfold truthy_str, oid_str.
  destruct (hex_digits 24 o "") as [ | c s ]; [ discriminate | reflexivity ].
Qed.

(** ** [create_project] *)

Lemma create_project_cases project_data e w :
  (exists i w',
     DatabaseManager.create_project project_data e w = (Ok (Some (py_str i)), w')
     /\ faults_at e (commands w) = false
     /\ commands w' = S (commands w)
     /\ (project_data !! "_id" = None ->
         i = VOid (next_oid w) /\ next_oid w' = (next_oid w + 1)%N)
     /\ only_changes c_projects w w'
     /\ exists d', db_projects w' = db_projects w ++ [d'] /\ d' !! "_id" = Some i
          /\ forall k, k <> "_id" -> d' !! k = stamp_created e w project_data !! k)
  \/ (exists w',
        DatabaseManager.create_project project_data e w = (Ok None, w')
        /\ (faults_at e (commands w) = true \/ is_Some (project_data !! "_id"))
        /\ forall c, coll c w' = coll c w).
Proof.
  set (w1 := set_ticks (S (ticks w)) w).
  set (w2 := set_ticks (S (ticks w1)) w1).
  unfold DatabaseManager.create_project.
  destruct (insert_one_cases c_projects (stamp_created e w project_data) e w2)
    as [(i & w' & Hrun & Hf & _ & _ & Hcmd & Hother & Hown)
       | (x & w' & Hrun & Hwhy & _ & _ & _ & Hsame)].
  - left. exists i, w'. split; [ | split; [ exact Hf | split; [ exact Hcmd | split ] ] ].
    + apply try_ok. erewrite bind_ok; [ | reflexivity ].
      erewrite bind_ok; [ | reflexivity ].
      erewrite bind_ok; [ | exact Hrun ]. reflexivity.
    + intros Hno.
      assert (Hid : stamp_created e w project_data !! "_id" = None).
      { unfold stamp_created. rewrite !lookup_insert_ne by discriminate. exact Hno. }
      rewrite (insert_one_run _ _ _ _ Hf Hid) in Hrun.
      injection Hrun as <- <-. split; reflexivity.
    + split; [ exact Hother | exact Hown ].
  - right. eexists. split.
    + erewrite try_raise;
        [ | erewrite bind_ok; [ | reflexivity ];
            erewrite bind_ok; [ | reflexivity ];
            erewrite bind_raise; [ reflexivity | exact Hrun ] ].
      reflexivity.
    + split; [ | intros c; rewrite coll_add_log; apply Hsame ].
      destruct Hwhy as [Hf | Hid]; [ left; exact Hf | right ].
      unfold stamp_created in Hid. rewrite !lookup_insert_ne in Hid by discriminate.
      exact Hid.
Qed.

(** ** A created project is listed, and can be deleted by its id *)

Lemma projects_query_matches (t : option string) (d : doc) (s : string) :
  d !! "type" = Some (VStr s) -> t = None \/ t = Some s ->
  Matches (projects_query t) d.
Proof.
  intros Hd Ht. unfold projects_query.
  destruct (truthy_opt_str t) eqn:Htruthy; [ | apply Matches_empty ].
  destruct Ht as [-> | ->]; [ discriminate | ].
  apply Matches_singleton. rewrite Hd. reflexivity.
Qed.

Lemma ProjectCreate_dict_type (p : Models.ProjectCreate) :
  Models.ProjectCreate_dict p !! "type" = Some (VStr (Models.pc_type p)).
Proof.
  unfold Models.ProjectCreate_dict, dict. simpl.
  rewrite !lookup_insert_ne by discriminate. apply lookup_insert_eq.
Qed.

(** X11.  After a [POST /projects] that is answered 200, the gateway's
    [get_projects], when its query does not fault, lists the project,
    without filter and under the filter of its own type: with the id that
    the response of the POST carries, as a string under [_id], the fields of
    the body, [created_at] at the first reading of the clock and
    [updated_at] at the second.  (The stored projects carry their [_id].
    This is the list that the handler of [GET /projects] returns; what the
    [response_model] of that route makes of it is not covered.) *)
Theorem posted_project_is_listed project e w r w1 :
  Routes.create_project project e w = (Ok r, w1) ->
  Forall (fun d : doc => is_Some (d !! "_id")) (db_projects w) ->
  faults_at e (commands w1) = false ->
  serve (Routes.create_project project) e w = HttpResponse 200 (Some r) None
  /\ exists project_id p,
       Models.data r = Some {[ "project_id" := VStr project_id ]}
       /\ (forall t, t = None \/ t = Some (Models.pc_type project) ->
           exists ps w2,
             DatabaseManager.get_projects t e w1 = (Ok ps, w2) /\ p ∈ ps)
       /\ p !! "_id" = Some (VStr project_id)
       /\ p !! "created_at" = Some (VDate (utcnow_at e (ticks w)))
       /\ p !! "updated_at" = Some (VDate (utcnow_at e (S (ticks w))))
       /\ forall k, k <> "_id" -> k <> "created_at" -> k <> "updated_at" ->
            p !! k = Models.ProjectCreate_dict project !! k.
Proof.
  intros Hrun Hids Hf.
  split; [ unfold serve; rewrite Hrun; reflexivity | ].
  unfold Routes.create_project in Hrun.
  apply try_inv_ok in Hrun; [ | apply internal_server_error_raises ].
  apply bind_inv_ok in Hrun as (pid & wa & Hcreate & Hrun).
  destruct (create_project_cases (Models.ProjectCreate_dict project) e w)
    as [(i & w' & Hg & _ & _ & _ & _ & d' & Hnew & Hid & Hfields) | (w' & Hg & _)];
    rewrite Hg in Hcreate; injection Hcreate as <- <-; simpl in Hrun.
  2: { discriminate. }
  destruct (truthy_str (py_str i)); [ | discriminate ].
  injection Hrun as <- <-.
  assert (Hids' : Forall (fun d : doc => is_Some (d !! "_id")) (db_projects w')).
  { rewrite Hnew. apply Forall_app. split; [ exact Hids | ].
    constructor; [ rewrite Hid; eauto | constructor ]. }
  assert (Htype : d' !! "type" = Some (VStr (Models.pc_type project))).
  { rewrite Hfields by discriminate. unfold stamp_created.
    rewrite !lookup_insert_ne by discriminate. apply ProjectCreate_dict_type. }
  exists (py_str i), (<["_id" := VStr (py_str i)]> d').
  split; [ reflexivity | ]. split.
  { intros t Ht.
    destruct (get_projects_spec t e w') as (ps & w2 & Hget & _ & _ & Hall).
    specialize (Hall Hf Hids').
    exists ps, w2. split; [ exact Hget | ].
    assert (Hin : d' ∈ merge_sort (doc_le "display_order" ASCENDING)
                    (filter (Matches (projects_query t)) (db_projects w'))).
    { rewrite merge_sort_Permutation. apply list_elem_of_filter. split.
      - eapply projects_query_matches; [ exact Htype | exact Ht ].
      - rewrite Hnew. apply elem_of_app. right. apply list_elem_of_here. }
    destruct (Forall2_elem_of_l _ _ _ _ Hall Hin) as (p & Hp & j & Hj & ->).
    rewrite Hid in Hj. injection Hj as <-. exact Hp. }
  split; [ apply lookup_insert_eq | ].
  split.
  { rewrite lookup_insert_ne, Hfields by discriminate. unfold stamp_created.
    rewrite lookup_insert_ne by discriminate. apply lookup_insert_eq. }
  split.
  { rewrite lookup_insert_ne, Hfields by discriminate. unfold stamp_created.
    apply lookup_insert_eq. }
  intros k H1 H2 H3. rewrite lookup_insert_ne, Hfields by congruence.
  unfold stamp_created. rewrite !lookup_insert_ne by congruence. reflexivity.
Qed.

(** X11 on the seeded store. *)
Lemma posted_project_is_listed_witness :
  is_ok (fst (Routes.create_project new_project quiet seeded)) = true
  /\ exists p,
       p ∈ returned (fst (DatabaseManager.get_projects (Some "Academic Project") quiet
                            (snd (Routes.create_project new_project quiet seeded))))
       /\ p !! "title" = Some (VStr "Notes").
Proof.
  split; [ vm_compute; reflexivity | ].
  destruct (Routes.create_project new_project quiet seeded) as [[r | x] w1] eqn:Hrun.
  - destruct (posted_project_is_listed _ _ _ _ _ Hrun)
      as (_ & project_id & p & _ & Hlisted & _ & _ & _ & Hfields).
    + apply (bool_decide_unpack _). vm_compute. exact I.
    + reflexivity.
    + exists p. cbn [snd]. split.
      * destruct (Hlisted (Some "Academic Project")) as (ps & w2 & -> & Hp);
          [ right; reflexivity | exact Hp ].
      * rewrite Hfields by discriminate. vm_compute. reflexivity.
  - apply (f_equal (fun p => is_ok (fst p))) in Hrun.
    vm_compute in Hrun. discriminate.
Defined.

(** X12.  The id that [create_project] returns denotes the project that it
    stored: in a well-formed store whose next ObjectId has 24 hexadecimal
    digits, the returned string parses back to that ObjectId, and
    [delete_project] with this id, when its command does not fault, returns
    [True] and leaves the documents as they were before the creation. *)
Theorem created_project_is_deleted_by_its_id (project_data : doc) e w :
  project_data !! "_id" = None ->
  well_formed w ->
  (next_oid w < 2 ^ 96)%N ->
  faults_at e (commands w) = false ->
  faults_at e (S (commands w)) = false ->
  exists project_id w1 w2,
    DatabaseManager.create_project project_data e w = (Ok (Some project_id), w1)
    /\ ObjectId project_id = Some (next_oid w)
    /\ length (db_projects w1) = S (length (db_projects w))
    /\ DatabaseManager.delete_project project_id e w1 = (Ok true, w2)
    /\ forall c, coll c w2 = coll c w.
Proof.
  intros Hno Hwf Hbound Hf0 Hf1.
  destruct (create_project_cases project_data e w)
    as [(i & w1 & Hg & _ & Hcmd & Hfresh & Honly & d' & Hnew & Hid & _)
       | (w1 & _ & [Hf | Hsome] & _)].
  2: { rewrite Hf0 in Hf. discriminate. }
  2: { rewrite Hno in Hsome. destruct Hsome as [? ?]. discriminate. }
  destruct (Hfresh Hno) as [-> _]. simpl py_str in Hg.
  pose proof (ObjectId_oid_str _ Hbound) as Hparse.
  assert (Hfind : list_find (Matches {[ "_id" := VOid (next_oid w) ]}) (db_projects w1)
                  = Some (length (db_projects w), d')).
  { rewrite Hnew. apply list_find_Some. split.
    - rewrite lookup_app_r, Nat.sub_diag by lia. reflexivity.
    - split.
      + apply Matches_singleton. rewrite Hid. apply field_matches_self.
      + intros j y Hj Hlt Hm. rewrite lookup_app_l in Hj by exact Hlt.
        destruct (Hwf c_projects) as [HF _]. rewrite Forall_lookup in HF.
        specialize (HF j y Hj).
        apply (Matches_id_oid _ _ _ HF) in Hm.
        apply has_oid_below_lookup in HF as (o & Ho & Hlt').
        rewrite Ho in Hm. injection Hm as ->. lia. }
  destruct (delete_project_cases (oid_str (next_oid w)) e w1)
    as (b & w2 & Hdel & Hothers & Hiff & _ & Htrue).
  assert (Hb : b = true).
  { apply Hiff. split; [ rewrite Hcmd; exact Hf1 | ].
    apply known_id_find. exists (next_oid w), (length (db_projects w)), d'.
    split; [ exact Hparse | exact Hfind ]. }
  subst b. exists (oid_str (next_oid w)), w1, w2.
  split; [ exact Hg | ]. split; [ exact Hparse | ].
  split; [ rewrite Hnew, length_app; simpl; lia | ].
  split; [ exact Hdel | ].
  destruct (Htrue eq_refl) as (j & d & (o & Ho & Hfind') & Hdb).
  rewrite Hparse in Ho. injection Ho as <-. rewrite Hfind in Hfind'.
  injection Hfind' as <- <-.
  intros c. destruct (decide (c = c_projects)) as [-> | Hc].
  - change (coll c_projects ?x) with (db_projects x). rewrite Hdb, Hnew.
    rewrite (delete_middle (db_projects w) [] d'). apply app_nil_r.
  - rewrite Hothers by exact Hc. apply Honly, Hc.
Qed.

(** X12 on the seeded store. *)
Lemma created_project_is_deleted_by_its_id_witness :
  well_formed seeded
  /\ exists project_id w1 w2,
       DatabaseManager.create_project (Models.ProjectCreate_dict new_project)
         quiet seeded = (Ok (Some project_id), w1)
       /\ ObjectId project_id = Some (next_oid seeded)
       /\ length (db_projects w1) = S (length (db_projects seeded))
       /\ DatabaseManager.delete_project project_id quiet w1 = (Ok true, w2)
       /\ forall c, coll c w2 = coll c seeded.
Proof.
  assert (Hwf : well_formed seeded).
  { intros [ ]; split; apply (bool_decide_unpack _); vm_compute; exact I. }
  split; [ exact Hwf | ].
  apply created_project_is_deleted_by_its_id.
  - vm_compute. reflexivity.
  - exact Hwf.
  - vm_compute. reflexivity.
  - reflexivity.
  - reflexivity.
Defined.

(** ** [get_contact_messages] and [get_visualizations] *)

Lemma bson_le_date (a b : Z) : bson_le (VDate a) (VDate b) <-> a <= b.
Proof. unfold bson_le, bson_leb. simpl. apply Z.leb_le. Qed.

Lemma sorted_cursor_listed c q k dir text e w :
  k <> "_id" ->
  exists r w',
    try_except (cursor ← find c q (Some (k, dir)) None; for_each stringify_id cursor)
      (fun x => _ ← logger_error text (Some x); mret []) e w = (Ok r, w')
    /\ StronglySorted (doc_le k dir) r
    /\ Forall (fun p => exists d, d ∈ coll c w /\ Matches q d /\ stringified d p) r
    /\ (faults_at e (commands w) = false ->
        Forall (fun d : doc => is_Some (d !! "_id")) (coll c w) ->
        exists cur, cur ≡ₚ filter (Matches q) (coll c w) /\ Forall2 stringified cur r).
Proof.
  intros Hk.
  destruct (cursor_method_spec c q (Some (k, dir)) None text e w)
    as (r & w' & Hrun & _ & Hr & Hall).
  exists r, w'. split; [ exact Hrun | ]. simpl in Hr, Hall. split; [ | split ].
  - destruct Hr as [-> | [_ Hr]]; [ constructor | ].
    eapply stringified_sorted; [ exact Hk | exact Hr | ].
    apply StronglySorted_merge_sort; apply _.
  - destruct Hr as [-> | [_ Hr]]; [ constructor | ].
    apply Forall_forall. intros p Hp.
    apply (Forall2_elem_of_r _ _ _ _ Hr) in Hp as (d & Hd & Hdp).
    rewrite merge_sort_Permutation in Hd.
    apply list_elem_of_filter in Hd as [Hm Hd]. eauto.
  - intros Hf Hids. eexists. split; [ | apply Hall; assumption ].
    apply merge_sort_Permutation.
Qed.

(** X13.  [get_contact_messages] lists the messages newest first: its
    result is sorted by [created_at], descending, whatever the store holds
    and whatever faults; every listed message is a stored one with its [_id]
    as a string; and when the query does not fault (and the stored messages
    carry their [_id]) every stored message is listed, read or not, without
    a limit. *)
Theorem contact_messages_newest_first e w :
  exists r w',
    DatabaseManager.get_contact_messages e w = (Ok r, w')
    /\ StronglySorted (doc_le "created_at" DESCENDING) r
    /\ (forall i j p q a b, (i < j)%nat -> r !! i = Some p -> r !! j = Some q ->
        p !! "created_at" = Some (VDate a) ->
        q !! "created_at" = Some (VDate b) -> b <= a)
    /\ Forall (fun p => exists d, d ∈ db_contact_messages w /\ stringified d p) r
    /\ (faults_at e (commands w) = false ->
        Forall (fun d : doc => is_Some (d !! "_id")) (db_contact_messages w) ->
        exists cur, cur ≡ₚ db_contact_messages w /\ Forall2 stringified cur r).
Proof.
  destruct (sorted_cursor_listed c_contact_messages ∅ "created_at" DESCENDING
              "Error getting contact messages: " e w)
    as (r & w' & Hrun & HS & Hin & Hall); [ discriminate | ].
  exists r, w'. split; [ exact Hrun | ]. split; [ exact HS | ]. split; [ | split ].
  - intros i j p q a b Hij Hp Hq Ha Hb.
    pose proof (StronglySorted_lookup _ _ _ _ _ _ HS Hij Hp Hq) as H.
    unfold doc_le, sort_key in H. rewrite Ha, Hb in H. simpl in H.
    apply bson_le_date. exact H.
  - eapply Forall_impl; [ exact Hin | ]. intros p (d & Hd & _ & Hdp). eauto.
  - intros Hf Hids. destruct (Hall Hf Hids) as (cur & Hperm & Hcur).
    simpl in Hperm. rewrite filter_Matches_empty in Hperm. eauto.
Qed.

(** X13 on the store with the message that John Doe posted. *)
Lemma contact_messages_newest_first_witness :
  exists r w',
    DatabaseManager.get_contact_messages quiet posted = (Ok r, w')
    /\ exists cur, cur ≡ₚ db_contact_messages posted /\ Forall2 stringified cur r.
Proof.
  destruct (contact_messages_newest_first quiet posted)
    as (r & w' & Hrun & _ & _ & _ & Hall).
  exists r, w'. split; [ exact Hrun | ]. apply Hall.
  - reflexivity.
  - apply (bool_decide_unpack _). vm_compute. exact I.
Defined.

(** X14.  [get_visualizations] lists active visualizations only, in the
    order of [display_order]: its result is sorted ascending, whatever the
    store holds and whatever faults; every listed visualization has [is_active]
    true (or an array that holds true, which the store matches alike), so
    none has it false, null or missing; when the query does not fault (and the
    stored visualizations carry their [_id]) every visualization that
    matches [{"is_active": true}] is listed. *)
Theorem visualizations_active_in_order e w :
  exists r w',
    DatabaseManager.get_visualizations e w = (Ok r, w')
    /\ StronglySorted (doc_le "display_order" ASCENDING) r
    /\ (forall i j p q a b, (i < j)%nat -> r !! i = Some p -> r !! j = Some q ->
        p !! "display_order" = Some (VInt a) ->
        q !! "display_order" = Some (VInt b) -> a <= b)
    /\ Forall (fun p : doc =>
                 p !! "is_active" = Some (VBool true)
                 \/ exists l, p !! "is_active" = Some (VList l) /\ VBool true ∈ l) r
    /\ Forall (fun p => exists d, d ∈ db_visualizations w /\ stringified d p) r
    /\ (faults_at e (commands w) = false ->
        Forall (fun d : doc => is_Some (d !! "_id")) (db_visualizations w) ->
        exists cur,
          cur ≡ₚ filter (Matches {[ "is_active" := VBool true ]}) (db_visualizations w)
          /\ Forall2 stringified cur r).
Proof.
  destruct (sorted_cursor_listed c_visualizations {[ "is_active" := VBool true ]}
              "display_order" ASCENDING "Error getting visualizations: " e w)
    as (r & w' & Hrun & HS & Hin & Hall); [ discriminate | ].
  exists r, w'. split; [ exact Hrun | ]. split; [ exact HS | ].
  split; [ | split; [ | split ] ].
  - intros i j p q a b Hij Hp Hq Ha Hb.
    pose proof (StronglySorted_lookup _ _ _ _ _ _ HS Hij Hp Hq) as H.
    unfold doc_le, sort_key in H. rewrite Ha, Hb in H. simpl in H.
    apply bson_le_int. exact H.
  - eapply Forall_impl; [ exact Hin | ]. intros p (d & _ & Hm & Hdp).
    rewrite (stringified_lookup d p "is_active" Hdp) by discriminate.
    apply Matches_singleton in Hm. unfold field_matches in Hm.
    destruct (d !! "is_active") as [ [ | | | | | | | l | ] | ];
      try discriminate; try (left; congruence).
    destruct Hm as [Hm | Hm]; [ discriminate | ]. right. eauto.
  - eapply Forall_impl; [ exact Hin | ]. intros p (d & Hd & _ & Hdp). eauto.
  - exact Hall.
Qed.

(** X14 on the seeded store: its three visualizations are listed. *)
Lemma visualizations_active_in_order_witness :
  exists r w',
    DatabaseManager.get_visualizations quiet seeded = (Ok r, w')
    /\ exists cur,
         cur ≡ₚ filter (Matches {[ "is_active" := VBool true ]})
                  (db_visualizations seeded)
         /\ Forall2 stringified cur r.
Proof.
  destruct (visualizations_active_in_order quiet seeded)
    as (r & w' & Hrun & _ & _ & _ & _ & Hall).
  exists r, w'. split; [ exact Hrun | ]. apply Hall.
  - reflexivity.
  - apply (bool_decide_unpack _). vm_compute. exact I.
Defined.

(** ** Analytics: what is stored and what is counted *)

Lemma create_analytics_event_cases event_data e w :
  event_data !! "_id" = None ->
  (faults_at e (commands w) = false
   /\ exists w' ev,
        DatabaseManager.create_analytics_event event_data e w = (Ok true, w')
        /\ only_changes c_analytics w w'
        /\ db_analytics w' = db_analytics w ++ [ev]
        /\ stored_event e w event_data ev)
  \/ (faults_at e (commands w) = true
      /\ exists w',
           DatabaseManager.create_analytics_event event_data e w = (Ok false, w')
           /\ forall c, coll c w' = coll c w).
Proof.
  intros Hno.
  set (w1 := set_ticks (S (ticks w)) w).
  set (stamped := <["timestamp" := VDate (utcnow_at e (ticks w))]> event_data).
  assert (Hid : stamped !! "_id" = None).
  { unfold stamped. rewrite lookup_insert_ne by discriminate. exact Hno. }
  unfold DatabaseManager.create_analytics_event.
  destruct (faults_at e (commands w)) eqn:Hf.
  - right. split; [ reflexivity | ]. eexists. split.
    + erewrite try_raise;
        [ | erewrite bind_ok; [ | reflexivity ];
            erewrite bind_raise; [ reflexivity | apply command_faults; exact Hf ] ].
      reflexivity.
    + intros c. reflexivity.
  - left. split; [ reflexivity | ].
    eexists _, (<["_id" := VOid (next_oid w)]> stamped). split.
    + apply try_ok. erewrite bind_ok; [ | reflexivity ].
      erewrite bind_ok; [ | apply (insert_one_run c_analytics stamped e w1 Hf Hid) ].
      reflexivity.
    + split.
      { intros c Hc. rewrite coll_set_inserts, coll_set_next_oid.
        rewrite coll_set_coll_ne by exact Hc. reflexivity. }
      split; [ reflexivity | ].
      split; [ apply lookup_insert_eq | ]. split.
      * rewrite lookup_insert_ne by discriminate. apply lookup_insert_eq.
      * intros k H1 H2. unfold stamped. rewrite !lookup_insert_ne by congruence.
        reflexivity.
Qed.

Lemma filter_app_one (q : doc) (l : list doc) (d : doc) :
  filter (Matches q) (l ++ [d])
  = filter (Matches q) l ++ (if decide (Matches q d) then [d] else []).
Proof.
  rewrite filter_app. reflexivity.
Qed.

Lemma Matches_event_type (t s : string) (d : doc) :
  d !! "event_type" = Some (VStr s) ->
  Matches {[ "event_type" := VStr t ]} d <-> s = t.
Proof.
  intros Hd. rewrite Matches_singleton, Hd. simpl. split; congruence.
Qed.

Lemma get_analytics_stats_totals_run e w :
  (forall k, (k < 5)%nat -> faults_at e (commands w + k) = false) ->
  Forall (fun v : doc => is_Some (v !! "timestamp")) (visits w) ->
  exists s w',
    DatabaseManager.get_analytics_stats e w = (Ok s, w') /\ totals_spec w s.
Proof.
  intros Hf Hts.
  assert (Hts' : Forall (fun v : doc => is_Some (v !! "timestamp"))
                   (take 10 (merge_sort (doc_le "timestamp" DESCENDING) (visits w)))).
  { apply Forall_forall. intros v Hv. rewrite Forall_forall in Hts. apply Hts.
    apply subseteq_take in Hv. rewrite merge_sort_Permutation in Hv. exact Hv. }
  assert (F0 : faults_at e (commands w) = false)
    by (rewrite <- (Nat.add_0_r (commands w)); apply Hf; lia).
  assert (F1 : faults_at e (S (commands w)) = false)
    by (rewrite <- Nat.add_1_r; apply Hf; lia).
  assert (F2 : faults_at e (S (S (commands w))) = false)
    by (replace (S (S (commands w))) with (commands w + 2)%nat by lia; apply Hf; lia).
  assert (F3 : faults_at e (S (S (S (commands w)))) = false)
    by (replace (S (S (S (commands w)))) with (commands w + 3)%nat by lia;
        apply Hf; lia).
  assert (F4 : faults_at e (S (S (S (S (commands w))))) = false)
    by (replace (S (S (S (S (commands w))))) with (commands w + 4)%nat by lia;
        apply Hf; lia).
  destruct (top_pages_pipeline_spec (db_analytics w)) as (top & Htop & Hpipe).
  eexists _, _. split.
  - unfold DatabaseManager.get_analytics_stats. apply try_ok.
    erewrite bind_ok; [ | apply count_documents_run; exact F0 ].
    erewrite bind_ok; [ | apply count_documents_run; exact F1 ].
    erewrite bind_ok; [ | apply count_documents_run; exact F2 ].
    erewrite bind_ok; [ | apply find_run; exact F3 ].
    erewrite bind_ok; [ | apply (for_each_fmap _ reduce_visit);
      simpl; rewrite ?coll_set_commands;
      eapply Forall_impl; [ exact Hts' | ];
      intros v Hv; apply recent_visit_run; exact Hv ].
    erewrite bind_ok; [ | apply aggregate_run; exact F4 ].
    rewrite ?coll_set_commands. simpl coll. rewrite Hpipe.
    erewrite bind_ok; [ | apply (for_each_ok _ _ (top_entry <$> top));
      apply Forall2_fmap, Forall_Forall2_diag, Forall_forall;
      intros g _; apply top_page_group_doc ].
    reflexivity.
  - split; [ reflexivity | ]. split; [ reflexivity | ].
    split; [ simpl; apply f_equal, filter_Matches_empty | ].
    simpl. rewrite length_fmap, length_take.
    change (filter (Matches {[ "event_type" := VStr "visit" ]}) (db_analytics w))
      with (visits w).
    rewrite (Permutation_length (merge_sort_Permutation _ (visits w))). reflexivity.
Qed.

(** X15.  The totals of [get_analytics_stats]: unless the call degrades to
    the aggregate of zeros, [total_visits] and [total_downloads] are the
    numbers of stored events of type "visit" and "download",
    [total_contacts] is the number of stored contact messages (not of
    "contact" events), and [recent_visits] has min(10, total_visits)
    entries.  The call does not degrade when none of its five commands
    faults and the stored visits carry a timestamp. *)
Theorem analytics_totals e w :
  exists s w',
    DatabaseManager.get_analytics_stats e w = (Ok s, w')
    /\ (s = zero_stats \/ totals_spec w s)
    /\ ((forall k, (k < 5)%nat -> faults_at e (commands w + k) = false) ->
        Forall (fun v : doc => is_Some (v !! "timestamp")) (visits w) ->
        totals_spec w s).
Proof.
  assert (Hcases : exists s w',
            DatabaseManager.get_analytics_stats e w = (Ok s, w')
            /\ (s = zero_stats \/ totals_spec w s)).
  { unfold DatabaseManager.get_analytics_stats.
    gateway_cases "Error getting analytics stats: " zero_stats e w a x w' Hbody Hres.
    - exists a, w'. split; [ exact Hres | right ].
      apply get_analytics_stats_body_ok in Hbody
        as (_ & recent & pages & -> & _ & H5 & _ & Hv & Hd & Hc).
      split; [ exact Hv | ]. split; [ exact Hd | ].
      split; [ rewrite Hc, filter_Matches_empty; reflexivity | ].
      rewrite <- (Forall2_length _ _ _ H5), length_take, Hv.
      rewrite (Permutation_length (merge_sort_Permutation _ _)). reflexivity.
    - eexists _, _. split; [ exact Hres | left; reflexivity ]. }
  destruct Hcases as (s & w' & Hrun & Hs). exists s, w'.
  split; [ exact Hrun | ]. split; [ exact Hs | ].
  intros Hf Hts. destruct (get_analytics_stats_totals_run e w Hf Hts)
    as (s1 & w1 & Hrun1 & Htot).
  rewrite Hrun in Hrun1. injection Hrun1 as <- <-. exact Htot.
Qed.

(** X15 on the store with three visits and a download. *)
Lemma analytics_totals_witness :
  exists s w',
    DatabaseManager.get_analytics_stats quiet visited = (Ok s, w')
    /\ totals_spec visited s
    /\ length (visits visited) = 3%nat
    /\ length (downloads visited) = 1%nat.
Proof.
  destruct (analytics_totals quiet visited) as (s & w' & Hrun & _ & Htot).
  exists s, w'. split; [ exact Hrun | ]. split.
  - apply Htot; [ reflexivity | ].
    apply (bool_decide_unpack _). vm_compute. exact I.
  - split; vm_compute; reflexivity.
Defined.

(** ** [POST /analytics/visit], [POST /analytics/download], [GET /resume/download] *)

Lemma visit_event_fields analytics request :
  visit_event analytics request !! "_id" = None
  /\ visit_event analytics request !! "event_type"
     = Some (VStr (Models.ac_event_type analytics))
  /\ visit_event analytics request !! "page" = Some (opt_str (Models.ac_page analytics))
  /\ visit_event analytics request !! "ip_address"
     = Some (VStr (Routes.get_client_ip request)).
Proof.
  unfold visit_event, Models.AnalyticsCreate_dict, dict. simpl.
  repeat split; rewrite ?lookup_insert_ne by discriminate;
    try apply lookup_insert_eq; apply lookup_empty.
Qed.

Lemma download_events_fields request :
  resume_event request !! "_id" = None
  /\ resume_event request !! "event_type" = Some (VStr "download")
  /\ download_event request !! "_id" = None
  /\ download_event request !! "event_type" = Some (VStr "download").
Proof.
  unfold resume_event, download_event, dict. simpl.
  repeat split; rewrite ?lookup_insert_ne by discriminate;
    try apply lookup_insert_eq; apply lookup_empty.
Qed.

Lemma stored_event_counted e w (event_data ev : doc) (s t : string) :
  stored_event e w event_data ev ->
  event_data !! "event_type" = Some (VStr s) ->
  filter (Matches {[ "event_type" := VStr t ]}) (db_analytics w ++ [ev])
  = filter (Matches {[ "event_type" := VStr t ]}) (db_analytics w)
    ++ (if decide (s = t) then [ev] else []).
Proof.
  intros (_ & _ & Hfields) Hs. rewrite filter_app_one. f_equal.
  assert (Hev : ev !! "event_type" = Some (VStr s))
    by (rewrite Hfields by discriminate; exact Hs).
  destruct (decide (Matches {[ "event_type" := VStr t ]} ev)) as [Hm | Hm];
    destruct (decide (s = t)) as [Hst | Hst]; try reflexivity.
  - apply (Matches_event_type t s ev Hev) in Hm. contradiction.
  - exfalso. apply Hm. apply (Matches_event_type t s ev Hev). exact Hst.
Qed.

(** X16.  [POST /analytics/visit] stores the event or refuses: when its
    command does not fault it answers 200 and appends one event, with the
    [event_type] and the page of the body, the address of the client and the
    time of the request, and touches nothing else; the event counts as a
    visit exactly when the body says "visit", and as a download when the body
    says "download".  When the command faults it answers 500 and stores
    nothing. *)
Theorem visit_is_stored_or_refused analytics request e w :
  (faults_at e (commands w) = false
   /\ serve (Routes.log_visit analytics request) e w = ok_response "Visit logged" None
   /\ only_changes c_analytics w (snd (Routes.log_visit analytics request e w))
   /\ exists ev,
        db_analytics (snd (Routes.log_visit analytics request e w))
        = db_analytics w ++ [ev]
        /\ stored_event e w (visit_event analytics request) ev
        /\ ev !! "event_type" = Some (VStr (Models.ac_event_type analytics))
        /\ ev !! "page" = Some (opt_str (Models.ac_page analytics))
        /\ ev !! "ip_address" = Some (VStr (Routes.get_client_ip request))
        /\ visits (snd (Routes.log_visit analytics request e w))
           = visits w
             ++ (if decide (Models.ac_event_type analytics = "visit") then [ev] else [])
        /\ downloads (snd (Routes.log_visit analytics request e w))
           = downloads w
             ++ (if decide (Models.ac_event_type analytics = "download")
                 then [ev] else []))
  \/ (faults_at e (commands w) = true
      /\ serve (Routes.log_visit analytics request) e w = server_error_response
      /\ forall c, coll c (snd (Routes.log_visit analytics request e w)) = coll c w).
Proof.
  destruct (visit_event_fields analytics request) as (Hno & Htype & Hpage & Hip).
  destruct (create_analytics_event_cases (visit_event analytics request) e w Hno)
    as [(Hf & w' & ev & Hg & Honly & Hnew & Hev) | (Hf & w' & Hg & Hsame)].
  - destruct (flag_handler
                (DatabaseManager.create_analytics_event (visit_event analytics request))
                (Models.mkAPIResponse true "Visit logged" None)
                (HTTPException 500 "Failed to log visit")
                "Error logging visit: " e w true w' Hg) as [Hyes _].
    assert (Hrun : Routes.log_visit analytics request e w
                   = (Ok (Models.mkAPIResponse true "Visit logged" None), w'))
      by exact (Hyes eq_refl).
    left. split; [ exact Hf | ]. unfold serve. rewrite Hrun.
    split; [ reflexivity | ]. split; [ exact Honly | ].
    exists ev. cbn [snd]. split; [ exact Hnew | ]. split; [ exact Hev | ].
    pose proof Hev as (Hid & Hts & Hfields).
    split; [ rewrite Hfields by discriminate; exact Htype | ].
    split; [ rewrite Hfields by discriminate; exact Hpage | ].
    split; [ rewrite Hfields by discriminate; exact Hip | ].
    unfold visits, downloads. rewrite Hnew.
    split; apply (stored_event_counted e w _ ev _ _ Hev Htype).
  - destruct (flag_handler
                (DatabaseManager.create_analytics_event (visit_event analytics request))
                (Models.mkAPIResponse true "Visit logged" None)
                (HTTPException 500 "Failed to log visit")
                "Error logging visit: " e w false w' Hg) as [_ Hno'].
    assert (Hrun : Routes.log_visit analytics request e w
                   = (Raise (HTTPException 500 "Internal server error"),
                      add_log (LogRecord "ERROR" "Error logging visit: "
                                 (Some (HTTPException 500 "Failed to log visit"))) w'))
      by exact (Hno' eq_refl).
    right. split; [ exact Hf | ]. unfold serve. rewrite Hrun.
    split; [ reflexivity | ]. intros c. cbn [snd]. rewrite coll_add_log. apply Hsame.
Qed.

(** X16 on the seeded store: a visit of the home page is stored and counted. *)
Lemma visit_is_stored_or_refused_witness :
  serve (Routes.log_visit home_visit plain_request) quiet seeded
  = ok_response "Visit logged" None
  /\ length (visits (snd (Routes.log_visit home_visit plain_request quiet seeded)))
     = S (length (visits seeded)).
Proof.
  destruct (visit_is_stored_or_refused home_visit plain_request quiet seeded)
    as [(_ & Hserve & _ & ev & _ & _ & _ & _ & _ & Hvisits & _) | (Hf & _)].
  - split; [ exact Hserve | ]. rewrite Hvisits, length_app.
    destruct (decide (Models.ac_event_type home_visit = "visit")) as [_ | Hne];
      [ cbn [length]; lia | exfalso; apply Hne; reflexivity ].
  - discriminate.
Defined.

(** X17.  [GET /resume/download] answers 200 with the name of the file
    whether or not its download event could be stored: the handler does not
    look at what [create_analytics_event] returns.  The event is appended,
    and counted as a download, exactly when the command does not fault.
    [POST /analytics/download], which stores the same kind of event, answers
    500 when the command faults. *)
Theorem resume_download_never_fails request e w :
  serve (Routes.download_resume request) e w
  = ok_response "Resume download initiated"
      (Some {[ "filename" := VStr "Keerthana_Madisetty_Resume.pdf" ]})
  /\ (faults_at e (commands w) = true ->
      (forall c, coll c (snd (Routes.download_resume request e w)) = coll c w)
      /\ serve (Routes.log_download request) e w = server_error_response
      /\ forall c, coll c (snd (Routes.log_download request e w)) = coll c w)
  /\ (faults_at e (commands w) = false ->
      (exists ev,
         db_analytics (snd (Routes.download_resume request e w))
         = db_analytics w ++ [ev]
         /\ stored_event e w (resume_event request) ev
         /\ downloads (snd (Routes.download_resume request e w))
            = downloads w ++ [ev])
      /\ serve (Routes.log_download request) e w = ok_response "Download logged" None
      /\ exists ev,
           db_analytics (snd (Routes.log_download request e w))
           = db_analytics w ++ [ev]
           /\ stored_event e w (download_event request) ev).
Proof.
  destruct (download_events_fields request) as (Hno & Htype & Hno' & Htype').
  assert (Hresume : forall b w',
            DatabaseManager.create_analytics_event (resume_event request) e w
            = (Ok b, w') ->
            Routes.download_resume request e w
            = (Ok (Models.mkAPIResponse true "Resume download initiated"
                     (Some {[ "filename" := VStr "Keerthana_Madisetty_Resume.pdf" ]})),
               w')).
  { intros b w' Hg. unfold Routes.download_resume. apply try_ok.
    fold (resume_event request). rewrite (bind_ok _ _ e w b w' Hg). reflexivity. }
  destruct (create_analytics_event_cases (resume_event request) e w Hno)
    as [(Hf & w' & ev & Hg & Honly & Hnew & Hev) | (Hf & w' & Hg & Hsame)];
    destruct (create_analytics_event_cases (download_event request) e w Hno')
      as [(Hf' & w2 & ev' & Hg' & _ & Hnew' & Hev') | (Hf' & w2 & Hg' & Hsame')];
    try congruence;
    unfold serve; rewrite (Hresume _ _ Hg); (split; [ reflexivity | ]).
  - split; [ intros H; congruence | ]. intros _.
    destruct (flag_handler
                (DatabaseManager.create_analytics_event (download_event request))
                (Models.mkAPIResponse true "Download logged" None)
                (HTTPException 500 "Failed to log download")
                "Error logging download: " e w true w2 Hg') as [Hyes _].
    assert (Hrun : Routes.log_download request e w
                   = (Ok (Models.mkAPIResponse true "Download logged" None), w2))
      by exact (Hyes eq_refl).
    rewrite Hrun. cbn [snd fst]. split; [ | split; [ reflexivity | eauto ] ].
    exists ev. split; [ exact Hnew | ]. split; [ exact Hev | ].
    unfold downloads. rewrite Hnew.
    rewrite (stored_event_counted e w _ ev "download" "download" Hev Htype).
    reflexivity.
  - split; [ | intros H; congruence ]. intros _.
    destruct (flag_handler
                (DatabaseManager.create_analytics_event (download_event request))
                (Models.mkAPIResponse true "Download logged" None)
                (HTTPException 500 "Failed to log download")
                "Error logging download: " e w false w2 Hg') as [_ Hno2].
    assert (Hrun : Routes.log_download request e w
                   = (Raise (HTTPException 500 "Internal server error"),
                      add_log (LogRecord "ERROR" "Error logging download: "
                                 (Some (HTTPException 500 "Failed to log download"))) w2))
      by exact (Hno2 eq_refl).
    rewrite Hrun. cbn [snd fst]. split; [ exact Hsame | ].
    split; [ reflexivity | ]. intros c. rewrite coll_add_log. apply Hsame'.
Qed.

(** X17 on the seeded store, with a store that is down. *)
Lemma resume_download_never_fails_witness :
  serve (Routes.download_resume plain_request) down seeded
  = ok_response "Resume download initiated"
      (Some {[ "filename" := VStr "Keerthana_Madisetty_Resume.pdf" ]})
  /\ db_analytics (snd (Routes.download_resume plain_request down seeded))
     = db_analytics seeded
  /\ serve (Routes.log_download plain_request) down seeded = server_error_response.
Proof.
  destruct (resume_download_never_fails plain_request down seeded)
    as (Hserve & Hdown & _).
  split; [ exact Hserve | ].
  destruct (Hdown eq_refl) as (Hsame & Hlog & _).
  split; [ exact (Hsame c_analytics) | exact Hlog ].
Defined.

(** ** [POST /contact]: the message and its analytics event *)

Lemma create_contact_message_run (message_data : doc) e w :
  faults_at e (commands w) = false ->
  message_data !! "_id" = None ->
  DatabaseManager.create_contact_message message_data e w
  = (Ok (Some (oid_str (next_oid w))),
     set_inserts (S (inserts w))
       (set_next_oid (next_oid w + 1)%N
          (set_coll c_contact_messages
             (db_contact_messages w
              ++ [<["_id" := VOid (next_oid w)]>
                    (<["is_read" := VBool false]>
                       (<["created_at" := VDate (utcnow_at e (ticks w))]> message_data))])
             (set_commands (S (commands w)) (set_ticks (S (ticks w)) w))))).
Proof.
  intros Hf Hno. unfold DatabaseManager.create_contact_message. apply try_ok.
  erewrite bind_ok; [ | reflexivity ].
  erewrite bind_ok;
    [ | apply insert_one_run;
        [ exact Hf | rewrite !lookup_insert_ne by discriminate; exact Hno ] ].
  reflexivity.
Qed.

Lemma contact_event_fields request :
  contact_event request !! "_id" = None
  /\ contact_event request !! "event_type" = Some (VStr "contact")
  /\ contact_event request !! "page" = Some (VStr "contact")
  /\ contact_event request !! "ip_address" = Some (VStr (Routes.get_client_ip request)).
Proof.
  unfold contact_event, dict. simpl.
  repeat split; rewrite ?lookup_insert_ne by discriminate;
    try apply lookup_insert_eq; apply lookup_empty.
Qed.

Lemma contact_data_request_fields contact request :
  contact_data contact request !! "ip_address"
  = Some (VStr (Routes.get_client_ip request))
  /\ contact_data contact request !! "user_agent"
     = Some (VStr (default "" (headers_get (headers request) "User-Agent"))).
Proof.
  unfold contact_data. split.
  - rewrite lookup_insert_ne by discriminate. apply lookup_insert_eq.
  - apply lookup_insert_eq.
Qed.

(** X18.  The outcomes of [POST /contact].  When the insert of the message
    faults, the answer is 500 and nothing is stored, no analytics event
    either.  When it does not fault, the answer is 200 with the id of the
    message, which is stored; the "contact" event is then appended to the
    analytics when its own insert does not fault, and is lost without a
    trace in the answer when it does. *)
Theorem contact_form_outcomes contact request e w :
  (faults_at e (commands w) = true ->
   serve (Routes.submit_contact_form contact request) e w = server_error_response
   /\ forall c, coll c (snd (Routes.submit_contact_form contact request e w)) = coll c w)
  /\ (faults_at e (commands w) = false ->
      serve (Routes.submit_contact_form contact request) e w
      = ok_response message_sent
          (Some {[ "message_id" := VStr (oid_str (next_oid w)) ]})
      /\ only_changes c_analytics
           (snd (DatabaseManager.create_contact_message
                   (contact_data contact request) e w))
           (snd (Routes.submit_contact_form contact request e w))
      /\ (exists m,
            db_contact_messages (snd (Routes.submit_contact_form contact request e w))
            = db_contact_messages w ++ [m]
            /\ m !! "_id" = Some (VOid (next_oid w)))
      /\ (faults_at e (S (commands w)) = true ->
          db_analytics (snd (Routes.submit_contact_form contact request e w))
          = db_analytics w)
      /\ (faults_at e (S (commands w)) = false ->
          exists ev,
            db_analytics (snd (Routes.submit_contact_form contact request e w))
            = db_analytics w ++ [ev]
            /\ ev !! "_id" = Some (VOid (next_oid w + 1))
            /\ ev !! "timestamp" = Some (VDate (utcnow_at e (S (ticks w))))
            /\ forall k, k <> "_id" -> k <> "timestamp" ->
                 ev !! k = contact_event request !! k)).
Proof.
  destruct (contact_data_fields contact request) as [_ Hno].
  destruct (contact_data_request_fields contact request) as [Hip Hua].
  destruct (contact_event_fields request) as (Hevno & _).
  split.
  - intros Hf.
    destruct (create_contact_message_cases (contact_data contact request) e w)
      as [(i & w' & _ & Hf' & _) | (w' & Hg & _ & Hsame)]; [ congruence | ].
    assert (Hrun : Routes.submit_contact_form contact request e w
                   = (Raise (HTTPException 500 "Internal server error"),
                      add_log (LogRecord "ERROR" "Error submitting contact form: "
                                 (Some (HTTPException 500 "Failed to send message"))) w')).
    { unfold Routes.submit_contact_form. erewrite try_raise; [ reflexivity | ].
      cbv zeta. fold (contact_data contact request).
      rewrite (bind_ok _ _ e w None w' Hg). reflexivity. }
    unfold serve. rewrite Hrun. split; [ reflexivity | ].
    intros c. cbn [snd]. rewrite coll_add_log. apply Hsame.
  - intros Hf.
    pose proof (create_contact_message_run (contact_data contact request) e w Hf Hno)
      as Hg.
    match type of Hg with _ = (_, ?x) => set (w' := x) in * end.
    assert (Hbody : forall b w2,
              DatabaseManager.create_analytics_event (contact_event request) e w'
              = (Ok b, w2) ->
              Routes.submit_contact_form contact request e w
              = (Ok (Models.mkAPIResponse true message_sent
                       (Some {[ "message_id" := VStr (oid_str (next_oid w)) ]})), w2)).
    { intros b w2 Hev. unfold Routes.submit_contact_form. apply try_ok.
      cbv zeta. fold (contact_data contact request).
      rewrite (bind_ok _ _ e w _ w' Hg).
      unfold truthy_opt_str. rewrite oid_str_truthy.
      erewrite bind_ok; [ | unfold getitem; rewrite Hip; reflexivity ].
      erewrite bind_ok; [ | unfold getitem; rewrite Hua; reflexivity ].
      fold (contact_event request).
      rewrite (bind_ok _ _ e w' b w2 Hev). reflexivity. }
    rewrite Hg. cbn [snd].
    destruct (create_analytics_event_cases (contact_event request) e w' Hevno)
      as [(Hf1 & w2 & ev & Hev & Honly & Hnew & Hid & Hts & Hfields)
         | (Hf1 & w2 & Hev & Hsame)];
      unfold serve; rewrite (Hbody _ _ Hev); cbn [fst snd];
      (split; [ reflexivity | ]).
    + split; [ exact Honly | ]. split.
      { eexists. split; [ | apply lookup_insert_eq ].
        change (db_contact_messages w2) with (coll c_contact_messages w2).
        rewrite (Honly c_contact_messages) by discriminate. reflexivity. }
      split; [ intros H; change (commands w') with (S (commands w)) in Hf1; congruence | ].
      intros _. exists ev. split; [ exact Hnew | ].
      split; [ exact Hid | ]. split; [ exact Hts | exact Hfields ].
    + split; [ intros c _; apply Hsame | ]. split.
      { eexists. split; [ | apply lookup_insert_eq ].
        change (db_contact_messages w2) with (coll c_contact_messages w2).
        rewrite Hsame. reflexivity. }
      split; [ intros _; exact (Hsame c_analytics) | ].
      intros H. change (commands w') with (S (commands w)) in Hf1. congruence.
Qed.

(** X18 on the seeded store, when the insert of the event faults. *)
Lemma contact_form_outcomes_witness :
  serve (Routes.submit_contact_form john_doe plain_request) (faulting_at 11) seeded
  = ok_response message_sent (Some {[ "message_id" := VStr (oid_str 9) ]})
  /\ db_analytics
       (snd (Routes.submit_contact_form john_doe plain_request (faulting_at 11) seeded))
     = db_analytics seeded.
Proof.
  destruct (contact_form_outcomes john_doe plain_request (faulting_at 11) seeded)
    as [_ Hok].
  destruct (Hok eq_refl) as (Hserve & _ & _ & Hlost & _).
  split; [ exact Hserve | ]. apply Hlost. reflexivity.
Defined.

(** ** [get_client_ip] *)

Lemma append_cons (c : ascii) (a b : string) :
  (String c a ++ b)%string = String c (a ++ b)%string.
Proof. reflexivity. Qed.

Lemma before_comma_spec (v : string) :
  (exists rest, v = (before_comma v ++ rest)%string
                /\ (rest = "" \/ exists r, rest = String "," r))
  /\ forall a b, before_comma v <> (a ++ String "," b)%string.
Proof.
  induction v as [ | c v [(rest & Hrest & Hcases) IH] ]; simpl.
  - split; [ exists ""; auto | ].
    intros [ | c' a ] b; [ | rewrite append_cons ]; discriminate.
  - destruct (Ascii.eqb_spec c ","%char) as [-> | Hc].
    + split; [ exists (String "," v); eauto | ].
      intros [ | c' a ] b; [ | rewrite append_cons ]; discriminate.
    + split.
      * exists rest. split; [ rewrite append_cons; f_equal; exact Hrest | exact Hcases ].
      * intros [ | c' a ] b.
        -- intros H. injection H as H1 _. contradiction.
        -- rewrite append_cons. intros H. injection H as _ H2. exact (IH a b H2).
Qed.

(** X19.  [get_client_ip]: with a non-empty [X-Forwarded-For] header the
    address is the header up to its first comma, as it stands (not
    stripped, and empty when the header starts with a comma: the peer is
    not consulted then); it contains no comma.  Without the header, or with
    an empty one, it is the host of the peer, and "unknown" when there is no
    peer. *)
Theorem client_ip_cases (request : Request) :
  (forall v, headers_get (headers request) "X-Forwarded-For" = Some v -> v <> "" ->
     (exists rest,
        v = (Routes.get_client_ip request ++ rest)%string
        /\ (rest = "" \/ exists r, rest = String "," r))
     /\ (forall a b, Routes.get_client_ip request <> (a ++ String "," b)%string)
     /\ (forall r, v = String "," r -> Routes.get_client_ip request = ""))
  /\ (headers_get (headers request) "X-Forwarded-For" = None
      \/ headers_get (headers request) "X-Forwarded-For" = Some "" ->
      (forall host, client request = Some host -> Routes.get_client_ip request = host)
      /\ (client request = None -> Routes.get_client_ip request = "unknown")).
Proof.
  unfold Routes.get_client_ip. split.
  - intros v Hv Hne. rewrite Hv. simpl. rewrite truthy_str_true by exact Hne.
    destruct (before_comma_spec v) as [Hprefix Hcomma].
    split; [ exact Hprefix | ]. split; [ exact Hcomma | ].
    intros r ->. reflexivity.
  - intros [-> | ->]; simpl; split; try (intros host ->; reflexivity);
      intros ->; reflexivity.
Qed.

(** X19 on a request through two proxies, and on a header that starts with
    a comma. *)
Lemma client_ip_cases_witness :
  Routes.get_client_ip plain_request = "10.0.0.7"
  /\ Routes.get_client_ip odd_request = "".
Proof.
  split; [ reflexivity | ].
  destruct (client_ip_cases odd_request) as [Hfwd _].
  destruct (Hfwd ",10.0.0.1") as (_ & _ & Hempty);
    [ reflexivity | discriminate | ].
  apply (Hempty "10.0.0.1"). reflexivity.
Defined.

(** ** [GET /profile] *)

(** X20.  The handler [get_profile] of [GET /profile].  With a stored
    profile and a read that does not fault, it returns the profile with its
    [_id] as a string and writes nothing.  On a store without profile, when
    no command faults, it runs the seeder and returns the default profile,
    now stored, and the same call again returns the same profile and writes
    nothing.  When every command faults, the profile is absent after the
    seeding too, the handler raises its 404 "Profile not found" and catches
    it itself: what leaves it is the [HTTPException] of status 500.  All
    this is of the value that the handler returns; the
    [response_model=Profile] of the route, which the framework applies to
    it, is not covered. *)
Theorem get_profile_seeds_once e w :
  (forall ex rest i,
     db_profile w = ex :: rest -> ex !! "_id" = Some i ->
     faults_at e (commands w) = false ->
     Routes.get_profile e w
     = (Ok (<["_id" := VStr (py_str i)]> ex), set_commands (S (commands w)) w))
  /\ (db_profile w = [] -> (forall n, faults_at e n = false) ->
      exists p stored w',
        Routes.get_profile e w = (Ok p, w')
        /\ db_profile w' = [stored]
        /\ stringified stored p
        /\ p !! "personal" = SeedData.profile_data !! "personal"
        /\ extends w w'
        /\ Routes.get_profile e w' = (Ok p, set_commands (S (commands w')) w'))
  /\ ((forall n, faults_at e n = true) ->
      exists w',
        Routes.get_profile e w
        = (Raise (HTTPException 500 "Internal server error"), w')).
Proof.
  assert (Hstored : forall w0 ex rest i,
            db_profile w0 = ex :: rest -> ex !! "_id" = Some i ->
            faults_at e (commands w0) = false ->
            Routes.get_profile e w0
            = (Ok (<["_id" := VStr (py_str i)]> ex), set_commands (S (commands w0)) w0)).
  { intros w0 ex rest i Hp Hid Hf. unfold Routes.get_profile. apply try_ok.
    erewrite bind_ok; [ | apply (get_profile_some e w0 ex rest i Hp Hid Hf) ].
    assert (Ht : truthy_opt_doc (Some (<["_id" := VStr (py_str i)]> ex)) = true).
    { apply (truthy_doc_lookup _ "_id" (VStr (py_str i))). apply lookup_insert_eq. }
    rewrite Ht. change (negb true) with false. cbv iota.
    erewrite bind_ok; [ | reflexivity ].
    rewrite Ht. reflexivity. }
  split; [ apply Hstored | ]. split.
  - intros Hempty Hf.
    set (w1 := set_commands (S (commands w)) w).
    destruct (seed_fresh e w1 Hempty Hf) as (w2 & stored & Hseed & Hp & [i Hid] & Hpers & Hext).
    exists (<["_id" := VStr (py_str i)]> stored), stored, (set_commands (S (commands w2)) w2).
    assert (Ht : truthy_opt_doc (Some (<["_id" := VStr (py_str i)]> stored)) = true).
    { apply (truthy_doc_lookup _ "_id" (VStr (py_str i))). apply lookup_insert_eq. }
    split.
    { unfold Routes.get_profile. apply try_ok.
      erewrite bind_ok; [ | apply (get_profile_none e w Hempty (Hf _)) ].
      fold w1. change (negb (truthy_opt_doc None)) with true. cbv iota.
      erewrite bind_ok;
        [ | erewrite bind_ok; [ | exact Hseed ];
            apply (get_profile_some e w2 stored [] i Hp Hid (Hf _)) ].
      rewrite Ht. reflexivity. }
    split; [ exact Hp | ]. split; [ exists i; auto | ].
    split; [ rewrite lookup_insert_ne by discriminate; exact Hpers | ].
    split; [ intros c; apply (Hext c) | ].
    apply (Hstored _ stored [] i); [ exact Hp | exact Hid | apply Hf ].
  - intros Hf.
    assert (Hraise : exists w',
              Routes.get_profile e w
              = (Raise (HTTPException 500 "Internal server error"), w')).
    { unfold Routes.get_profile, try_except.
      match goal with
      | |- context [ match ?body e w with _ => _ end ] =>
          destruct (body e w) as [[p | x] w'] eqn:Hbody
      end.
      2: { eexists. reflexivity. }
      exfalso.
      apply bind_inv_ok in Hbody as (pd & w1 & H1 & Hbody).
      destruct (get_profile_degrades e w) as (r & w1' & Hr & Hnone).
      rewrite Hr in H1. injection H1 as <- <-. rewrite (Hnone (Hf _)) in Hbody.
      change (negb (truthy_opt_doc None)) with true in Hbody. cbv iota in Hbody.
      apply bind_inv_ok in Hbody as (pd' & w3 & H3 & H4).
      apply bind_inv_ok in H3 as (u & w2 & _ & Hget).
      destruct (get_profile_degrades e w2) as (r2 & w3' & Hr2 & Hnone2).
      rewrite Hr2 in Hget. injection Hget as <- <-. rewrite (Hnone2 (Hf _)) in H4.
      discriminate. }
    exact Hraise.
Qed.

(** X20 from the empty database. *)
Lemma get_profile_seeds_once_witness :
  exists p stored w',
    Routes.get_profile quiet empty_world = (Ok p, w')
    /\ db_profile w' = [stored]
    /\ stringified stored p
    /\ p !! "personal" = SeedData.profile_data !! "personal".
Proof.
  destruct (get_profile_seeds_once quiet empty_world) as (_ & Hseed & _).
  destruct Hseed as (p & stored & w' & Hrun & Hp & Hs & Hpers & _);
    [ reflexivity | reflexivity | ].
  exists p, stored, w'. auto.
Defined.

(** ** The seeder when commands fault *)

#[global] Instance adds_outside_profile_frame : Frame adds_outside_profile.
Proof.
  split.
  - intros w1 w2 w3 H12 H23 c Hc.
    destruct (H12 c Hc) as [a1 E1]. destruct (H23 c Hc) as [a2 E2].
    exists (a1 ++ a2). rewrite E2, E1. symmetry. apply app_assoc.
  - intros w w' (Hc & _) c _. exists []. rewrite Hc. symmetry. apply app_nil_r.
Qed.

#[global] Instance adds_outside_profile_clock : FrameClock adds_outside_profile.
Proof. intros n w c _. exists []. symmetry. apply app_nil_r. Qed.

Lemma only_changes_profile_adds w w' :
  only_changes c_profile w w' -> adds_outside_profile w w'.
Proof. intros H c Hc. exists []. rewrite (H c Hc). symmetry. apply app_nil_r. Qed.

Lemma insert_one_adds c (d : doc) : preserves adds_outside_profile (insert_one c d).
Proof.
  apply preserves_command; [ exact _ | ]. intros w c' Hc'.
  assert (Hgrow : forall d' : doc, exists added,
            coll c' (set_coll c (coll c w ++ [d']) w) = coll c' w ++ added).
  { intros d'. rewrite coll_set_coll. destruct (decide (c' = c)) as [-> | ].
    - eauto.
    - exists []. symmetry. apply app_nil_r. }
  destruct (d !! "_id") as [i | ].
  - case_bool_decide; cbn [snd].
    + exists []. symmetry. apply app_nil_r.
    + rewrite coll_set_inserts. apply Hgrow.
  - cbn [snd]. rewrite coll_set_inserts, coll_set_next_oid. apply Hgrow.
Qed.

Lemma create_or_update_profile_adds (d : doc) :
  d !! "_id" = None ->
  preserves adds_outside_profile (DatabaseManager.create_or_update_profile d).
Proof.
  intros Hd e w. apply only_changes_profile_adds.
  apply (create_or_update_profile_from (only_changes c_profile)); try exact _.
  - intros d' _. apply insert_one_only_changes.
  - intros q upd. apply update_one_set_only_changes.
  - exact Hd.
Qed.

Lemma served_succ (e : env) (start n : nat) :
  served e start (S n)
  = ((if faults_at e start then 0 else 1) + served e (S start) n)%nat.
Proof.
  unfold served. simpl seq. rewrite filter_cons.
  destruct (faults_at e start); simpl; reflexivity.
Qed.

Lemma create_stamped_run c text (data : doc) e w :
  data !! "_id" = None ->
  exists r w',
    create_stamped c text data e w = (Ok r, w')
    /\ commands w' = S (commands w)
    /\ only_changes c w w'
    /\ (if faults_at e (commands w)
        then r = None /\ coll c w' = coll c w
        else r = Some (oid_str (next_oid w))
             /\ exists d', coll c w' = coll c w ++ [d']).
Proof.
  intros Hno. unfold create_stamped.
  set (w2 := set_ticks (S (S (ticks w))) (set_ticks (S (ticks w)) w)).
  set (stamped := <["updated_at" := VDate (utcnow_at e (S (ticks w)))]>
                    (<["created_at" := VDate (utcnow_at e (ticks w))]> data)).
  assert (Hid : stamped !! "_id" = None).
  { unfold stamped. rewrite !lookup_insert_ne by discriminate. exact Hno. }
  destruct (faults_at e (commands w)) eqn:Hf.
  - eexists None, _. split.
    { erewrite try_raise;
        [ | erewrite bind_ok; [ | reflexivity ];
            erewrite bind_ok; [ | reflexivity ];
            erewrite bind_raise; [ reflexivity | apply command_faults; exact Hf ] ].
      reflexivity. }
    split; [ reflexivity | ]. split; [ intros c' _; reflexivity | ].
    split; reflexivity.
  - eexists (Some (oid_str (next_oid w))), _. split.
    { apply try_ok. erewrite bind_ok; [ | reflexivity ].
      erewrite bind_ok; [ | reflexivity ].
      erewrite bind_ok; [ | apply (insert_one_run c stamped e w2 Hf Hid) ].
      reflexivity. }
    split; [ destruct c; reflexivity | ]. split.
    { intros c' Hc'. rewrite coll_set_inserts, coll_set_next_oid.
      rewrite coll_set_coll_ne by exact Hc'. reflexivity. }
    split; [ reflexivity | ]. eexists.
    rewrite coll_set_inserts, coll_set_next_oid, coll_set_coll_eq. reflexivity.
Qed.

Lemma seed_one_run c text failed (data : doc) e w :
  data !! "_id" = None -> is_Some (data !! "title") ->
  exists w',
    seed_one c text failed data e w = (Ok tt, w')
    /\ commands w' = S (commands w)
    /\ only_changes c w w'
    /\ length (coll c w')
       = (length (coll c w) + (if faults_at e (commands w) then 0 else 1))%nat.
Proof.
  intros Hno [t Ht].
  destruct (create_stamped_run c text data e w Hno) as (r & w' & Hrun & Hcmd & Honly & Hr).
  unfold seed_one. rewrite (bind_ok _ _ e w r w' Hrun).
  destruct (faults_at e (commands w)).
  - destruct Hr as [-> Hsame]. simpl.
    eexists. split.
    { erewrite bind_ok; [ | unfold getitem; rewrite Ht; reflexivity ]. reflexivity. }
    split; [ exact Hcmd | ]. split.
    { intros c' Hc'. rewrite coll_add_log. apply Honly, Hc'. }
    rewrite coll_add_log, Hsame. lia.
  - destruct Hr as [-> [d' Hnew]]. unfold truthy_opt_str. rewrite oid_str_truthy.
    exists w'. split; [ reflexivity | ]. split; [ exact Hcmd | ].
    split; [ exact Honly | ]. rewrite Hnew, length_app. reflexivity.
Qed.

Lemma seed_loop_run c text failed (l : list doc) e w :
  Forall (fun d : doc => d !! "_id" = None /\ is_Some (d !! "title")) l ->
  exists ys w',
    for_each (seed_one c text failed) l e w = (Ok ys, w')
    /\ commands w' = (commands w + length l)%nat
    /\ only_changes c w w'
    /\ length (coll c w') = (length (coll c w) + served e (commands w) (length l))%nat.
Proof.
  intros Hl. revert w. induction Hl as [ | d l [Hno Ht] _ IH ]; intros w.
  - exists [], w. split; [ reflexivity | ]. split; [ simpl; lia | ].
    split; [ intros c' _; reflexivity | ]. unfold served. simpl. lia.
  - destruct (seed_one_run c text failed d e w Hno Ht) as (w1 & H1 & Hc1 & Ho1 & Hl1).
    destruct (IH w1) as (ys & w2 & H2 & Hc2 & Ho2 & Hl2).
    exists (tt :: ys), w2. split.
    { simpl for_each. rewrite (bind_ok _ _ e w tt w1 H1).
      rewrite (bind_ok _ _ e w1 ys w2 H2). reflexivity. }
    split; [ rewrite Hc2, Hc1; simpl; lia | ]. split.
    { intros c' Hc'. rewrite Ho2, Ho1 by exact Hc'. reflexivity. }
    rewrite Hl2, Hl1, Hc1. simpl length. rewrite served_succ. lia.
Qed.

Lemma seed_data_ready :
  Forall (fun d : doc => d !! "_id" = None /\ is_Some (d !! "title"))
    SeedData.projects_data
  /\ Forall (fun d : doc => d !! "_id" = None /\ is_Some (d !! "title"))
       SeedData.visualizations_data.
Proof.
  destruct seed_data_no_id as [P1 V1]. destruct seed_data_titles as (P2 & V2 & _).
  split; apply Forall_and; auto.
Qed.

Lemma create_or_update_profile_insert_commands (d : doc) e w :
  db_profile w = [] ->
  faults_at e (commands w) = false ->
  faults_at e (S (commands w)) = false ->
  commands (snd (DatabaseManager.create_or_update_profile d e w)) = S (S (commands w)).
Proof.
  intros Hempty Hf0 Hf1.
  unfold DatabaseManager.create_or_update_profile, try_except, mbind, M_bind,
    utcnow, find_one, insert_one, command, mret, M_ret.
  simpl. rewrite Hf0. simpl. rewrite Hempty. simpl. rewrite Hf1. simpl.
  rewrite Hempty.
  destruct (_ !! "_id"); simpl; reflexivity.
Qed.

(** X21.  On a store without profile, when the read of the profile and the
    two commands that create it do not fault, the seeder stores the profile
    and then tries every project and every visualization, whatever faults:
    as many projects are stored as there are inserts that do not fault among
    the four of the projects, and likewise for the three visualizations, so
    a failure does not stop the ones after it.  The seeder returns, and
    touches no message and no event. *)
Theorem seeder_inserts_are_independent e w :
  db_profile w = [] ->
  (forall k, (k < 3)%nat -> faults_at e (commands w + k) = false) ->
  exists w',
    SeedData.seed_initial_data e w = (Ok tt, w')
    /\ length (db_profile w') = 1%nat
    /\ length (db_projects w')
       = (length (db_projects w) + served e (commands w + 3) 4)%nat
    /\ length (db_visualizations w')
       = (length (db_visualizations w) + served e (commands w + 7) 3)%nat
    /\ db_contact_messages w' = db_contact_messages w
    /\ db_analytics w' = db_analytics w.
Proof.
  intros Hempty Hf.
  assert (F0 : faults_at e (commands w) = false)
    by (rewrite <- (Nat.add_0_r (commands w)); apply Hf; lia).
  assert (F1 : faults_at e (S (commands w)) = false)
    by (rewrite <- Nat.add_1_r; apply Hf; lia).
  assert (F2 : faults_at e (S (S (commands w))) = false)
    by (replace (S (S (commands w))) with (commands w + 2)%nat by lia; apply Hf; lia).
  set (w1 := set_commands (S (commands w)) w).
  destruct (create_or_update_profile_insert SeedData.profile_data e w1 Hempty F1 F2)
    as (w2 & p & Hrun & Hp & _ & _ & _ & _ & _ & Hothers).
  pose proof (create_or_update_profile_insert_commands SeedData.profile_data e w1
                Hempty F1 F2) as Hc2.
  rewrite Hrun in Hc2. cbn [snd] in Hc2.
  change (commands w1) with (S (commands w)) in Hc2.
  destruct seed_data_ready as [HP HV].
  destruct (seed_loop_run c_projects "Error creating project: "
              "Failed to create project: " SeedData.projects_data e w2 HP)
    as (ys & w3 & Hrun3 & Hc3 & Ho3 & Hl3).
  destruct (seed_loop_run c_visualizations "Error creating visualization: "
              "Failed to create visualization: " SeedData.visualizations_data e w3 HV)
    as (zs & w4 & Hrun4 & Hc4 & Ho4 & Hl4).
  eexists. split.
  { unfold SeedData.seed_initial_data. apply try_ok.
    erewrite bind_ok; [ | apply get_profile_none; [ exact Hempty | exact F0 ] ].
    unfold truthy_opt_doc. cbv beta iota. fold w1.
    erewrite bind_ok; [ | exact Hrun ]. change (negb true) with false. cbv beta iota.
    erewrite bind_ok; [ | exact Hrun3 ].
    erewrite bind_ok; [ | exact Hrun4 ].
    reflexivity. }
  cbn [snd].
  split.
  { change (db_profile (add_log _ w4)) with (coll c_profile w4).
    rewrite Ho4, Ho3 by discriminate. simpl. rewrite Hp. reflexivity. }
  split.
  { change (db_projects (add_log _ w4)) with (coll c_projects w4).
    rewrite Ho4 by discriminate. rewrite Hl3.
    rewrite (Hothers c_projects) by discriminate. simpl coll.
    rewrite Hc2. replace (commands w + 3)%nat with (S (S (S (commands w)))) by lia.
    reflexivity. }
  split.
  { change (db_visualizations (add_log _ w4)) with (coll c_visualizations w4).
    rewrite Hl4, Ho3 by discriminate.
    rewrite (Hothers c_visualizations) by discriminate. simpl coll.
    rewrite Hc3, Hc2.
    replace (S (S (S (commands w))) + length SeedData.projects_data)%nat
      with (commands w + 7)%nat by (simpl; lia).
    reflexivity. }
  split.
  { change (db_contact_messages (add_log _ w4)) with (coll c_contact_messages w4).
    rewrite Ho4, Ho3 by discriminate.
    rewrite (Hothers c_contact_messages) by discriminate. reflexivity. }
  change (db_analytics (add_log _ w4)) with (coll c_analytics w4).
  rewrite Ho4, Ho3 by discriminate.
  rewrite (Hothers c_analytics) by discriminate. reflexivity.
Qed.

(** X21 from the empty database, when the insert of the second project
    faults: three projects and three visualizations are stored. *)
Lemma seeder_inserts_are_independent_witness :
  exists w',
    SeedData.seed_initial_data (faulting_at 4) empty_world = (Ok tt, w')
    /\ length (db_projects w') = 3%nat
    /\ length (db_visualizations w') = 3%nat.
Proof.
  destruct (seeder_inserts_are_independent (faulting_at 4) empty_world)
    as (w' & Hrun & _ & Hp & Hv & _).
  - reflexivity.
  - intros k Hk. simpl. apply Nat.eqb_neq. lia.
  - exists w'. split; [ exact Hrun | ]. split; [ rewrite Hp | rewrite Hv ]; reflexivity.
Defined.

Lemma create_or_update_profile_fails (d : doc) e w :
  db_profile w = [] ->
  faults_at e (commands w) = true
  \/ faults_at e (commands w) = false /\ faults_at e (S (commands w)) = true ->
  exists w',
    DatabaseManager.create_or_update_profile d e w = (Ok false, w')
    /\ (forall c, coll c w' = coll c w)
    /\ inserts w' = inserts w.
Proof.
  intros Hempty Hf.
  unfold DatabaseManager.create_or_update_profile, try_except, mbind, M_bind,
    utcnow, find_one, insert_one, command, mret, M_ret, logger_error.
  simpl. destruct Hf as [Hf0 | [Hf0 Hf1]]; rewrite Hf0; simpl.
  - eexists. split; [ reflexivity | ]. split; [ intros [ ]; reflexivity | reflexivity ].
  - rewrite Hempty. simpl. rewrite Hf1. simpl.
    eexists. split; [ reflexivity | ]. split; [ intros [ ]; reflexivity | reflexivity ].
Qed.

Lemma seed_initial_data_returns e w :
  exists w', SeedData.seed_initial_data e w = (Ok tt, w').
Proof.
  unfold SeedData.seed_initial_data.
  destruct (get_profile_degrades e w) as (r & w1 & Hget & _).
  destruct (truthy_opt_doc r) eqn:Hr.
  { eexists. apply try_ok. rewrite (bind_ok _ _ e w r w1 Hget). rewrite Hr.
    reflexivity. }
  assert (Hprofile : exists b w2,
            DatabaseManager.create_or_update_profile SeedData.profile_data e w1
            = (Ok b, w2)).
  { unfold DatabaseManager.create_or_update_profile.
    gateway_cases "Error creating/updating profile: " false e w1 a x w' Hbody Hres;
      eauto. }
  destruct Hprofile as (b & w2 & Hcreate).
  destruct b.
  2: { eexists. apply try_ok. rewrite (bind_ok _ _ e w r w1 Hget). rewrite Hr.
       rewrite (bind_ok _ _ e w1 false w2 Hcreate). reflexivity. }
  destruct seed_data_titles as (Hpt & Hvt & _).
  destruct (for_each_frame SeedData.seed_project extends_keeping_profile
              SeedData.projects_data e w2)
    as (ys & w3 & Hrun3 & _);
    [ apply extends_keeping_profile_refl | apply extends_keeping_profile_trans | | ].
  { eapply Forall_impl; [ exact Hpt | ]. intros d Hd w0.
    destruct (seed_project_frame d e w0 Hd) as (w' & Hr' & HI). eauto. }
  destruct (for_each_frame SeedData.seed_visualization extends_keeping_profile
              SeedData.visualizations_data e w3)
    as (zs & w4 & Hrun4 & _);
    [ apply extends_keeping_profile_refl | apply extends_keeping_profile_trans | | ].
  { eapply Forall_impl; [ exact Hvt | ]. intros d Hd w0.
    destruct (seed_visualization_frame d e w0 Hd) as (w' & Hr' & HI). eauto. }
  eexists. apply try_ok. rewrite (bind_ok _ _ e w r w1 Hget). rewrite Hr.
  rewrite (bind_ok _ _ e w1 true w2 Hcreate). change (negb true) with false.
  cbv beta iota.
  erewrite bind_ok; [ | exact Hrun3 ].
  erewrite bind_ok; [ | exact Hrun4 ].
  reflexivity.
Qed.

(** X22.  The seeder returns whatever faults (a failure is logged, not
    raised), and outside the profile it only adds documents: it changes and
    removes none.  On a store without profile, when the creation of the
    profile fails (its lookup or its insert faults), the seeder logs the
    failure and stops: nothing is inserted. *)
Theorem seeder_returns_and_only_adds e w :
  exists w',
    SeedData.seed_initial_data e w = (Ok tt, w')
    /\ adds_outside_profile w w'
    /\ (db_profile w = [] ->
        faults_at e (commands w) = false ->
        faults_at e (S (commands w)) = true
        \/ faults_at e (S (commands w)) = false
           /\ faults_at e (S (S (commands w))) = true ->
        (forall c, coll c w' = coll c w)
        /\ inserts w' = inserts w
        /\ last (log w')
           = Some (LogRecord "ERROR" "Failed to create profile during seeding" None)).
Proof.
  destruct (seed_initial_data_returns e w) as (w' & Hrun). exists w'.
  split; [ exact Hrun | ]. split.
  { pose proof (seed_initial_data_preserves adds_outside_profile
                  (fun c d _ _ => insert_one_adds c d)
                  create_or_update_profile_adds e w) as H.
    rewrite Hrun in H. exact H. }
  intros Hempty Hf0 Hf.
  set (w1 := set_commands (S (commands w)) w).
  destruct (create_or_update_profile_fails SeedData.profile_data e w1 Hempty Hf)
    as (w2 & Hcreate & Hsame & Hins).
  assert (Hrun' : SeedData.seed_initial_data e w
                  = (Ok tt, add_log (LogRecord "ERROR"
                                       "Failed to create profile during seeding" None) w2)).
  { unfold SeedData.seed_initial_data. apply try_ok.
    erewrite bind_ok; [ | apply get_profile_none; [ exact Hempty | exact Hf0 ] ].
    unfold truthy_opt_doc. cbv beta iota. fold w1.
    rewrite (bind_ok _ _ e w1 false w2 Hcreate). reflexivity. }
  rewrite Hrun in Hrun'. injection Hrun' as ->.
  split; [ intros c; rewrite coll_add_log; apply Hsame | ].
  split; [ exact Hins | ]. simpl. apply last_snoc.
Qed.

(** X22 from the empty database, when the insert of the profile faults. *)
Lemma seeder_returns_and_only_adds_witness :
  exists w',
    SeedData.seed_initial_data (faulting_at 2) empty_world = (Ok tt, w')
    /\ (forall c, coll c w' = coll c empty_world)
    /\ inserts w' = 0%nat.
Proof.
  destruct (seeder_returns_and_only_adds (faulting_at 2) empty_world)
    as (w' & Hrun & _ & Hstop).
  exists w'. split; [ exact Hrun | ].
  destruct Hstop as (Hsame & Hins & _);
    [ reflexivity | reflexivity | right; split; reflexivity | ].
  split; [ exact Hsame | exact Hins ].
Defined.

(** ** Ids that are no ObjectId *)

Lemma ObjectId_length (s : string) : String.length s <> 24%nat -> malformed s.
Proof.
  intros H. unfold malformed, ObjectId.
  destruct (Nat.eqb_spec (String.length s) 24); [ contradiction | reflexivity ].
Qed.

Lemma malformed_raises {A : Type} (s : string) (k : value -> M A) e w :
  malformed s -> (object_id s ≫= k) e w = (Raise (InvalidId s), w).
Proof.
  intros H. apply bind_raise. unfold object_id. rewrite H. reflexivity.
Qed.

Lemma update_project_commands project_id project_data o e w :
  ObjectId project_id = Some o ->
  commands (snd (DatabaseManager.update_project project_id project_data e w))
  = S (commands w).
Proof.
  intros Ho.
  unfold DatabaseManager.update_project, try_except, object_id, update_one_set, command.
  rewrite Ho. unfold mbind, M_bind. cbn.
  destruct (faults_at e (commands w)); [ reflexivity | ].
  destruct (list_find _ _) as [[i d] | ]; [ | reflexivity ].
  repeat case_bool_decide; reflexivity.
Qed.

Lemma mark_message_read_commands message_id o e w :
  ObjectId message_id = Some o ->
  commands (snd (DatabaseManager.mark_message_read message_id e w)) = S (commands w).
Proof.
  intros Ho.
  unfold DatabaseManager.mark_message_read, try_except, object_id, update_one_set, command.
  rewrite Ho. unfold mbind, M_bind. cbn.
  destruct (faults_at e (commands w)); [ reflexivity | ].
  destruct (list_find _ _) as [[i d] | ]; [ | reflexivity ].
  repeat case_bool_decide; reflexivity.
Qed.

(** X23.  An id is no ObjectId exactly when it has not 24 characters or
    [bytes.fromhex] refuses it.  Such an id never reaches the store:
    [update_project], [delete_project] and [mark_message_read] return
    [False] without issuing a command, and only write the error to the log;
    [update_project] has read the clock before.  The three handlers answer
    500 "Internal server error".  For every other id, a string of 24
    characters with whitespace that [bytes.fromhex] skips among them, each
    of the three issues its one command. *)
Theorem malformed_id_issues_no_command (s : string) e w :
  (malformed s <-> String.length s <> 24%nat \/ fromhex s = None)
  /\ (malformed s ->
      (forall project_data,
         DatabaseManager.update_project s project_data e w
         = (Ok false,
            add_log (LogRecord "ERROR" "Error updating project: " (Some (InvalidId s)))
              (set_ticks (S (ticks w)) w)))
      /\ DatabaseManager.delete_project s e w
         = (Ok false,
            add_log (LogRecord "ERROR" "Error deleting project: " (Some (InvalidId s))) w)
      /\ DatabaseManager.mark_message_read s e w
         = (Ok false,
            add_log (LogRecord "ERROR" "Error marking message as read: "
                       (Some (InvalidId s))) w)
      /\ (forall project,
            serve (Routes.update_project s project) e w = server_error_response)
      /\ serve (Routes.delete_project s) e w = server_error_response
      /\ serve (Routes.mark_message_read s) e w = server_error_response)
  /\ (~ malformed s ->
      (forall project_data,
         commands (snd (DatabaseManager.update_project s project_data e w))
         = S (commands w))
      /\ commands (snd (DatabaseManager.delete_project s e w)) = S (commands w)
      /\ commands (snd (DatabaseManager.mark_message_read s e w)) = S (commands w)).
Proof.
  split; [ apply malformed_iff | ]. split.
  2:{ unfold malformed. intros Hs.
      destruct (ObjectId s) as [ o | ] eqn:Ho; [ | contradiction ].
      split; [ intros project_data; apply (update_project_commands _ _ o), Ho | ].
      split; [ apply (delete_project_commands _ o), Ho
             | apply (mark_message_read_commands _ o), Ho ]. }
  intros Hs.
  assert (Hupdate : forall project_data,
            DatabaseManager.update_project s project_data e w
            = (Ok false,
               add_log (LogRecord "ERROR" "Error updating project: "
                          (Some (InvalidId s))) (set_ticks (S (ticks w)) w))).
  { intros project_data. unfold DatabaseManager.update_project.
    erewrite try_raise; [ reflexivity | ].
    erewrite bind_ok; [ | reflexivity ]. apply malformed_raises, Hs. }
  assert (Hdelete : DatabaseManager.delete_project s e w
            = (Ok false,
               add_log (LogRecord "ERROR" "Error deleting project: "
                          (Some (InvalidId s))) w)).
  { unfold DatabaseManager.delete_project.
    erewrite try_raise; [ reflexivity | ]. apply malformed_raises, Hs. }
  assert (Hmark : DatabaseManager.mark_message_read s e w
            = (Ok false,
               add_log (LogRecord "ERROR" "Error marking message as read: "
                          (Some (InvalidId s))) w)).
  { unfold DatabaseManager.mark_message_read.
    erewrite try_raise; [ reflexivity | ]. apply malformed_raises, Hs. }
  split; [ exact Hupdate | ]. split; [ exact Hdelete | ]. split; [ exact Hmark | ].
  split; [ intros project | split ]; unfold serve.
  - destruct (flag_handler
                (DatabaseManager.update_project s
                   (Models.ProjectUpdate_dict_exclude_unset project))
                (Models.mkAPIResponse true "Project updated successfully" None)
                (HTTPException 404 "Project not found")
                "Error updating project: " e w false _ (Hupdate _)) as [_ Hno].
    unfold Routes.update_project. rewrite Hno by reflexivity. reflexivity.
  - destruct (flag_handler (DatabaseManager.delete_project s)
                (Models.mkAPIResponse true "Project deleted successfully" None)
                (HTTPException 404 "Project not found")
                "Error deleting project: " e w false _ Hdelete) as [_ Hno].
    unfold Routes.delete_project. rewrite Hno by reflexivity. reflexivity.
  - destruct (flag_handler (DatabaseManager.mark_message_read s)
                (Models.mkAPIResponse true "Message marked as read" None)
                (HTTPException 404 "Message not found")
                "Error marking message as read: " e w false _ Hmark) as [_ Hno].
    unfold Routes.mark_message_read. rewrite Hno by reflexivity. reflexivity.
Qed.

(** X23 for the id "invalid_id" on the seeded store, and for an id of 24
    characters with two spaces, which is an ObjectId. *)
Lemma malformed_id_issues_no_command_witness :
  malformed "invalid_id"
  /\ commands (snd (DatabaseManager.delete_project "invalid_id" quiet seeded))
     = commands seeded
  /\ serve (Routes.delete_project "invalid_id") quiet seeded = server_error_response
  /\ ~ malformed "00 00 000000000000000000"
  /\ commands (snd (DatabaseManager.mark_message_read "00 00 000000000000000000"
                      quiet seeded))
     = S (commands seeded).
Proof.
  assert (Hs : malformed "invalid_id") by (apply ObjectId_length; discriminate).
  split; [ exact Hs | ].
  destruct (malformed_id_issues_no_command "invalid_id" quiet seeded)
    as (_ & Hno & _).
  destruct (Hno Hs) as (_ & Hdelete & _ & _ & Hserve & _).
  split; [ rewrite Hdelete; reflexivity | ]. split; [ exact Hserve | ].
  assert (Hspace : ~ malformed "00 00 000000000000000000")
    by (vm_compute; discriminate).
  split; [ exact Hspace | ].
  destruct (malformed_id_issues_no_command "00 00 000000000000000000" quiet seeded)
    as (_ & _ & Hissued).
  apply (Hissued Hspace).
Defined.

(** ** [PUT /profile] and the [GET /profile] after it *)

Lemma get_profile_route_stored e w ex rest i :
  db_profile w = ex :: rest -> ex !! "_id" = Some i ->
  faults_at e (commands w) = false ->
  Routes.get_profile e w
  = (Ok (<["_id" := VStr (py_str i)]> ex), set_commands (S (commands w)) w).
Proof.
  intros Hp Hid Hf. unfold Routes.get_profile. apply try_ok.
  erewrite bind_ok; [ | apply (get_profile_some e w ex rest i Hp Hid Hf) ].
  assert (Ht : truthy_opt_doc (Some (<["_id" := VStr (py_str i)]> ex)) = true).
  { apply (truthy_doc_lookup _ "_id" (VStr (py_str i))). apply lookup_insert_eq. }
  rewrite Ht. change (negb true) with false. cbv iota.
  erewrite bind_ok; [ | reflexivity ].
  rewrite Ht. reflexivity.
Qed.

(** X24.  A [PUT /profile] on a store without profile creates the profile
    (no command faulting): the [GET /profile] after it returns the fields of
    the body, with [created_at] and [updated_at] replaced by the clock, and
    does not run the seeder, so no project and no visualization is stored by
    it. *)
Theorem put_profile_first_prevents_seeding (profile : Models.Profile) e w :
  db_profile w = [] ->
  (forall k, (k < 3)%nat -> faults_at e (commands w + k) = false) ->
  exists r w1 p w2,
    Routes.update_profile profile e w = (Ok r, w1)
    /\ Routes.get_profile e w1 = (Ok p, w2)
    /\ (forall k, k <> "_id" -> k <> "created_at" -> k <> "updated_at" ->
        p !! k = Models.Profile_dict profile !! k)
    /\ p !! "updated_at" = Some (VDate (utcnow_at e (ticks w)))
    /\ p !! "created_at" = Some (VDate (utcnow_at e (S (ticks w))))
    /\ only_changes c_profile w w2
    /\ inserts w2 = S (inserts w).
Proof.
  intros Hempty Hf.
  assert (F0 : faults_at e (commands w) = false)
    by (rewrite <- (Nat.add_0_r (commands w)); apply Hf; lia).
  assert (F1 : faults_at e (S (commands w)) = false)
    by (rewrite <- Nat.add_1_r; apply Hf; lia).
  assert (F2 : faults_at e (S (S (commands w))) = false)
    by (replace (S (S (commands w))) with (commands w + 2)%nat by lia; apply Hf; lia).
  destruct (create_or_update_profile_insert (Models.Profile_dict profile) e w
              Hempty F0 F1)
    as (w1 & d & Hrun & Hp & Hup & Hcr & [i Hid] & Hfields & Hins & Hothers).
  pose proof (create_or_update_profile_insert_commands (Models.Profile_dict profile)
                e w Hempty F0 F1) as Hc1.
  rewrite Hrun in Hc1. cbn [snd] in Hc1.
  destruct (flag_handler
              (DatabaseManager.create_or_update_profile (Models.Profile_dict profile))
              (Models.mkAPIResponse true "Profile updated successfully" None)
              (HTTPException 500 "Failed to update profile")
              "Error updating profile: " e w true w1 Hrun) as [Hyes _].
  exists (Models.mkAPIResponse true "Profile updated successfully" None), w1,
    (<["_id" := VStr (py_str i)]> d), (set_commands (S (commands w1)) w1).
  split; [ exact (Hyes eq_refl) | ].
  split.
  { apply (get_profile_route_stored e w1 d [] i Hp Hid). rewrite Hc1. exact F2. }
  split.
  { intros k H1 H2 H3. rewrite lookup_insert_ne by congruence.
    apply Hfields; assumption. }
  split; [ rewrite lookup_insert_ne by discriminate; exact Hup | ].
  split; [ rewrite lookup_insert_ne by discriminate; exact Hcr | ].
  split; [ | exact Hins ].
  intros c Hc. rewrite coll_set_commands. apply Hothers, Hc.
Qed.

(** X24 from the empty database: no project is stored after the two
    requests. *)
Lemma put_profile_first_prevents_seeding_witness :
  exists r w1 p w2,
    Routes.update_profile other_profile quiet empty_world = (Ok r, w1)
    /\ Routes.get_profile quiet w1 = (Ok p, w2)
    /\ db_projects w2 = []
    /\ db_visualizations w2 = [].
Proof.
  destruct (put_profile_first_prevents_seeding other_profile quiet empty_world)
    as (r & w1 & p & w2 & Hput & Hget & _ & _ & _ & Honly & _).
  - reflexivity.
  - intros k _. reflexivity.
  - exists r, w1, p, w2. split; [ exact Hput | ]. split; [ exact Hget | ].
    split; [ apply (Honly c_projects) | apply (Honly c_visualizations) ]; discriminate.
Defined.

(** ** C5: two runs of the seeder, whatever faults *)

Lemma get_profile_faults e w :
  faults_at e (commands w) = true ->
  DatabaseManager.get_profile e w
  = (Ok None,
     add_log (LogRecord "ERROR" "Error getting profile: "
                (Some (PyMongoError "store fault")))
       (set_commands (S (commands w)) w)).
Proof.
  intros Hf. unfold DatabaseManager.get_profile.
  erewrite try_raise; [ reflexivity | ].
  apply bind_raise. apply command_faults, Hf.
Qed.

Lemma create_or_update_profile_run (d : doc) e w :
  (length (db_profile w) <= 1)%nat ->
  Forall (fun x : doc => is_Some (x !! "_id")) (db_profile w) ->
  d !! "_id" = None ->
  exists b w',
    DatabaseManager.create_or_update_profile d e w = (Ok b, w')
    /\ (b = true <-> faults_at e (commands w) = false
                     /\ faults_at e (S (commands w)) = false)
    /\ (forall c, c <> c_profile -> coll c w' = coll c w)
    /\ (b = false -> db_profile w' = db_profile w /\ inserts w' = inserts w)
    /\ (b = true ->
        commands w' = S (S (commands w))
        /\ (db_profile w = [] ->
            inserts w' = S (inserts w)
            /\ exists p, db_profile w' = [p] /\ is_Some (p !! "_id"))
        /\ (forall ex, db_profile w = [ex] ->
            inserts w' = inserts w
            /\ db_profile w'
               = [<["updated_at" := VDate (utcnow_at e (ticks w))]> d ∪ ex])).
Proof.
  intros Hlen Hids Hno.
  destruct (faults_at e (commands w)) eqn:Hf0.
  { exists false. eexists. split.
    { unfold DatabaseManager.create_or_update_profile.
      erewrite try_raise; [ reflexivity | ].
      erewrite bind_ok; [ | reflexivity ].
      apply bind_raise. apply command_faults. exact Hf0. }
    split; [ split; [ discriminate | intros [? _]; discriminate ] | ].
    split; [ intros c _; reflexivity | ].
    split; [ intros _; split; reflexivity | discriminate ]. }
  destruct (db_profile w) as [ | ex [ | ex' rest ] ] eqn:Hprofile;
    [ | | simpl in Hlen; lia ].
  - destruct (faults_at e (S (commands w))) eqn:Hf1.
    + destruct (create_or_update_profile_fails d e w Hprofile (or_intror (conj Hf0 Hf1)))
        as (w' & Hrun & Hsame & Hins).
      exists false, w'. split; [ exact Hrun | ].
      split; [ split; [ discriminate | intros [_ ?]; discriminate ] | ].
      split; [ intros c _; apply Hsame | ].
      split; [ | discriminate ].
      intros _. split; [ rewrite <- Hprofile; apply (Hsame c_profile) | exact Hins ].
    + destruct (create_or_update_profile_insert d e w Hprofile Hf0 Hf1)
        as (w' & p & Hrun & Hp & _ & _ & Hid & _ & Hins & Hothers).
      pose proof (create_or_update_profile_insert_commands d e w Hprofile Hf0 Hf1) as Hc.
      rewrite Hrun in Hc. cbn [snd] in Hc.
      exists true, w'. split; [ exact Hrun | ].
      split; [ split; auto | ]. split; [ exact Hothers | ].
      split; [ discriminate | ]. intros _. split; [ exact Hc | ].
      split; [ intros _; split; [ exact Hins | exists p; auto ] | ].
      intros ex. discriminate.
  - apply Forall_inv in Hids as [i Hi].
    destruct (faults_at e (S (commands w))) eqn:Hf1.
    + exists false. eexists. split.
      { unfold DatabaseManager.create_or_update_profile.
        erewrite try_raise; [ reflexivity | ].
        erewrite bind_ok; [ | reflexivity ].
        erewrite bind_ok; [ | apply find_one_run; exact Hf0 ].
        change (coll c_profile (set_ticks _ w)) with (db_profile w).
        rewrite Hprofile, filter_Matches_empty.
        change (head [ex]) with (Some ex).
        unfold truthy_opt_doc. rewrite (truthy_doc_lookup ex "_id" i Hi).
        cbv beta iota.
        apply bind_raise.
        erewrite bind_ok; [ | unfold getitem; simpl; rewrite Hi; reflexivity ].
        apply bind_raise. apply command_faults. exact Hf1. }
      split; [ split; [ discriminate | intros [_ ?]; discriminate ] | ].
      split; [ intros c _; reflexivity | ].
      split; [ intros _; split; [ exact Hprofile | reflexivity ] | discriminate ].
    + set (stamped := <["updated_at" := VDate (utcnow_at e (ticks w))]> d).
      set (w1 := set_ticks (S (ticks w)) w).
      set (w2 := set_commands (S (commands w1)) w1).
      assert (Hfind : list_find (Matches {[ "_id" := i ]}) (coll c_profile w2)
                      = Some (0%nat, ex)).
      { simpl. rewrite Hprofile. simpl.
        rewrite decide_True; [ reflexivity | ].
        apply Matches_singleton. rewrite Hi. apply field_matches_self. }
      assert (Hch : ~ changes_id stamped ex).
      { unfold changes_id, stamped. rewrite lookup_insert_ne by discriminate.
        rewrite Hno. tauto. }
      destruct (update_one_set_run c_profile {[ "_id" := i ]} stamped e w2 0 ex)
        as (n & w3 & Hrun & Hcoll & Hothers & Hins & _ & Hcmd);
        [ exact Hf1 | exact Hfind | exact Hch | ].
      exists true, w3. split.
      { unfold DatabaseManager.create_or_update_profile. apply try_ok.
        erewrite bind_ok; [ | reflexivity ]. fold stamped w1.
        erewrite bind_ok; [ | apply find_one_run; exact Hf0 ]. fold w2.
        replace (head (filter (Matches ∅) (coll c_profile w1))) with (Some ex)
          by (simpl; rewrite Hprofile, filter_Matches_empty; reflexivity).
        simpl truthy_opt_doc. rewrite (truthy_doc_lookup ex "_id" i Hi).
        erewrite bind_ok; [ reflexivity | ].
        erewrite bind_ok; [ | unfold getitem; simpl; rewrite Hi; reflexivity ].
        erewrite bind_ok; [ | exact Hrun ]. reflexivity. }
      split; [ split; auto | ].
      split; [ intros c Hc; rewrite Hothers by exact Hc; reflexivity | ].
      split; [ discriminate | ]. intros _.
      split; [ rewrite Hcmd; reflexivity | ].
      split; [ discriminate | ].
      intros ex0 [= <-]. split; [ exact Hins | ].
      change (db_profile w3) with (coll c_profile w3). rewrite Hcoll.
      simpl. rewrite Hprofile. reflexivity.
Qed.

Lemma seed_one_inserts c text failed (data : doc) e w :
  data !! "_id" = None -> is_Some (data !! "title") ->
  inserts (snd (seed_one c text failed data e w))
  = (inserts w + (if faults_at e (commands w) then 0 else 1))%nat.
Proof.
  intros Hno [t Ht]. unfold seed_one, create_stamped.
  set (w2 := set_ticks (S (S (ticks w))) (set_ticks (S (ticks w)) w)).
  set (stamped := <["updated_at" := VDate (utcnow_at e (S (ticks w)))]>
                    (<["created_at" := VDate (utcnow_at e (ticks w))]> data)).
  assert (Hid : stamped !! "_id" = None).
  { unfold stamped. rewrite !lookup_insert_ne by discriminate. exact Hno. }
  destruct (faults_at e (commands w)) eqn:Hf.
  - erewrite bind_ok;
      [ | erewrite try_raise;
          [ | erewrite bind_ok; [ | reflexivity ];
              erewrite bind_ok; [ | reflexivity ];
              erewrite bind_raise; [ reflexivity | apply command_faults; exact Hf ] ];
          reflexivity ].
    simpl. erewrite bind_ok; [ | unfold getitem; rewrite Ht; reflexivity ].
    simpl. lia.
  - erewrite bind_ok;
      [ | apply try_ok; erewrite bind_ok; [ | reflexivity ];
          erewrite bind_ok; [ | reflexivity ];
          erewrite bind_ok; [ | apply (insert_one_run c stamped e w2 Hf Hid) ];
          reflexivity ].
    unfold truthy_opt_str. 
    change (py_str (VOid (next_oid w2))) with (oid_str (next_oid w2)).
    rewrite oid_str_truthy. simpl. lia.
Qed.

Lemma seed_loop_inserts c text failed (l : list doc) e w :
  Forall (fun d : doc => d !! "_id" = None /\ is_Some (d !! "title")) l ->
  inserts (snd (for_each (seed_one c text failed) l e w))
  = (inserts w + served e (commands w) (length l))%nat.
Proof.
  intros Hl. revert w. induction Hl as [ | d l [Hno Ht] Hl IH ]; intros w.
  - unfold served. simpl. lia.
  - destruct (seed_one_run c text failed d e w Hno Ht) as (w1 & H1 & Hc1 & _).
    destruct (seed_loop_run c text failed l e w1 Hl) as (ys & w2 & H2 & _).
    pose proof (seed_one_inserts c text failed d e w Hno Ht) as Hi1.
    rewrite H1 in Hi1. cbn [snd] in Hi1.
    specialize (IH w1). rewrite H2 in IH. cbn [snd] in IH.
    simpl for_each. rewrite (bind_ok _ _ e w tt w1 H1).
    rewrite (bind_ok _ _ e w1 ys w2 H2).
    change (inserts w2 = (inserts w + served e (commands w) (length (d :: l)))%nat).
    rewrite IH, Hi1, Hc1. simpl length. rewrite served_succ. lia.
Qed.

Lemma served_add (e : env) (start n m : nat) :
  served e start (n + m) = (served e start n + served e (start + n) m)%nat.
Proof.
  unfold served. rewrite seq_app, filter_app, length_app. reflexivity.
Qed.

Lemma served_zero (e : env) (start n : nat) :
  served e start n = 0%nat <-> forall k, (k < n)%nat -> faults_at e (start + k) = true.
Proof.
  revert start. induction n as [ | n IH ]; intros start.
  - split; [ intros _ k Hk; lia | reflexivity ].
  - rewrite served_succ. split.
    + intros H k Hk. destruct (faults_at e start) eqn:Hs; [ | simpl in H; lia ].
      destruct k as [ | k ]; [ rewrite Nat.add_0_r; exact Hs | ].
      replace (start + S k)%nat with (S start + k)%nat by lia.
      apply IH; [ simpl in H; exact H | lia ].
    + intros H. pose proof (H 0%nat ltac:(lia)) as H0. rewrite Nat.add_0_r in H0.
      rewrite H0. simpl. apply IH. intros k Hk.
      replace (S start + k)%nat with (start + S k)%nat by lia. apply H. lia.
Qed.

(** A run of the seeder on a store with at most one profile: it skips, or
    the creation of the profile fails, or it seeds. *)
Lemma seed_run_cases e w :
  (length (db_profile w) <= 1)%nat ->
  Forall (fun d : doc => is_Some (d !! "_id")) (db_profile w) ->
  exists w',
    SeedData.seed_initial_data e w = (Ok tt, w')
    /\ ((db_profile w <> [] /\ faults_at e (commands w) = false
         /\ (forall c, coll c w' = coll c w) /\ inserts w' = inserts w
         /\ last (log w')
            = Some (LogRecord "INFO" "Profile already exists, skipping seed data" None))
        \/ ((db_profile w = [] \/ faults_at e (commands w) = true)
            /\ ~ stores_profile e (commands w)
            /\ (forall c, coll c w' = coll c w) /\ inserts w' = inserts w)
        \/ ((db_profile w = [] \/ faults_at e (commands w) = true)
            /\ stores_profile e (commands w)
            /\ (db_profile w = [] ->
                inserts w' = (S (inserts w) + served e (commands w + 3) 7)%nat
                /\ exists p, db_profile w' = [p] /\ is_Some (p !! "_id"))
            /\ (forall ex, db_profile w = [ex] ->
                inserts w' = (inserts w + served e (commands w + 3) 7)%nat
                /\ db_profile w'
                   = [<["updated_at" := VDate (utcnow_at e (ticks w))]>
                        SeedData.profile_data ∪ ex]))).
Proof.
  intros Hlen Hids.
  assert (Hskip : db_profile w <> [] -> faults_at e (commands w) = false ->
            exists w', SeedData.seed_initial_data e w = (Ok tt, w')
              /\ (forall c, coll c w' = coll c w) /\ inserts w' = inserts w
              /\ last (log w')
                 = Some (LogRecord "INFO" "Profile already exists, skipping seed data"
                           None)).
  { intros Hne Hf. destruct (db_profile w) as [ | ex rest ] eqn:Hprofile;
      [ contradiction | ].
    apply Forall_inv in Hids as [i Hi].
    apply (seed_skips e w ex rest i Hprofile Hi Hf). }
  destruct (decide (db_profile w <> [] /\ faults_at e (commands w) = false))
    as [[Hne Hf] | Hnot].
  { destruct (Hskip Hne Hf) as (w' & Hrun & H). exists w'. split; [ exact Hrun | ].
    left. split; [ exact Hne | ]. split; [ exact Hf | exact H ]. }
  assert (Hwhy : db_profile w = [] \/ faults_at e (commands w) = true).
  { destruct (db_profile w); [ left; reflexivity | right ].
    destruct (faults_at e (commands w)); [ reflexivity | ].
    exfalso. apply Hnot. split; [ discriminate | reflexivity ]. }
  clear Hskip Hnot.
  assert (Hget : exists w1,
            DatabaseManager.get_profile e w = (Ok None, w1)
            /\ commands w1 = S (commands w) /\ ticks w1 = ticks w
            /\ inserts w1 = inserts w /\ forall c, coll c w1 = coll c w).
  { destruct (faults_at e (commands w)) eqn:Hf.
    - eexists. split; [ apply get_profile_faults, Hf | ].
      repeat split.
    - destruct Hwhy as [Hempty | ?]; [ | discriminate ].
      eexists. split; [ apply get_profile_none; assumption | ].
      repeat split. }
  destruct Hget as (w1 & Hget & Hc1 & Ht1 & Hi1 & Hsame1).
  pose proof (Hsame1 c_profile) as Hp1. simpl in Hp1.
  destruct seed_data_titles as (_ & _ & Hno).
  destruct (create_or_update_profile_run SeedData.profile_data e w1)
    as (b & w2 & Hcreate & Hiff & Hothers & Hfalse & Htrue);
    [ rewrite Hp1; exact Hlen | rewrite Hp1; exact Hids | exact Hno | ].
  rewrite Hc1 in Hiff, Htrue. rewrite Ht1, Hi1, Hp1 in Htrue.
  rewrite Hp1, Hi1 in Hfalse.
  destruct b.
  2:{ eexists. split.
      { unfold SeedData.seed_initial_data. apply try_ok.
        rewrite (bind_ok _ _ e w None w1 Hget).
        unfold truthy_opt_doc. cbv beta iota.
        rewrite (bind_ok _ _ e w1 false w2 Hcreate). reflexivity. }
      right. left. split; [ exact Hwhy | ]. split.
      { intros Hs. apply (proj2 Hiff) in Hs. discriminate. }
      destruct (Hfalse eq_refl) as [Hp2 Hi2].
      split; [ | exact Hi2 ].
      intros c. rewrite coll_add_log, <- Hsame1.
      destruct (decide (c = c_profile)) as [-> | Hc]; [ | apply Hothers, Hc ].
      simpl. rewrite Hp1. exact Hp2. }
  destruct (Htrue eq_refl) as (Hc2 & Hnew & Hupd). clear Htrue Hfalse.
  destruct seed_data_ready as [HP HV].
  destruct (seed_loop_run c_projects "Error creating project: "
              "Failed to create project: " SeedData.projects_data e w2 HP)
    as (ys & w3 & Hrun3 & Hc3 & Ho3 & _).
  destruct (seed_loop_run c_visualizations "Error creating visualization: "
              "Failed to create visualization: " SeedData.visualizations_data e w3 HV)
    as (zs & w4 & Hrun4 & _ & Ho4 & _).
  pose proof (seed_loop_inserts c_projects "Error creating project: "
                "Failed to create project: " SeedData.projects_data e w2 HP) as Hi3.
  rewrite Hrun3 in Hi3. cbn [snd] in Hi3.
  pose proof (seed_loop_inserts c_visualizations "Error creating visualization: "
                "Failed to create visualization: " SeedData.visualizations_data e w3 HV)
    as Hi4.
  rewrite Hrun4 in Hi4. cbn [snd] in Hi4.
  assert (Hins : inserts w4 = (inserts w2 + served e (commands w + 3) 7)%nat).
  { rewrite Hi4, Hi3, Hc3, Hc2.
    pose proof (served_add e (commands w + 3) 4 3) as Hadd.
    change (4 + 3)%nat with 7%nat in Hadd. rewrite Hadd.
    replace (S (S (S (commands w)))) with (commands w + 3)%nat by lia.
    change (length SeedData.projects_data) with 4%nat.
    change (length SeedData.visualizations_data) with 3%nat. lia. }
  assert (Hp4 : db_profile w4 = db_profile w2).
  { change (coll c_profile w4 = coll c_profile w2).
    rewrite Ho4, Ho3 by discriminate. reflexivity. }
  eexists. split.
  { unfold SeedData.seed_initial_data. apply try_ok.
    rewrite (bind_ok _ _ e w None w1 Hget).
    unfold truthy_opt_doc. cbv beta iota.
    rewrite (bind_ok _ _ e w1 true w2 Hcreate). change (negb true) with false.
    cbv beta iota.
    erewrite bind_ok; [ | exact Hrun3 ].
    erewrite bind_ok; [ | exact Hrun4 ].
    reflexivity. }
  right. right. split; [ exact Hwhy | ]. split; [ apply Hiff; reflexivity | ].
  cbn [add_log inserts db_profile]. split.
  - intros Hempty. destruct (Hnew Hempty) as (Hi2 & p & Hp & Hid).
    split; [ rewrite Hins, Hi2; reflexivity | ].
    exists p. split; [ | exact Hid ].
    change (db_profile (add_log _ w4)) with (db_profile w4). rewrite Hp4. exact Hp.
  - intros ex Hex. destruct (Hupd ex Hex) as (Hi2 & Hp).
    split; [ change (inserts (add_log _ w4)) with (inserts w4);
             rewrite Hins, Hi2; reflexivity | ].
    change (db_profile (add_log _ w4)) with (db_profile w4). rewrite Hp4. exact Hp.
Qed.

Lemma seed_run_summary e w :
  (length (db_profile w) <= 1)%nat ->
  Forall (fun d : doc => is_Some (d !! "_id")) (db_profile w) ->
  exists w',
    SeedData.seed_initial_data e w = (Ok tt, w')
    /\ (length (db_profile w') <= 1)%nat
    /\ Forall (fun d : doc => is_Some (d !! "_id")) (db_profile w')
    /\ (db_profile w' <> [] <-> db_profile w <> [] \/ stores_profile e (commands w))
    /\ (db_profile w <> [] ->
        length (db_profile w') = 1%nat
        /\ (inserts w' = inserts w <-> ~ seeds_again e (commands w)))
    /\ (db_profile w = [] -> db_profile w' <> [] -> inserts w' <> inserts w)
    /\ (db_profile w <> [] -> faults_at e (commands w) = false ->
        (forall c, coll c w' = coll c w) /\ inserts w' = inserts w
        /\ last (log w')
           = Some (LogRecord "INFO" "Profile already exists, skipping seed data" None))
    /\ ((exists added, db_profile w' = db_profile w ++ added) <-> ~ overwrites e w).
Proof.
  intros Hlen Hids.
  destruct (seed_run_cases e w Hlen Hids) as (w' & Hrun & Hcases).
  exists w'. split; [ exact Hrun | ].
  destruct Hcases
    as [(Hne & Hf & Hsame & Hins & Hlog)
       | [(Hwhy & Hnot & Hsame & Hins) | (Hwhy & Hstores & Hnew & Hupd)]].
  - pose proof (Hsame c_profile) as Hp. simpl in Hp. rewrite Hp.
    split; [ exact Hlen | ]. split; [ exact Hids | ].
    split; [ split; [ auto | intros _; exact Hne ] | ].
    split.
    { intros _. split.
      - destruct (db_profile w) as [ | ex [ | ] ]; simpl in *; try lia. contradiction.
      - split; [ intros _ (Hf' & _); congruence | intros _; exact Hins ]. }
    split; [ intros Hempty; contradiction | ].
    split; [ intros _ _; auto | ].
    split.
    + intros _ (ex & _ & Hf' & _). congruence.
    + intros _. exists []. symmetry. apply app_nil_r.
  - pose proof (Hsame c_profile) as Hp. simpl in Hp. rewrite Hp.
    split; [ exact Hlen | ]. split; [ exact Hids | ].
    split; [ split; [ auto | intros [H | H]; [ exact H | contradiction ] ] | ].
    split.
    { intros Hne. split.
      - destruct (db_profile w) as [ | ex [ | ] ]; simpl in *; try lia. contradiction.
      - split; [ intros _ (_ & Hs & _); contradiction | intros _; exact Hins ]. }
    split; [ intros Hempty Hne; contradiction | ].
    split.
    { intros Hne Hf. destruct Hwhy as [Hempty | Hf']; [ contradiction | congruence ]. }
    split.
    + intros _ (ex & _ & _ & Hs & _). contradiction.
    + intros _. exists []. symmetry. apply app_nil_r.
  - destruct (db_profile w) as [ | ex [ | ex' rest ] ] eqn:Hprofile;
      [ | | simpl in Hlen; lia ].
    + destruct (Hnew eq_refl) as (Hins & p & Hp & Hid). rewrite Hp.
      split; [ simpl; lia | ]. split; [ constructor; [ exact Hid | constructor ] | ].
      split; [ split; [ auto | discriminate ] | ].
      split; [ intros H; exfalso; apply H; reflexivity | ].
      split; [ intros _ _; lia | ].
      split; [ intros H; exfalso; apply H; reflexivity | ].
      split.
      * intros _ (ex & Hex & _). rewrite Hprofile in Hex. discriminate Hex.
      * intros _. exists [p]. reflexivity.
    + destruct (Hupd ex eq_refl) as (Hins & Hp). rewrite Hp.
      apply Forall_inv in Hids as [i Hi].
      destruct Hwhy as [Hempty | Hf]; [ discriminate | ].
      split; [ simpl; lia | ]. split.
      { constructor; [ | constructor ]. apply lookup_union_is_Some. right. eauto. }
      split; [ split; [ intros _; left | ]; discriminate | ].
      split.
      { intros _. split; [ reflexivity | ]. rewrite Hins. split.
        - intros H (_ & _ & Hserved). lia.
        - intros H. destruct (decide (served e (commands w + 3) 7 = 0%nat)) as [-> | Hs].
          + lia.
          + exfalso. apply H. split; [ exact Hf | ]. split; [ exact Hstores | exact Hs ]. }
      split; [ discriminate | ].
      split; [ intros _ Hf'; congruence | ].
      split.
      * intros [added Hadd] (ex0 & Hex & _ & _ & Hsub).
        rewrite Hprofile in Hex. injection Hex as <-. apply Hsub.
        simpl in Hadd. injection Hadd as Heq _.
        pose proof (map_union_subseteq_l
                      (<["updated_at" := VDate (utcnow_at e (ticks w))]>
                         SeedData.profile_data) ex) as Hle.
        rewrite Heq in Hle. exact Hle.
      * intros Hnot.
        destruct (decide (<["updated_at" := VDate (utcnow_at e (ticks w))]>
                            SeedData.profile_data ⊆ ex)) as [Hsub | Hsub].
        -- exists []. simpl. rewrite (map_subseteq_union _ _ Hsub). reflexivity.
        -- exfalso. apply Hnot. exists ex. rewrite Hprofile. auto.
Qed.

(** C5, as amended.  On a store that holds at most one profile document
    (with its [_id]), two runs of the seeder in sequence return, whatever
    commands fault, and leave at most one profile document.  After the
    first run a profile is stored exactly when one was stored before or the
    two commands that store it did not fault.  The two runs leave exactly
    one profile document, with no insert in the second run, exactly when
    the first run leaves a profile and the second does not seed again; it
    seeds again when its read of the profile faults (the gateway then
    reports no profile), the two commands that write the profile do not,
    and an insert after them does not.  In particular, when the first run
    leaves a profile and the read of the second run does not fault, the
    second run changes no document and inserts nothing: it logs that
    seeding is skipped.  Outside the profile a run only adds documents.  It
    changes or removes no stored document at all, except when it
    overwrites the profile: when a profile is stored, the read of the
    profile faults, the two commands after it do not, and the profile is
    not the default one with the stamp of the run already. *)
Theorem seeder_twice e w :
  (length (db_profile w) <= 1)%nat ->
  Forall (fun d : doc => is_Some (d !! "_id")) (db_profile w) ->
  exists w1 w2,
    SeedData.seed_initial_data e w = (Ok tt, w1)
    /\ SeedData.seed_initial_data e w1 = (Ok tt, w2)
    /\ (length (db_profile w2) <= 1)%nat
    /\ (db_profile w1 <> [] <-> db_profile w <> [] \/ stores_profile e (commands w))
    /\ ((length (db_profile w2) = 1%nat /\ inserts w2 = inserts w1)
        <-> db_profile w1 <> [] /\ ~ seeds_again e (commands w1))
    /\ (db_profile w1 <> [] -> faults_at e (commands w1) = false ->
        (forall c, coll c w2 = coll c w1) /\ inserts w2 = inserts w1
        /\ last (log w2)
           = Some (LogRecord "INFO" "Profile already exists, skipping seed data" None))
    /\ adds_outside_profile w w1
    /\ (extends w w1 <-> ~ overwrites e w)
    /\ (db_profile w <> [] -> faults_at e (commands w) = false ->
        (forall c, coll c w1 = coll c w) /\ inserts w1 = inserts w).
Proof.
  intros Hlen Hids.
  destruct (seed_run_summary e w Hlen Hids)
    as (w1 & H1 & Hlen1 & Hids1 & Hne1 & _ & _ & Hskip1 & Hext1).
  destruct (seed_run_summary e w1 Hlen1 Hids1)
    as (w2 & H2 & Hlen2 & _ & Hne2 & Hkeep2 & Hgrow2 & Hskip2 & _).
  assert (Hadds : adds_outside_profile w w1).
  { pose proof (seed_initial_data_preserves adds_outside_profile
                  (fun c d _ _ => insert_one_adds c d)
                  create_or_update_profile_adds e w) as H.
    rewrite H1 in H. exact H. }
  exists w1, w2. split; [ exact H1 | ]. split; [ exact H2 | ].
  split; [ exact Hlen2 | ]. split; [ exact Hne1 | ]. split.
  { destruct (decide (db_profile w1 = [])) as [Hempty | Hne].
    - split.
      + intros [HA HB]. exfalso. apply (Hgrow2 Hempty); [ | exact HB ].
        intros H. rewrite H in HA. discriminate HA.
      + intros [H _]. contradiction.
    - destruct (Hkeep2 Hne) as [Hone Hiff]. split.
      + intros [_ HB]. split; [ exact Hne | apply Hiff, HB ].
      + intros [_ Hnot]. split; [ exact Hone | apply Hiff, Hnot ]. }
  split; [ exact Hskip2 | ]. split; [ exact Hadds | ]. split.
  { split.
    - intros Hext. apply Hext1. exact (Hext c_profile).
    - intros Hnot c. destruct (decide (c = c_profile)) as [-> | Hc].
      + apply Hext1, Hnot.
      + apply Hadds, Hc. }
  intros Hne Hf. destruct (Hskip1 Hne Hf) as (Hsame & Hins & _). auto.
Qed.

(** C5 on the empty store, when the one command that faults is the insert
    of the second project in the first run: seven documents are inserted by
    the first run, and the second run finds the profile and does nothing. *)
Lemma seeder_twice_witness :
  exists w1 w2,
    SeedData.seed_initial_data (faulting_at 4) empty_world = (Ok tt, w1)
    /\ SeedData.seed_initial_data (faulting_at 4) w1 = (Ok tt, w2)
    /\ length (db_profile w2) = 1%nat
    /\ inserts w1 = 7%nat
    /\ inserts w2 = inserts w1
    /\ (forall c, coll c w2 = coll c w1)
    /\ extends empty_world w1.
Proof.
  destruct (seeder_twice (faulting_at 4) empty_world)
    as (w1 & w2 & H1 & H2 & _ & Hne & Hiff & Hskip & _ & Hext & _);
    [ simpl; lia | constructor | ].
  assert (Hc1 : commands w1 = 10%nat).
  { apply (f_equal (fun p => commands (snd p))) in H1. vm_compute in H1.
    symmetry. exact H1. }
  assert (Hi1 : inserts w1 = 7%nat).
  { apply (f_equal (fun p => inserts (snd p))) in H1. vm_compute in H1.
    symmetry. exact H1. }
  assert (Hp : db_profile w1 <> []).
  { apply Hne. right. split; reflexivity. }
  assert (Hf : faults_at (faulting_at 4) (commands w1) = false)
    by (rewrite Hc1; reflexivity).
  destruct (Hskip Hp Hf) as (Hsame & Hins & _).
  exists w1, w2. split; [ exact H1 | ]. split; [ exact H2 | ].
  split.
  { apply Hiff. split; [ exact Hp | ]. intros (Hf' & _). congruence. }
  split; [ exact Hi1 | ]. split; [ exact Hins | ]. split; [ exact Hsame | ].
  apply Hext. intros (ex & Hex & _). discriminate Hex.
Defined.
